(** * Image block tool: a shallow embedding of [src/index.ts] and [src/ui.ts]

    The development follows the two classes of the tool.  [Ui] owns the
    rendered nodes and the resize logic, [ImageTool] owns the block data and
    reacts to the uploader's callbacks.  Both mutate a shared world: the
    document (a heap of elements addressed by node ids), the function
    objects registered as listeners, and the host's notifier.  A method
    takes its object and the world and returns both as it leaves them.

    Conventions of the embedding:
    - a JavaScript string is a Rocq [string], one character per code unit
      below 256;
    - [clientWidth], [clientHeight] and the intrinsic sizes are integers
      ([Z]); coordinates of bounding rectangles and pointer positions are
      exact rationals ([Q]);
    - [undefined] is [None];
    - an exception that escapes an event listener ends that listener and is
      recorded in the [uncaught] log of the world. *)

From Stdlib Require Import ZArith QArith Qround String Ascii List Lia.
From Stdlib Require Import DecimalString DecimalZ.
From stdpp Require Import base option list.

Import ListNotations.
Local Open Scope string_scope.
Local Open Scope list_scope.
Local Open Scope Z_scope.

(* ===================================================================== *)
(** ** JavaScript primitives used by the tool *)
(* ===================================================================== *)

Module Js.

(** Errors thrown by the runtime. *)
Inductive Error :=
| TypeError (msg : string)
| NotFoundError.

(** The result of a call that may throw. *)
Inductive Result (A : Type) :=
| Ok (a : A)
| Throw (e : Error).
Arguments Ok {A} a.
Arguments Throw {A} e.

(** A number as far as the tool needs it: the quotient of two sizes. *)
Inductive Number :=
| NaN
| Infinity
| NegInfinity
| Num (q : Q).

(** [WhiteSpace] and [LineTerminator] code units below 256:
    TAB, LF, VT, FF, CR, SP and NBSP. *)
Definition isWhiteSpace (c : ascii) : bool :=
  let n := nat_of_ascii c in
  ((n =? 9) || (n =? 10) || (n =? 11) || (n =? 12) || (n =? 13)
   || (n =? 32) || (n =? 160))%nat.

Fixpoint trimStart (s : string) : string :=
  match s with
  | EmptyString => EmptyString
  | String c r => if isWhiteSpace c then trimStart r else s
  end.

Fixpoint trimEnd (s : string) : string :=
  match s with
  | EmptyString => EmptyString
  | String c r =>
      match trimEnd r with
      | EmptyString => if isWhiteSpace c then EmptyString else String c EmptyString
      | r' => String c r'
      end
  end.

(** [String.prototype.trim] *)
Definition trim (s : string) : string := trimEnd (trimStart s).

(** Truthiness of a possibly undefined string: [!!s]. *)
Definition truthy_string (s : option string) : bool :=
  match s with
  | None => false
  | Some EmptyString => false
  | Some _ => true
  end.

(** Truthiness of a number given as an integer. *)
Definition truthy_int (n : Z) : bool := negb (n =? 0).

Definition digit_of (c : ascii) : option Z :=
  let n := nat_of_ascii c in
  if ((48 <=? n) && (n <=? 57))%nat then Some (Z.of_nat (n - 48)) else None.

(** The longest prefix of decimal digits, read as a number; [None] when the
    prefix is empty. *)
Fixpoint parse_digits (s : string) (acc : option Z) : option Z :=
  match s with
  | EmptyString => acc
  | String c r =>
      match digit_of c with
      | Some d => parse_digits r (Some (10 * default 0 acc + d))
      | None => acc
      end
  end.

(** [parseInt(s, 10)]: leading white space is skipped, one sign is
    accepted, the digits that follow are read and whatever comes after them
    is ignored.  [None] is NaN. *)
Definition parseInt (s : string) : option Z :=
  match trimStart s with
  | String "-"%char r => Z.opp <$> parse_digits r None
  | String "+"%char r => parse_digits r None
  | s1 => parse_digits s1 None
  end.

(** [n > 0] for the result of [parseInt]; a comparison with NaN is false. *)
Definition gt0 (n : option Z) : bool :=
  match n with
  | Some z => 0 <? z
  | None => false
  end.

(** [String(n)] for an integer. *)
Definition String_ (n : Z) : string := NilZero.string_of_int (Z.to_int n).

(** [a / b] for two possibly undefined integers. *)
Definition div (a b : option Z) : Number :=
  match a, b with
  | Some x, Some y =>
      if y =? 0 then
        (if x =? 0 then NaN else if 0 <? x then Infinity else NegInfinity)
      else Num (inject_Z x / inject_Z y)%Q
  | _, _ => NaN
  end.

(** [Math.max(a, b)] on finite numbers. *)
Definition max (a b : Q) : Q := if Qle_bool b a then a else b.

(** [/\.mp4$/.test(s)]: some position of [s] starts the four characters
    [.mp4] and the input ends right after them. *)
Fixpoint test_mp4 (s : string) : bool :=
  match s with
  | EmptyString => false
  | String c r => String.eqb s ".mp4" || test_mp4 r
  end.

End Js.

(* ===================================================================== *)
(** ** The document *)
(* ===================================================================== *)

Module Dom.

Abbreviation NodeId := nat.
Abbreviation FunId := nat.

(** A value assigned to a property of an element by [make]. *)
Inductive PropValue :=
| PStr (s : string)
| PBool (b : bool).

(** The values the tool assigns to [style.width] and [style.height]:
    [Px n] stands for the template string of [n] followed by [px]. *)
Inductive CssSize :=
| Px (n : Q)
| Auto.

Record Style := mkStyle {
  s_width : option CssSize;
  s_height : option CssSize;
  s_backgroundImage : string;
  s_display : string
}.

(** The part of [getBoundingClientRect()] that [resizeImage] reads. *)
Record Rect := mkRect {
  r_left : Q;
  r_right : Q;
  r_width : Q
}.

(** What the browser computes for an element; the tool only reads it.
    The intrinsic sizes are undefined on elements that do not carry
    them. *)
Record Layout := mkLayout {
  clientWidth : Z;
  clientHeight : Z;
  boundingClientRect : Rect;
  naturalWidth : option Z;
  naturalHeight : option Z;
  videoWidth : option Z;
  videoHeight : option Z
}.

Record Element := mkElement {
  tagName : string;
  classList : list string;
  props : list (string * PropValue);
  dataset : list (string * string);
  style : Style;
  textContent : string;
  innerHTML : string;
  listeners : list (string * FunId);
  parentNode : option NodeId;
  children : list NodeId;
  layout : Layout
}.

Definition with_classList (v : list string) (e : Element) : Element :=
  mkElement (tagName e) v (props e) (dataset e) (style e) (textContent e)
    (innerHTML e) (listeners e) (parentNode e) (children e) (layout e).
Definition with_props (v : list (string * PropValue)) (e : Element) : Element :=
  mkElement (tagName e) (classList e) v (dataset e) (style e) (textContent e)
    (innerHTML e) (listeners e) (parentNode e) (children e) (layout e).
Definition with_dataset (v : list (string * string)) (e : Element) : Element :=
  mkElement (tagName e) (classList e) (props e) v (style e) (textContent e)
    (innerHTML e) (listeners e) (parentNode e) (children e) (layout e).
Definition with_style (v : Style) (e : Element) : Element :=
  mkElement (tagName e) (classList e) (props e) (dataset e) v (textContent e)
    (innerHTML e) (listeners e) (parentNode e) (children e) (layout e).
Definition with_textContent (v : string) (e : Element) : Element :=
  mkElement (tagName e) (classList e) (props e) (dataset e) (style e) v
    (innerHTML e) (listeners e) (parentNode e) (children e) (layout e).
Definition with_innerHTML (v : string) (e : Element) : Element :=
  mkElement (tagName e) (classList e) (props e) (dataset e) (style e)
    (textContent e) v (listeners e) (parentNode e) (children e) (layout e).
Definition with_listeners (v : list (string * FunId)) (e : Element) : Element :=
  mkElement (tagName e) (classList e) (props e) (dataset e) (style e)
    (textContent e) (innerHTML e) v (parentNode e) (children e) (layout e).
Definition with_parentNode (v : option NodeId) (e : Element) : Element :=
  mkElement (tagName e) (classList e) (props e) (dataset e) (style e)
    (textContent e) (innerHTML e) (listeners e) v (children e) (layout e).
Definition with_children (v : list NodeId) (e : Element) : Element :=
  mkElement (tagName e) (classList e) (props e) (dataset e) (style e)
    (textContent e) (innerHTML e) (listeners e) (parentNode e) v (layout e).
Definition with_layout (v : Layout) (e : Element) : Element :=
  mkElement (tagName e) (classList e) (props e) (dataset e) (style e)
    (textContent e) (innerHTML e) (listeners e) (parentNode e) (children e) v.

Definition with_s_width (v : option CssSize) (s : Style) : Style :=
  mkStyle v (s_height s) (s_backgroundImage s) (s_display s).
Definition with_s_height (v : option CssSize) (s : Style) : Style :=
  mkStyle (s_width s) v (s_backgroundImage s) (s_display s).
Definition with_s_backgroundImage (v : string) (s : Style) : Style :=
  mkStyle (s_width s) (s_height s) v (s_display s).
Definition with_s_display (v : string) (s : Style) : Style :=
  mkStyle (s_width s) (s_height s) (s_backgroundImage s) v.

(** The characters an unquoted [url(...)] holds as they are: every
    character but the control characters and the space (codes up to 32),
    the two quotes, the two parentheses, the backslash and DEL. *)
Definition url_char (c : ascii) : bool :=
  let n := nat_of_ascii c in
  negb ((n <=? 32) || (n =? 34) || (n =? 39) || (n =? 40) || (n =? 41)
        || (n =? 92) || (n =? 127))%nat.

Definition plain_url (src : string) : bool :=
  forallb url_char (list_ascii_of_string src).

(** The assignment of the template string [url(${src})] to
    [style.backgroundImage].  A style keeps an assigned declaration only
    when it parses, and keeps what it had otherwise.  With a source of
    plain characters the declaration parses.  With a parenthesis, a quote
    or white space in the source the unquoted [url(...)] is broken and the
    declaration is dropped; the model drops every source that is not plain.
    The statements below speak of plain sources and of sources whose first
    character that is not plain is an opening parenthesis; for the other
    sources (escapes, quoted sources, white space at the ends) the answer
    of a style parser depends on more of its grammar than is modelled. *)
Definition set_backgroundImage_url (src : string) (s : Style) : Style :=
  if plain_url src
  then with_s_backgroundImage ("url(" ++ src ++ ")")%string s
  else s.

(** The document: every element ever created, addressed by its index. *)
Abbreviation Document := (list Element).

Definition zeroRect : Rect := mkRect 0%Q 0%Q 0%Q.

(** An element fresh from [document.createElement]: detached, not laid
    out, and with the intrinsic sizes its kind of element carries. *)
Definition blank (tag : string) : Element :=
  let img := String.eqb tag "IMG" in
  let video := String.eqb tag "VIDEO" in
  mkElement tag [] [] [] (mkStyle None None "" "") "" "" [] None []
    (mkLayout 0 0 zeroRect
       (if img then Some 0 else None) (if img then Some 0 else None)
       (if video then Some 0 else None) (if video then Some 0 else None)).

Definition createElement (tag : string) (d : Document) : NodeId * Document :=
  (length d, d ++ [blank tag]).

(** [classList.add(cls)]: a token list holds a token once. *)
Definition classList_add (cls : string) (e : Element) : Element :=
  if existsb (String.eqb cls) (classList e) then e
  else with_classList (classList e ++ [cls]) e.

Definition classList_remove (cls : string) (e : Element) : Element :=
  with_classList (List.filter (fun c => negb (String.eqb cls c)) (classList e)) e.

(** [classList.toggle(cls, force)] *)
Definition classList_toggle (cls : string) (force : bool) (e : Element) : Element :=
  if force then classList_add cls e else classList_remove cls e.

Definition classList_contains (cls : string) (e : Element) : bool :=
  existsb (String.eqb cls) (classList e).

(** [el[name] = v] *)
Fixpoint assoc_set {V : Type} (k : string) (v : V) (l : list (string * V))
  : list (string * V) :=
  match l with
  | [] => [(k, v)]
  | (k', v') :: r =>
      if String.eqb k k' then (k, v) :: r else (k', v') :: assoc_set k v r
  end.

Fixpoint assoc_get {V : Type} (k : string) (l : list (string * V)) : option V :=
  match l with
  | [] => None
  | (k', v') :: r => if String.eqb k k' then Some v' else assoc_get k r
  end.

Definition set_prop (k : string) (v : PropValue) (e : Element) : Element :=
  with_props (assoc_set k v (props e)) e.

Definition same_listener (ev : string) (f : FunId) (l : string * FunId) : bool :=
  String.eqb ev (fst l) && Nat.eqb f (snd l).

(** [el.addEventListener(ev, f)]: a listener already present is not added
    a second time. *)
Definition addEventListener (ev : string) (f : FunId) (e : Element) : Element :=
  if existsb (same_listener ev f) (listeners e) then e
  else with_listeners (listeners e ++ [(ev, f)]) e.

(** [el.removeEventListener(ev, f)] *)
Definition removeEventListener (ev : string) (f : FunId) (e : Element) : Element :=
  with_listeners (List.filter (fun l => negb (same_listener ev f l)) (listeners e)) e.

(** The listeners of an element for one event, in the order they fire. *)
Definition listeners_for (ev : string) (e : Element) : list FunId :=
  List.map snd (List.filter (fun l => String.eqb ev (fst l)) (listeners e)).

Definition remove_id (c : NodeId) (l : list NodeId) : list NodeId :=
  List.filter (fun x => negb (Nat.eqb c x)) l.

(** Detach [c] from the parent it has, if any. *)
Definition detach (c : NodeId) (d : Document) : Document :=
  match d !! c with
  | Some e =>
      match parentNode e with
      | Some p =>
          alter (with_parentNode None) c
            (alter (fun pe => with_children (remove_id c (children pe)) pe) p d)
      | None => d
      end
  | None => d
  end.

(** [p.appendChild(c)]: [c] leaves its former parent and becomes the last
    child of [p]. *)
Definition appendChild (p c : NodeId) (d : Document) : Document :=
  alter (with_parentNode (Some p)) c
    (alter (fun pe => with_children (children pe ++ [c]) pe) p (detach c d)).

(** [p.removeChild(c)]: throws when [c] is not a child of [p]. *)
Definition removeChild (p c : NodeId) (d : Document) : Js.Result Document :=
  match d !! c with
  | Some e =>
      match parentNode e with
      | Some p' => if Nat.eqb p p' then Js.Ok (detach c d) else Js.Throw Js.NotFoundError
      | None => Js.Throw Js.NotFoundError
      end
  | None => Js.Throw Js.NotFoundError
  end.

End Dom.

(* ===================================================================== *)
(** ** Data exchanged with the host and the uploader *)
(* ===================================================================== *)

(** Modelled from the spec: [types/types.ts] is not among the sources.  The
    spec (data model and external interfaces) and the uses in [index.ts] and
    [ui.ts] give the shapes below.  The file descriptor has one known key,
    [url], and passes any other key through. *)
Module FileData.
Record t := mk {
  url : option string;
  extra : list (string * string)
}.
(** [Object.keys(file).length] *)
Definition keys_length (f : t) : nat :=
  ((match url f with Some _ => 1 | None => 0 end) + length (extra f))%nat.
End FileData.

(** Modelled from the spec: the persisted block data (absent fields are
    [None]). *)
Module ImageToolData.
Record t := mk {
  caption : option string;
  height : option string;
  width : option string;
  file : option FileData.t
}.
Definition with_caption (v : option string) (d : t) : t :=
  mk v (height d) (width d) (file d).
Definition with_height (v : option string) (d : t) : t :=
  mk (caption d) v (width d) (file d).
Definition with_width (v : option string) (d : t) : t :=
  mk (caption d) (height d) v (file d).
Definition with_file (v : option FileData.t) (d : t) : t :=
  mk (caption d) (height d) (width d) v.
End ImageToolData.

(** Modelled from the spec: the response envelope of the uploader,
    [{ success: 0 | 1, file: { url, ... } }].  [success] is kept as the
    number the code tests for truthiness. *)
Module UploadResponseFormat.
Record t := mk {
  success : Z;
  file : option FileData.t
}.
(** The envelope the spec describes carries 0 or 1 as its flag. *)
Definition well_formed (r : t) : Prop := success r = 0 \/ success r = 1.
End UploadResponseFormat.

(** Modelled from the spec: the configuration fields the two classes read.
    The request fields, headers, custom uploader and actions are passed to
    the uploader untouched and are left out. *)
Module ImageConfig.
Record t := mk {
  endpoints : option (string * string);
  types : option string;
  field : option string;
  captionPlaceholder : option string;
  buttonContent : option string;
  showCaption : option bool
}.
End ImageConfig.

(** The part of the host's API the tool uses. *)
Module API.
Record Styles := mkStyles {
  block : string;
  loader : string;
  input : string;
  button : string
}.
Record t := mk {
  styles : Styles;
  i18n_t : string -> string
}.
End API.

(* ===================================================================== *)
(** ** The world shared by the two objects *)
(* ===================================================================== *)

Inductive Align := ALeft | ARight.

Definition align_name (a : Align) : string :=
  match a with ALeft => "left" | ARight => "right" end.

(** The function objects the tool creates, with what each one captures. *)
Inductive Closure :=
| LoadHandler (tag : string) (width : option string)
| ErrorHandler (url : string)
| FileButtonHandler
| MouseDownHandler (align : Align)
| OnMouseMove (align : Align)
| OnMouseUp (onMouseMove : Dom.FunId).

Record Notification := mkNotification {
  message : string;
  n_style : string
}.

(** Calls into the uploader module, which is not among the sources. *)
Inductive UploaderCall :=
| UploadSelectedFile
| UploadByFile
| UploadByUrl (url : string).

Record World := mkWorld {
  dom : Dom.Document;
  funs : list Closure;
  documentListeners : list (string * Dom.FunId);
  notifications : list Notification;
  console : list string;
  uncaught : list Js.Error;
  uploaderCalls : list UploaderCall
}.

Definition with_dom (v : Dom.Document) (w : World) : World :=
  mkWorld v (funs w) (documentListeners w) (notifications w) (console w)
    (uncaught w) (uploaderCalls w).
Definition with_funs (v : list Closure) (w : World) : World :=
  mkWorld (dom w) v (documentListeners w) (notifications w) (console w)
    (uncaught w) (uploaderCalls w).
Definition with_documentListeners (v : list (string * Dom.FunId)) (w : World) : World :=
  mkWorld (dom w) (funs w) v (notifications w) (console w) (uncaught w)
    (uploaderCalls w).
Definition with_notifications (v : list Notification) (w : World) : World :=
  mkWorld (dom w) (funs w) (documentListeners w) v (console w) (uncaught w)
    (uploaderCalls w).
Definition with_console (v : list string) (w : World) : World :=
  mkWorld (dom w) (funs w) (documentListeners w) (notifications w) v
    (uncaught w) (uploaderCalls w).
Definition with_uncaught (v : list Js.Error) (w : World) : World :=
  mkWorld (dom w) (funs w) (documentListeners w) (notifications w) (console w)
    v (uploaderCalls w).
Definition with_uploaderCalls (v : list UploaderCall) (w : World) : World :=
  mkWorld (dom w) (funs w) (documentListeners w) (notifications w) (console w)
    (uncaught w) v.

Definition emptyWorld : World := mkWorld [] [] [] [] [] [] [].

(** Apply [f] to the element [id] of the document. *)
Definition on_el (id : Dom.NodeId) (f : Dom.Element -> Dom.Element) (w : World) : World :=
  with_dom (alter f id (dom w)) w.

Definition appendChild (p c : Dom.NodeId) (w : World) : World :=
  with_dom (Dom.appendChild p c (dom w)) w.

(** A new function object. *)
Definition new_fun (c : Closure) (w : World) : Dom.FunId * World :=
  (length (funs w), with_funs (funs w ++ [c]) w).

(** [make(tagName, classNames, attributes)] of [utils/dom.ts]. *)
Definition make (tagName : string) (classNames : list string)
    (attributes : list (string * Dom.PropValue)) (w : World) : Dom.NodeId * World :=
  let '(el, d) := Dom.createElement tagName (dom w) in
  let w := with_dom d w in
  let w := fold_left (fun w c => on_el el (Dom.classList_add c) w) classNames w in
  let w := fold_left (fun w kv => on_el el (Dom.set_prop (fst kv) (snd kv)) w) attributes w in
  (el, w).

(* ===================================================================== *)
(** ** [ui.ts]: class [Ui] *)
(* ===================================================================== *)

Module Ui.

Inductive UiState := Empty | Uploading | Filled.

(** The string value of a member of the enumeration. *)
Definition value (s : UiState) : string :=
  match s with
  | Empty => "empty"
  | Uploading => "uploading"
  | Filled => "filled"
  end.

Definition UiState_eqb (a b : UiState) : bool :=
  String.eqb (value a) (value b).

Record Nodes := mkNodes {
  wrapper : Dom.NodeId;
  imageContainer : Dom.NodeId;
  fileButton : Dom.NodeId;
  imageEl : option Dom.NodeId;
  imagePreloader : Dom.NodeId;
  caption : Dom.NodeId
}.

Record t := mk {
  nodes : Nodes;
  api : API.t;
  isResizing : bool;
  config : ImageConfig.t;
  readOnly : bool;
  contentRatio : Js.Number;
  imageLoadHandler : option Dom.FunId;
  imageErrorHandler : option Dom.FunId;
  fileButtonHandler : option Dom.FunId;
  resizeHandlers : list (Dom.NodeId * Dom.FunId)
}.

Definition with_imageEl (v : option Dom.NodeId) (u : t) : t :=
  let n := nodes u in
  mk (mkNodes (wrapper n) (imageContainer n) (fileButton n) v
        (imagePreloader n) (caption n))
    (api u) (isResizing u) (config u) (readOnly u) (contentRatio u)
    (imageLoadHandler u) (imageErrorHandler u) (fileButtonHandler u)
    (resizeHandlers u).
Definition with_isResizing (v : bool) (u : t) : t :=
  mk (nodes u) (api u) v (config u) (readOnly u) (contentRatio u)
    (imageLoadHandler u) (imageErrorHandler u) (fileButtonHandler u)
    (resizeHandlers u).
Definition with_contentRatio (v : Js.Number) (u : t) : t :=
  mk (nodes u) (api u) (isResizing u) (config u) (readOnly u) v
    (imageLoadHandler u) (imageErrorHandler u) (fileButtonHandler u)
    (resizeHandlers u).
Definition with_imageLoadHandler (v : option Dom.FunId) (u : t) : t :=
  mk (nodes u) (api u) (isResizing u) (config u) (readOnly u)
    (contentRatio u) v (imageErrorHandler u) (fileButtonHandler u)
    (resizeHandlers u).
Definition with_imageErrorHandler (v : option Dom.FunId) (u : t) : t :=
  mk (nodes u) (api u) (isResizing u) (config u) (readOnly u)
    (contentRatio u) (imageLoadHandler u) v (fileButtonHandler u)
    (resizeHandlers u).
Definition with_fileButtonHandler (v : option Dom.FunId) (u : t) : t :=
  mk (nodes u) (api u) (isResizing u) (config u) (readOnly u)
    (contentRatio u) (imageLoadHandler u) (imageErrorHandler u) v
    (resizeHandlers u).
Definition with_resizeHandlers (v : list (Dom.NodeId * Dom.FunId)) (u : t) : t :=
  mk (nodes u) (api u) (isResizing u) (config u) (readOnly u)
    (contentRatio u) (imageLoadHandler u) (imageErrorHandler u)
    (fileButtonHandler u) v.

(** The getter [CSS]. *)
Module CSS.
Definition baseClass (a : API.t) : string := API.block (API.styles a).
Definition loading (a : API.t) : string := API.loader (API.styles a).
Definition input (a : API.t) : string := API.input (API.styles a).
Definition button (a : API.t) : string := API.button (API.styles a).
Definition wrapper : string := "image-tool".
Definition imageContainer : string := "image-tool__image".
Definition imagePreloader : string := "image-tool__image-preloader".
Definition imageEl : string := "image-tool__image-picture".
Definition caption : string := "image-tool__caption".
End CSS.

(** The markup of the picture icon is a constant of an external package. *)
Definition IconPicture : string := "<svg/>".

(** The class that marks the wrapper as being in state [s]. *)
Definition status_class (s : UiState) : string :=
  (CSS.wrapper ++ "--" ++ value s)%string.

(** [toggleStatus(status)]: the loop runs over the members of the
    enumeration in declaration order. *)
Definition toggleStatus (status : UiState) (this : t) (w : World) : World :=
  fold_left
    (fun w statusType =>
       on_el (wrapper (nodes this))
         (Dom.classList_toggle (status_class statusType)
            (UiState_eqb status statusType)) w)
    [Empty; Uploading; Filled] w.

(** [createFileButton()]: returns the button and stores the click
    handler. *)
Definition createFileButton (a : API.t) (cfg : ImageConfig.t) (w : World)
  : Dom.NodeId * Dom.FunId * World :=
  let '(button, w) := make "div" [CSS.button a] [] w in
  let html :=
    match ImageConfig.buttonContent cfg with
    | Some c => c
    | None =>
        (IconPicture ++ " <span>" ++ API.i18n_t a "Click to upload image"
           ++ "</span>")%string
    end in
  let w := on_el button (Dom.with_innerHTML html) w in
  let '(h, w) := new_fun FileButtonHandler w in
  let w := on_el button (Dom.addEventListener "click" h) w in
  (button, h, w).

(** The constructor.  The object literal creates the nodes in the order
    wrapper, image container, file button, preloader, caption. *)
Definition constructor (a : API.t) (cfg : ImageConfig.t) (ro : bool) (w : World)
  : t * World :=
  let '(wrapper, w) := make "div" [CSS.baseClass a; CSS.wrapper] [] w in
  let '(imageContainer, w) := make "div" [CSS.imageContainer] [] w in
  let '(fileButton, h, w) := createFileButton a cfg w in
  let '(imagePreloader, w) := make "div" [CSS.imagePreloader] [] w in
  let '(caption, w) :=
    make "div" [CSS.caption] [("contentEditable", Dom.PBool (negb ro))] w in
  let w :=
    on_el caption
      (fun e =>
         Dom.with_dataset
           (Dom.assoc_set "placeholder"
              (default "undefined" (ImageConfig.captionPlaceholder cfg))
              (Dom.dataset e)) e) w in
  let w := appendChild imageContainer imagePreloader w in
  let w := appendChild wrapper imageContainer w in
  let w := if negb ro then appendChild wrapper fileButton w else w in
  (mk (mkNodes wrapper imageContainer fileButton None imagePreloader caption)
     a false cfg ro (Js.Num 1) None None (Some h) [],
   w).

(** [render(toolData)] *)
Definition render (toolData : ImageToolData.t) (this : t) (w : World)
  : Dom.NodeId * World :=
  let empty :=
    match ImageToolData.file toolData with
    | None => true
    | Some f => Nat.eqb (FileData.keys_length f) 0
    end in
  let w := if empty then toggleStatus Empty this w
           else toggleStatus Uploading this w in
  (wrapper (nodes this), w).

(** [showPreloader(src)] *)
Definition showPreloader (src : string) (this : t) (w : World) : World :=
  let w := on_el (imagePreloader (nodes this))
             (fun e => Dom.with_style
                (Dom.set_backgroundImage_url src (Dom.style e)) e) w in
  toggleStatus Uploading this w.

(** [hidePreloader()] *)
Definition hidePreloader (this : t) (w : World) : World :=
  let w := on_el (imagePreloader (nodes this))
             (fun e => Dom.with_style
                (Dom.with_s_backgroundImage "" (Dom.style e)) e) w in
  toggleStatus Empty this w.

(** [createResizer(align)] *)
Definition createResizer (align : Align) (this : t) (w : World)
  : Dom.NodeId * t * World :=
  let '(container, w) :=
    make "div" [("resize-container-" ++ align_name align)%string] [] w in
  let '(resizeHandle, w) := make "div" ["resize-handle"] [] w in
  let w := appendChild container resizeHandle w in
  let '(mouseDownHandler, w) := new_fun (MouseDownHandler align) w in
  let w := on_el container (Dom.addEventListener "mousedown" mouseDownHandler) w in
  let this :=
    with_resizeHandlers
      (List.filter (fun p => negb (Nat.eqb container (fst p))) (resizeHandlers this)
         ++ [(container, mouseDownHandler)]) this in
  (container, this, w).

(** What [fillImage] decides from the URL: the tag, the attributes handed
    to [make] and the name of the ready event. *)
Definition tag_of (url : string) : string :=
  if Js.test_mp4 url then "VIDEO" else "IMG".

Definition attributes_of (url : string) : list (string * Dom.PropValue) :=
  [("src", Dom.PStr url); ("loading", Dom.PStr "lazy");
   ("decoding", Dom.PStr "async")]
  ++ (if String.eqb (tag_of url) "VIDEO"
      then [("autoplay", Dom.PBool true); ("loop", Dom.PBool true);
            ("muted", Dom.PBool true); ("playsinline", Dom.PBool true);
            ("controls", Dom.PBool true)]
      else []).

Definition eventName_of (url : string) : string :=
  if String.eqb (tag_of url) "VIDEO" then "loadeddata" else "load".

(** [fillImage(url, height, width)].  The new element is stored in
    [nodes.imageEl] before the clean-up of the old listeners runs, so the
    two [removeEventListener] calls address the new element. *)
Definition fillImage (url : string) (height width : option string)
    (this : t) (w : World) : t * World :=
  let tag := tag_of url in
  let attributes := attributes_of url in
  let eventName := eventName_of url in
  let '(el, w) := make tag [CSS.imageEl; "resizable-image"] attributes w in
  let this := with_imageEl (Some el) this in
  let w :=
    match imageLoadHandler this with
    | Some h => on_el el (Dom.removeEventListener eventName h) w
    | None => w
    end in
  let w :=
    match imageErrorHandler this with
    | Some h => on_el el (Dom.removeEventListener "error" h) w
    | None => w
    end in
  let '(lh, w) := new_fun (LoadHandler tag width) w in
  let this := with_imageLoadHandler (Some lh) this in
  let '(eh, w) := new_fun (ErrorHandler url) w in
  let this := with_imageErrorHandler (Some eh) this in
  let w := on_el el (Dom.addEventListener eventName lh) w in
  let w := on_el el (Dom.addEventListener "error" eh) w in
  let '(contentWrapper, w) := make "div" ["content-wrapper"] [] w in
  let '(imageContainer', w) := make "div" ["image-container"] [] w in
  let w := appendChild imageContainer' el w in
  let w := appendChild contentWrapper imageContainer' w in
  let w := appendChild (imageContainer (nodes this)) contentWrapper w in
  let '(this, w) :=
    if negb (readOnly this) then
      let w := on_el (imageContainer (nodes this))
                 (Dom.classList_add "resizable-container") w in
      let '(l, this, w) := createResizer ALeft this w in
      let w := appendChild imageContainer' l w in
      let '(r, this, w) := createResizer ARight this w in
      let w := appendChild imageContainer' r w in
      (this, w)
    else (this, w) in
  let w :=
    if default true (ImageConfig.showCaption (config this))
    then appendChild contentWrapper (caption (nodes this)) w
    else w in
  (this, w).

(** [resizeImage(e, align)], with [clientX] the pointer position of the
    event. *)
Definition resizeImage (clientX : Q) (align : Align) (this : t) (w : World) : World :=
  match isResizing this, imageEl (nodes this) with
  | true, Some el =>
      match dom w !! el with
      | Some e =>
          let rect := Dom.boundingClientRect (Dom.layout e) in
          let offset :=
            match align with
            | ALeft => (Dom.r_left rect - clientX)%Q
            | ARight => (clientX - Dom.r_right rect)%Q
            end in
          let newWidth := (Dom.r_width rect + offset)%Q in
          let newWidth := Js.max newWidth 30%Q in
          on_el el (fun e =>
            Dom.with_style
              (Dom.with_s_height (Some Dom.Auto)
                 (Dom.with_s_width (Some (Dom.Px newWidth)) (Dom.style e))) e) w
      | None => w
      end
  | _, _ => w
  end.

(** [fillCaption(text)] *)
Definition fillCaption (text : string) (this : t) (w : World) : World :=
  on_el (caption (nodes this)) (Dom.with_textContent text) w.

(** [removeFileButton()] *)
Definition removeFileButton (this : t) (w : World) : World :=
  match dom w !! fileButton (nodes this) with
  | Some b =>
      if negb (readOnly this) && bool_decide (Dom.parentNode b <> None) then
        match Dom.removeChild (wrapper (nodes this)) (fileButton (nodes this)) (dom w) with
        | Js.Ok d => with_dom d w
        | Js.Throw e => with_uncaught (uncaught w ++ [e]) w
        end
      else w
  | None => w
  end.

(** [addFileButton()] *)
Definition addFileButton (this : t) (w : World) : World :=
  if negb (readOnly this)
  then appendChild (wrapper (nodes this)) (fileButton (nodes this)) w
  else w.

(** [destroy()] *)
Definition destroy (this : t) (w : World) : t * World :=
  let w :=
    match imageEl (nodes this) with
    | Some el =>
        let w :=
          match imageLoadHandler this with
          | Some h =>
              on_el el (Dom.removeEventListener "loadeddata" h)
                (on_el el (Dom.removeEventListener "load" h) w)
          | None => w
          end in
        match imageErrorHandler this with
        | Some h => on_el el (Dom.removeEventListener "error" h) w
        | None => w
        end
    | None => w
    end in
  let w :=
    match fileButtonHandler this with
    | Some h => on_el (fileButton (nodes this)) (Dom.removeEventListener "click" h) w
    | None => w
    end in
  let w :=
    fold_left (fun w p => on_el (fst p) (Dom.removeEventListener "mousedown" (snd p)) w)
      (resizeHandlers this) w in
  let this := with_resizeHandlers [] this in
  let this := with_imageLoadHandler None this in
  let this := with_imageErrorHandler None this in
  let this := with_fileButtonHandler None this in
  (this, w).

(** *** The bodies of the function objects *)

(** The handler of the ready event created by [fillImage]; it captured
    [tag] and [width] and reads [nodes.imageEl] when it runs.  Without an
    element the optional call is skipped and the read of the intrinsic
    size throws. *)
Definition run_imageLoadHandler (tag : string) (width : option string)
    (this : t) (w : World) : t * World :=
  let w := toggleStatus Filled this w in
  match imageEl (nodes this) with
  | None =>
      (this,
       with_uncaught
         (uncaught w ++ [Js.TypeError "cannot read properties of undefined"]) w)
  | Some el =>
      let w := on_el el (Dom.classList_add "loaded") w in
      let lay := Dom.layout <$> dom w !! el in
      let this :=
        if String.eqb tag "VIDEO" then
          with_contentRatio
            (Js.div (lay ≫= Dom.videoHeight) (lay ≫= Dom.videoWidth)) this
        else
          with_contentRatio
            (Js.div (lay ≫= Dom.naturalHeight) (lay ≫= Dom.naturalWidth)) this in
      let w :=
        match width with
        | Some width =>
            let widthNum := Js.parseInt width in
            if Js.gt0 widthNum then
              on_el el (fun e =>
                Dom.with_style
                  (Dom.with_s_height (Some Dom.Auto)
                     (Dom.with_s_width
                        (Some (Dom.Px (inject_Z (default 0 widthNum))))
                        (Dom.style e))) e) w
            else w
        | None => w
        end in
      let w := on_el (imagePreloader (nodes this))
                 (fun e => Dom.with_style
                    (Dom.with_s_display "none" (Dom.style e)) e) w in
      (this, w)
  end.

(** The handler of the error event created by [fillImage]. *)
Definition run_imageErrorHandler (url : string) (this : t) (w : World) : t * World :=
  let w := with_console (console w ++ [("Image failed to load: " ++ url)%string]) w in
  let w := toggleStatus Empty this w in
  match imageEl (nodes this) with
  | Some el =>
      match dom w !! el ≫= Dom.parentNode with
      | Some p =>
          match Dom.removeChild p el (dom w) with
          | Js.Ok d => (with_imageEl None this, with_dom d w)
          | Js.Throw e => (this, with_uncaught (uncaught w ++ [e]) w)
          end
      | None => (this, w)
      end
  | None => (this, w)
  end.

Definition document_addEventListener (ev : string) (f : Dom.FunId) (w : World) : World :=
  if existsb (Dom.same_listener ev f) (documentListeners w) then w
  else with_documentListeners (documentListeners w ++ [(ev, f)]) w.

Definition document_removeEventListener (ev : string) (f : Dom.FunId) (w : World) : World :=
  with_documentListeners
    (List.filter (fun l => negb (Dom.same_listener ev f l)) (documentListeners w)) w.

(** The handler of [mousedown] created by [createResizer]. *)
Definition run_mouseDownHandler (align : Align) (this : t) (w : World) : t * World :=
  let this := with_isResizing true this in
  let '(onMouseMove, w) := new_fun (OnMouseMove align) w in
  let w := document_addEventListener "mousemove" onMouseMove w in
  let '(onMouseUp, w) := new_fun (OnMouseUp onMouseMove) w in
  let w := document_addEventListener "mouseup" onMouseUp w in
  (this, w).

Definition run_onMouseUp (self onMouseMove : Dom.FunId) (this : t) (w : World)
  : t * World :=
  let this := with_isResizing false this in
  let w := document_removeEventListener "mousemove" onMouseMove w in
  let w := document_removeEventListener "mouseup" self w in
  (this, w).

(** Call the function object [f] with an event whose pointer position is
    [clientX]. *)
Definition call (f : Dom.FunId) (clientX : Q) (this : t) (w : World) : t * World :=
  match funs w !! f with
  | Some (LoadHandler tag width) => run_imageLoadHandler tag width this w
  | Some (ErrorHandler url) => run_imageErrorHandler url this w
  | Some FileButtonHandler =>
      (this, with_uploaderCalls (uploaderCalls w ++ [UploadSelectedFile]) w)
  | Some (MouseDownHandler align) => run_mouseDownHandler align this w
  | Some (OnMouseMove align) => (this, resizeImage clientX align this w)
  | Some (OnMouseUp onMouseMove) => run_onMouseUp f onMouseMove this w
  | None => (this, w)
  end.

Definition call_all (fs : list Dom.FunId) (clientX : Q) (this : t) (w : World)
  : t * World :=
  fold_left (fun s f => call f clientX (fst s) (snd s)) fs (this, w).

(** The browser delivers the event [ev] to the element [target]: the
    listeners registered for it at that moment run in order. *)
Definition dispatchEvent (target : Dom.NodeId) (ev : string) (clientX : Q)
    (this : t) (w : World) : t * World :=
  match dom w !! target with
  | Some e => call_all (Dom.listeners_for ev e) clientX this w
  | None => (this, w)
  end.

(** The browser delivers the event [ev] to the document. *)
Definition document_dispatchEvent (ev : string) (clientX : Q)
    (this : t) (w : World) : t * World :=
  call_all
    (List.map snd (List.filter (fun l => String.eqb ev (fst l)) (documentListeners w)))
    clientX this w.

(** The state shown by the wrapper: the members whose class it carries. *)
Definition shown (this : t) (w : World) : list UiState :=
  match dom w !! wrapper (nodes this) with
  | Some e =>
      List.filter (fun s => Dom.classList_contains (status_class s) e)
        [Empty; Uploading; Filled]
  | None => []
  end.

End Ui.

(* ===================================================================== *)
(** ** [index.ts]: class [ImageTool] *)
(* ===================================================================== *)

Module ImageTool.

Record t := mk {
  api : API.t;
  readOnly : bool;
  config : ImageConfig.t;
  ui : Ui.t;
  _data : ImageToolData.t
}.

Definition with_ui (v : Ui.t) (this : t) : t :=
  mk (api this) (readOnly this) (config this) v (_data this).
Definition with_data (v : ImageToolData.t) (this : t) : t :=
  mk (api this) (readOnly this) (config this) (ui this) v.

(** [isNotEmpty(str)] *)
Definition isNotEmpty (str : option string) : bool :=
  match str with
  | Some s => negb (String.eqb (Js.trim s) "")
  | None => false
  end.

(** The setter [image]. *)
Definition set_image (file : option FileData.t) (this : t) (w : World) : t * World :=
  let this :=
    with_data
      (ImageToolData.with_file
         (Some (match file with Some f => f | None => FileData.mk (Some "") [] end))
         (_data this)) this in
  match file with
  | Some f =>
      match FileData.url f with
      | Some url =>
          if Js.truthy_string (Some url) then
            let '(u, w) :=
              Ui.fillImage url (ImageToolData.height (_data this))
                (ImageToolData.width (_data this)) (ui this) w in
            (with_ui u this, w)
          else (this, w)
      | None => (this, w)
      end
  | None => (this, w)
  end.

(** The setter [data]. *)
Definition set_data (data : ImageToolData.t) (this : t) (w : World) : t * World :=
  let caption :=
    if Js.truthy_string (ImageToolData.caption data)
    then default "" (ImageToolData.caption data) else "" in
  let d := ImageToolData.with_caption (Some caption) (_data this) in
  let d := ImageToolData.with_height (ImageToolData.height data) d in
  let d := ImageToolData.with_width (ImageToolData.width data) d in
  let this := with_data d this in
  let '(this, w) := set_image (ImageToolData.file data) this w in
  let w := Ui.fillCaption caption (ui this) w in
  (this, w).

(** The constructor.  [showCaption] of the tool's configuration is
    computed here; the caller's value is not read. *)
Definition constructor (data : ImageToolData.t) (cfg : ImageConfig.t)
    (a : API.t) (ro : bool) (w : World) : t * World :=
  let config :=
    ImageConfig.mk
      (ImageConfig.endpoints cfg)
      (ImageConfig.types cfg)
      (ImageConfig.field cfg)
      (Some (API.i18n_t a
               (default "Enter a caption" (ImageConfig.captionPlaceholder cfg))))
      (ImageConfig.buttonContent cfg)
      (Some (negb ro || isNotEmpty (ImageToolData.caption data))) in
  let '(u, w) := Ui.constructor a config ro w in
  let _data :=
    ImageToolData.mk (Some "") (ImageToolData.height data)
      (ImageToolData.width data) (Some (FileData.mk (Some "") [])) in
  set_data data (mk a ro config u _data) w.

(** [render()] *)
Definition render (this : t) (w : World) : Dom.NodeId * World :=
  Ui.render (_data this) (ui this) w.

(** [validate(savedData)]: the member access on an absent [file]
    throws. *)
Definition validate (savedData : ImageToolData.t) : Js.Result bool :=
  match ImageToolData.file savedData with
  | Some f => Js.Ok (Js.truthy_string (FileData.url f))
  | None => Js.Throw (Js.TypeError "cannot read properties of undefined (reading 'url')")
  end.

(** [image?.clientWidth ?? 0] and [image?.clientHeight ?? 0] *)
Definition currentWidth (this : t) (w : World) : Z :=
  default 0 (Dom.clientWidth <$> (Dom.layout <$> (Ui.imageEl (Ui.nodes (ui this)) ≫= (dom w !!.)))).
Definition currentHeight (this : t) (w : World) : Z :=
  default 0 (Dom.clientHeight <$> (Dom.layout <$> (Ui.imageEl (Ui.nodes (ui this)) ≫= (dom w !!.)))).

(** [save()]: returns the data and leaves it stored in the tool. *)
Definition save (this : t) (w : World) : ImageToolData.t * t :=
  let caption := Dom.textContent <$> dom w !! Ui.caption (Ui.nodes (ui this)) in
  let d := ImageToolData.with_caption
             (Some (default "" (Js.trim <$> caption))) (_data this) in
  let currentWidth := currentWidth this w in
  let currentHeight := currentHeight this w in
  let d :=
    if (0 <? currentWidth) && (0 <? currentHeight) then
      ImageToolData.with_height (Some (Js.String_ currentHeight))
        (ImageToolData.with_width (Some (Js.String_ currentWidth)) d)
    else d in
  (d, with_data d this).

(** [appendCallback()]: a click on the file button. *)
Definition appendCallback (this : t) (w : World) : t * World :=
  let '(u, w) := Ui.dispatchEvent (Ui.fileButton (Ui.nodes (ui this))) "click" 0%Q (ui this) w in
  (with_ui u this, w).

(** [destroy()] *)
Definition destroy (this : t) (w : World) : t * World :=
  let '(u, w) := Ui.destroy (ui this) w in
  (with_ui u this, w).

(** [uploadingFailed(errorText)] *)
Definition uploadingFailed (errorText : string) (this : t) (w : World) : t * World :=
  let w := with_console
             (console w ++ [("Image Tool: uploading failed because of " ++ errorText)%string]) w in
  let w := with_notifications
             (notifications w ++
                [mkNotification
                   (API.i18n_t (api this) "Couldn’t upload image. Please try another.")
                   "error"]) w in
  let w := Ui.hidePreloader (ui this) w in
  let w := Ui.addFileButton (ui this) w in
  (this, w).

(** [JSON.stringify(response)] only feeds the console message; the text is
    left abstract. *)
Definition stringify (response : UploadResponseFormat.t) : string := "{...}".

(** [onUpload(response)] *)
Definition onUpload (response : UploadResponseFormat.t) (this : t) (w : World)
  : t * World :=
  if Js.truthy_int (UploadResponseFormat.success response)
     && bool_decide (UploadResponseFormat.file response <> None)
  then set_image (UploadResponseFormat.file response) this w
  else uploadingFailed ("incorrect response: " ++ stringify response)%string this w.

(** [uploadFile(file)]: the preloader is shown later, from the uploader's
    [onPreview] callback. *)
Definition uploadFile (this : t) (w : World) : t * World :=
  (this, with_uploaderCalls (uploaderCalls w ++ [UploadByFile]) w).

(** [uploadUrl(url)] *)
Definition uploadUrl (url : string) (this : t) (w : World) : t * World :=
  let w := Ui.showPreloader url (ui this) w in
  (this, with_uploaderCalls (uploaderCalls w ++ [UploadByUrl url]) w).

(** The paste events of the host. *)
Inductive PasteEvent :=
| PasteTag (src : string)
| PastePattern (url : string)
| PasteFile.

(** [/^blob:/.test(src)] *)
Definition is_blob (src : string) : bool := String.prefix "blob:" src.

(** [onPaste(event)]: for an in-memory source the upload starts once the
    fetch has resolved, which is the later step [uploadFile]. *)
Definition onPaste (event : PasteEvent) (this : t) (w : World) : t * World :=
  match event with
  | PasteTag src =>
      if is_blob src then (this, w) else uploadUrl src this w
  | PastePattern url => uploadUrl url this w
  | PasteFile => uploadFile this w
  end.

(** *** The life of a block

    What can happen to a block after its construction: calls of the host,
    callbacks of the uploader, and events and layout of the browser. *)
Inductive Op :=
| Render
| Save
| AppendCallback
| Destroy
| OnPaste (event : PasteEvent)
| FetchResolved
| OnPreview (src : string)
| OnPreUpload
| OnUpload (response : UploadResponseFormat.t)
| OnError (error : string)
| ElementEvent (target : Dom.NodeId) (ev : string) (clientX : Q)
| DocumentEvent (ev : string) (clientX : Q)
| Relayout (target : Dom.NodeId) (l : Dom.Layout)
| Typed (text : string).

Definition step (op : Op) (s : t * World) : t * World :=
  let '(this, w) := s in
  match op with
  | Render => (this, snd (render this w))
  | Save => (snd (save this w), w)
  | AppendCallback => appendCallback this w
  | Destroy => destroy this w
  | OnPaste e => onPaste e this w
  | FetchResolved => uploadFile this w
  | OnPreview src => (this, Ui.showPreloader src (ui this) w)
  | OnPreUpload => (this, Ui.removeFileButton (ui this) w)
  | OnUpload r => onUpload r this w
  | OnError e => uploadingFailed e this w
  | ElementEvent target ev x =>
      let '(u, w) := Ui.dispatchEvent target ev x (ui this) w in
      (with_ui u this, w)
  | DocumentEvent ev x =>
      let '(u, w) := Ui.document_dispatchEvent ev x (ui this) w in
      (with_ui u this, w)
  | Relayout target l => (this, on_el target (Dom.with_layout l) w)
  | Typed text => (this, on_el (Ui.caption (Ui.nodes (ui this))) (Dom.with_textContent text) w)
  end.

Definition run (ops : list Op) (s : t * World) : t * World :=
  fold_left (fun s op => step op s) ops s.

End ImageTool.

(* ===================================================================== *)
(** ** The persisted width as the specification words it *)
(* ===================================================================== *)

(** [Math.round(x)] on an exact rational: the floor of [x + 1/2]. *)
Definition round (x : Q) : Z := Qfloor (x + (1 # 2))%Q.

(** The width the specification expects [save] to persist for a rendered
    pixel width [p] in a container of width [c]: [round(p / c * 100)] as a
    string. *)
Definition spec_percent_width (p c : Z) : string :=
  Js.String_ (round (inject_Z p / inject_Z c * 100)%Q).

(** The specification's reading of a save: the percentage in [width], and
    no [height]. *)
Definition spec_percent_save (d : ImageToolData.t) (p c : Z) : Prop :=
  ImageToolData.width d = Some (spec_percent_width p c)
  /\ ImageToolData.height d = None.

(* ===================================================================== *)
(** ** Views of the state used in the statements *)
(* ===================================================================== *)

(** A function on elements leaves the view [g] of an element alone. *)
Definition same_on {A : Type} (g : Dom.Element -> A) (f : Dom.Element -> Dom.Element) : Prop :=
  forall e, g (f e) = g e.

(** The intrinsic size the ready handler of an element with tag [tag]
    reads. *)
Definition intrinsicHeight (tag : string) (l : Dom.Layout) : option Z :=
  if String.eqb tag "VIDEO" then Dom.videoHeight l else Dom.naturalHeight l.
Definition intrinsicWidth (tag : string) (l : Dom.Layout) : option Z :=
  if String.eqb tag "VIDEO" then Dom.videoWidth l else Dom.naturalWidth l.

(** The three state flags of an element, and the flags of a state. *)
Definition statusFlags (e : Dom.Element) : list bool :=
  List.map (fun s => Dom.classList_contains (Ui.status_class s) e)
    [Ui.Empty; Ui.Uploading; Ui.Filled].

Definition flags_of (status : Ui.UiState) : list bool :=
  List.map (Ui.UiState_eqb status) [Ui.Empty; Ui.Uploading; Ui.Filled].

(** What the ready handler does to the style of the element, given the
    saved width. *)
Definition restored_style (width : option string) (s : Dom.Style) : Dom.Style :=
  match width with
  | Some width =>
      match Js.parseInt width with
      | Some n =>
          if 0 <? n
          then Dom.with_s_height (Some Dom.Auto)
                 (Dom.with_s_width (Some (Dom.Px (inject_Z n))) s)
          else s
      | None => s
      end
  | None => s
  end.

(** The file button hangs below the wrapper. *)
Definition button_appended (u : Ui.t) (w : World) : Prop :=
  Dom.parentNode <$> dom w !! Ui.fileButton (Ui.nodes u)
  = Some (Some (Ui.wrapper (Ui.nodes u)))
  /\ exists pe, dom w !! Ui.wrapper (Ui.nodes u) = Some pe
                /\ In (Ui.fileButton (Ui.nodes u)) (Dom.children pe).

(** What a failed upload leaves behind, starting from the block [this] in
    the world [w]: one more notification, of kind error; the wrapper in the
    state [Empty]; no preview on the preloader; the file button below the
    wrapper again, unless the block is read-only, in which case the button
    is where it was; and the block itself, its file data included, as it
    was. *)
Definition failure_outcome (this : ImageTool.t) (w : World)
    (s' : ImageTool.t * World) : Prop :=
  (exists n, notifications (snd s') = notifications w ++ [n] /\ n_style n = "error")
  /\ Ui.shown (ImageTool.ui (fst s')) (snd s') = [Ui.Empty]
  /\ (fun e => Dom.s_backgroundImage (Dom.style e))
       <$> dom (snd s') !! Ui.imagePreloader (Ui.nodes (ImageTool.ui this)) = Some ""
  /\ (Ui.readOnly (ImageTool.ui this) = false ->
      button_appended (ImageTool.ui this) (snd s'))
  /\ (Ui.readOnly (ImageTool.ui this) = true ->
      Dom.parentNode <$> dom (snd s') !! Ui.fileButton (Ui.nodes (ImageTool.ui this))
      = Dom.parentNode <$> dom w !! Ui.fileButton (Ui.nodes (ImageTool.ui this)))
  /\ fst s' = this.

(** The nodes the constructor of [Ui] created are in the document. *)
Definition nodes_present (u : Ui.t) (w : World) : Prop :=
  is_Some (dom w !! Ui.wrapper (Ui.nodes u))
  /\ is_Some (dom w !! Ui.fileButton (Ui.nodes u))
  /\ is_Some (dom w !! Ui.imagePreloader (Ui.nodes u))
  /\ is_Some (dom w !! Ui.caption (Ui.nodes u)).

(** The element [make] hands back: a blank element with the classes added
    and the attributes assigned in order. *)
Definition built (tagName : string) (classNames : list string)
    (attributes : list (string * Dom.PropValue)) : Dom.Element :=
  fold_left (fun e kv => Dom.set_prop (fst kv) (snd kv) e) attributes
    (fold_left (fun e c => Dom.classList_add c e) classNames (Dom.blank tagName)).

(** From the world [w] to the world [w'] no element is lost, and the view
    [g] of the elements below [n] is the same. *)
Definition keeps {A : Type} (n : nat) (g : Dom.Element -> A) (w w' : World) : Prop :=
  (length (dom w) <= length (dom w'))%nat
  /\ forall j, (j < n)%nat -> g <$> dom w' !! j = g <$> dom w !! j.

(** A view that does not depend on the classes, the listeners or the place
    of an element in the tree. *)
Definition static {A : Type} (g : Dom.Element -> A) : Prop :=
  (forall v, same_on g (Dom.with_classList v))
  /\ (forall v, same_on g (Dom.with_listeners v))
  /\ (forall v, same_on g (Dom.with_parentNode v))
  /\ (forall v, same_on g (Dom.with_children v)).

(** A string made of white space only (the empty string included). *)
Definition all_white (s : string) : bool :=
  forallb Js.isWhiteSpace (list_ascii_of_string s).

(** The decision on the caption, in the words of the specification: not
    read-only, or an initial caption that is a string, is not empty and is
    not made of white space.  Nothing of the code's [isNotEmpty] or [trim]
    enters here. *)
Definition caption_decision (ro : bool) (data : ImageToolData.t) : bool :=
  negb ro
  || match ImageToolData.caption data with
     | Some s => negb (String.eqb s "") && negb (all_white s)
     | None => false
     end.

(** The parent of the caption node, if the node is in the document. *)
Definition caption_parent (u : Ui.t) (w : World) : option (option Dom.NodeId) :=
  Dom.parentNode <$> dom w !! Ui.caption (Ui.nodes u).

(** From [(u, w)] to [(u', w')] the configuration, the read-only flag and
    the nodes made by the constructor are the same, and the document has
    lost no element. *)
Definition ui_stable (u : Ui.t) (w : World) (u' : Ui.t) (w' : World) : Prop :=
  Ui.config u' = Ui.config u
  /\ Ui.readOnly u' = Ui.readOnly u
  /\ Ui.api u' = Ui.api u
  /\ Ui.wrapper (Ui.nodes u') = Ui.wrapper (Ui.nodes u)
  /\ Ui.imageContainer (Ui.nodes u') = Ui.imageContainer (Ui.nodes u)
  /\ Ui.fileButton (Ui.nodes u') = Ui.fileButton (Ui.nodes u)
  /\ Ui.imagePreloader (Ui.nodes u') = Ui.imagePreloader (Ui.nodes u)
  /\ Ui.caption (Ui.nodes u') = Ui.caption (Ui.nodes u)
  /\ (length (dom w) <= length (dom w'))%nat.

(* ===================================================================== *)
(** ** Blocks used as examples *)
(* ===================================================================== *)

Module Scenario.

Definition api : API.t :=
  API.mk (API.mkStyles "cdx-block" "cdx-loader" "cdx-input" "cdx-button")
    (fun s => s).

(** A configuration whose caller asks for no caption. *)
Definition cfg : ImageConfig.t :=
  ImageConfig.mk (Some ("/uploadFile", "/fetchUrl")) None None None None (Some false).

Definition noData : ImageToolData.t := ImageToolData.mk None None None None.

Definition picture : FileData.t := FileData.mk (Some "https://x/y.png") [].
Definition clip : FileData.t := FileData.mk (Some "https://x/clip.mp4") [].

(** A new block in an editable document. *)
Definition fresh : ImageTool.t * World :=
  ImageTool.constructor noData cfg api false emptyWorld.

(** The same block after the uploader has answered with a picture; node 5
    is the [IMG] element. *)
Definition uploaded : ImageTool.t * World :=
  ImageTool.run
    [ImageTool.Render; ImageTool.OnUpload (UploadResponseFormat.mk 1 (Some picture))]
    fresh.

(** The picture has loaded and is laid out 300 by 200 pixels in a block
    600 pixels wide. *)
Definition loaded : ImageTool.t * World :=
  ImageTool.run
    [ImageTool.Relayout 0
       (Dom.mkLayout 600 200 (Dom.mkRect 0 600 600) None None None None);
     ImageTool.Relayout 5
       (Dom.mkLayout 300 200 (Dom.mkRect 150 450 300) (Some 600) (Some 400) None None);
     ImageTool.ElementEvent 5 "load" 0%Q]
    uploaded.

(** The block was saved, and then lost its layout. *)
Definition collapsed : ImageTool.t * World :=
  ImageTool.run
    [ImageTool.Save;
     ImageTool.Relayout 5
       (Dom.mkLayout 0 0 Dom.zeroRect (Some 600) (Some 400) None None)]
    loaded.

(** The right handle of the loaded picture has been pressed. *)
Definition dragging : ImageTool.t * World :=
  ImageTool.run [ImageTool.ElementEvent 10 "mousedown" 450%Q] loaded.

(** A block built from data saved with a pixel width and no height. *)
Definition legacyData : ImageToolData.t :=
  ImageToolData.mk (Some "A caption") None (Some "800") (Some picture).
Definition legacy : ImageTool.t * World :=
  ImageTool.constructor legacyData cfg api true emptyWorld.

(** The legacy block once the browser knows the picture: 1600 by 900
    pixels. *)
Definition legacyReady : ImageTool.t * World :=
  ImageTool.run
    [ImageTool.Relayout 5
       (Dom.mkLayout 0 0 Dom.zeroRect (Some 1600) (Some 900) None None)]
    legacy.

(** A read-only block with no picture and no caption. *)
Definition readOnlyBlock : ImageTool.t * World :=
  ImageTool.constructor noData cfg api true emptyWorld.

(** A block built from saved data whose picture is then replaced by an
    upload: node 5 is the first element, node 12 the second. *)
Definition replaced : ImageTool.t * World :=
  ImageTool.run
    [ImageTool.OnUpload (UploadResponseFormat.mk 1 (Some clip))]
    (ImageTool.constructor (ImageToolData.mk None None None (Some picture))
       cfg api false emptyWorld).

(** A block built from data saved with a pixel width, whose picture is
    replaced by an upload before it has loaded: node 5 is the first
    element, node 12 the second. *)
Definition picture2 : FileData.t := FileData.mk (Some "https://x/z.png") [].
Definition replacedEarly : ImageTool.t * World :=
  ImageTool.run
    [ImageTool.OnUpload (UploadResponseFormat.mk 1 (Some picture2))]
    (ImageTool.constructor (ImageToolData.mk None None (Some "800") (Some picture))
       cfg api false emptyWorld).

(** The first picture, 1600 by 900 pixels, arrives after all and its ready
    event is delivered. *)
Definition lateReady : ImageTool.t * World :=
  ImageTool.run
    [ImageTool.Relayout 5
       (Dom.mkLayout 0 0 Dom.zeroRect (Some 1600) (Some 900) None None);
     ImageTool.ElementEvent 5 "load" 0%Q]
    replacedEarly.

(** Saved data of a picture with a caption of white space, and with a
    caption that has text. *)
Definition blankCaption : ImageToolData.t :=
  ImageToolData.mk (Some "   ") None None (Some picture).
Definition sunsetCaption : ImageToolData.t :=
  ImageToolData.mk (Some " Sunset ") None None (Some picture).

End Scenario.

(* ===================================================================== *)
(** ** Further views of the state *)
(* ===================================================================== *)

(** The number written by the decimal digits [d], read after the digits
    that gave [acc]. *)
Fixpoint digits_value (d : Decimal.uint) (acc : Z) : Z :=
  match d with
  | Decimal.Nil => acc
  | Decimal.D0 d => digits_value d (10 * acc + 0)
  | Decimal.D1 d => digits_value d (10 * acc + 1)
  | Decimal.D2 d => digits_value d (10 * acc + 2)
  | Decimal.D3 d => digits_value d (10 * acc + 3)
  | Decimal.D4 d => digits_value d (10 * acc + 4)
  | Decimal.D5 d => digits_value d (10 * acc + 5)
  | Decimal.D6 d => digits_value d (10 * acc + 6)
  | Decimal.D7 d => digits_value d (10 * acc + 7)
  | Decimal.D8 d => digits_value d (10 * acc + 8)
  | Decimal.D9 d => digits_value d (10 * acc + 9)
  end.

(** The class [c] is none of the three state classes of the wrapper. *)
Definition not_status_class (c : string) : Prop :=
  forall s, c <> Ui.status_class s.

(** The markup [createFileButton] gives the file button: the configured
    content, or the icon followed by the translated label. *)
Definition buttonHTML (a : API.t) (cfg : ImageConfig.t) : string :=
  match ImageConfig.buttonContent cfg with
  | Some c => c
  | None =>
      (Ui.IconPicture ++ " <span>" ++ API.i18n_t a "Click to upload image"
         ++ "</span>")%string
  end.

(** The data as the setters [data] and [image] store it: an absent or
    empty caption is the empty string, an absent file is a file with an
    empty [url]. *)
Definition stored_data (data : ImageToolData.t) : ImageToolData.t :=
  ImageToolData.mk
    (Some (default "" (ImageToolData.caption data)))
    (ImageToolData.height data)
    (ImageToolData.width data)
    (Some (default (FileData.mk (Some "") []) (ImageToolData.file data))).

(** The preview and the visibility the tool has set on an element. *)
Definition backgroundImage (e : Dom.Element) : string :=
  Dom.s_backgroundImage (Dom.style e).
Definition display (e : Dom.Element) : string :=
  Dom.s_display (Dom.style e).

(** The file button is detached: it has no parent and the wrapper does not
    list it among its children. *)
Definition button_detached (u : Ui.t) (w : World) : Prop :=
  Dom.parentNode <$> dom w !! Ui.fileButton (Ui.nodes u) = Some None
  /\ forall pe, dom w !! Ui.wrapper (Ui.nodes u) = Some pe ->
                ~ In (Ui.fileButton (Ui.nodes u)) (Dom.children pe).

(** Further blocks used as examples. *)
Module Episode.

(** The picture of the uploaded block fails to load, and the browser
    delivers the error event to node 5. *)
Definition failed : ImageTool.t * World :=
  ImageTool.run [ImageTool.ElementEvent 5 "error" 0%Q] Scenario.uploaded.

End Episode.

(** The listeners [destroy] takes off, in the order it does: each entry is
    a node, an event name and a function object. *)
Definition removals (u : Ui.t) : list (Dom.NodeId * (string * Dom.FunId)) :=
  match Ui.imageEl (Ui.nodes u) with
  | Some el =>
      match Ui.imageLoadHandler u with
      | Some h => [(el, ("load", h)); (el, ("loadeddata", h))]
      | None => []
      end
      ++ match Ui.imageErrorHandler u with
         | Some h => [(el, ("error", h))]
         | None => []
         end
  | None => []
  end
  ++ match Ui.fileButtonHandler u with
     | Some h => [(Ui.fileButton (Ui.nodes u), ("click", h))]
     | None => []
     end
  ++ List.map (fun p => (fst p, ("mousedown", snd p))) (Ui.resizeHandlers u).

(** The listener [l] of node [j] is among those of the list [rs]. *)
Definition removed_by (rs : list (Dom.NodeId * (string * Dom.FunId)))
    (j : Dom.NodeId) (l : string * Dom.FunId) : bool :=
  existsb (fun r => Nat.eqb (fst r) j
                    && Dom.same_listener (fst (snd r)) (snd (snd r)) l) rs.

(** The object as [destroy] leaves it. *)
Definition cleared (u : Ui.t) : Ui.t :=
  Ui.with_fileButtonHandler None
    (Ui.with_imageErrorHandler None
       (Ui.with_imageLoadHandler None (Ui.with_resizeHandlers [] u))).

(** Take the listeners of the list [rs] off their nodes, one after the
    other. *)
Definition remove_all (rs : list (Dom.NodeId * (string * Dom.FunId))) (w : World) : World :=
  fold_left
    (fun w r => on_el (fst r) (Dom.removeEventListener (fst (snd r)) (snd (snd r))) w)
    rs w.


(** From [w] to [w'] nothing was said to the host, the console or the
    uploader, nothing was raised and the listeners of the document are the
    same. *)
Definition same_log (w w' : World) : Prop :=
  notifications w' = notifications w
  /\ console w' = console w
  /\ uncaught w' = uncaught w
  /\ uploaderCalls w' = uploaderCalls w
  /\ documentListeners w' = documentListeners w.

(** The wrapper shows one state and no other. *)
Definition one_state (u : Ui.t) (w : World) : Prop :=
  exists st, Ui.shown u w = [st].

(** The element [j] is hidden by its inline style. *)
Definition hidden (j : Dom.NodeId) (w : World) : Prop :=
  display <$> dom w !! j = Some "none".

(** What an element is, apart from its state: its tag, the attributes and
    data assigned to it and its markup. *)
Definition identity (e : Dom.Element)
  : string * list (string * Dom.PropValue) * list (string * string) * string :=
  (Dom.tagName e, Dom.props e, Dom.dataset e, Dom.innerHTML e).

(** The node [j] holds an element that is what [e0] is and has no
    listener that [e0] does not have. *)
Definition same_element (j : Dom.NodeId) (e0 : Dom.Element) (w : World) : Prop :=
  exists e, dom w !! j = Some e
            /\ identity e = identity e0
            /\ incl (Dom.listeners e) (Dom.listeners e0).

(** The file button can no longer start anything: it has no listener. *)
Definition button_dead (u : Ui.t) (w : World) : Prop :=
  Dom.listeners <$> dom w !! Ui.fileButton (Ui.nodes u) = Some [].

(** The file button has at most its click listener, and the object knows
    that listener. *)
Definition button_tracked (u : Ui.t) (w : World) : Prop :=
  button_dead u w
  \/ exists h e,
       Ui.fileButtonHandler u = Some h
       /\ dom w !! Ui.fileButton (Ui.nodes u) = Some e
       /\ incl (Dom.listeners e) [("click", h)].

(** An error raised by a read of a property of [undefined]. *)
Definition is_TypeError (e : Js.Error) : Prop := exists msg, e = Js.TypeError msg.

(** The block whose constructor created the nodes [n] to [n + 4] is well
    placed: it still has these nodes, its image element is a later node,
    the parent of its caption is a node of the document, its file button
    hangs below the wrapper or nowhere (nowhere in a read-only block), and
    all that was raised since the errors [U0] are TypeErrors. *)
Definition well_placed (n : nat) (U0 : list Js.Error) (u : Ui.t) (w : World) : Prop :=
  Ui.nodes u
  = Ui.mkNodes n (n + 1) (n + 2) (Ui.imageEl (Ui.nodes u)) (n + 3) (n + 4)
  /\ (n + 5 <= length (dom w))%nat
  /\ (forall el, Ui.imageEl (Ui.nodes u) = Some el -> (n + 5 <= el)%nat)
  /\ (forall e pc, dom w !! (n + 4)%nat = Some e -> Dom.parentNode e = Some pc ->
        (pc < length (dom w))%nat)
  /\ (Dom.parentNode <$> dom w !! (n + 2)%nat = Some None
      \/ (Ui.readOnly u = false
          /\ Dom.parentNode <$> dom w !! (n + 2)%nat = Some (Some n)))
  /\ exists errs, uncaught w = U0 ++ errs /\ Forall is_TypeError errs.

(* ===================================================================== *)
(** ** Facts about the primitives *)
(* ===================================================================== *)

Section JsFacts.

Example trim_ex : Js.trim "  a b	 " = "a b".
Proof. reflexivity. Qed.
Example parseInt_ex1 : Js.parseInt " 800px" = Some 800.
Proof. reflexivity. Qed.
Example parseInt_ex2 : Js.parseInt "px" = None.
Proof. reflexivity. Qed.
Example parseInt_ex3 : Js.parseInt "-12.5" = Some (-12).
Proof. reflexivity. Qed.
Example String_ex : Js.String_ 300 = "300".
Proof. reflexivity. Qed.
Example String_ex0 : Js.String_ 0 = "0".
Proof. reflexivity. Qed.
Example test_mp4_ex1 : Js.test_mp4 "https://x/clip.mp4" = true.
Proof. reflexivity. Qed.
Example test_mp4_ex2 : Js.test_mp4 "https://x/clip.mp4?x=1" = false.
Proof. reflexivity. Qed.


Lemma max_ge_l (a b : Q) : (a <= Js.max a b)%Q.
Proof.
  unfold Js.max. destruct (Qle_bool b a) eqn:E.
  - apply Qle_refl.
  - apply Qlt_le_weak, Qnot_le_lt. intros H.
    apply Qle_bool_iff in H. congruence.
Qed.

Lemma max_ge_r (a b : Q) : (b <= Js.max a b)%Q.
Proof.
  unfold Js.max. destruct (Qle_bool b a) eqn:E.
  - now apply Qle_bool_iff.
  - apply Qle_refl.
Qed.

Lemma max_cases (a b : Q) : Js.max a b = a \/ Js.max a b = b.
Proof. unfold Js.max. destruct (Qle_bool b a); auto. Qed.

Lemma max_lt_r (a b : Q) : (a < b)%Q -> Js.max a b = b.
Proof.
  intros H. unfold Js.max. destruct (Qle_bool b a) eqn:E; [|reflexivity].
  apply Qle_bool_iff in E. exfalso. exact (Qlt_not_le _ _ H E).
Qed.

Lemma String_not_zero (n : Z) : 0 < n -> Js.String_ n <> "0".
Proof.
  intros Hn H. unfold Js.String_ in H.
  assert (Hd : Z.to_int n <> Decimal.Pos Decimal.Nil).
  { intros E. apply (f_equal Z.of_int) in E. rewrite DecimalZ.of_to in E.
    cbn in E. lia. }
  assert (Hd' : Z.to_int n <> Decimal.Neg Decimal.Nil).
  { intros E. apply (f_equal Z.of_int) in E. rewrite DecimalZ.of_to in E.
    cbn in E. lia. }
  pose proof (NilZero.isi _ Hd Hd') as E. rewrite H in E. cbn in E.
  injection E as E. apply (f_equal Z.of_int) in E.
  rewrite DecimalZ.of_to in E. cbn in E. lia.
Qed.

Lemma trimStart_white (s : string) : all_white s = true -> Js.trimStart s = "".
Proof.
  unfold all_white. induction s as [|c r IH]; [reflexivity|].
  cbn [list_ascii_of_string forallb Js.trimStart].
  destruct (Js.isWhiteSpace c); [exact IH | discriminate].
Qed.

Lemma trimStart_black (s : string) :
  all_white s = false ->
  exists c r, Js.trimStart s = String c r /\ Js.isWhiteSpace c = false.
Proof.
  unfold all_white. induction s as [|c r IH]; [discriminate|].
  cbn [list_ascii_of_string forallb Js.trimStart].
  destruct (Js.isWhiteSpace c) eqn:E; [exact IH|].
  intros _. now exists c, r.
Qed.

Lemma trimEnd_empty (t : string) : Js.trimEnd t = "" <-> all_white t = true.
Proof.
  unfold all_white. induction t as [|c r IH]; [easy|].
  cbn [list_ascii_of_string forallb Js.trimEnd].
  destruct (Js.trimEnd r) eqn:E.
  - destruct IH as [IH _]. rewrite IH by reflexivity.
    destruct (Js.isWhiteSpace c); easy.
  - destruct (forallb Js.isWhiteSpace (list_ascii_of_string r)).
    + destruct IH as [_ IH]. now specialize (IH eq_refl).
    + rewrite andb_false_r. easy.
Qed.

Lemma trim_empty (s : string) : Js.trim s = "" <-> all_white s = true.
Proof.
  unfold Js.trim. destruct (all_white s) eqn:E.
  - now rewrite trimStart_white.
  - destruct (trimStart_black s E) as (c & r & -> & Hc).
    rewrite trimEnd_empty. unfold all_white.
    cbn [list_ascii_of_string forallb]. now rewrite Hc.
Qed.

(** [isNotEmpty] in terms of the characters of its argument. *)
Lemma isNotEmpty_all_white (s : string) :
  ImageTool.isNotEmpty (Some s) = negb (all_white s).
Proof.
  unfold ImageTool.isNotEmpty.
  destruct (String.eqb_spec (Js.trim s) "") as [H|H].
  - apply trim_empty in H. now rewrite H.
  - destruct (all_white s) eqn:W; [|reflexivity].
    apply trim_empty in W. contradiction.
Qed.

(** The constructor's expression for [showCaption] is the decision of the
    specification. *)
Lemma caption_decision_code (ro : bool) (data : ImageToolData.t) :
  negb ro || ImageTool.isNotEmpty (ImageToolData.caption data)
  = caption_decision ro data.
Proof.
  unfold caption_decision. destruct (ImageToolData.caption data) as [s|]; [|reflexivity].
  rewrite isNotEmpty_all_white.
  destruct s as [|c r]; [destruct ro; reflexivity|].
  reflexivity.
Qed.

(** A source with an opening parenthesis after plain characters is not
    plain. *)
Lemma plain_url_paren (p r : string) :
  Dom.plain_url (p ++ "(" ++ r) = false.
Proof.
  unfold Dom.plain_url. induction p as [|c p IH]; [reflexivity|].
  cbn [String.append list_ascii_of_string forallb]. cbn [String.append] in IH.
  rewrite IH. apply andb_false_r.
Qed.

End JsFacts.

Section DomFacts.

Implicit Types (w : World) (d : Dom.Document) (e : Dom.Element).

Lemma on_el_length i f w : length (dom (on_el i f w)) = length (dom w).
Proof. apply length_alter. Qed.

Lemma on_el_lookup_eq i f w : dom (on_el i f w) !! i = f <$> dom w !! i.
Proof. apply list_lookup_alter_eq. Qed.

Lemma on_el_lookup_ne i f w j : i <> j -> dom (on_el i f w) !! j = dom w !! j.
Proof. apply list_lookup_alter_ne. Qed.

Lemma alter_view {A : Type} (g : Dom.Element -> A) f i d j :
  same_on g f -> g <$> alter f i d !! j = g <$> d !! j.
Proof.
  intros Hf. destruct (decide (i = j)) as [->|Hne].
  - rewrite list_lookup_alter_eq. destruct (d !! j); cbn; [|reflexivity].
    now rewrite Hf.
  - now rewrite list_lookup_alter_ne.
Qed.

Lemma on_el_view {A : Type} (g : Dom.Element -> A) i f w j :
  same_on g f -> g <$> dom (on_el i f w) !! j = g <$> dom w !! j.
Proof. apply alter_view. Qed.

Lemma detach_length c d : length (Dom.detach c d) = length d.
Proof.
  unfold Dom.detach. destruct (d !! c) as [e|]; [|reflexivity].
  destruct (Dom.parentNode e); [|reflexivity].
  now rewrite !length_alter.
Qed.

Lemma detach_view {A : Type} (g : Dom.Element -> A) c d j :
  (forall v, same_on g (Dom.with_parentNode v)) ->
  (forall v, same_on g (Dom.with_children v)) ->
  g <$> Dom.detach c d !! j = g <$> d !! j.
Proof.
  intros Hp Hc. unfold Dom.detach. destruct (d !! c) as [e|]; [|reflexivity].
  destruct (Dom.parentNode e); [|reflexivity].
  rewrite alter_view by apply Hp. apply alter_view. intros x. apply Hc.
Qed.

Lemma appendChild_length p c w : length (dom (appendChild p c w)) = length (dom w).
Proof.
  unfold appendChild, Dom.appendChild. cbn.
  now rewrite !length_alter, detach_length.
Qed.

Lemma appendChild_view {A : Type} (g : Dom.Element -> A) p c w j :
  (forall v, same_on g (Dom.with_parentNode v)) ->
  (forall v, same_on g (Dom.with_children v)) ->
  g <$> dom (appendChild p c w) !! j = g <$> dom w !! j.
Proof.
  intros Hp Hc. unfold appendChild, Dom.appendChild. cbn.
  rewrite alter_view by apply Hp.
  rewrite alter_view by (intros x; apply Hc).
  now apply detach_view.
Qed.

(** The parent of a node other than the appended one does not change. *)
Lemma appendChild_parent_ne p c w j :
  c <> j ->
  Dom.parentNode <$> dom (appendChild p c w) !! j = Dom.parentNode <$> dom w !! j.
Proof.
  intros Hne. unfold appendChild, Dom.appendChild. cbn.
  rewrite list_lookup_alter_ne by exact Hne.
  rewrite alter_view by (intros x; reflexivity).
  unfold Dom.detach. destruct (dom w !! c) as [e|]; [|reflexivity].
  destruct (Dom.parentNode e); [|reflexivity].
  rewrite list_lookup_alter_ne by exact Hne.
  apply alter_view. intros x. reflexivity.
Qed.

(** The appended node gets its new parent. *)
Lemma appendChild_parent p c w :
  is_Some (dom w !! c) ->
  Dom.parentNode <$> dom (appendChild p c w) !! c = Some (Some p).
Proof.
  intros [e He]. unfold appendChild, Dom.appendChild. cbn.
  rewrite (list_lookup_alter_eq (Dom.with_parentNode (Some p))).
  match goal with
  | |- context [ ?l !! c ] => assert (H : is_Some (l !! c))
  end.
  { apply lookup_lt_is_Some. rewrite length_alter, detach_length.
    eapply lookup_lt_Some, He. }
  destruct H as [x ->]. reflexivity.
Qed.

(** The appended node is among the children of its new parent. *)
Lemma appendChild_children p c w :
  is_Some (dom w !! p) ->
  exists pe, dom (appendChild p c w) !! p = Some pe /\ In c (Dom.children pe).
Proof.
  intros [e He]. unfold appendChild, Dom.appendChild. cbn.
  assert (H : is_Some (Dom.detach c (dom w) !! p)).
  { apply lookup_lt_is_Some. rewrite detach_length. eapply lookup_lt_Some, He. }
  destruct H as [x Hx].
  destruct (decide (c = p)) as [->|Hne].
  - rewrite (list_lookup_alter_eq (Dom.with_parentNode (Some p))).
    rewrite list_lookup_alter_eq, Hx. cbn.
    eexists. split; [reflexivity|]. cbn. apply in_or_app. right. now left.
  - rewrite list_lookup_alter_ne by exact Hne.
    rewrite list_lookup_alter_eq, Hx. cbn.
    eexists. split; [reflexivity|]. cbn. apply in_or_app. right. now left.
Qed.

End DomFacts.

(* ===================================================================== *)
(** ** [validate] *)
(* ===================================================================== *)

Section Validate.

Import ImageToolData.

(** C9.  When the saved data holds a file object, [validate] returns false
    if the object has no [url] or an empty one, and true if its [url] is a
    non-empty string, whatever the other fields are; so it is false for
    [{file: {}}] and [{file: {url: ""}}] and true for
    [{file: {url: "https://x/y.png"}}]. *)
Theorem validate_file_object (c h wd : option string) (extra : list (string * string)) :
  ImageTool.validate (mk c h wd (Some (FileData.mk None extra))) = Js.Ok false
  /\ ImageTool.validate (mk c h wd (Some (FileData.mk (Some "") extra))) = Js.Ok false
  /\ (forall a s,
        ImageTool.validate (mk c h wd (Some (FileData.mk (Some (String a s)) extra)))
        = Js.Ok true)
  /\ ImageTool.validate (mk None None None (Some (FileData.mk (Some "https://x/y.png") [])))
     = Js.Ok true.
Proof. repeat split. Qed.

(** C10.  [validate] is not total: on data without a [file] field, the empty
    object among them, the access to [url] throws a type error, so no
    boolean is returned, false included. *)
Theorem validate_faults_without_file (c h wd : option string) :
  (exists msg, ImageTool.validate (mk c h wd None) = Js.Throw (Js.TypeError msg))
  /\ ImageTool.validate (mk c h wd None) <> Js.Ok false
  /\ exists msg, ImageTool.validate Scenario.noData = Js.Throw (Js.TypeError msg).
Proof.
  split; [|split].
  - eexists. reflexivity.
  - discriminate.
  - eexists. reflexivity.
Qed.

End Validate.

(* ===================================================================== *)
(** ** [save] *)
(* ===================================================================== *)

Section Save.

Import ImageToolData.

Implicit Types (this : ImageTool.t) (w : World).

Lemma currentWidth_no_element this w :
  Ui.imageEl (Ui.nodes (ImageTool.ui this)) = None ->
  ImageTool.currentWidth this w = 0 /\ ImageTool.currentHeight this w = 0.
Proof.
  intros H. unfold ImageTool.currentWidth, ImageTool.currentHeight.
  now rewrite H.
Qed.

Lemma save_unsized this w :
  ImageTool.currentWidth this w <= 0 \/ ImageTool.currentHeight this w <= 0 ->
  width (fst (ImageTool.save this w)) = width (ImageTool._data this)
  /\ height (fst (ImageTool.save this w)) = height (ImageTool._data this).
Proof.
  intros H. unfold ImageTool.save.
  assert (E : (0 <? ImageTool.currentWidth this w)
              && (0 <? ImageTool.currentHeight this w) = false).
  { apply andb_false_iff. rewrite !Z.ltb_ge. exact H. }
  rewrite E. split; reflexivity.
Qed.

Lemma save_sized this w :
  0 < ImageTool.currentWidth this w -> 0 < ImageTool.currentHeight this w ->
  width (fst (ImageTool.save this w)) = Some (Js.String_ (ImageTool.currentWidth this w))
  /\ height (fst (ImageTool.save this w)) = Some (Js.String_ (ImageTool.currentHeight this w)).
Proof.
  intros Hw Hh. unfold ImageTool.save.
  apply Z.ltb_lt in Hw, Hh. rewrite Hw, Hh. split; reflexivity.
Qed.

Lemma save_stores this w :
  ImageTool._data (snd (ImageTool.save this w)) = fst (ImageTool.save this w).
Proof. reflexivity. Qed.

(** [save] reads the layout of the media element only. *)
Lemma save_ignores_other_layout this w c l :
  Ui.imageEl (Ui.nodes (ImageTool.ui this)) <> Some c ->
  ImageTool.save this (on_el c (Dom.with_layout l) w) = ImageTool.save this w.
Proof.
  intros Hc. unfold ImageTool.save, ImageTool.currentWidth, ImageTool.currentHeight.
  destruct (Ui.imageEl (Ui.nodes (ImageTool.ui this))) as [el|] eqn:E; cbn [mbind option_bind].
  - rewrite (on_el_lookup_ne c _ w el) by congruence.
    rewrite (on_el_view Dom.textContent) by (intros x; reflexivity).
    reflexivity.
  - rewrite (on_el_view Dom.textContent) by (intros x; reflexivity).
    reflexivity.
Qed.

(** C1.  A call of [save] while the media element is missing, or reports a
    rendered width or height of zero, leaves the stored [width] and [height]
    as they were, absent or not; the two fields change only when both
    rendered sizes are above zero, and what is written then is never the
    pair of zeros. *)
Theorem save_dimension_guard this w :
  let d := fst (ImageTool.save this w) in
  let cw := ImageTool.currentWidth this w in
  let ch := ImageTool.currentHeight this w in
  (Ui.imageEl (Ui.nodes (ImageTool.ui this)) = None -> cw = 0 /\ ch = 0)
  /\ (cw <= 0 \/ ch <= 0 ->
      width d = width (ImageTool._data this)
      /\ height d = height (ImageTool._data this))
  /\ (width d <> width (ImageTool._data this)
      \/ height d <> height (ImageTool._data this) ->
      0 < cw /\ 0 < ch)
  /\ (0 < cw /\ 0 < ch ->
      width d = Some (Js.String_ cw) /\ height d = Some (Js.String_ ch)
      /\ width d <> Some "0" /\ height d <> Some "0").
Proof.
  cbn zeta. split; [|split; [|split]].
  - apply currentWidth_no_element.
  - apply save_unsized.
  - intros Hchg.
    destruct (Z_lt_le_dec 0 (ImageTool.currentWidth this w)) as [Hw|Hw];
      destruct (Z_lt_le_dec 0 (ImageTool.currentHeight this w)) as [Hh|Hh];
      try (split; assumption);
      exfalso;
      (destruct (save_unsized this w) as [E1 E2]; [auto|]);
      destruct Hchg as [N|N]; apply N; assumption.
  - intros [Hw Hh]. destruct (save_sized this w Hw Hh) as [E1 E2].
    rewrite E1, E2. repeat split.
    + intros [= H]. exact (String_not_zero _ Hw H).
    + intros [= H]. exact (String_not_zero _ Hh H).
Qed.

(** The guard at work: the collapsed picture keeps the sizes saved
    before. *)
Lemma save_dimension_guard_witness :
  ImageTool.currentWidth (fst Scenario.collapsed) (snd Scenario.collapsed) = 0
  /\ width (fst (ImageTool.save (fst Scenario.collapsed) (snd Scenario.collapsed)))
     = Some "300"
  /\ height (fst (ImageTool.save (fst Scenario.collapsed) (snd Scenario.collapsed)))
     = Some "200".
Proof.
  split; [reflexivity|].
  destruct (save_dimension_guard (fst Scenario.collapsed) (snd Scenario.collapsed))
    as (_ & H & _).
  destruct H as [E1 E2].
  - left. vm_compute. discriminate.
  - rewrite E1, E2. split; reflexivity.
Defined.

(** C2, as the code has it.  A call of [save] while the media element
    reports a rendered width [p] and height [h], both above zero, stores
    [String(p)] in [width] and [String(h)] in [height]: the pixel sizes
    themselves.  No other element's layout, the container's included, enters
    the result. *)
Theorem save_writes_pixels this w :
  0 < ImageTool.currentWidth this w ->
  0 < ImageTool.currentHeight this w ->
  width (fst (ImageTool.save this w)) = Some (Js.String_ (ImageTool.currentWidth this w))
  /\ height (fst (ImageTool.save this w)) = Some (Js.String_ (ImageTool.currentHeight this w))
  /\ forall c l,
       Ui.imageEl (Ui.nodes (ImageTool.ui this)) <> Some c ->
       ImageTool.save this (on_el c (Dom.with_layout l) w) = ImageTool.save this w.
Proof.
  intros Hw Hh. destruct (save_sized this w Hw Hh) as [E1 E2].
  repeat split; try assumption.
  intros c l Hc. now apply save_ignores_other_layout.
Qed.

Lemma save_writes_pixels_witness :
  width (fst (ImageTool.save (fst Scenario.loaded) (snd Scenario.loaded))) = Some "300"
  /\ height (fst (ImageTool.save (fst Scenario.loaded) (snd Scenario.loaded))) = Some "200".
Proof.
  destruct (save_writes_pixels (fst Scenario.loaded) (snd Scenario.loaded))
    as (E1 & E2 & _).
  - vm_compute. reflexivity.
  - vm_compute. reflexivity.
  - rewrite E1, E2. split; reflexivity.
Defined.

(** C2, as the specification words it, fails: the picture laid out 300
    pixels wide in a block 600 pixels wide is saved with width 300, not 50,
    and with a height. *)
Lemma save_percent_counterexample :
  ImageTool.currentWidth (fst Scenario.loaded) (snd Scenario.loaded) = 300
  /\ (Dom.clientWidth <$> (Dom.layout <$> dom (snd Scenario.loaded) !! 0%nat)) = Some 600
  /\ spec_percent_width 300 600 = "50"
  /\ ~ spec_percent_save
         (fst (ImageTool.save (fst Scenario.loaded) (snd Scenario.loaded))) 300 600.
Proof.
  split; [reflexivity|]. split; [reflexivity|]. split; [reflexivity|].
  intros [Hw Hh]. vm_compute in Hh. discriminate.
Qed.

End Save.

(* ===================================================================== *)
(** ** The state classes of the wrapper *)
(* ===================================================================== *)

Section Status.

Implicit Types (w : World) (e : Dom.Element) (this : Ui.t).

Lemma contains_add c c' e :
  Dom.classList_contains c (Dom.classList_add c' e)
  = String.eqb c c' || Dom.classList_contains c e.
Proof.
  unfold Dom.classList_contains, Dom.classList_add.
  destruct (existsb (String.eqb c') (Dom.classList e)) eqn:E.
  - destruct (String.eqb_spec c c') as [->|]; [|reflexivity].
    now rewrite E.
  - cbn. rewrite existsb_app. cbn. rewrite orb_false_r. apply orb_comm.
Qed.

Lemma contains_remove c c' e :
  Dom.classList_contains c (Dom.classList_remove c' e)
  = negb (String.eqb c c') && Dom.classList_contains c e.
Proof.
  unfold Dom.classList_contains, Dom.classList_remove. cbn.
  induction (Dom.classList e) as [|x l IH]; cbn.
  - now rewrite andb_false_r.
  - destruct (String.eqb_spec c' x) as [->|Hne]; cbn.
    + rewrite IH. destruct (String.eqb_spec c x); cbn; reflexivity.
    + rewrite IH. destruct (String.eqb_spec c x) as [->|]; cbn; [|reflexivity].
      destruct (String.eqb_spec x c'); [congruence|reflexivity].
Qed.

Lemma contains_toggle c c' b e :
  Dom.classList_contains c (Dom.classList_toggle c' b e)
  = if String.eqb c c' then b else Dom.classList_contains c e.
Proof.
  unfold Dom.classList_toggle. destruct b.
  - rewrite contains_add. destruct (String.eqb c c'); reflexivity.
  - rewrite contains_remove. destruct (String.eqb c c'); reflexivity.
Qed.

Lemma shown_flags this w w' :
  statusFlags <$> dom w' !! Ui.wrapper (Ui.nodes this)
  = statusFlags <$> dom w !! Ui.wrapper (Ui.nodes this) ->
  Ui.shown this w' = Ui.shown this w.
Proof.
  intros H. unfold Ui.shown.
  destruct (dom w' !! Ui.wrapper (Ui.nodes this)) as [e'|],
           (dom w !! Ui.wrapper (Ui.nodes this)) as [e|]; cbn in H; try discriminate;
    [|reflexivity].
  injection H as H1 H2 H3. cbn. now rewrite H1, H2, H3.
Qed.

Lemma toggleStatus_length status this w :
  length (dom (Ui.toggleStatus status this w)) = length (dom w).
Proof. unfold Ui.toggleStatus. cbn [fold_left]. now rewrite !on_el_length. Qed.

Lemma toggleStatus_view {A : Type} (g : Dom.Element -> A) status this w j :
  (forall c b, same_on g (Dom.classList_toggle c b)) ->
  g <$> dom (Ui.toggleStatus status this w) !! j = g <$> dom w !! j.
Proof.
  intros Hg. unfold Ui.toggleStatus. cbn [fold_left].
  now rewrite !on_el_view by apply Hg.
Qed.

Lemma toggleStatus_flags status this w :
  statusFlags <$> dom (Ui.toggleStatus status this w) !! Ui.wrapper (Ui.nodes this)
  = (fun _ => flags_of status) <$> dom w !! Ui.wrapper (Ui.nodes this).
Proof.
  unfold Ui.toggleStatus. cbn [fold_left]. rewrite !on_el_lookup_eq.
  destruct (dom w !! Ui.wrapper (Ui.nodes this)) as [e|]; [|reflexivity].
  cbn. f_equal. unfold statusFlags. cbn [List.map].
  rewrite !contains_toggle. destruct status; reflexivity.
Qed.

(** After [toggleStatus(status)] the wrapper shows [status] and nothing
    else. *)
Lemma toggleStatus_shown status this w :
  is_Some (dom w !! Ui.wrapper (Ui.nodes this)) ->
  Ui.shown this (Ui.toggleStatus status this w) = [status].
Proof.
  intros [e He]. pose proof (toggleStatus_flags status this w) as H.
  rewrite He in H. unfold Ui.shown.
  destruct (dom (Ui.toggleStatus status this w) !! Ui.wrapper (Ui.nodes this)) as [e'|];
    [|discriminate].
  cbn in H. injection H as H1 H2 H3. cbn. rewrite H1, H2, H3.
  destruct status; reflexivity.
Qed.

Lemma toggle_same_style c b : same_on Dom.style (Dom.classList_toggle c b).
Proof.
  intros e. unfold Dom.classList_toggle, Dom.classList_add, Dom.classList_remove.
  destruct b; [|reflexivity].
  destruct (existsb _ _); reflexivity.
Qed.

Lemma toggle_same_layout c b : same_on Dom.layout (Dom.classList_toggle c b).
Proof.
  intros e. unfold Dom.classList_toggle, Dom.classList_add, Dom.classList_remove.
  destruct b; [|reflexivity].
  destruct (existsb _ _); reflexivity.
Qed.

Lemma add_same_style c : same_on Dom.style (Dom.classList_add c).
Proof. exact (toggle_same_style c true). Qed.

Lemma add_same_layout c : same_on Dom.layout (Dom.classList_add c).
Proof. exact (toggle_same_layout c true). Qed.

Lemma add_loaded_same_flags : same_on statusFlags (Dom.classList_add "loaded").
Proof. intros e. unfold statusFlags. cbn [List.map]. now rewrite !contains_add. Qed.

End Status.

(* ===================================================================== *)
(** ** [resizeImage] *)
(* ===================================================================== *)

Section Resize.

Implicit Types (w : World) (e : Dom.Element) (this : Ui.t).

(** The displayed element after a move event of an active drag. *)
Lemma resizeImage_lookup this w el e clientX align :
  Ui.isResizing this = true ->
  Ui.imageEl (Ui.nodes this) = Some el ->
  dom w !! el = Some e ->
  dom (Ui.resizeImage clientX align this w) !! el
  = Some (Dom.with_style
            (Dom.with_s_height (Some Dom.Auto)
               (Dom.with_s_width
                  (Some (Dom.Px
                     (Js.max
                        (Dom.r_width (Dom.boundingClientRect (Dom.layout e))
                         + match align with
                           | ALeft => Dom.r_left (Dom.boundingClientRect (Dom.layout e)) - clientX
                           | ARight => clientX - Dom.r_right (Dom.boundingClientRect (Dom.layout e))
                           end) 30)%Q))
                  (Dom.style e))) e).
Proof.
  intros Hr Hel He. unfold Ui.resizeImage. rewrite Hr, Hel, He.
  rewrite on_el_lookup_eq, He. reflexivity.
Qed.

(** A move event while no drag is active changes nothing. *)
Lemma resizeImage_idle this w clientX align :
  Ui.isResizing this = false -> Ui.resizeImage clientX align this w = w.
Proof. intros H. unfold Ui.resizeImage. now rewrite H. Qed.

(** C4.  A move event during an active drag on a displayed element, image or
    video alike, sets the element's width style to
    [max(rect.width + offset, 30)] pixels and its height style to [auto],
    where [offset] is [rect.left - pointerX] for the left handle and
    [pointerX - rect.right] for the right one; a width that would fall below
    30 becomes exactly 30.  The listener of the move event does just
    this. *)
Theorem resizeImage_width this w el e (clientX : Q) (align : Align) :
  Ui.isResizing this = true ->
  Ui.imageEl (Ui.nodes this) = Some el ->
  dom w !! el = Some e ->
  let rect := Dom.boundingClientRect (Dom.layout e) in
  let offset :=
    match align with
    | ALeft => (Dom.r_left rect - clientX)%Q
    | ARight => (clientX - Dom.r_right rect)%Q
    end in
  let newWidth := Js.max (Dom.r_width rect + offset)%Q 30%Q in
  (exists e',
      dom (Ui.resizeImage clientX align this w) !! el = Some e'
      /\ Dom.s_width (Dom.style e') = Some (Dom.Px newWidth)
      /\ Dom.s_height (Dom.style e') = Some Dom.Auto
      /\ Dom.tagName e' = Dom.tagName e)
  /\ (30 <= newWidth)%Q
  /\ (Dom.r_width rect + offset <= newWidth)%Q
  /\ (newWidth = (Dom.r_width rect + offset)%Q \/ newWidth = 30%Q)
  /\ ((Dom.r_width rect + offset < 30)%Q -> newWidth = 30%Q)
  /\ (forall f, funs w !! f = Some (OnMouseMove align) ->
        Ui.call f clientX this w = (this, Ui.resizeImage clientX align this w)).
Proof.
  intros Hr Hel He. cbn zeta. split; [|split; [|split; [|split; [|split]]]].
  - eexists. split; [apply (resizeImage_lookup _ _ _ _ _ _ Hr Hel He)|].
    destruct align; repeat split.
  - apply max_ge_r.
  - apply max_ge_l.
  - apply max_cases.
  - apply max_lt_r.
  - intros f Hf. unfold Ui.call. now rewrite Hf.
Qed.

(** Dragging the right handle of the 300 pixel picture 40 pixels to the
    right makes it 340 pixels wide. *)
Lemma resizeImage_width_witness :
  exists e',
    dom (Ui.resizeImage 490 ARight (ImageTool.ui (fst Scenario.dragging))
           (snd Scenario.dragging)) !! 5%nat = Some e'
    /\ Dom.s_width (Dom.style e') = Some (Dom.Px (Js.max (300 + (490 - 450)) 30)%Q)
    /\ Dom.s_height (Dom.style e') = Some Dom.Auto.
Proof.
  destruct (resizeImage_width (ImageTool.ui (fst Scenario.dragging))
              (snd Scenario.dragging) 5%nat
              (Dom.mkElement "IMG"
                 ["image-tool__image-picture"; "resizable-image"; "loaded"]
                 [("src", Dom.PStr "https://x/y.png"); ("loading", Dom.PStr "lazy");
                  ("decoding", Dom.PStr "async")]
                 [] (Dom.mkStyle None None "" "") "" ""
                 [("load", 1%nat); ("error", 2%nat)] (Some 7%nat) []
                 (Dom.mkLayout 300 200 (Dom.mkRect 150 450 300) (Some 600) (Some 400)
                    None None))
              490%Q ARight) as [(e' & H1 & H2 & H3 & _) _].
  - reflexivity.
  - reflexivity.
  - reflexivity.
  - exists e'. repeat split; assumption.
Defined.

End Resize.

(* ===================================================================== *)
(** ** Failed uploads *)
(* ===================================================================== *)

Section UploadFailure.

Implicit Types (w : World) (this : ImageTool.t).

Lemma hidePreloader_shown u w :
  is_Some (dom w !! Ui.wrapper (Ui.nodes u)) ->
  Ui.shown u (Ui.hidePreloader u w) = [Ui.Empty].
Proof.
  intros [e He]. unfold Ui.hidePreloader. apply toggleStatus_shown.
  apply lookup_lt_is_Some. rewrite on_el_length. eapply lookup_lt_Some, He.
Qed.

Lemma hidePreloader_length u w :
  length (dom (Ui.hidePreloader u w)) = length (dom w).
Proof. unfold Ui.hidePreloader. now rewrite toggleStatus_length, on_el_length. Qed.

Lemma hidePreloader_view {A : Type} (g : Dom.Element -> A) u w j :
  (forall c b, same_on g (Dom.classList_toggle c b)) ->
  (forall v, same_on g (Dom.with_style v)) ->
  g <$> dom (Ui.hidePreloader u w) !! j = g <$> dom w !! j.
Proof.
  intros H1 H2. unfold Ui.hidePreloader.
  rewrite toggleStatus_view by exact H1.
  apply on_el_view. intros x. apply H2.
Qed.

Lemma hidePreloader_preview u w :
  is_Some (dom w !! Ui.imagePreloader (Ui.nodes u)) ->
  (fun e => Dom.s_backgroundImage (Dom.style e))
    <$> dom (Ui.hidePreloader u w) !! Ui.imagePreloader (Ui.nodes u) = Some "".
Proof.
  intros [e He]. unfold Ui.hidePreloader.
  rewrite (toggleStatus_view (fun e => Dom.s_backgroundImage (Dom.style e))).
  - rewrite on_el_lookup_eq, He. reflexivity.
  - intros c b x. cbn. now rewrite toggle_same_style.
Qed.

Lemma toggle_same_parent c b : same_on Dom.parentNode (Dom.classList_toggle c b).
Proof.
  intros e. unfold Dom.classList_toggle, Dom.classList_add, Dom.classList_remove.
  destruct b; [|reflexivity].
  destruct (existsb _ _); reflexivity.
Qed.

Lemma uploadingFailed_outcome errorText this w :
  nodes_present (ImageTool.ui this) w ->
  failure_outcome this w (ImageTool.uploadingFailed errorText this w).
Proof.
  intros (Hw & Hb & Hp & _). unfold failure_outcome, ImageTool.uploadingFailed.
  cbn [fst snd].
  set (w1 := with_notifications _ (with_console _ w)).
  assert (D : dom w1 = dom w) by reflexivity.
  assert (L : length (dom (Ui.hidePreloader (ImageTool.ui this) w1)) = length (dom w)).
  { now rewrite hidePreloader_length, D. }
  split; [|split; [|split; [|split; [|split]]]].
  - eexists. split.
    + unfold Ui.addFileButton.
      destruct (negb (Ui.readOnly (ImageTool.ui this))); cbn; reflexivity.
    + reflexivity.
  - rewrite <- (hidePreloader_shown (ImageTool.ui this) w1) by (now rewrite D).
    apply shown_flags.
    unfold Ui.addFileButton. destruct (negb (Ui.readOnly (ImageTool.ui this)));
      [|reflexivity].
    apply appendChild_view; intros v x; reflexivity.
  - rewrite <- (hidePreloader_preview (ImageTool.ui this) w1) by (now rewrite D).
    unfold Ui.addFileButton. destruct (negb (Ui.readOnly (ImageTool.ui this)));
      [|reflexivity].
    apply (appendChild_view (fun e => Dom.s_backgroundImage (Dom.style e)));
      intros v x; reflexivity.
  - intros Hro. unfold Ui.addFileButton. rewrite Hro. cbn [negb].
    split.
    + apply appendChild_parent. apply lookup_lt_is_Some. rewrite L.
      destruct Hb as [b Hb]. eapply lookup_lt_Some, Hb.
    + apply appendChild_children. apply lookup_lt_is_Some. rewrite L.
      destruct Hw as [b Hw]. eapply lookup_lt_Some, Hw.
  - intros Hro. unfold Ui.addFileButton. rewrite Hro. cbn [negb].
    rewrite (hidePreloader_view Dom.parentNode).
    + now rewrite D.
    + apply toggle_same_parent.
    + intros v x. reflexivity.
  - reflexivity.
Qed.

(** A response that fails the test of [onUpload] goes to
    [uploadingFailed]. *)
Lemma onUpload_failure (r : UploadResponseFormat.t) this w :
  UploadResponseFormat.well_formed r ->
  UploadResponseFormat.success r <> 1 \/ UploadResponseFormat.file r = None ->
  ImageTool.onUpload r this w
  = ImageTool.uploadingFailed ("incorrect response: " ++ ImageTool.stringify r)%string this w.
Proof.
  intros Hwf H. unfold ImageTool.onUpload.
  assert (E : Js.truthy_int (UploadResponseFormat.success r)
              && bool_decide (UploadResponseFormat.file r <> None) = false).
  { destruct r as [s f]. unfold UploadResponseFormat.well_formed in Hwf.
    cbn in *. destruct H as [H|H].
    - destruct Hwf as [E|E]; subst s; [reflexivity|congruence].
    - subst f. rewrite bool_decide_false by congruence. apply andb_false_r. }
  now rewrite E.
Qed.

(** C8, as the code has it.  For every response of the uploader whose
    success flag is not 1 or whose file is missing, and for every error
    reported by the transport: one error notification is shown, the wrapper
    goes to the state [Empty], the preview of the preloader is cleared, the
    stored file data is not replaced, and the file button is appended to the
    wrapper again unless the block is read-only; in a read-only block the
    button stays where it was. *)
Theorem upload_failure_restores this w :
  nodes_present (ImageTool.ui this) w ->
  (forall r : UploadResponseFormat.t,
      UploadResponseFormat.well_formed r ->
      UploadResponseFormat.success r <> 1 \/ UploadResponseFormat.file r = None ->
      failure_outcome this w (ImageTool.onUpload r this w)
      /\ ImageToolData.file (ImageTool._data (fst (ImageTool.onUpload r this w)))
         = ImageToolData.file (ImageTool._data this))
  /\ (forall error : string,
        failure_outcome this w (ImageTool.uploadingFailed error this w)
        /\ ImageToolData.file (ImageTool._data (fst (ImageTool.uploadingFailed error this w)))
           = ImageToolData.file (ImageTool._data this)).
Proof.
  intros Hn. split.
  - intros r Hwf Hr. rewrite (onUpload_failure r this w Hwf Hr).
    split; [now apply uploadingFailed_outcome|reflexivity].
  - intros error. split; [now apply uploadingFailed_outcome|reflexivity].
Qed.

(** An answer without success to the block that shows its preloader: the
    button is back below the wrapper. *)
Lemma upload_failure_restores_witness :
  let r := UploadResponseFormat.mk 0 None in
  let s' := ImageTool.onUpload r (fst Scenario.uploaded) (snd Scenario.uploaded) in
  length (notifications (snd s')) = S (length (notifications (snd Scenario.uploaded)))
  /\ Ui.shown (ImageTool.ui (fst s')) (snd s') = [Ui.Empty]
  /\ button_appended (ImageTool.ui (fst Scenario.uploaded)) (snd s').
Proof.
  cbn zeta.
  destruct (upload_failure_restores (fst Scenario.uploaded) (snd Scenario.uploaded))
    as [H _].
  - repeat split; vm_compute; eexists; reflexivity.
  - destruct (H (UploadResponseFormat.mk 0 None)) as [((n & N & _) & S & _ & B & _) _].
    + left. reflexivity.
    + left. cbn. lia.
    + split; [|split].
      * rewrite N. rewrite length_app. cbn. lia.
      * exact S.
      * apply B. reflexivity.
Defined.

(** C8, as stated, fails in a read-only block: after the failed upload the
    file button is not below the wrapper. *)
Lemma upload_failure_counterexample :
  let r := UploadResponseFormat.mk 0 None in
  let s' := ImageTool.onUpload r (fst Scenario.readOnlyBlock) (snd Scenario.readOnlyBlock) in
  UploadResponseFormat.success r <> 1
  /\ nodes_present (ImageTool.ui (fst Scenario.readOnlyBlock)) (snd Scenario.readOnlyBlock)
  /\ ~ button_appended (ImageTool.ui (fst Scenario.readOnlyBlock)) (snd s').
Proof.
  cbn zeta. split; [discriminate|]. split.
  - repeat split; vm_compute; eexists; reflexivity.
  - intros [H _]. vm_compute in H. discriminate.
Qed.

End UploadFailure.

(* ===================================================================== *)
(** ** What [fillImage] builds *)
(* ===================================================================== *)

Section Keeps.

Context {A : Type} (n : nat) (g : Dom.Element -> A).

Implicit Types (w : World).

Lemma keeps_refl w : keeps n g w w.
Proof. split; [lia|reflexivity]. Qed.

Lemma keeps_trans w1 w2 w3 : keeps n g w1 w2 -> keeps n g w2 w3 -> keeps n g w1 w3.
Proof.
  intros [L1 K1] [L2 K2]. split; [lia|].
  intros j Hj. now rewrite K2, K1.
Qed.

Lemma keeps_on_el w0 w i f :
  keeps n g w0 w -> same_on g f \/ (n <= i)%nat -> keeps n g w0 (on_el i f w).
Proof.
  intros K H. apply (keeps_trans _ _ _ K). split.
  - now rewrite on_el_length.
  - intros j Hj. destruct H as [H|H].
    + now apply on_el_view.
    + rewrite on_el_lookup_ne by lia. reflexivity.
Qed.

Lemma keeps_appendChild w0 w p c :
  keeps n g w0 w ->
  (forall v, same_on g (Dom.with_parentNode v)) ->
  (forall v, same_on g (Dom.with_children v)) ->
  keeps n g w0 (appendChild p c w).
Proof.
  intros K Hp Hc. apply (keeps_trans _ _ _ K). split.
  - now rewrite appendChild_length.
  - intros j Hj. now apply appendChild_view.
Qed.

Lemma keeps_snoc w0 w x :
  keeps n g w0 w -> (n <= length (dom w))%nat -> keeps n g w0 (with_dom (dom w ++ [x]) w).
Proof.
  intros K Hn. apply (keeps_trans _ _ _ K). split.
  - cbn. rewrite length_app. lia.
  - intros j Hj. cbn. rewrite lookup_app_l by lia. reflexivity.
Qed.

Lemma keeps_same_dom w0 w w' :
  keeps n g w0 w -> dom w' = dom w -> keeps n g w0 w'.
Proof. intros [L K] E. split; rewrite E; assumption. Qed.

End Keeps.

Lemma keeps_appendChild_parent n w0 w p c :
  keeps n Dom.parentNode w0 w -> (n <= c)%nat ->
  keeps n Dom.parentNode w0 (appendChild p c w).
Proof.
  intros K Hc. apply (keeps_trans _ _ _ _ _ K). split.
  - now rewrite appendChild_length.
  - intros j Hj. apply appendChild_parent_ne. lia.
Qed.

Section Make.

Implicit Types (w : World).

Lemma with_dom_with_dom d d' w : with_dom d (with_dom d' w) = with_dom d w.
Proof. reflexivity. Qed.

Lemma fold_on_new {B : Type} (f : B -> Dom.Element -> Dom.Element) (l : list B) d x w :
  fold_left (fun w c => on_el (length d) (f c) w) l (with_dom (d ++ [x]) w)
  = with_dom (d ++ [fold_left (fun e c => f c e) l x]) w.
Proof.
  revert x. induction l as [|c l IH]; intros x; [reflexivity|].
  cbn [fold_left]. rewrite <- IH. f_equal.
  unfold on_el. cbn [dom with_dom].
  replace (length d) with (length d + 0)%nat at 1 by lia.
  rewrite alter_app_r. reflexivity.
Qed.

Lemma make_eq tagName classNames attributes w :
  make tagName classNames attributes w
  = (length (dom w), with_dom (dom w ++ [built tagName classNames attributes]) w).
Proof.
  unfold make, Dom.createElement, built. f_equal.
  rewrite (fold_on_new (fun c => Dom.classList_add c)).
  rewrite (fold_on_new (fun kv => Dom.set_prop (fst kv) (snd kv))).
  reflexivity.
Qed.

Lemma new_fun_eq c w : new_fun c w = (length (funs w), with_funs (funs w ++ [c]) w).
Proof. reflexivity. Qed.

End Make.

Implicit Types (w : World) (u : Ui.t).

Lemma createResizer_eq align u w :
  exists w',
    Ui.createResizer align u w
    = (length (dom w),
       Ui.with_resizeHandlers
         (List.filter (fun p => negb (Nat.eqb (length (dom w)) (fst p))) (Ui.resizeHandlers u)
            ++ [(length (dom w), length (funs w))]) u,
       w')
    /\ length (dom w') = S (S (length (dom w)))
    /\ (forall (A : Type) n (g : Dom.Element -> A) w0,
          keeps n g w0 w -> (n <= length (dom w))%nat ->
          (forall v, same_on g (Dom.with_parentNode v)) ->
          (forall v, same_on g (Dom.with_children v)) ->
          keeps n g w0 w')
    /\ (forall n w0,
          keeps n Dom.parentNode w0 w -> (n <= length (dom w))%nat ->
          keeps n Dom.parentNode w0 w').
Proof.
  unfold Ui.createResizer. repeat (rewrite make_eq; cbv beta iota zeta).
  unfold new_fun. cbv beta iota zeta.
  eexists. split; [reflexivity|]. split; [|split].
  - rewrite on_el_length. cbn [dom with_funs]. rewrite appendChild_length.
    cbn [dom with_dom]. rewrite !length_app. cbn. lia.
  - intros A n g w0 K Hn Hp Hc.
    apply keeps_on_el; [|right; exact Hn].
    eapply keeps_same_dom; [|reflexivity].
    apply keeps_appendChild; [|exact Hp|exact Hc].
    apply keeps_snoc; [|cbn; rewrite length_app; lia].
    apply keeps_snoc; [exact K|exact Hn].
  - intros n w0 K Hn.
    apply keeps_on_el; [|left; intros x; unfold Dom.addEventListener; destruct (existsb _ _); reflexivity].
    eapply keeps_same_dom; [|reflexivity].
    apply keeps_appendChild_parent; [|cbn; rewrite length_app; lia].
    apply keeps_snoc; [|cbn; rewrite length_app; lia].
    apply keeps_snoc; [exact K|exact Hn].
Qed.


Lemma make_inv tagName classNames attributes w el w' :
  make tagName classNames attributes w = (el, w') ->
  el = length (dom w)
  /\ dom w' = dom w ++ [built tagName classNames attributes]
  /\ length (dom w') = S (length (dom w)).
Proof.
  rewrite make_eq. intros [= <- <-]. cbn. rewrite length_app. cbn.
  repeat split. lia.
Qed.

Lemma new_fun_inv c w f w' :
  new_fun c w = (f, w') ->
  f = length (funs w) /\ dom w' = dom w /\ length (dom w') = length (dom w).
Proof. intros [= <- <-]. repeat split. Qed.

Lemma createResizer_inv align u w c u' w' :
  Ui.createResizer align u w = (c, u', w') ->
  c = length (dom w)
  /\ length (dom w') = S (S (length (dom w)))
  /\ Ui.nodes u' = Ui.nodes u /\ Ui.config u' = Ui.config u
  /\ Ui.readOnly u' = Ui.readOnly u /\ Ui.api u' = Ui.api u
  /\ Ui.imageLoadHandler u' = Ui.imageLoadHandler u
  /\ Ui.imageErrorHandler u' = Ui.imageErrorHandler u.
Proof.
  destruct (createResizer_eq align u w) as (w'' & E & L & _).
  rewrite E. intros [= <- <- <-]. repeat split. exact L.
Qed.

Lemma keeps_make {A} n (g : Dom.Element -> A) w0 w tagName classNames attributes el w' :
  make tagName classNames attributes w = (el, w') ->
  keeps n g w0 w -> (n <= length (dom w))%nat -> keeps n g w0 w'.
Proof.
  rewrite make_eq. intros [= <- <-]. apply keeps_snoc.
Qed.

Lemma keeps_new_fun {A} n (g : Dom.Element -> A) w0 w c f w' :
  new_fun c w = (f, w') -> keeps n g w0 w -> keeps n g w0 w'.
Proof. intros [= <- <-] K. eapply keeps_same_dom; [exact K|reflexivity]. Qed.

Lemma keeps_createResizer {A} n (g : Dom.Element -> A) w0 w align u c u' w' :
  Ui.createResizer align u w = (c, u', w') ->
  keeps n g w0 w -> (n <= length (dom w))%nat ->
  (forall v, same_on g (Dom.with_parentNode v)) ->
  (forall v, same_on g (Dom.with_children v)) ->
  keeps n g w0 w'.
Proof.
  destruct (createResizer_eq align u w) as (w'' & E & _ & K & _).
  rewrite E. intros [= <- <- <-]. apply K.
Qed.

Lemma keeps_createResizer_parent n w0 w align u c u' w' :
  Ui.createResizer align u w = (c, u', w') ->
  keeps n Dom.parentNode w0 w -> (n <= length (dom w))%nat ->
  keeps n Dom.parentNode w0 w'.
Proof.
  destruct (createResizer_eq align u w) as (w'' & E & _ & _ & K).
  rewrite E. intros [= <- <- <-]. apply K.
Qed.


Lemma static_classList_add {A} (g : Dom.Element -> A) c :
  static g -> same_on g (Dom.classList_add c).
Proof.
  intros (H & _) e. unfold Dom.classList_add.
  destruct (existsb _ _); [reflexivity|apply H].
Qed.

Lemma static_addEventListener {A} (g : Dom.Element -> A) ev f :
  static g -> same_on g (Dom.addEventListener ev f).
Proof.
  intros (_ & H & _) e. unfold Dom.addEventListener.
  destruct (existsb _ _); [reflexivity|apply H].
Qed.

Lemma static_removeEventListener {A} (g : Dom.Element -> A) ev f :
  static g -> same_on g (Dom.removeEventListener ev f).
Proof. intros (_ & H & _) e. apply H. Qed.

Lemma parent_classList_add c : same_on Dom.parentNode (Dom.classList_add c).
Proof. intros e. unfold Dom.classList_add. destruct (existsb _ _); reflexivity. Qed.

Lemma parent_addEventListener ev f : same_on Dom.parentNode (Dom.addEventListener ev f).
Proof. intros e. unfold Dom.addEventListener. destruct (existsb _ _); reflexivity. Qed.

Lemma listeners_classList_add c : same_on Dom.listeners (Dom.classList_add c).
Proof. intros e. unfold Dom.classList_add. destruct (existsb _ _); reflexivity. Qed.

(** Lengths of documents, brought down to the starting one. *)
Ltac len_in H :=
  repeat first
    [ rewrite on_el_length in H
    | rewrite appendChild_length in H
    | match goal with
      | L : length (dom ?v) = _ |- _ =>
          tryif constr_eq L H then fail else
          lazymatch type of H with
          | context [length (dom v)] => rewrite L in H
          end
      end ].

Ltac len :=
  repeat first
    [ rewrite on_el_length
    | rewrite appendChild_length
    | match goal with
      | L : length (dom ?v) = _ |- context [length (dom ?v)] => rewrite L
      end ];
  lia.

(** Name the result of the next [make], [new_fun] or [createResizer] of the
    goal, and record the node it created and the size of the document. *)
Ltac open_step :=
  first
    [ match goal with
      | |- context [make ?t ?c ?a ?w] =>
          let M := fresh "M" in
          let el := fresh "el" in
          let w' := fresh "w" in
          destruct (make t c a w) as [el w'] eqn:M;
          let E := fresh "E" in
          let L := fresh "L" in
          let D := fresh "D" in
          pose proof (make_inv _ _ _ _ _ _ M) as (E & D & L);
          len_in E; len_in L
      end
    | match goal with
      | |- context [new_fun ?c ?w] =>
          let M := fresh "M" in
          let f := fresh "f" in
          let w' := fresh "w" in
          destruct (new_fun c w) as [f w'] eqn:M;
          let L := fresh "L" in
          pose proof (new_fun_inv _ _ _ _ M) as (_ & _ & L);
          len_in L
      end
    | match goal with
      | |- context [Ui.createResizer ?a ?u ?w] =>
          let M := fresh "M" in
          let c := fresh "c" in
          let u' := fresh "u" in
          let w' := fresh "w" in
          destruct (Ui.createResizer a u w) as [[c u'] w'] eqn:M;
          let E := fresh "E" in
          let L := fresh "L" in
          pose proof (createResizer_inv _ _ _ _ _ _ M) as (E & L & ? & ? & ? & ? & ? & ?);
          len_in E; len_in L
      end ];
  cbv beta iota zeta.

Ltac ui_proj :=
  cbn [Ui.nodes Ui.config Ui.readOnly Ui.api Ui.imageLoadHandler Ui.imageErrorHandler
       Ui.with_imageEl Ui.with_imageLoadHandler Ui.with_imageErrorHandler
       Ui.imageContainer Ui.caption Ui.wrapper Ui.fileButton Ui.imagePreloader Ui.imageEl
       fst snd] in *.

(** Prove [keeps n g w0 T] by walking [T] back to [w0]; [side] settles the
    conditions on the functions and nodes met on the way. *)
Ltac chain side :=
  lazymatch goal with
  | |- keeps _ _ ?w ?w => apply keeps_refl
  | |- keeps _ _ _ (on_el _ _ _) => apply keeps_on_el; [chain side | side]
  | |- keeps _ Dom.parentNode _ (appendChild _ _ _) =>
      apply keeps_appendChild_parent; [chain side | side]
  | |- keeps _ _ _ (appendChild _ _ _) =>
      apply keeps_appendChild; [chain side | side | side]
  | |- keeps _ _ _ (match ?o with Some _ => _ | None => _ end) =>
      destruct o; chain side
  | |- keeps _ Dom.parentNode _ ?v =>
      match goal with
      | M : make _ _ _ _ = (_, v) |- _ => apply (keeps_make _ _ _ _ _ _ _ _ _ M); [chain side | side]
      | M : new_fun _ _ = (_, v) |- _ => apply (keeps_new_fun _ _ _ _ _ _ _ M); chain side
      | M : Ui.createResizer _ _ _ = (_, _, v) |- _ =>
          apply (keeps_createResizer_parent _ _ _ _ _ _ _ _ M); [chain side | side]
      end
  | |- keeps _ _ _ ?v =>
      match goal with
      | M : make _ _ _ _ = (_, v) |- _ => apply (keeps_make _ _ _ _ _ _ _ _ _ M); [chain side | side]
      | M : new_fun _ _ = (_, v) |- _ => apply (keeps_new_fun _ _ _ _ _ _ _ M); chain side
      | M : Ui.createResizer _ _ _ = (_, _, v) |- _ =>
          apply (keeps_createResizer _ _ _ _ _ _ _ _ _ M); [chain side | side | side | side]
      end
  end.

Ltac static_side Hs :=
  first
    [ left; first [ apply static_classList_add | apply static_addEventListener
                  | apply static_removeEventListener ]; exact Hs
    | intros ?; apply Hs
    | len ].

Ltac fill_steps u :=
  unfold Ui.fillImage;
  open_step; ui_proj;
  destruct (Ui.imageLoadHandler u), (Ui.imageErrorHandler u);
  repeat open_step; ui_proj;
  destruct (negb (Ui.readOnly u)) eqn:?; cbv beta iota zeta; ui_proj;
  repeat open_step; ui_proj.

(** Past the creation of the media element, [fillImage] changes classes,
    listeners and places in the tree, and nothing else. *)
Lemma fillImage_static {A : Type} (g : Dom.Element -> A) url h wd u w :
  static g ->
  keeps (S (length (dom w))) g
    (snd (make (Ui.tag_of url) [Ui.CSS.imageEl; "resizable-image"] (Ui.attributes_of url) w))
    (snd (Ui.fillImage url h wd u w)).
Proof.
  intros Hs. fill_steps u;
    destruct (default true (ImageConfig.showCaption (Ui.config _)));
    cbn [snd]; chain ltac:(static_side Hs).
Qed.

(** The fields of the [Ui] object after [fillImage]. *)
Lemma fillImage_ui url h wd u w :
  let u' := fst (Ui.fillImage url h wd u w) in
  Ui.nodes u' = Ui.nodes (Ui.with_imageEl (Some (length (dom w))) u)
  /\ Ui.config u' = Ui.config u
  /\ Ui.readOnly u' = Ui.readOnly u
  /\ Ui.api u' = Ui.api u
  /\ Ui.imageLoadHandler u' = Some (length (funs w))
  /\ Ui.imageErrorHandler u' = Some (S (length (funs w))).
Proof.
  cbn zeta. fill_steps u; cbn [fst]; ui_proj;
    repeat match goal with
           | M : make _ _ _ _ = _ |- _ => rewrite make_eq in M; injection M as <- <-
           | M : new_fun _ _ = _ |- _ => unfold new_fun in M; injection M as <- <-
           end;
    repeat match goal with
           | H : Ui.nodes ?a = _ |- context [Ui.nodes ?a] => rewrite H
           | H : Ui.config ?a = _ |- context [Ui.config ?a] => rewrite H
           | H : Ui.readOnly ?a = _ |- context [Ui.readOnly ?a] => rewrite H
           | H : Ui.api ?a = _ |- context [Ui.api ?a] => rewrite H
           | H : Ui.imageLoadHandler ?a = _ |- context [Ui.imageLoadHandler ?a] => rewrite H
           | H : Ui.imageErrorHandler ?a = _ |- context [Ui.imageErrorHandler ?a] => rewrite H
           end;
    ui_proj; cbn [funs with_funs with_dom on_el]; rewrite ?length_app; cbn [length];
    repeat split; f_equal; lia.
Qed.

(** The view [g] of the new media element after [fillImage]. *)
Lemma fillImage_new_view {A : Type} (g : Dom.Element -> A) url h wd u w :
  static g ->
  g <$> dom (snd (Ui.fillImage url h wd u w)) !! length (dom w)
  = Some (g (built (Ui.tag_of url) [Ui.CSS.imageEl; "resizable-image"]
               (Ui.attributes_of url))).
Proof.
  intros Hs. destruct (fillImage_static g url h wd u w Hs) as [_ K].
  rewrite K by lia. rewrite make_eq. cbn [snd dom with_dom].
  rewrite lookup_app_r by lia. now rewrite Nat.sub_diag.
Qed.




(** An element that was in the document before [fillImage] has the same
    listeners after it: the clean-up of the old listeners does not reach the
    element they were attached to. *)
Lemma fillImage_old_listeners url h wd u w :
  keeps (length (dom w)) Dom.listeners w (snd (Ui.fillImage url h wd u w)).
Proof.
  fill_steps u;
    destruct (default true (ImageConfig.showCaption (Ui.config _)));
    cbn [snd];
    chain ltac:(first [ right; len
                      | left; apply listeners_classList_add
                      | intros ? ?; reflexivity
                      | len ]).
Qed.

(** Without the caption feature [fillImage] leaves the parent of every
    older node, the caption among them, as it was. *)
Lemma fillImage_parents_kept url h wd u w :
  default true (ImageConfig.showCaption (Ui.config u)) = false ->
  keeps (length (dom w)) Dom.parentNode w (snd (Ui.fillImage url h wd u w)).
Proof.
  intros Hc. fill_steps u;
    repeat match goal with
           | H : Ui.config ?a = _ |- context [Ui.config ?a] => rewrite H
           end;
    ui_proj; rewrite Hc; cbn [snd];
    chain ltac:(first [ left; first [ apply parent_classList_add
                                    | apply parent_addEventListener
                                    | intros ?; reflexivity ]
                      | len ]).
Qed.

(** With the caption feature the caption node ends below the new content
    wrapper, the second node [fillImage] creates. *)
Lemma fillImage_caption_appended url h wd u w :
  default true (ImageConfig.showCaption (Ui.config u)) = true ->
  is_Some (dom w !! Ui.caption (Ui.nodes u)) ->
  caption_parent (fst (Ui.fillImage url h wd u w)) (snd (Ui.fillImage url h wd u w))
  = Some (Some (S (length (dom w)))).
Proof.
  intros Hc [c Hcap]. apply lookup_lt_Some in Hcap. unfold caption_parent.
  fill_steps u;
    repeat match goal with
           | H : Ui.config ?a = _ |- context [Ui.config ?a] => rewrite H
           | H : Ui.nodes ?a = _ |- context [Ui.nodes ?a] => rewrite H
           end;
    ui_proj; rewrite Hc; cbn [fst snd]; ui_proj;
    repeat match goal with
           | H : Ui.nodes ?a = _ |- context [Ui.nodes ?a] => rewrite H
           end;
    ui_proj;
    match goal with
    | E : ?cw = S (length (dom w)) |- context [appendChild ?cw _ _] => rewrite <- E
    end;
    apply appendChild_parent, lookup_lt_is_Some; len.
Qed.


(** A view that ignores classes and properties sees a blank element in what
    [make] builds. *)
Lemma built_view {A : Type} (g : Dom.Element -> A) tagName classNames attributes :
  (forall v, same_on g (Dom.with_classList v)) ->
  (forall v, same_on g (Dom.with_props v)) ->
  g (built tagName classNames attributes) = g (Dom.blank tagName).
Proof.
  intros Hc Hp. unfold built.
  assert (P : forall l e, g (fold_left (fun e kv => Dom.set_prop (fst kv) (snd kv) e) l e) = g e).
  { induction l as [|kv l IH]; intros e; [reflexivity|].
    cbn [fold_left]. rewrite IH. apply Hp. }
  rewrite P. generalize (Dom.blank tagName).
  induction classNames as [|c l IH]; intros e; [reflexivity|].
  cbn [fold_left]. rewrite IH. unfold Dom.classList_add.
  destruct (existsb _ _); [reflexivity|apply Hc].
Qed.

Lemma make_funs tagName classNames attributes w el w' :
  make tagName classNames attributes w = (el, w') -> funs w' = funs w.
Proof. rewrite make_eq. now intros [= <- <-]. Qed.

Lemma new_fun_funs c w f w' :
  new_fun c w = (f, w') ->
  f = length (funs w) /\ funs w' = funs w ++ [c] /\ dom w' = dom w.
Proof. intros [= <- <-]. repeat split. Qed.

Lemma createResizer_funs align u w c u' w' :
  Ui.createResizer align u w = (c, u', w') ->
  funs w' = funs w ++ [MouseDownHandler align].
Proof.
  unfold Ui.createResizer. repeat (rewrite make_eq; cbv beta iota zeta).
  unfold new_fun. cbv beta iota zeta. now intros [= <- <- <-].
Qed.

(** [fillImage] creates the ready handler and the error handler, in this
    order, as the next two function objects. *)
Lemma fillImage_funs url h wd u w :
  exists rest,
    funs (snd (Ui.fillImage url h wd u w))
    = funs w ++ [LoadHandler (Ui.tag_of url) wd; ErrorHandler url] ++ rest.
Proof.
  fill_steps u;
    destruct (default true (ImageConfig.showCaption (Ui.config _)));
    cbn [snd];
    repeat match goal with
           | M : make _ _ _ _ = (_, ?v) |- _ =>
               apply make_funs in M
           | M : new_fun _ _ = (_, ?v) |- _ =>
               apply new_fun_funs in M; destruct M as (_ & M & _)
           | M : Ui.createResizer _ _ _ = (_, _, ?v) |- _ =>
               apply createResizer_funs in M
           end;
    cbn [funs appendChild on_el with_dom] in *;
    repeat match goal with
           | F : funs ?v = _ |- context [funs ?v] => rewrite F
           end;
    rewrite <- ?app_assoc; eexists; cbn [app]; reflexivity.
Qed.

Lemma add_two_listeners ev f f0 (e : Dom.Element) :
  Dom.listeners e = [] -> f <> f0 ->
  Dom.listeners (Dom.addEventListener "error" f0 (Dom.addEventListener ev f e))
  = [(ev, f); ("error", f0)].
Proof.
  intros He Hne. unfold Dom.addEventListener at 2. rewrite He. cbn [existsb].
  unfold Dom.addEventListener. cbn [Dom.listeners Dom.with_listeners existsb app].
  unfold Dom.same_listener. cbn [fst snd].
  replace (Nat.eqb f0 f) with false by (symmetry; apply Nat.eqb_neq; congruence).
  rewrite andb_false_r. reflexivity.
Qed.

(** The new media element carries one ready listener and one error
    listener. *)
Lemma fillImage_new_listeners url h wd u w :
  Dom.listeners <$> dom (snd (Ui.fillImage url h wd u w)) !! length (dom w)
  = Some [(Ui.eventName_of url, length (funs w)); ("error", S (length (funs w)))].
Proof.
  fill_steps u;
    destruct (default true (ImageConfig.showCaption (Ui.config _)));
    cbn [snd].
  all: match goal with
       | M : make "div" ["content-wrapper"] [] ?T = _ |- _ <$> dom ?W !! _ = _ =>
           assert (K : keeps (S (length (dom w))) Dom.listeners T W)
             by chain ltac:(first [ right; len
                                  | left; apply listeners_classList_add
                                  | intros ? ?; reflexivity
                                  | len ]);
           destruct K as [_ K]; rewrite K by lia; clear K
       end.
  all: repeat match goal with
         | M : new_fun _ _ = (_, ?v) |- _ =>
             apply new_fun_funs in M; destruct M as (? & ? & ?)
         | M : make _ _ _ _ = (_, ?v) |- _ => apply make_funs in M
         end.
  all: subst.
  all: rewrite !on_el_lookup_eq.
  all: repeat match goal with
         | D : dom ?v = _ |- context [dom ?v] => rewrite D
         end.
  all: rewrite ?on_el_lookup_eq.
  all: repeat match goal with
         | D : dom ?v = _ |- context [dom ?v] => rewrite D
         end.
  all: rewrite lookup_app_r by lia; rewrite Nat.sub_diag; cbn [lookup list_lookup fmap option_fmap option_map].
  all: f_equal.
  all: cbn [funs on_el with_dom] in *.
  all: repeat match goal with
         | F : funs ?v = _ |- context [funs ?v] => rewrite F
         end.
  all: rewrite ?length_app; cbn [length].
  all: replace (length (funs w) + 1)%nat with (S (length (funs w))) by lia.
  all: apply add_two_listeners; [|lia].
  all: cbn [Dom.removeEventListener Dom.listeners Dom.with_listeners].
  all: rewrite (built_view Dom.listeners) by (intros ? ?; reflexivity).
  all: reflexivity.
Qed.

Lemma eventName_not_error url : String.eqb (Ui.eventName_of url) "error" = false.
Proof.
  unfold Ui.eventName_of.
  destruct (String.eqb (Ui.tag_of url) "VIDEO"); reflexivity.
Qed.

(** The ready event of the element [fillImage] has just created runs the
    handler that captured the tag and the saved width, and nothing else. *)
Lemma ready_event_after_fillImage url h wd u w (x : Q) :
  let u' := fst (Ui.fillImage url h wd u w) in
  let w' := snd (Ui.fillImage url h wd u w) in
  funs w' !! length (funs w) = Some (LoadHandler (Ui.tag_of url) wd)
  /\ Ui.dispatchEvent (length (dom w)) (Ui.eventName_of url) x u' w'
     = Ui.run_imageLoadHandler (Ui.tag_of url) wd u' w'.
Proof.
  cbn zeta.
  destruct (fillImage_funs url h wd u w) as [rest F].
  pose proof (fillImage_new_listeners url h wd u w) as N.
  assert (Hf : funs (snd (Ui.fillImage url h wd u w)) !! length (funs w)
               = Some (LoadHandler (Ui.tag_of url) wd)).
  { rewrite F. rewrite lookup_app_r by lia. now rewrite Nat.sub_diag. }
  split; [exact Hf|].
  unfold Ui.dispatchEvent.
  destruct (dom (snd (Ui.fillImage url h wd u w)) !! length (dom w)) as [e|];
    [|discriminate].
  cbn in N. injection N as N. unfold Dom.listeners_for. rewrite N.
  cbn [List.filter fst snd]. rewrite String.eqb_refl.
  rewrite eventName_not_error. cbn [List.map snd].
  unfold Ui.call_all. cbn [fold_left fst snd]. unfold Ui.call. rewrite Hf.
  reflexivity.
Qed.

(* ===================================================================== *)
(** ** The ready handler of [fillImage] *)
(* ===================================================================== *)

Section Load.

Implicit Types (e : Dom.Element) (this : Ui.t).

Lemma run_imageLoadHandler_ratio tag width this w el e :
  Ui.imageEl (Ui.nodes this) = Some el ->
  dom w !! el = Some e ->
  Ui.contentRatio (fst (Ui.run_imageLoadHandler tag width this w))
  = Js.div (intrinsicHeight tag (Dom.layout e)) (intrinsicWidth tag (Dom.layout e)).
Proof.
  intros Hel He. unfold Ui.run_imageLoadHandler. rewrite Hel. cbn [fst].
  assert (L : Dom.layout <$>
                dom (on_el el (Dom.classList_add "loaded") (Ui.toggleStatus Ui.Filled this w))
                  !! el = Some (Dom.layout e)).
  { rewrite (on_el_view Dom.layout) by apply add_same_layout.
    rewrite (toggleStatus_view Dom.layout) by apply toggle_same_layout.
    now rewrite He. }
  rewrite L. unfold intrinsicHeight, intrinsicWidth.
  destruct (String.eqb tag "VIDEO"); reflexivity.
Qed.

Lemma run_imageLoadHandler_nodes tag width this w :
  Ui.nodes (fst (Ui.run_imageLoadHandler tag width this w)) = Ui.nodes this.
Proof.
  unfold Ui.run_imageLoadHandler.
  destruct (Ui.imageEl (Ui.nodes this)); [|reflexivity].
  cbn [fst]. destruct (String.eqb tag "VIDEO"); reflexivity.
Qed.

Lemma run_imageLoadHandler_shown tag width this w :
  is_Some (dom w !! Ui.wrapper (Ui.nodes this)) ->
  Ui.shown (fst (Ui.run_imageLoadHandler tag width this w))
           (snd (Ui.run_imageLoadHandler tag width this w)) = [Ui.Filled].
Proof.
  intros Hw.
  assert (N : forall w', Ui.shown (fst (Ui.run_imageLoadHandler tag width this w)) w'
                         = Ui.shown this w').
  { intros w'. unfold Ui.shown. now rewrite run_imageLoadHandler_nodes. }
  rewrite N. rewrite <- (toggleStatus_shown Ui.Filled this w Hw).
  apply shown_flags.
  unfold Ui.run_imageLoadHandler.
  destruct (Ui.imageEl (Ui.nodes this)) as [el|]; [|reflexivity].
  cbn [snd].
  rewrite (on_el_view statusFlags) by (intros x; reflexivity).
  assert (S : forall w0,
    statusFlags <$> dom
      match width with
      | Some width0 =>
          if Js.gt0 (Js.parseInt width0)
          then on_el el
                 (fun e0 => Dom.with_style
                    (Dom.with_s_height (Some Dom.Auto)
                       (Dom.with_s_width
                          (Some (Dom.Px (inject_Z (default 0 (Js.parseInt width0)))))
                          (Dom.style e0))) e0) w0
          else w0
      | None => w0
      end !! Ui.wrapper (Ui.nodes this)
    = statusFlags <$> dom w0 !! Ui.wrapper (Ui.nodes this)).
  { intros w0. destruct width as [wd|]; [|reflexivity].
    destruct (Js.gt0 (Js.parseInt wd)); [|reflexivity].
    apply on_el_view. intros x. reflexivity. }
  rewrite S. apply on_el_view, add_loaded_same_flags.
Qed.

Lemma run_imageLoadHandler_style tag width this w el e :
  Ui.imageEl (Ui.nodes this) = Some el ->
  dom w !! el = Some e ->
  exists e',
    dom (snd (Ui.run_imageLoadHandler tag width this w)) !! el = Some e'
    /\ Dom.s_width (Dom.style e') = Dom.s_width (restored_style width (Dom.style e))
    /\ Dom.s_height (Dom.style e') = Dom.s_height (restored_style width (Dom.style e))
    /\ Dom.tagName e' = Dom.tagName e.
Proof.
  intros Hel He. unfold Ui.run_imageLoadHandler. rewrite Hel. cbn [snd].
  set (w2 := on_el el (Dom.classList_add "loaded") (Ui.toggleStatus Ui.Filled this w)).
  assert (V : forall {A} (g : Dom.Element -> A),
             (forall c b, same_on g (Dom.classList_toggle c b)) ->
             g <$> dom w2 !! el = Some (g e)).
  { intros A g Hg. unfold w2.
    rewrite (on_el_view g) by apply (Hg "loaded" true).
    rewrite (toggleStatus_view g) by apply Hg. now rewrite He. }
  pose proof (V _ Dom.style toggle_same_style) as Hs.
  assert (Ht : Dom.tagName <$> dom w2 !! el = Some (Dom.tagName e)).
  { apply V. intros c b x. unfold Dom.classList_toggle, Dom.classList_add.
    destruct b; [|reflexivity]. destruct (existsb _ _); reflexivity. }
  destruct (dom w2 !! el) as [e2|] eqn:E2; [|discriminate].
  cbn in Hs, Ht. injection Hs as Hs. injection Ht as Ht.
  set (g := fun x : Dom.Element =>
              (Dom.s_width (Dom.style x), Dom.s_height (Dom.style x), Dom.tagName x)).
  match goal with
  | |- exists e', dom (on_el ?p ?f ?w3) !! el = Some e' /\ _ =>
      assert (G : g <$> dom (on_el p f w3) !! el
                  = Some (Dom.s_width (restored_style width (Dom.style e)),
                          Dom.s_height (restored_style width (Dom.style e)),
                          Dom.tagName e))
  end.
  { rewrite (on_el_view g) by (intros x; reflexivity).
    unfold restored_style. destruct width as [wd|].
    - unfold Js.gt0. destruct (Js.parseInt wd) as [n|].
      + destruct (0 <? n).
        * rewrite on_el_lookup_eq, E2. cbn. unfold g. cbn. now rewrite Ht.
        * rewrite E2. cbn. unfold g. now rewrite Hs, Ht.
      + rewrite E2. cbn. unfold g. now rewrite Hs, Ht.
    - rewrite E2. cbn. unfold g. now rewrite Hs, Ht. }
  match type of G with
  | _ <$> ?l = _ => destruct l as [e'|]; [|discriminate]
  end.
  cbn in G. injection G as G1 G2 G3. exists e'. repeat split; assumption.
Qed.

(** X26.  The ready handler on the displayed element.  When the ready
    event of the element [nodes.imageEl] reaches the handler [fillImage]
    registered for it, the wrapper shows the state [Filled] and the stored
    ratio is the intrinsic height of the element divided by its intrinsic
    width (of the video for a [VIDEO] tag, of the image otherwise): the
    rational [h / w] for a height [h] and a width [w] other than zero.  If
    the saved
    width is present and [parseInt] reads from it a number [n] above zero,
    the element's width style becomes [n] pixels and its height style
    [auto]; if the saved width is absent, or reads as zero, as a negative
    number or as no number, both styles stay as they were.  So a saved
    width above 100 is restored as that many pixels; there is no percentage
    reading.  The handler is the one the ready event of an element just
    made by [fillImage] runs. *)
Theorem load_handler_effect f tag (width : option string) (clientX : Q) this w el e :
  funs w !! f = Some (LoadHandler tag width) ->
  Ui.imageEl (Ui.nodes this) = Some el ->
  dom w !! el = Some e ->
  is_Some (dom w !! Ui.wrapper (Ui.nodes this)) ->
  let this' := fst (Ui.call f clientX this w) in
  let w' := snd (Ui.call f clientX this w) in
  Ui.shown this' w' = [Ui.Filled]
  /\ Ui.contentRatio this'
     = Js.div (intrinsicHeight tag (Dom.layout e)) (intrinsicWidth tag (Dom.layout e))
  /\ (forall hi wi : Z,
        intrinsicHeight tag (Dom.layout e) = Some hi ->
        intrinsicWidth tag (Dom.layout e) = Some wi -> wi <> 0 ->
        Ui.contentRatio this' = Js.Num (inject_Z hi / inject_Z wi)%Q)
  /\ exists e',
       dom w' !! el = Some e'
       /\ (forall s n, width = Some s -> Js.parseInt s = Some n -> 0 < n ->
             Dom.s_width (Dom.style e') = Some (Dom.Px (inject_Z n))
             /\ Dom.s_height (Dom.style e') = Some Dom.Auto)
       /\ (forall s n, width = Some s -> Js.parseInt s = Some n -> 100 < n ->
             Dom.s_width (Dom.style e') = Some (Dom.Px (inject_Z n))
             /\ Dom.s_height (Dom.style e') = Some Dom.Auto)
       /\ ((width = None
            \/ (exists s, width = Some s /\ Js.parseInt s = None)
            \/ (exists s n, width = Some s /\ Js.parseInt s = Some n /\ n <= 0)) ->
           Dom.s_width (Dom.style e') = Dom.s_width (Dom.style e)
           /\ Dom.s_height (Dom.style e') = Dom.s_height (Dom.style e))
       /\ (forall url h u0 w0 x,
             let r := Ui.fillImage url h width u0 w0 in
             funs (snd r) !! length (funs w0) = Some (LoadHandler (Ui.tag_of url) width)
             /\ Ui.dispatchEvent (length (dom w0)) (Ui.eventName_of url) x (fst r) (snd r)
                = Ui.call (length (funs w0)) x (fst r) (snd r)).
Proof.
  intros Hf Hel He Hw. cbn zeta. unfold Ui.call at 1 2 3 4 5. rewrite Hf.
  pose proof (run_imageLoadHandler_ratio tag width this w el e Hel He) as R.
  split; [now apply run_imageLoadHandler_shown|].
  split; [exact R|].
  split.
  { intros hi wi Hh Hwi Hz. rewrite R, Hh, Hwi. unfold Js.div.
    destruct (Z.eqb_spec wi 0); [contradiction|reflexivity]. }
  destruct (run_imageLoadHandler_style tag width this w el e Hel He)
    as (e' & E & Sw & Sh & _).
  exists e'. split; [exact E|].
  assert (P : forall s n, width = Some s -> Js.parseInt s = Some n -> 0 < n ->
                Dom.s_width (Dom.style e') = Some (Dom.Px (inject_Z n))
                /\ Dom.s_height (Dom.style e') = Some Dom.Auto).
  { intros s n -> Hp Hn. rewrite Sw, Sh. unfold restored_style. rewrite Hp.
    apply Z.ltb_lt in Hn. rewrite Hn. split; reflexivity. }
  split; [exact P|]. split; [|split].
  - intros s n Hs Hp Hn. apply (P s n Hs Hp). lia.
  - intros [->|[(s & -> & Hp)|(s & n & -> & Hp & Hn)]];
      rewrite Sw, Sh; unfold restored_style; try rewrite Hp; try (split; reflexivity).
    apply Z.ltb_ge in Hn. rewrite Hn. split; reflexivity.
  - intros url h u0 w0 x.
    destruct (ready_event_after_fillImage url h width u0 w0 x) as [F D].
    cbn zeta. split; [exact F|]. rewrite D. unfold Ui.call. now rewrite F.
Qed.

(** The legacy block, saved with width 800 and no height, comes back 800
    pixels wide; its picture is 1600 by 900, so the ratio is 900/1600. *)
Lemma load_handler_effect_witness :
  let u := ImageTool.ui (fst Scenario.legacyReady) in
  let w := snd Scenario.legacyReady in
  Ui.shown (fst (Ui.call 1 0 u w)) (snd (Ui.call 1 0 u w)) = [Ui.Filled]
  /\ Ui.contentRatio (fst (Ui.call 1 0 u w)) = Js.Num (900 # 1600)
  /\ exists e',
       dom (snd (Ui.call 1 0 u w)) !! 5%nat = Some e'
       /\ Dom.s_width (Dom.style e') = Some (Dom.Px (inject_Z 800))
       /\ Dom.s_height (Dom.style e') = Some Dom.Auto.
Proof.
  cbn zeta.
  destruct (load_handler_effect 1 "IMG" (Some "800") 0
              (ImageTool.ui (fst Scenario.legacyReady)) (snd Scenario.legacyReady)
              5%nat
              (default (Dom.blank "") (dom (snd Scenario.legacyReady) !! 5%nat)))
    as (H1 & _ & H2 & e' & E & P & _).
  - vm_compute. reflexivity.
  - vm_compute. reflexivity.
  - vm_compute. reflexivity.
  - vm_compute. eexists. reflexivity.
  - split; [exact H1|]. split; [apply (H2 900 1600); [reflexivity|reflexivity|lia]|].
    exists e'. split; [exact E|].
    apply (P "800" 800); [vm_compute; reflexivity|vm_compute; reflexivity|lia].
Defined.

(** C5 fails on the code.  The ready handler never looks at the element
    that fired the event: it marks, measures and sizes [nodes.imageEl].
    As [fillImage] leaves the listeners of a replaced element in place, the
    ready event of a replaced element runs the handler on the element that
    replaced it.  In the block saved with width 800 whose first picture
    (node 5, 1600 by 900 pixels) was replaced by a second one (node 12)
    before it had loaded, the ready event of the first picture puts the
    wrapper in the state [Filled] and hides the preloader, but the ratio it
    stores is not 900/1600: it is NaN, read from the second element, which
    has no intrinsic size yet.  The first picture keeps its natural size
    and is not marked as loaded; width 800 and the mark go to the second
    element, which has not loaded. *)
Theorem load_event_of_replaced_element :
  let s := Scenario.replacedEarly in
  let s' := Scenario.lateReady in
  Ui.imageEl (Ui.nodes (ImageTool.ui (fst s))) = Some 12%nat
  /\ Dom.listeners_for "load" <$> dom (snd s) !! 5%nat = Some [1%nat]
  /\ funs (snd s) !! 1%nat = Some (LoadHandler "IMG" (Some "800"))
  /\ (fun e => (intrinsicHeight "IMG" (Dom.layout e), intrinsicWidth "IMG" (Dom.layout e)))
       <$> dom (snd s') !! 5%nat = Some (Some 900, Some 1600)
  /\ Js.div (Some 900) (Some 1600) = Js.Num (900 # 1600)
  /\ Ui.shown (ImageTool.ui (fst s')) (snd s') = [Ui.Filled]
  /\ Ui.contentRatio (ImageTool.ui (fst s')) = Js.NaN
  /\ (fun e => (Dom.s_width (Dom.style e), Dom.s_height (Dom.style e),
                Dom.classList_contains "loaded" e))
       <$> dom (snd s') !! 5%nat = Some (None, None, false)
  /\ (fun e => (Dom.s_width (Dom.style e), Dom.s_height (Dom.style e),
                Dom.classList_contains "loaded" e))
       <$> dom (snd s') !! 12%nat
     = Some (Some (Dom.Px (inject_Z 800)), Some Dom.Auto, true)
  /\ (fun e => Dom.s_display (Dom.style e)) <$> dom (snd s') !! 3%nat = Some "none".
Proof. cbn zeta. repeat split; vm_compute; reflexivity. Qed.

End Load.

(* ===================================================================== *)
(** ** What never changes in the life of a block *)
(* ===================================================================== *)

Section Stable.

Lemma ui_stable_refl u w : ui_stable u w u w.
Proof. repeat split; lia. Qed.

Lemma ui_stable_trans u1 w1 u2 w2 u3 w3 :
  ui_stable u1 w1 u2 w2 -> ui_stable u2 w2 u3 w3 -> ui_stable u1 w1 u3 w3.
Proof.
  unfold ui_stable. intros (A1 & A2 & A3 & A4 & A5 & A6 & A7 & A8 & A9)
                           (B1 & B2 & B3 & B4 & B5 & B6 & B7 & B8 & B9).
  repeat split; try congruence. lia.
Qed.

(** A step that keeps the object and the size of the document. *)
Lemma ui_stable_same_length u w w' :
  length (dom w') = length (dom w) -> ui_stable u w u w'.
Proof. intros L. repeat split. lia. Qed.

Lemma detach_ok_length p c (d d' : Dom.Document) :
  Dom.removeChild p c d = Js.Ok d' -> length d' = length d.
Proof.
  unfold Dom.removeChild. destruct (d !! c) as [e|]; [|discriminate].
  destruct (Dom.parentNode e) as [p'|]; [|discriminate].
  destruct (Nat.eqb p p'); [|discriminate].
  intros [= <-]. apply detach_length.
Qed.

Lemma showPreloader_length src u w :
  length (dom (Ui.showPreloader src u w)) = length (dom w).
Proof. unfold Ui.showPreloader. now rewrite toggleStatus_length, on_el_length. Qed.

Lemma removeFileButton_length u w :
  length (dom (Ui.removeFileButton u w)) = length (dom w).
Proof.
  unfold Ui.removeFileButton. destruct (dom w !! _) as [b|]; [|reflexivity].
  destruct (_ && _); [|reflexivity].
  destruct (Dom.removeChild _ _ _) as [d|e] eqn:E; [|reflexivity].
  cbn. now apply detach_ok_length in E.
Qed.

Lemma addFileButton_length u w :
  length (dom (Ui.addFileButton u w)) = length (dom w).
Proof.
  unfold Ui.addFileButton. destruct (negb _); [|reflexivity].
  apply appendChild_length.
Qed.

Lemma resizeImage_length x a u w :
  length (dom (Ui.resizeImage x a u w)) = length (dom w).
Proof.
  unfold Ui.resizeImage. destruct (Ui.isResizing u); [|reflexivity].
  destruct (Ui.imageEl _); [|reflexivity].
  destruct (dom w !! _); [|reflexivity].
  apply on_el_length.
Qed.

Lemma fold_on_el_length {B : Type} (i : B -> nat) (f : B -> Dom.Element -> Dom.Element)
    (l : list B) w :
  length (dom (fold_left (fun w p => on_el (i p) (f p) w) l w)) = length (dom w).
Proof.
  revert w. induction l as [|p l IH]; intros w; [reflexivity|].
  cbn [fold_left]. now rewrite IH, on_el_length.
Qed.

Lemma destroy_stable u w :
  ui_stable u w (fst (Ui.destroy u w)) (snd (Ui.destroy u w)).
Proof.
  unfold Ui.destroy. cbn [fst snd]. repeat split.
  rewrite fold_on_el_length.
  destruct (Ui.fileButtonHandler u), (Ui.imageEl (Ui.nodes u)),
    (Ui.imageLoadHandler u), (Ui.imageErrorHandler u);
    rewrite ?on_el_length; lia.
Qed.

Lemma run_imageLoadHandler_stable tag width u w :
  ui_stable u w (fst (Ui.run_imageLoadHandler tag width u w))
    (snd (Ui.run_imageLoadHandler tag width u w)).
Proof.
  unfold Ui.run_imageLoadHandler.
  destruct (Ui.imageEl (Ui.nodes u)) as [el|]; cbn [fst snd].
  - destruct (String.eqb tag "VIDEO"); repeat split; cbn [Ui.nodes Ui.with_contentRatio];
      rewrite on_el_length;
      (destruct width as [wd|]; [destruct (Js.gt0 _)|]);
      rewrite ?on_el_length, toggleStatus_length; lia.
  - repeat split. change (dom (with_uncaught ?x ?y)) with (dom y).
    rewrite toggleStatus_length. lia.
Qed.

Lemma run_imageErrorHandler_stable url u w :
  ui_stable u w (fst (Ui.run_imageErrorHandler url u w))
    (snd (Ui.run_imageErrorHandler url u w)).
Proof.
  unfold Ui.run_imageErrorHandler.
  set (w1 := Ui.toggleStatus Ui.Empty u _).
  assert (L : length (dom w1) = length (dom w)).
  { unfold w1. now rewrite toggleStatus_length. }
  destruct (Ui.imageEl (Ui.nodes u)) as [el|]; cbn [fst snd].
  - destruct (dom w1 !! el ≫= Dom.parentNode) as [p|]; cbn [fst snd].
    + destruct (Dom.removeChild p el (dom w1)) as [d|e] eqn:E; cbn [fst snd].
      * apply detach_ok_length in E. repeat split. cbn [dom with_dom]. lia.
      * repeat split. cbn [dom with_uncaught]. lia.
    + repeat split. lia.
  - repeat split. lia.
Qed.

Lemma call_stable f x u w :
  ui_stable u w (fst (Ui.call f x u w)) (snd (Ui.call f x u w)).
Proof.
  unfold Ui.call. destruct (funs w !! f) as [[tag width|url| |align|align|mv]|].
  - apply run_imageLoadHandler_stable.
  - apply run_imageErrorHandler_stable.
  - repeat split; cbn; lia.
  - unfold Ui.run_mouseDownHandler, new_fun, Ui.document_addEventListener.
    cbn. repeat (destruct (existsb _ _); cbn); repeat split; cbn; lia.
  - apply ui_stable_same_length, resizeImage_length.
  - repeat split; cbn; lia.
  - apply ui_stable_refl.
Qed.

Lemma call_all_stable fs x u w :
  ui_stable u w (fst (Ui.call_all fs x u w)) (snd (Ui.call_all fs x u w)).
Proof.
  unfold Ui.call_all. revert u w. induction fs as [|f fs IH]; intros u w.
  - apply ui_stable_refl.
  - cbn [fold_left fst snd].
    eapply ui_stable_trans; [apply (call_stable f x u w)|].
    destruct (Ui.call f x u w) as [u1 w1]. apply IH.
Qed.

Lemma dispatchEvent_stable target ev x u w :
  ui_stable u w (fst (Ui.dispatchEvent target ev x u w))
    (snd (Ui.dispatchEvent target ev x u w)).
Proof.
  unfold Ui.dispatchEvent. destruct (dom w !! target).
  - apply call_all_stable.
  - apply ui_stable_refl.
Qed.

Lemma fillImage_length url h wd u w :
  (length (dom w) <= length (dom (snd (Ui.fillImage url h wd u w))))%nat.
Proof. exact (proj1 (fillImage_old_listeners url h wd u w)). Qed.

Lemma fillImage_stable url h wd u w :
  ui_stable u w (fst (Ui.fillImage url h wd u w)) (snd (Ui.fillImage url h wd u w)).
Proof.
  destruct (fillImage_ui url h wd u w) as (N & C & R & P & _).
  unfold ui_stable. rewrite N, C, R, P. repeat split. apply fillImage_length.
Qed.

Lemma uploadingFailed_stable e (this : ImageTool.t) w :
  ui_stable (ImageTool.ui this) w
    (ImageTool.ui (fst (ImageTool.uploadingFailed e this w)))
    (snd (ImageTool.uploadingFailed e this w)).
Proof.
  unfold ImageTool.uploadingFailed. cbn [fst snd].
  apply ui_stable_same_length. now rewrite addFileButton_length, hidePreloader_length.
Qed.

Lemma set_image_stable file (this : ImageTool.t) w :
  ui_stable (ImageTool.ui this) w
    (ImageTool.ui (fst (ImageTool.set_image file this w)))
    (snd (ImageTool.set_image file this w)).
Proof.
  unfold ImageTool.set_image.
  destruct file as [f|]; [|apply ui_stable_refl].
  destruct (FileData.url f) as [url|]; [|apply ui_stable_refl].
  destruct (Js.truthy_string (Some url)); [|apply ui_stable_refl].
  cbn [ImageTool.ui ImageTool.with_data ImageTool._data].
  pose proof (fillImage_stable url
                (ImageToolData.height (ImageToolData.with_file
                   (Some f) (ImageTool._data this)))
                (ImageToolData.width (ImageToolData.with_file
                   (Some f) (ImageTool._data this)))
                (ImageTool.ui this) w) as S.
  destruct (Ui.fillImage _ _ _ _ _) as [u1 w1]. exact S.
Qed.

Lemma step_stable op (s : ImageTool.t * World) :
  ui_stable (ImageTool.ui (fst s)) (snd s)
    (ImageTool.ui (fst (ImageTool.step op s))) (snd (ImageTool.step op s)).
Proof.
  destruct s as [this w]. destruct op; cbn [ImageTool.step fst snd].
  - apply ui_stable_same_length. unfold ImageTool.render, Ui.render.
    destruct (match ImageToolData.file _ with Some _ => _ | None => _ end);
      cbn [snd]; apply toggleStatus_length.
  - apply ui_stable_refl.
  - unfold ImageTool.appendCallback.
    pose proof (dispatchEvent_stable (Ui.fileButton (Ui.nodes (ImageTool.ui this)))
                  "click" 0%Q (ImageTool.ui this) w) as S.
    destruct (Ui.dispatchEvent _ _ _ _ _) as [u1 w1]. exact S.
  - unfold ImageTool.destroy.
    pose proof (destroy_stable (ImageTool.ui this) w) as S.
    destruct (Ui.destroy _ _) as [u1 w1]. exact S.
  - unfold ImageTool.onPaste, ImageTool.uploadUrl, ImageTool.uploadFile.
    destruct event as [src|url|]; [destruct (ImageTool.is_blob src)| |];
      cbn [fst snd ImageTool.ui]; try apply ui_stable_refl;
      apply ui_stable_same_length; cbn [dom with_uploaderCalls];
      first [reflexivity | apply showPreloader_length].
  - apply ui_stable_same_length. reflexivity.
  - apply ui_stable_same_length, showPreloader_length.
  - apply ui_stable_same_length, removeFileButton_length.
  - unfold ImageTool.onUpload. destruct (_ && _).
    + apply set_image_stable.
    + apply uploadingFailed_stable.
  - apply uploadingFailed_stable.
  - pose proof (dispatchEvent_stable target ev clientX (ImageTool.ui this) w) as S.
    destruct (Ui.dispatchEvent _ _ _ _ _) as [u1 w1]. exact S.
  - unfold Ui.document_dispatchEvent.
    pose proof (call_all_stable
                  (List.map snd (List.filter (fun l => String.eqb ev (fst l))
                                   (documentListeners w)))
                  clientX (ImageTool.ui this) w) as S.
    destruct (Ui.call_all _ _ _ _) as [u1 w1]. exact S.
  - apply ui_stable_same_length, on_el_length.
  - apply ui_stable_same_length, on_el_length.
Qed.

Lemma run_stable ops (s : ImageTool.t * World) :
  ui_stable (ImageTool.ui (fst s)) (snd s)
    (ImageTool.ui (fst (ImageTool.run ops s))) (snd (ImageTool.run ops s)).
Proof.
  unfold ImageTool.run. revert s. induction ops as [|op ops IH]; intros s.
  - apply ui_stable_refl.
  - cbn [fold_left]. eapply ui_stable_trans; [apply (step_stable op s)|apply IH].
Qed.

End Stable.

(* ===================================================================== *)
(** ** The caption *)
(* ===================================================================== *)

Section Caption.

Implicit Types (this : ImageTool.t).

(** What the constructor of [Ui] leaves behind: five nodes on top of the
    document, the caption the last of them and without a parent. *)
Lemma Ui_constructor_facts a cfg ro w :
  let u := fst (Ui.constructor a cfg ro w) in
  let w' := snd (Ui.constructor a cfg ro w) in
  Ui.config u = cfg
  /\ Ui.readOnly u = ro
  /\ Ui.caption (Ui.nodes u) = (length (dom w) + 4)%nat
  /\ length (dom w') = (length (dom w) + 5)%nat
  /\ caption_parent u w' = Some None.
Proof.
  cbn zeta. unfold Ui.constructor, Ui.createFileButton, caption_parent.
  repeat open_step.
  cbn [fst snd Ui.config Ui.readOnly Ui.nodes Ui.caption].
  split; [reflexivity|]. split; [reflexivity|]. split; [lia|].
  assert (P : Dom.parentNode <$> dom w5 !! el3 = Some None).
  { rewrite D3. rewrite lookup_app_r by len. replace (_ - _)%nat with 0%nat by len.
    reflexivity. }
  destruct (ImageConfig.captionPlaceholder cfg), ro; cbn [negb]; cbv beta iota zeta.
  all: split; [len|].
  all: rewrite <- P.
  all: repeat first
         [ rewrite appendChild_parent_ne by lia
         | rewrite (on_el_view Dom.parentNode) by (intros ?; reflexivity) ].
  all: reflexivity.
Qed.

Lemma set_image_config file this w :
  ImageTool.config (fst (ImageTool.set_image file this w)) = ImageTool.config this.
Proof.
  unfold ImageTool.set_image.
  destruct file as [f|]; [|reflexivity].
  destruct (FileData.url f) as [url|]; [|reflexivity].
  destruct (Js.truthy_string (Some url)); [|reflexivity].
  destruct (Ui.fillImage _ _ _ _ _). reflexivity.
Qed.

(** The stable part of the constructor of the tool. *)
Lemma constructor_stable data cfg a ro w0 :
  let cfg' := ImageConfig.mk (ImageConfig.endpoints cfg) (ImageConfig.types cfg)
                (ImageConfig.field cfg)
                (Some (API.i18n_t a (default "Enter a caption"
                                       (ImageConfig.captionPlaceholder cfg))))
                (ImageConfig.buttonContent cfg)
                (Some (caption_decision ro data)) in
  let s0 := ImageTool.constructor data cfg a ro w0 in
  ui_stable (fst (Ui.constructor a cfg' ro w0)) (snd (Ui.constructor a cfg' ro w0))
    (ImageTool.ui (fst s0)) (snd s0).
Proof.
  cbn zeta. rewrite <- caption_decision_code. unfold ImageTool.constructor.
  destruct (Ui.constructor _ _ _ _) as [u w1]. cbn [fst snd].
  unfold ImageTool.set_data.
  match goal with
  | |- context [ImageTool.set_image ?f ?t ?w] =>
      pose proof (set_image_stable f t w) as S;
      destruct (ImageTool.set_image f t w) as [t1 w2]
  end.
  cbn [fst snd ImageTool.ui] in *.
  eapply ui_stable_trans; [exact S|].
  apply ui_stable_same_length. unfold Ui.fillCaption. apply on_el_length.
Qed.

Lemma constructor_facts data cfg a ro w0 ops :
  let s := ImageTool.run ops (ImageTool.constructor data cfg a ro w0) in
  let u := ImageTool.ui (fst s) in
  ImageConfig.showCaption (Ui.config u) = Some (caption_decision ro data)
  /\ is_Some (dom (snd s) !! Ui.caption (Ui.nodes u)).
Proof.
  cbn zeta.
  pose proof (run_stable ops (ImageTool.constructor data cfg a ro w0)) as R.
  pose proof (constructor_stable data cfg a ro w0) as C. cbn zeta in C.
  pose proof (ui_stable_trans _ _ _ _ _ _ C R) as S. clear C R.
  match type of S with
  | ui_stable (fst (Ui.constructor ?a ?c ?r ?w)) _ _ _ =>
      destruct (Ui_constructor_facts a c r w) as (F1 & _ & F3 & F4 & _)
  end.
  destruct S as (S1 & _ & _ & _ & _ & _ & _ & S8 & S9).
  split.
  - rewrite S1, F1. reflexivity.
  - apply lookup_lt_is_Some. rewrite S8, F3. lia.
Qed.

(** The caption right after the constructor: appended by the constructor's
    own call of [fillImage] when the data names a file and the decision is
    true, and without a parent otherwise. *)
Lemma constructor_caption data cfg a ro w0 :
  let s0 := ImageTool.constructor data cfg a ro w0 in
  let named :=
    match ImageToolData.file data with
    | Some f => Js.truthy_string (FileData.url f)
    | None => false
    end in
  caption_parent (ImageTool.ui (fst s0)) (snd s0)
  = Some (if named && caption_decision ro data
          then Some (S (length (dom w0) + 5)) else None).
Proof.
  cbn zeta. rewrite <- caption_decision_code.
  set (dec := negb ro || ImageTool.isNotEmpty (ImageToolData.caption data)).
  unfold ImageTool.constructor. fold dec.
  match goal with
  | |- context [Ui.constructor ?a ?c ?r ?w] =>
      destruct (Ui_constructor_facts a c r w) as (F1 & _ & F3 & F4 & F5);
      destruct (Ui.constructor a c r w) as [u w1]
  end.
  cbn [fst snd] in *.
  unfold ImageTool.set_data, ImageTool.set_image.
  cbn [ImageTool.with_data ImageTool._data ImageTool.ui ImageToolData.height
       ImageToolData.width ImageToolData.with_file ImageToolData.with_width
       ImageToolData.with_height ImageToolData.with_caption].
  assert (V : is_Some (dom w1 !! Ui.caption (Ui.nodes u))).
  { apply lookup_lt_is_Some. lia. }
  assert (Skip : forall t,
            caption_parent u (Ui.fillCaption t u w1) = Some None).
  { intros t. unfold caption_parent, Ui.fillCaption.
    rewrite (on_el_view Dom.parentNode) by (intros ?; reflexivity). exact F5. }
  destruct (ImageToolData.file data) as [f|]; [|apply Skip].
  destruct (FileData.url f) as [url|]; [|apply Skip].
  destruct (Js.truthy_string (Some url)); [|apply Skip].
  cbn [andb].
  match goal with
  | |- context [Ui.fillImage ?url ?h ?wd u w1] =>
      pose proof (fillImage_ui url h wd u w1) as (N & _);
      pose proof (fillImage_caption_appended url h wd u w1) as Y;
      pose proof (fillImage_parents_kept url h wd u w1) as Z;
      destruct (Ui.fillImage url h wd u w1) as [u2 w2]
  end.
  cbn [fst snd ImageTool.ui ImageTool.with_ui] in *.
  unfold caption_parent in *. unfold Ui.fillCaption.
  rewrite (on_el_view Dom.parentNode) by (intros ?; reflexivity).
  rewrite F1 in Y, Z. cbn [ImageConfig.showCaption default] in Y, Z.
  destruct dec.
  - rewrite Y by (reflexivity || exact V). now rewrite F4.
  - destruct Z as [_ Z]; [reflexivity|].
    rewrite N. cbn [Ui.nodes Ui.with_imageEl Ui.caption].
    rewrite Z by lia. exact F5.
Qed.

(** C7.  The tool's configuration holds, from the constructor on and
    through everything that can happen to the block, the decision of the
    specification ([caption_decision]: not read-only, or an initial caption
    that is a string, not empty and not made of white space), whatever the
    caller put into [showCaption].  The constructor's own call of [fillImage] and
    every later one follow it: with the decision true the caption node ends
    below the new content wrapper, with the decision false the caption node
    stays where it was, which is out of the tree after the constructor. *)
Theorem caption_fixed_at_construction
    (data : ImageToolData.t) (cfg : ImageConfig.t) (a : API.t) (ro : bool)
    (w0 : World) (ops : list ImageTool.Op) (url : string) (h wd : option string) :
  let s := ImageTool.run ops (ImageTool.constructor data cfg a ro w0) in
  let u := ImageTool.ui (fst s) in
  let r := Ui.fillImage url h wd u (snd s) in
  ImageConfig.showCaption (Ui.config u) = Some (caption_decision ro data)
  /\ (forall v : option bool,
        let cfg' := ImageConfig.mk (ImageConfig.endpoints cfg) (ImageConfig.types cfg)
                      (ImageConfig.field cfg) (ImageConfig.captionPlaceholder cfg)
                      (ImageConfig.buttonContent cfg) v in
        ImageConfig.showCaption
          (Ui.config (ImageTool.ui
             (fst (ImageTool.run ops (ImageTool.constructor data cfg' a ro w0)))))
        = Some (caption_decision ro data))
  /\ (caption_decision ro data = true ->
      caption_parent (fst r) (snd r) = Some (Some (S (length (dom (snd s))))))
  /\ (caption_decision ro data = false ->
      caption_parent (fst r) (snd r) = caption_parent u (snd s))
  /\ (caption_decision ro data = false ->
      caption_parent (ImageTool.ui (fst (ImageTool.constructor data cfg a ro w0)))
        (snd (ImageTool.constructor data cfg a ro w0)) = Some None)
  /\ (forall f url0,
        caption_decision ro data = true ->
        ImageToolData.file data = Some f ->
        FileData.url f = Some url0 -> url0 <> "" ->
        caption_parent (ImageTool.ui (fst (ImageTool.constructor data cfg a ro w0)))
          (snd (ImageTool.constructor data cfg a ro w0))
        = Some (Some (S (length (dom w0) + 5)))).
Proof.
  cbn zeta.
  destruct (constructor_facts data cfg a ro w0 ops) as [C V]. cbn zeta in C, V.
  pose proof (constructor_caption data cfg a ro w0) as K0. cbn zeta in K0.
  split; [exact C|]. split; [|split; [|split; [|split]]];
    [| | |intros Hd; rewrite K0, Hd, andb_false_r; reflexivity
     |intros f url0 Hd Hf Hu Hne; rewrite K0, Hd, Hf, Hu;
      destruct url0; [congruence|reflexivity]].
  - intros v. apply (constructor_facts data _ a ro w0 ops).
  - intros Hd. apply fillImage_caption_appended; [|exact V].
    rewrite C, Hd. reflexivity.
  - intros Hd.
    match goal with
    | |- caption_parent (fst (Ui.fillImage ?url ?h ?wd ?u ?w)) _ = _ =>
        destruct (fillImage_ui url h wd u w) as (N & _);
        destruct (fillImage_parents_kept url h wd u w) as [_ K];
        [rewrite C, Hd; reflexivity|]
    end.
    unfold caption_parent. rewrite N. cbn [Ui.nodes Ui.with_imageEl Ui.caption].
    apply K. destruct V as [c V]. eapply lookup_lt_Some, V.
Qed.

(** In a read-only block the caption decides.  A caption of three spaces
    is no caption: the decision is false and the caption node stays out of
    the tree, although the constructor fills the picture in.  A caption
    with text makes the decision true, and the caption node ends below the
    content wrapper (node 6).  In an editable block the caption is
    appended although the caller asks for no caption. *)
Lemma caption_fixed_at_construction_witness :
  (caption_decision true Scenario.blankCaption = false
   /\ caption_parent
        (ImageTool.ui (fst (ImageTool.constructor Scenario.blankCaption Scenario.cfg
                              Scenario.api true emptyWorld)))
        (snd (ImageTool.constructor Scenario.blankCaption Scenario.cfg
                Scenario.api true emptyWorld))
      = Some None)
  /\ (caption_decision true Scenario.sunsetCaption = true
      /\ caption_parent
           (ImageTool.ui (fst (ImageTool.constructor Scenario.sunsetCaption Scenario.cfg
                                 Scenario.api true emptyWorld)))
           (snd (ImageTool.constructor Scenario.sunsetCaption Scenario.cfg
                   Scenario.api true emptyWorld))
         = Some (Some 6%nat))
  /\ (ImageConfig.showCaption Scenario.cfg = Some false
      /\ caption_parent
           (fst (Ui.fillImage "https://x/y.png" None None
                   (ImageTool.ui (fst Scenario.fresh)) (snd Scenario.fresh)))
           (snd (Ui.fillImage "https://x/y.png" None None
                   (ImageTool.ui (fst Scenario.fresh)) (snd Scenario.fresh)))
         = Some (Some 6%nat)).
Proof.
  split; [|split].
  - destruct (caption_fixed_at_construction Scenario.blankCaption Scenario.cfg
                Scenario.api true emptyWorld [] "" None None) as (_ & _ & _ & _ & H & _).
    split; [reflexivity|]. apply H. reflexivity.
  - destruct (caption_fixed_at_construction Scenario.sunsetCaption Scenario.cfg
                Scenario.api true emptyWorld [] "" None None)
      as (_ & _ & _ & _ & _ & H).
    split; [reflexivity|].
    apply (H Scenario.picture "https://x/y.png");
      [reflexivity|reflexivity|reflexivity|discriminate].
  - split; [reflexivity|].
    destruct (caption_fixed_at_construction Scenario.noData Scenario.cfg Scenario.api
                false emptyWorld [] "https://x/y.png" None None) as (_ & _ & H & _).
    apply H. reflexivity.
Defined.

End Caption.

(* ===================================================================== *)
(** ** Replacing the displayed element *)
(* ===================================================================== *)

Section Replace.

(** C3 fails on the code.  [fillImage] stores the new element in
    [nodes.imageEl] before it removes the old listeners, so the removal
    addresses the new element and every element that was in the document
    keeps its listeners, while the new element gets its one ready listener
    and one error listener.  In the block whose picture (node 5) has been
    replaced by a clip (node 12), the picture still has its ready and error
    listeners, and its ready event still runs the old handler, which marks
    the clip as loaded. *)
Theorem fillImage_leaves_old_listeners :
  (forall url h wd u w j e,
      dom w !! j = Some e ->
      exists e',
        dom (snd (Ui.fillImage url h wd u w)) !! j = Some e'
        /\ Dom.listeners e' = Dom.listeners e)
  /\ (forall url h wd u w,
        Dom.listeners <$> dom (snd (Ui.fillImage url h wd u w)) !! length (dom w)
        = Some [(Ui.eventName_of url, length (funs w));
                ("error", S (length (funs w)))])
  /\ Ui.imageEl (Ui.nodes (ImageTool.ui (fst Scenario.replaced))) = Some 12%nat
  /\ Dom.listeners <$> dom (snd Scenario.replaced) !! 5%nat
     = Some [("load", 1%nat); ("error", 2%nat)]
  /\ Dom.listeners <$> dom (snd Scenario.replaced) !! 12%nat
     = Some [("loadeddata", 5%nat); ("error", 6%nat)]
  /\ Dom.classList <$> dom (snd Scenario.replaced) !! 12%nat
     = Some ["image-tool__image-picture"; "resizable-image"]
  /\ Dom.classList
       <$> dom (snd (ImageTool.step (ImageTool.ElementEvent 5 "load" 0%Q)
                       Scenario.replaced)) !! 12%nat
     = Some ["image-tool__image-picture"; "resizable-image"; "loaded"].
Proof.
  split.
  - intros url h wd u w j e He.
    destruct (fillImage_old_listeners url h wd u w) as [_ K].
    specialize (K j (lookup_lt_Some _ _ _ He)). rewrite He in K.
    destruct (dom (snd (Ui.fillImage url h wd u w)) !! j) as [e'|]; [|discriminate].
    exists e'. split; [reflexivity|]. cbn in K. congruence.
  - split; [exact fillImage_new_listeners|].
    repeat split; vm_compute; reflexivity.
Qed.

End Replace.

(* ===================================================================== *)
(** ** Numbers and strings across a save *)
(* ===================================================================== *)

Section Decimal.

Lemma parse_digits_uint d acc :
  Js.parse_digits (NilEmpty.string_of_uint d) (Some acc) = Some (digits_value d acc).
Proof.
  revert acc. induction d; intros acc; cbn [NilEmpty.string_of_uint digits_value];
    [reflexivity| ..]; cbn [Js.parse_digits]; apply IHd.
Qed.

Lemma digits_value_pos d acc :
  digits_value d (Z.pos acc) = Z.pos (Pos.of_uint_acc d acc).
Proof.
  revert acc. induction d; intros acc; cbn [digits_value Pos.of_uint_acc];
    [reflexivity| ..];
    match goal with
    | |- digits_value _ ?a = Z.pos (Pos.of_uint_acc _ ?p) =>
        replace a with (Z.pos p) by lia
    end; apply IHd.
Qed.

Lemma digits_value_zero d : digits_value d 0 = Z.of_uint d.
Proof.
  unfold Z.of_uint. induction d; cbn [digits_value Pos.of_uint]; try reflexivity;
    try exact IHd;
    match goal with
    | |- digits_value _ ?a = Z.of_N (N.pos (Pos.of_uint_acc _ ?p)) =>
        replace a with (Z.pos p) by lia
    end; rewrite digits_value_pos; reflexivity.
Qed.

Lemma parse_digits_uint_start d :
  d <> Decimal.Nil ->
  Js.parse_digits (NilEmpty.string_of_uint d) None = Some (digits_value d 0).
Proof.
  destruct d; [congruence| ..]; intros _;
    cbn [NilEmpty.string_of_uint Js.parse_digits digits_value];
    apply parse_digits_uint.
Qed.

Lemma parseInt_uint d :
  d <> Decimal.Nil ->
  Js.parseInt (NilEmpty.string_of_uint d) = Some (Z.of_uint d).
Proof.
  intros Hd. rewrite <- digits_value_zero, <- parse_digits_uint_start by exact Hd.
  destruct d; [congruence| ..]; reflexivity.
Qed.

Lemma to_uint_not_nil p : Pos.to_uint p <> Decimal.Nil.
Proof.
  intros E. pose proof (DecimalPos.Unsigned.of_to p) as H. rewrite E in H. discriminate.
Qed.

(** [parseInt] reads back the integer that [String] wrote. *)
Lemma parseInt_String_ (n : Z) : Js.parseInt (Js.String_ n) = Some n.
Proof.
  unfold Js.String_. destruct n as [|p|p]; [reflexivity| |].
  - cbn [Z.to_int NilZero.string_of_int]. unfold NilZero.string_of_uint.
    pose proof (to_uint_not_nil p) as Hn.
    pose proof (DecimalZ.of_to (Z.pos p)) as Hv. cbn [Z.to_int Z.of_int] in Hv.
    rewrite <- Hv. rewrite <- parseInt_uint by exact Hn.
    destruct (Pos.to_uint p); [congruence| ..]; reflexivity.
  - cbn [Z.to_int NilZero.string_of_int]. unfold NilZero.string_of_uint.
    pose proof (to_uint_not_nil p) as Hn.
    pose proof (DecimalZ.of_to (Z.pos p)) as Hv. cbn [Z.to_int Z.of_int] in Hv.
    assert (Hs : NilEmpty.string_of_uint (Pos.to_uint p)
                 = match Pos.to_uint p with
                   | Decimal.Nil => "0"
                   | _ => NilEmpty.string_of_uint (Pos.to_uint p)
                   end).
    { destruct (Pos.to_uint p); [congruence| ..]; reflexivity. }
    rewrite <- Hs.
    change (Js.parseInt (String "-" (NilEmpty.string_of_uint (Pos.to_uint p))))
      with (Z.opp <$> Js.parse_digits (NilEmpty.string_of_uint (Pos.to_uint p)) None).
    rewrite parse_digits_uint_start, digits_value_zero, Hv by exact Hn. reflexivity.
Qed.

End Decimal.

Section Trim.

Implicit Types (s t : string) (c : ascii).

Lemma trimEnd_cons c r :
  Js.trimEnd (String c r)
  = match Js.trimEnd r with
    | EmptyString => if Js.isWhiteSpace c then EmptyString else String c EmptyString
    | r' => String c r'
    end.
Proof. reflexivity. Qed.

Lemma trimEnd_idem t : Js.trimEnd (Js.trimEnd t) = Js.trimEnd t.
Proof.
  induction t as [|c r IH]; [reflexivity|].
  cbn [Js.trimEnd]. destruct (Js.trimEnd r) as [|c' r'] eqn:E.
  - destruct (Js.isWhiteSpace c) eqn:Hc; [reflexivity|].
    cbn [Js.trimEnd]. now rewrite Hc.
  - rewrite (trimEnd_cons c (String c' r')), IH. reflexivity.
Qed.

Lemma trimEnd_head c r :
  Js.isWhiteSpace c = false -> exists r', Js.trimEnd (String c r) = String c r'.
Proof.
  intros Hc. cbn [Js.trimEnd]. destruct (Js.trimEnd r); rewrite ?Hc; eauto.
Qed.

(** Trimming a trimmed string changes nothing. *)
Lemma trim_idem s : Js.trim (Js.trim s) = Js.trim s.
Proof.
  unfold Js.trim. destruct (all_white s) eqn:E.
  - rewrite (trimStart_white s E). reflexivity.
  - destruct (trimStart_black s E) as (c & r & -> & Hc).
    destruct (trimEnd_head c r Hc) as (r' & Hr). rewrite Hr.
    cbn [Js.trimStart]. rewrite Hc, <- Hr. apply trimEnd_idem.
Qed.

End Trim.

Section Reload.

Implicit Types (this : ImageTool.t).

(** X1.  The width written by [save] is the width the ready handler of a
    later block restores: when the rendered element has positive width and
    height, the handler that captured the saved [width] sets [style.width]
    of its element to exactly the saved number of pixels and [style.height]
    to [auto], whatever the element and the block it runs in. *)
Theorem saved_width_restored this w tag (u' : Ui.t) (w' : World) el e :
  0 < ImageTool.currentWidth this w ->
  0 < ImageTool.currentHeight this w ->
  Ui.imageEl (Ui.nodes u') = Some el ->
  dom w' !! el = Some e ->
  exists e',
    dom (snd (Ui.run_imageLoadHandler tag
                (ImageToolData.width (fst (ImageTool.save this w))) u' w')) !! el
    = Some e'
    /\ Dom.s_width (Dom.style e')
       = Some (Dom.Px (inject_Z (ImageTool.currentWidth this w)))
    /\ Dom.s_height (Dom.style e') = Some Dom.Auto.
Proof.
  intros Hw Hh Hel He.
  destruct (save_sized this w Hw Hh) as [-> _].
  destruct (run_imageLoadHandler_style tag
              (Some (Js.String_ (ImageTool.currentWidth this w))) u' w' el e Hel He)
    as (e' & E & Sw & Sh & _).
  exists e'. split; [exact E|].
  unfold restored_style in Sw, Sh. rewrite parseInt_String_ in Sw, Sh.
  apply Z.ltb_lt in Hw. rewrite Hw in Sw, Sh. split; assumption.
Qed.

Lemma saved_width_restored_witness :
  exists e',
    dom (snd (Ui.run_imageLoadHandler "IMG"
                (ImageToolData.width
                   (fst (ImageTool.save (fst Scenario.loaded) (snd Scenario.loaded))))
                (ImageTool.ui (fst Scenario.legacyReady))
                (snd Scenario.legacyReady))) !! 5%nat
    = Some e'
    /\ Dom.s_width (Dom.style e')
       = Some (Dom.Px (inject_Z
                         (ImageTool.currentWidth (fst Scenario.loaded)
                            (snd Scenario.loaded))))
    /\ Dom.s_height (Dom.style e') = Some Dom.Auto.
Proof.
  apply (saved_width_restored (fst Scenario.loaded) (snd Scenario.loaded) "IMG"
           (ImageTool.ui (fst Scenario.legacyReady)) (snd Scenario.legacyReady) 5%nat
           (default (Dom.blank "") (dom (snd Scenario.legacyReady) !! 5%nat))).
  - vm_compute. reflexivity.
  - vm_compute. reflexivity.
  - vm_compute. reflexivity.
  - vm_compute. reflexivity.
Defined.

(** X2.  [isNotEmpty] answers false exactly for an absent string and for a
    string made of white space only; it is true exactly when some
    character of the string is not white space, and trimming the argument
    first does not change the answer. *)
Theorem isNotEmpty_white_space :
  ImageTool.isNotEmpty None = false
  /\ (forall s, ImageTool.isNotEmpty (Some s) = negb (all_white s))
  /\ (forall s,
        ImageTool.isNotEmpty (Some s) = true
        <-> exists c, In c (list_ascii_of_string s) /\ Js.isWhiteSpace c = false)
  /\ (forall s, ImageTool.isNotEmpty (Some (Js.trim s)) = ImageTool.isNotEmpty (Some s)).
Proof.
  assert (E : forall s, ImageTool.isNotEmpty (Some s) = negb (all_white s)).
  { intros s. unfold ImageTool.isNotEmpty.
    destruct (String.eqb_spec (Js.trim s) "") as [H|H].
    - apply trim_empty in H. now rewrite H.
    - destruct (all_white s) eqn:W; [|reflexivity].
      apply trim_empty in W. contradiction. }
  split; [reflexivity|]. split; [exact E|]. split.
  - intros s. rewrite E, negb_true_iff. unfold all_white. split.
    + intros H. induction (list_ascii_of_string s) as [|c l IH]; [discriminate|].
      cbn [forallb] in H. destruct (Js.isWhiteSpace c) eqn:Hc.
      * destruct (IH H) as (c' & Hin & Hc'). exists c'. split; [now right|exact Hc'].
      * exists c. split; [now left|exact Hc].
    + intros (c & Hin & Hc).
      destruct (forallb Js.isWhiteSpace (list_ascii_of_string s)) eqn:F; [|reflexivity].
      rewrite forallb_forall in F. rewrite (F c Hin) in Hc. discriminate.
  - intros s. unfold ImageTool.isNotEmpty. now rewrite trim_idem.
Qed.

End Reload.

(* ===================================================================== *)
(** ** [make] *)
(* ===================================================================== *)

Section MakeSpec.

Implicit Types (e : Dom.Element) (c k : string).

Lemma classList_add_In c c' e :
  In c (Dom.classList (Dom.classList_add c' e)) <-> c = c' \/ In c (Dom.classList e).
Proof.
  unfold Dom.classList_add. destruct (existsb (String.eqb c') (Dom.classList e)) eqn:X.
  - split; [now right|]. intros [->|H]; [|exact H].
    apply existsb_exists in X as (x & Hx & Ex). apply String.eqb_eq in Ex. now subst.
  - cbn. rewrite in_app_iff. cbn. intuition congruence.
Qed.

Lemma classList_add_NoDup c' e :
  NoDup (Dom.classList e) -> NoDup (Dom.classList (Dom.classList_add c' e)).
Proof.
  intros H. unfold Dom.classList_add.
  destruct (existsb (String.eqb c') (Dom.classList e)) eqn:X; [exact H|].
  cbn. apply NoDup_app. split; [exact H|]. split.
  - intros x Hx Hin. apply list_elem_of_singleton in Hin. subst x.
    apply list_elem_of_In in Hx.
    assert (existsb (String.eqb c') (Dom.classList e) = true); [|congruence].
    apply existsb_exists. exists c'. split; [exact Hx|apply String.eqb_refl].
  - apply NoDup_singleton.
Qed.

Lemma fold_add_In (cs : list string) e c :
  In c (Dom.classList (fold_left (fun e c => Dom.classList_add c e) cs e))
  <-> In c (Dom.classList e) \/ In c cs.
Proof.
  revert e. induction cs as [|c0 cs IH]; intros e; cbn [fold_left].
  - cbn. tauto.
  - rewrite IH, classList_add_In. cbn. intuition congruence.
Qed.

Lemma fold_add_NoDup (cs : list string) e :
  NoDup (Dom.classList e) ->
  NoDup (Dom.classList (fold_left (fun e c => Dom.classList_add c e) cs e)).
Proof.
  revert e. induction cs as [|c0 cs IH]; intros e H; cbn [fold_left]; [exact H|].
  apply IH, classList_add_NoDup, H.
Qed.

Lemma assoc_get_set {V : Type} k k' (v : V) (l : list (string * V)) :
  Dom.assoc_get k (Dom.assoc_set k' v l)
  = if String.eqb k k' then Some v else Dom.assoc_get k l.
Proof.
  induction l as [|[k0 v0] l IH]; cbn [Dom.assoc_set Dom.assoc_get].
  - reflexivity.
  - destruct (String.eqb_spec k' k0) as [->|N]; cbn [Dom.assoc_get].
    + destruct (String.eqb k k0); reflexivity.
    + rewrite IH. destruct (String.eqb_spec k k0) as [->|N'].
      * destruct (String.eqb_spec k0 k'); [congruence|reflexivity].
      * reflexivity.
Qed.

Lemma assoc_get_snoc {V : Type} k (l : list (string * V)) k' v :
  Dom.assoc_get k (l ++ [(k', v)])
  = match Dom.assoc_get k l with
    | Some x => Some x
    | None => if String.eqb k k' then Some v else None
    end.
Proof.
  induction l as [|[k0 v0] l IH]; cbn [app Dom.assoc_get]; [reflexivity|].
  destruct (String.eqb k k0); [reflexivity|exact IH].
Qed.

Lemma fold_set_prop_get (attrs : list (string * Dom.PropValue)) e k :
  Dom.assoc_get k
    (Dom.props (fold_left (fun e kv => Dom.set_prop (fst kv) (snd kv) e) attrs e))
  = match Dom.assoc_get k (rev attrs) with
    | Some v => Some v
    | None => Dom.assoc_get k (Dom.props e)
    end.
Proof.
  revert e. induction attrs as [|[k0 v0] attrs IH]; intros e; cbn [fold_left rev].
  - reflexivity.
  - rewrite IH, assoc_get_snoc. cbn [fst snd Dom.set_prop Dom.with_props Dom.props].
    rewrite assoc_get_set.
    destruct (Dom.assoc_get k (rev attrs)), (String.eqb k k0); reflexivity.
Qed.

Lemma fold_set_view {A : Type} (g : Dom.Element -> A)
    (attrs : list (string * Dom.PropValue)) e :
  (forall v, same_on g (Dom.with_props v)) ->
  g (fold_left (fun e kv => Dom.set_prop (fst kv) (snd kv) e) attrs e) = g e.
Proof.
  intros Hp. revert e. induction attrs as [|kv l IH]; intros e; [reflexivity|].
  cbn [fold_left]. rewrite IH. apply Hp.
Qed.

Lemma fold_add_view {A : Type} (g : Dom.Element -> A) (cs : list string) e :
  (forall v, same_on g (Dom.with_classList v)) ->
  g (fold_left (fun e c => Dom.classList_add c e) cs e) = g e.
Proof.
  intros Hc. revert e. induction cs as [|c l IH]; intros e; [reflexivity|].
  cbn [fold_left]. rewrite IH. unfold Dom.classList_add.
  destruct (existsb _ _); [reflexivity|apply Hc].
Qed.

(** X3.  [make] creates one element and touches nothing else: the node it
    returns is new, every element already in the document is as it was, and
    no function object or document listener is added.  The new element has
    the requested tag; it carries exactly the requested classes, each once;
    reading an attribute back gives the value assigned last under that
    name; it has no listener, no parent and no child. *)
Theorem make_spec (tagName : string) (classNames : list string)
    (attributes : list (string * Dom.PropValue)) (w : World) :
  let el := fst (make tagName classNames attributes w) in
  let w' := snd (make tagName classNames attributes w) in
  dom w !! el = None
  /\ length (dom w') = S (length (dom w))
  /\ (forall j e, dom w !! j = Some e -> dom w' !! j = Some e)
  /\ funs w' = funs w
  /\ documentListeners w' = documentListeners w
  /\ exists e,
       dom w' !! el = Some e
       /\ Dom.tagName e = tagName
       /\ (forall c, In c (Dom.classList e) <-> In c classNames)
       /\ NoDup (Dom.classList e)
       /\ (forall k, Dom.assoc_get k (Dom.props e) = Dom.assoc_get k (rev attributes))
       /\ Dom.listeners e = []
       /\ Dom.parentNode e = None
       /\ Dom.children e = [].
Proof.
  cbn zeta. rewrite make_eq. cbn [fst snd dom with_dom funs documentListeners].
  split; [apply lookup_ge_None; lia|].
  split; [rewrite length_app; cbn; lia|].
  split; [intros j e H; rewrite lookup_app_l; [exact H|]; now apply lookup_lt_Some in H|].
  split; [reflexivity|]. split; [reflexivity|].
  exists (built tagName classNames attributes).
  split; [rewrite lookup_app_r, Nat.sub_diag by lia; reflexivity|].
  split; [apply (built_view Dom.tagName); intros ? ?; reflexivity|].
  split.
  { intros c. unfold built.
    rewrite (fold_set_view Dom.classList) by (intros ? ?; reflexivity).
    rewrite fold_add_In. cbn. tauto. }
  split.
  { unfold built. rewrite (fold_set_view Dom.classList) by (intros ? ?; reflexivity).
    apply fold_add_NoDup. cbn. constructor. }
  split.
  { intros k. unfold built. rewrite fold_set_prop_get.
    destruct (Dom.assoc_get k (rev attributes)); [reflexivity|].
    rewrite (fold_add_view Dom.props) by (intros ? ?; reflexivity). reflexivity. }
  split; [apply (built_view Dom.listeners); intros ? ?; reflexivity|].
  split; [apply (built_view Dom.parentNode); intros ? ?; reflexivity|].
  apply (built_view Dom.children); intros ? ?; reflexivity.
Qed.

End MakeSpec.

(* ===================================================================== *)
(** ** The state classes of the wrapper *)
(* ===================================================================== *)

Section StatusSpec.

Implicit Types (e : Dom.Element) (c : string).

Lemma on_el_fix i f w e : dom w !! i = Some e -> f e = e -> on_el i f w = w.
Proof.
  intros H F. unfold on_el.
  assert (A : alter f i (dom w) = dom w).
  { apply list_eq. intros j. destruct (decide (i = j)) as [<-|N].
    - rewrite list_lookup_alter_eq, H. cbn. now rewrite F.
    - now rewrite list_lookup_alter_ne. }
  rewrite A. destruct w; reflexivity.
Qed.

Lemma toggle_as_classes c b e :
  Dom.classList_toggle c b e
  = Dom.with_classList (Dom.classList (Dom.classList_toggle c b e)) e.
Proof.
  unfold Dom.classList_toggle, Dom.classList_add, Dom.classList_remove.
  destruct b; [destruct (existsb _ _)|]; destruct e; reflexivity.
Qed.

Lemma toggle_fix c b e :
  Dom.classList_contains c e = b -> Dom.classList_toggle c b e = e.
Proof.
  unfold Dom.classList_contains, Dom.classList_toggle, Dom.classList_add,
    Dom.classList_remove.
  intros H. destruct b; [now rewrite H|].
  assert (F : List.filter (fun c0 => negb (String.eqb c c0)) (Dom.classList e)
              = Dom.classList e).
  { induction (Dom.classList e) as [|x l IH]; [reflexivity|].
    cbn [existsb List.filter] in *. apply orb_false_iff in H as [H1 H2].
    rewrite H1. cbn [negb]. now rewrite IH. }
  rewrite F. destruct e; reflexivity.
Qed.

(** X4.  [toggleStatus(status)] leaves the wrapper with the class of
    [status] and without the class of either other state; every other
    class of the wrapper, every other field of it and every other element
    stay as they were, and a second call with the same state changes
    nothing. *)
Theorem toggleStatus_exclusive (status : Ui.UiState) u w e :
  dom w !! Ui.wrapper (Ui.nodes u) = Some e ->
  let w' := Ui.toggleStatus status u w in
  (exists e',
      dom w' !! Ui.wrapper (Ui.nodes u) = Some e'
      /\ (forall s, Dom.classList_contains (Ui.status_class s) e' = Ui.UiState_eqb status s)
      /\ (forall c, not_status_class c ->
            Dom.classList_contains c e' = Dom.classList_contains c e)
      /\ e' = Dom.with_classList (Dom.classList e') e)
  /\ (forall j, j <> Ui.wrapper (Ui.nodes u) -> dom w' !! j = dom w !! j)
  /\ Ui.shown u w' = [status]
  /\ Ui.toggleStatus status u w' = w'.
Proof.
  intros H. cbn zeta.
  assert (L : dom (Ui.toggleStatus status u w) !! Ui.wrapper (Ui.nodes u)
              = Some (Dom.classList_toggle (Ui.status_class Ui.Filled)
                        (Ui.UiState_eqb status Ui.Filled)
                        (Dom.classList_toggle (Ui.status_class Ui.Uploading)
                           (Ui.UiState_eqb status Ui.Uploading)
                           (Dom.classList_toggle (Ui.status_class Ui.Empty)
                              (Ui.UiState_eqb status Ui.Empty) e)))).
  { unfold Ui.toggleStatus. cbn [fold_left]. rewrite !on_el_lookup_eq, H. reflexivity. }
  assert (F : forall s,
             Dom.classList_contains (Ui.status_class s)
               (Dom.classList_toggle (Ui.status_class Ui.Filled)
                  (Ui.UiState_eqb status Ui.Filled)
                  (Dom.classList_toggle (Ui.status_class Ui.Uploading)
                     (Ui.UiState_eqb status Ui.Uploading)
                     (Dom.classList_toggle (Ui.status_class Ui.Empty)
                        (Ui.UiState_eqb status Ui.Empty) e)))
             = Ui.UiState_eqb status s).
  { intros s. rewrite !contains_toggle. destruct s, status; reflexivity. }
  split; [eexists; split; [exact L|]; split; [exact F|]; split|].
  - intros c Hc. rewrite !contains_toggle.
    destruct (String.eqb_spec c (Ui.status_class Ui.Filled)) as [E|_];
      [now apply Hc in E|].
    destruct (String.eqb_spec c (Ui.status_class Ui.Uploading)) as [E|_];
      [now apply Hc in E|].
    destruct (String.eqb_spec c (Ui.status_class Ui.Empty)) as [E|_];
      [now apply Hc in E|].
    reflexivity.
  - rewrite toggle_as_classes at 1.
    rewrite (toggle_as_classes (Ui.status_class Ui.Uploading)) at 2.
    rewrite (toggle_as_classes (Ui.status_class Ui.Empty)) at 3.
    destruct e; reflexivity.
  - split.
    { intros j N. unfold Ui.toggleStatus. cbn [fold_left].
      now rewrite !on_el_lookup_ne by congruence. }
    split; [apply toggleStatus_shown; now exists e|].
    set (w1 := Ui.toggleStatus status u w) in *.
    unfold Ui.toggleStatus at 1. cbn [fold_left].
    rewrite (on_el_fix _ _ w1 _ L) by (apply toggle_fix, F).
    rewrite (on_el_fix _ _ w1 _ L) by (apply toggle_fix, F).
    rewrite (on_el_fix _ _ w1 _ L) by (apply toggle_fix, F).
    reflexivity.
Qed.

Lemma toggleStatus_exclusive_witness :
  Ui.shown (ImageTool.ui (fst Scenario.fresh))
    (Ui.toggleStatus Ui.Uploading (ImageTool.ui (fst Scenario.fresh))
       (snd Scenario.fresh))
  = [Ui.Uploading].
Proof.
  apply (toggleStatus_exclusive Ui.Uploading (ImageTool.ui (fst Scenario.fresh))
           (snd Scenario.fresh)
           (default (Dom.blank "") (dom (snd Scenario.fresh) !! 0%nat))).
  vm_compute. reflexivity.
Defined.

End StatusSpec.

(* ===================================================================== *)
(** ** The tree built by the constructors *)
(* ===================================================================== *)

Section Normal.

Lemma dom_with_dom d w : dom (with_dom d w) = d.
Proof. reflexivity. Qed.

Lemma snoc_snoc {A} (d : list A) x l : (d ++ l) ++ [x] = d ++ (l ++ [x]).
Proof. now rewrite <- app_assoc. Qed.

Lemma lookup_plus {A} (d l : list A) k : (d ++ l) !! (length d + k)%nat = l !! k.
Proof. rewrite lookup_app_r by lia. f_equal. lia. Qed.

Lemma on_el_app (d l : Dom.Document) k f w :
  on_el (length d + k) f (with_dom (d ++ l) w) = with_dom (d ++ alter f k l) w.
Proof. unfold on_el. cbn [dom with_dom]. now rewrite alter_app_r, with_dom_with_dom. Qed.

Lemma with_dom_with_funs d F w : with_dom d (with_funs F w) = with_funs F (with_dom d w).
Proof. reflexivity. Qed.

Lemma on_el_with_funs i f F w : on_el i f (with_funs F w) = with_funs F (on_el i f w).
Proof. reflexivity. Qed.

Lemma appendChild_with_funs p c F w :
  appendChild p c (with_funs F w) = with_funs F (appendChild p c w).
Proof. reflexivity. Qed.

(** Appending a detached element of the tail of the document to another
    element of the tail. *)
Lemma appendChild_app (d l : Dom.Document) p c e w :
  l !! c = Some e -> Dom.parentNode e = None ->
  appendChild (length d + p) (length d + c) (with_dom (d ++ l) w)
  = with_dom
      (d ++ alter (Dom.with_parentNode (Some (length d + p)%nat)) c
              (alter (fun pe => Dom.with_children
                                  (Dom.children pe ++ [(length d + c)%nat]) pe) p l)) w.
Proof.
  intros H P. unfold appendChild, Dom.appendChild, Dom.detach.
  cbn [dom with_dom]. rewrite lookup_plus, H, P.
  now rewrite !alter_app_r, with_dom_with_dom.
Qed.


Lemma appendChild_app0 (d l : Dom.Document) c e w :
  l !! c = Some e -> Dom.parentNode e = None ->
  appendChild (length d) (length d + c) (with_dom (d ++ l) w)
  = with_dom
      (d ++ alter (Dom.with_parentNode (Some (length d))) c
              (alter (fun pe => Dom.with_children
                                  (Dom.children pe ++ [(length d + c)%nat]) pe) 0%nat l)) w.
Proof.
  intros H P. pose proof (appendChild_app d l 0 c e w H P) as A.
  now rewrite Nat.add_0_r in A.
Qed.

Lemma addEventListener_first ev f (e : Dom.Element) :
  Dom.listeners e = [] ->
  Dom.addEventListener ev f e = Dom.with_listeners [(ev, f)] e.
Proof. intros H. unfold Dom.addEventListener. now rewrite H. Qed.

Lemma Ui_constructor_eq a cfg ro w :
  let n := length (dom w) in
  let button :=
    Dom.with_listeners [("click", length (funs w))]
      (Dom.with_innerHTML (buttonHTML a cfg) (built "div" [Ui.CSS.button a] [])) in
  Ui.constructor a cfg ro w
  = (Ui.mk (Ui.mkNodes n (n + 1) (n + 2) None (n + 3) (n + 4))
       a false cfg ro (Js.Num 1) None None (Some (length (funs w))) [],
     with_funs (funs w ++ [FileButtonHandler])
       (with_dom
          (dom w ++
           [Dom.with_children (if ro then [n + 1] else [n + 1; n + 2])%nat
              (built "div" [Ui.CSS.baseClass a; Ui.CSS.wrapper] []);
            Dom.with_parentNode (Some n)
              (Dom.with_children [(n + 3)%nat] (built "div" [Ui.CSS.imageContainer] []));
            (if ro then button else Dom.with_parentNode (Some n) button);
            Dom.with_parentNode (Some (n + 1)%nat)
              (built "div" [Ui.CSS.imagePreloader] []);
            Dom.with_dataset
              [("placeholder",
                default "undefined" (ImageConfig.captionPlaceholder cfg))]
              (built "div" [Ui.CSS.caption]
                 [("contentEditable", Dom.PBool (negb ro))])]) w)).
Proof.
  cbn zeta. unfold Ui.constructor, Ui.createFileButton. fold (buttonHTML a cfg).
  rewrite make_eq. cbv beta iota zeta.
  rewrite make_eq. cbv beta iota zeta. rewrite !dom_with_dom, !with_dom_with_dom.
  rewrite make_eq. cbv beta iota zeta. rewrite !dom_with_dom, !with_dom_with_dom.
  rewrite !snoc_snoc. cbn [app].
  rewrite !length_app. cbn [length].
  rewrite on_el_app. cbn [alter list_alter].
  rewrite new_fun_eq. cbv beta iota zeta. cbn [funs with_dom].
  rewrite on_el_with_funs, on_el_app. cbn [alter list_alter].
  rewrite make_eq. cbv beta iota zeta. cbn [dom with_funs with_dom].
  rewrite !with_dom_with_funs, !with_dom_with_dom.
  rewrite make_eq. cbv beta iota zeta. cbn [dom with_funs with_dom].
  rewrite !with_dom_with_funs, !with_dom_with_dom.
  rewrite !snoc_snoc. cbn [app].
  rewrite !length_app. cbn [length].
  rewrite !on_el_with_funs, on_el_app. cbn [alter list_alter].
  rewrite (addEventListener_first "click")
    by (apply (built_view Dom.listeners); intros ? ?; reflexivity).
  rewrite (built_view Dom.dataset) by (intros ? ?; reflexivity).
  cbn [Dom.blank Dom.dataset Dom.assoc_set].
  destruct ro; cbn [negb]; rewrite !appendChild_with_funs.
  all: erewrite appendChild_app;
    [|reflexivity|apply (built_view Dom.parentNode); intros ? ?; reflexivity].
  all: cbn [alter list_alter].
  all: erewrite appendChild_app0;
    [|reflexivity
     |cbn [Dom.parentNode Dom.with_children];
      apply (built_view Dom.parentNode); intros ? ?; reflexivity].
  all: cbn [alter list_alter].
  2: erewrite appendChild_app0;
      [|reflexivity
       |cbn [Dom.parentNode Dom.with_listeners Dom.with_innerHTML];
        apply (built_view Dom.parentNode); intros ? ?; reflexivity].
  2: cbn [alter list_alter].
  all: cbn [Dom.children Dom.with_children Dom.with_parentNode].
  all: rewrite !(built_view Dom.children) by (intros ? ?; reflexivity).
  all: cbn [Dom.blank Dom.children app].
  all: reflexivity.
Qed.
End Normal.

Section ConstructorSpec.

Implicit Types (this : ImageTool.t).

(** The nodes of the constructor of [Ui], and the file button it leaves. *)
Lemma Ui_constructor_views (a : API.t) (cfg : ImageConfig.t) (ro : bool) w :
  let n := length (dom w) in
  let u := fst (Ui.constructor a cfg ro w) in
  let w' := snd (Ui.constructor a cfg ro w) in
  Ui.nodes u = Ui.mkNodes n (n + 1) (n + 2) None (n + 3) (n + 4)
  /\ length (dom w') = (n + 5)%nat
  /\ Dom.parentNode <$> dom w' !! (n + 2)%nat = Some (if ro then None else Some n)
  /\ Dom.parentNode <$> dom w' !! (n + 4)%nat = Some None
  /\ Dom.listeners <$> dom w' !! (n + 2)%nat = Some [("click", length (funs w))]
  /\ funs w' = funs w ++ [FileButtonHandler]
  /\ Ui.fileButtonHandler u = Some (length (funs w)).
Proof.
  cbn zeta. pose proof (Ui_constructor_eq a cfg ro w) as E. cbn zeta in E.
  rewrite E. clear E. cbn [fst snd dom with_dom with_funs funs Ui.nodes Ui.fileButtonHandler].
  assert (B : forall t c at_, Dom.parentNode (built t c at_) = None)
    by (intros; apply (built_view Dom.parentNode); intros ? ?; reflexivity).
  split; [reflexivity|].
  split; [rewrite length_app; reflexivity|].
  rewrite !lookup_plus. cbn [lookup list_lookup].
  split.
  { destruct ro; [|reflexivity].
    cbn [fmap option_fmap option_map Dom.parentNode Dom.with_listeners Dom.with_innerHTML].
    now rewrite B. }
  split; [cbn [fmap option_fmap option_map Dom.parentNode Dom.with_dataset];
          now rewrite B|].
  split; [destruct ro; reflexivity|]. split; reflexivity.
Qed.

(** X5.  The constructor of [Ui] adds five elements and one function
    object to the world and changes no element that was there.  In
    creation order the elements are the wrapper, the image container, the
    file button, the preloader and the caption.  The image container hangs
    below the wrapper and holds the preloader; the file button is the
    second child of the wrapper in an editable block and stays detached in
    a read-only one; the caption is created but not attached.  The click
    listener of the file button is the only listener, the caption is
    editable exactly when the block is not read-only, and there is no
    image element yet. *)
Theorem Ui_constructor_tree (a : API.t) (cfg : ImageConfig.t) (ro : bool) w :
  let n := length (dom w) in
  let u := fst (Ui.constructor a cfg ro w) in
  let w' := snd (Ui.constructor a cfg ro w) in
  Ui.nodes u = Ui.mkNodes n (n + 1) (n + 2) None (n + 3) (n + 4)
  /\ length (dom w') = (n + 5)%nat
  /\ (forall j e, dom w !! j = Some e -> dom w' !! j = Some e)
  /\ Dom.parentNode <$> dom w' !! n = Some None
  /\ Dom.children <$> dom w' !! n
     = Some (if ro then [n + 1] else [n + 1; n + 2])%nat
  /\ Dom.parentNode <$> dom w' !! (n + 1)%nat = Some (Some n)
  /\ Dom.children <$> dom w' !! (n + 1)%nat = Some [(n + 3)%nat]
  /\ Dom.parentNode <$> dom w' !! (n + 3)%nat = Some (Some (n + 1)%nat)
  /\ Dom.parentNode <$> dom w' !! (n + 2)%nat = Some (if ro then None else Some n)
  /\ Dom.parentNode <$> dom w' !! (n + 4)%nat = Some None
  /\ (forall k, (k < 5)%nat ->
        Dom.listeners <$> dom w' !! (n + k)%nat
        = Some (if Nat.eqb k 2 then [("click", length (funs w))] else []))
  /\ funs w' = funs w ++ [FileButtonHandler]
  /\ Ui.fileButtonHandler u = Some (length (funs w))
  /\ Dom.innerHTML <$> dom w' !! (n + 2)%nat = Some (buttonHTML a cfg)
  /\ (fun e => Dom.assoc_get "contentEditable" (Dom.props e)) <$> dom w' !! (n + 4)%nat
     = Some (Some (Dom.PBool (negb ro)))
  /\ (fun e => Dom.assoc_get "placeholder" (Dom.dataset e)) <$> dom w' !! (n + 4)%nat
     = Some (Some (default "undefined" (ImageConfig.captionPlaceholder cfg))).
Proof.
  cbn zeta. pose proof (Ui_constructor_eq a cfg ro w) as E. cbn zeta in E.
  rewrite E. clear E. cbn [fst snd dom with_dom with_funs funs Ui.nodes Ui.fileButtonHandler].
  assert (L0 : forall l : Dom.Document, (dom w ++ l) !! length (dom w) = l !! 0%nat).
  { intros l. rewrite <- (lookup_plus (dom w) l 0). now rewrite Nat.add_0_r. }
  split; [reflexivity|].
  split; [rewrite length_app; reflexivity|].
  split; [intros j e H; rewrite lookup_app_l; [exact H|]; now apply lookup_lt_Some in H|].
  rewrite !L0, !lookup_plus. cbn [lookup list_lookup].
  assert (B : forall t c at_, Dom.parentNode (built t c at_) = None)
    by (intros; apply (built_view Dom.parentNode); intros ? ?; reflexivity).
  assert (B' : forall t c at_, Dom.listeners (built t c at_) = [])
    by (intros; apply (built_view Dom.listeners); intros ? ?; reflexivity).
  split; [cbn [fmap option_fmap option_map Dom.parentNode Dom.with_children];
          now rewrite B|].
  split; [reflexivity|]. split; [reflexivity|]. split; [reflexivity|].
  split; [reflexivity|].
  split.
  { destruct ro; [|reflexivity].
    cbn [fmap option_fmap option_map Dom.parentNode Dom.with_listeners Dom.with_innerHTML].
    now rewrite B. }
  split; [cbn [fmap option_fmap option_map Dom.parentNode Dom.with_dataset];
          now rewrite B|].
  split.
  { intros k Hk. rewrite lookup_plus.
    destruct k as [|[|[|[|[|k]]]]]; [..|lia]; cbn [lookup list_lookup Nat.eqb];
      try (destruct ro);
      cbn [fmap option_fmap option_map Dom.listeners Dom.with_children Dom.with_parentNode
             Dom.with_dataset Dom.with_listeners];
      rewrite ?B'; reflexivity. }
  split; [reflexivity|]. split; [reflexivity|].
  split; [destruct ro; reflexivity|].
  split; reflexivity.
Qed.

Lemma static_layout : static Dom.layout.
Proof. repeat split; intros ? ?; reflexivity. Qed.

Lemma truthy_caption (c : option string) :
  (if Js.truthy_string c then default "" c else "") = default "" c.
Proof. destruct c as [[|? ?]|]; reflexivity. Qed.

(** What the constructor of the tool leaves in [_data]. *)
Lemma constructor_data data cfg a ro w0 :
  ImageTool._data (fst (ImageTool.constructor data cfg a ro w0)) = stored_data data.
Proof.
  unfold ImageTool.constructor, ImageTool.set_data, ImageTool.set_image, stored_data.
  destruct (Ui.constructor _ _ _ _) as [u w1].
  rewrite truthy_caption.
  destruct (ImageToolData.file data) as [f|]; [|reflexivity].
  destruct (FileData.url f) as [url|]; [|reflexivity].
  destruct (Js.truthy_string (Some url)); [|reflexivity].
  destruct (Ui.fillImage _ _ _ _ _). reflexivity.
Qed.

(** Right after the constructor the image element, if there is one, has
    no layout yet. *)
Lemma constructor_unsized data cfg a ro w0 :
  let s := ImageTool.constructor data cfg a ro w0 in
  ImageTool.currentWidth (fst s) (snd s) = 0.
Proof.
  cbn zeta. unfold ImageTool.constructor, ImageTool.set_data, ImageTool.set_image.
  pose proof (Ui_constructor_eq a
     (ImageConfig.mk (ImageConfig.endpoints cfg) (ImageConfig.types cfg)
        (ImageConfig.field cfg)
        (Some (API.i18n_t a (default "Enter a caption"
                               (ImageConfig.captionPlaceholder cfg))))
        (ImageConfig.buttonContent cfg)
        (Some (negb ro || ImageTool.isNotEmpty (ImageToolData.caption data))))
     ro w0) as E.
  cbn zeta in E.
  destruct (Ui.constructor _ _ _ _) as [u w1]. injection E as Eu _.
  assert (N : Ui.imageEl (Ui.nodes u) = None) by now rewrite Eu.
  clear Eu. rewrite truthy_caption.
  assert (Z0 : forall (this : ImageTool.t) w c,
             Ui.imageEl (Ui.nodes (ImageTool.ui this)) = None ->
             ImageTool.currentWidth this (Ui.fillCaption c (ImageTool.ui this) w) = 0).
  { intros this w c H. now apply currentWidth_no_element. }
  destruct (ImageToolData.file data) as [f|]; [|now apply Z0].
  destruct (FileData.url f) as [url|]; [|now apply Z0].
  destruct (Js.truthy_string (Some url)); [|now apply Z0].
  cbn [ImageTool._data ImageTool.with_data ImageTool.ui ImageToolData.height
         ImageToolData.width ImageToolData.with_file ImageToolData.with_width
         ImageToolData.with_height ImageToolData.with_caption].
  match goal with
  | |- context [Ui.fillImage ?url ?h ?wd u w1] =>
      pose proof (fillImage_ui url h wd u w1) as U;
      pose proof (fillImage_new_view Dom.layout url h wd u w1 static_layout) as V;
      destruct (Ui.fillImage url h wd u w1) as [u2 w2]
  end.
  cbn zeta in U. cbn [fst snd] in *. destruct U as (U & _).
  unfold ImageTool.currentWidth. cbn [ImageTool.ui ImageTool.with_ui].
  rewrite U. cbn [Ui.nodes Ui.with_imageEl Ui.imageEl mbind option_bind].
  unfold Ui.fillCaption.
  rewrite (on_el_view Dom.layout) by (intros ?; reflexivity).
  rewrite V, (built_view Dom.layout) by (intros ? ?; reflexivity). reflexivity.
Qed.

Lemma constructor_unsized_height data cfg a ro w0 :
  let s := ImageTool.constructor data cfg a ro w0 in
  ImageTool.currentHeight (fst s) (snd s) = 0.
Proof.
  cbn zeta. unfold ImageTool.constructor, ImageTool.set_data, ImageTool.set_image.
  pose proof (Ui_constructor_eq a
     (ImageConfig.mk (ImageConfig.endpoints cfg) (ImageConfig.types cfg)
        (ImageConfig.field cfg)
        (Some (API.i18n_t a (default "Enter a caption"
                               (ImageConfig.captionPlaceholder cfg))))
        (ImageConfig.buttonContent cfg)
        (Some (negb ro || ImageTool.isNotEmpty (ImageToolData.caption data))))
     ro w0) as E.
  cbn zeta in E.
  destruct (Ui.constructor _ _ _ _) as [u w1]. injection E as Eu _.
  assert (N : Ui.imageEl (Ui.nodes u) = None) by now rewrite Eu.
  clear Eu. rewrite truthy_caption.
  assert (Z0 : forall (this : ImageTool.t) w c,
             Ui.imageEl (Ui.nodes (ImageTool.ui this)) = None ->
             ImageTool.currentHeight this (Ui.fillCaption c (ImageTool.ui this) w) = 0).
  { intros this w c H. now apply currentWidth_no_element. }
  destruct (ImageToolData.file data) as [f|]; [|now apply Z0].
  destruct (FileData.url f) as [url|]; [|now apply Z0].
  destruct (Js.truthy_string (Some url)); [|now apply Z0].
  cbn [ImageTool._data ImageTool.with_data ImageTool.ui ImageToolData.height
         ImageToolData.width ImageToolData.with_file ImageToolData.with_width
         ImageToolData.with_height ImageToolData.with_caption].
  match goal with
  | |- context [Ui.fillImage ?url ?h ?wd u w1] =>
      pose proof (fillImage_ui url h wd u w1) as U;
      pose proof (fillImage_new_view Dom.layout url h wd u w1 static_layout) as V;
      destruct (Ui.fillImage url h wd u w1) as [u2 w2]
  end.
  cbn zeta in U. cbn [fst snd] in *. destruct U as (U & _).
  unfold ImageTool.currentHeight. cbn [ImageTool.ui ImageTool.with_ui].
  rewrite U. cbn [Ui.nodes Ui.with_imageEl Ui.imageEl mbind option_bind].
  unfold Ui.fillCaption.
  rewrite (on_el_view Dom.layout) by (intros ?; reflexivity).
  rewrite V, (built_view Dom.layout) by (intros ? ?; reflexivity). reflexivity.
Qed.

(** The text of the caption node right after the constructor. *)
Lemma constructor_caption_text data cfg a ro w0 :
  let s := ImageTool.constructor data cfg a ro w0 in
  Dom.textContent <$> dom (snd s) !! Ui.caption (Ui.nodes (ImageTool.ui (fst s)))
  = Some (default "" (ImageToolData.caption data)).
Proof.
  cbn zeta.
  destruct (constructor_facts data cfg a ro w0 []) as [_ [e He]].
  cbn [ImageTool.run fold_left] in He. revert He.
  unfold ImageTool.constructor, ImageTool.set_data.
  destruct (Ui.constructor _ _ _ _) as [u w1]. rewrite truthy_caption.
  destruct (ImageTool.set_image _ _ _) as [t1 w2]. cbn [fst snd].
  unfold Ui.fillCaption. rewrite on_el_lookup_eq.
  destruct (dom w2 !! Ui.caption (Ui.nodes (ImageTool.ui t1))); [reflexivity|discriminate].
Qed.

(** X6.  A block saved right after its construction, before the browser
    has laid anything out, gives back the data it was built from in the
    stored form: the caption trimmed (an absent one as the empty string),
    [width] and [height] exactly as given, present or not, and the file
    descriptor as given (an absent one as a file with an empty [url]).  So
    data that came out of a save goes through a reload unchanged. *)
Theorem constructor_save_round_trip (data : ImageToolData.t) (cfg : ImageConfig.t)
    (a : API.t) (ro : bool) (w0 : World) :
  let s := ImageTool.constructor data cfg a ro w0 in
  fst (ImageTool.save (fst s) (snd s))
  = ImageToolData.with_caption
      (Some (Js.trim (default "" (ImageToolData.caption data)))) (stored_data data)
  /\ (forall c f,
        ImageToolData.caption data = Some c -> Js.trim c = c ->
        ImageToolData.file data = Some f ->
        fst (ImageTool.save (fst s) (snd s)) = data)
  /\ (forall this w,
        ImageToolData.file (ImageTool._data this) <> None ->
        let d := fst (ImageTool.save this w) in
        let s' := ImageTool.constructor d cfg a ro w0 in
        fst (ImageTool.save (fst s') (snd s')) = d).
Proof.
  cbn zeta.
  assert (R : forall data,
             fst (ImageTool.save (fst (ImageTool.constructor data cfg a ro w0))
                    (snd (ImageTool.constructor data cfg a ro w0)))
             = ImageToolData.with_caption
                 (Some (Js.trim (default "" (ImageToolData.caption data))))
                 (stored_data data)).
  { intros d. unfold ImageTool.save.
    rewrite constructor_unsized, constructor_caption_text, constructor_data.
    reflexivity. }
  split; [apply R|]. split.
  - intros c f Hc Ht Hf. rewrite R. unfold stored_data, ImageToolData.with_caption.
    rewrite Hc, Hf.
    cbn [from_option id ImageToolData.height ImageToolData.width ImageToolData.file].
    rewrite Ht. destruct data; cbn in *; congruence.
  - intros this w Hf. rewrite R.
    set (d := fst (ImageTool.save this w)).
    assert (C : exists c, ImageToolData.caption d = Some (Js.trim c)).
    { unfold d, ImageTool.save. cbn [fst].
      exists (default "" (Dom.textContent
                <$> dom w !! Ui.caption (Ui.nodes (ImageTool.ui this)))).
      destruct (_ && _), (dom w !! Ui.caption (Ui.nodes (ImageTool.ui this)));
        reflexivity. }
    assert (F : ImageToolData.file d = ImageToolData.file (ImageTool._data this)).
    { unfold d, ImageTool.save. cbn [fst]. destruct (_ && _); reflexivity. }
    destruct C as [c C]. unfold stored_data. rewrite C, F.
    destruct (ImageToolData.file (ImageTool._data this)) as [f|] eqn:E; [|congruence].
    cbn [from_option id]. rewrite trim_idem. clearbody d.
    destruct d as [dc dh dw df].
    cbn [ImageToolData.caption ImageToolData.height ImageToolData.width
           ImageToolData.file ImageToolData.with_caption] in *.
    subst dc df. reflexivity.
Qed.

(** X7.  The state [render] shows on a block fresh from the constructor.
    The wrapper, which [render] returns, shows the uploading state unless
    the data names a file object without any key, in which case it shows
    the empty state.  A block built from data with no [file] at all shows
    the uploading state, because the setter has stored a file with an
    empty [url] by then. *)
Theorem render_initial_state (data : ImageToolData.t) (cfg : ImageConfig.t)
    (a : API.t) (ro : bool) (w0 : World) :
  let s := ImageTool.constructor data cfg a ro w0 in
  let r := ImageTool.render (fst s) (snd s) in
  fst r = length (dom w0)
  /\ fst r = Ui.wrapper (Ui.nodes (ImageTool.ui (fst s)))
  /\ Ui.shown (ImageTool.ui (fst s)) (snd r)
     = [match ImageToolData.file data with
        | Some f => if Nat.eqb (FileData.keys_length f) 0 then Ui.Empty else Ui.Uploading
        | None => Ui.Uploading
        end]
  /\ (ImageToolData.file data = None ->
      Ui.shown (ImageTool.ui (fst s)) (snd r) = [Ui.Uploading]).
Proof.
  cbn zeta.
  pose proof (constructor_stable data cfg a ro w0) as S. cbn zeta in S.
  match type of S with
  | ui_stable (fst (Ui.constructor ?a ?c ?r ?w)) _ _ _ =>
      pose proof (Ui_constructor_eq a c r w) as E; cbn zeta in E; rewrite E in S
  end.
  clear E. destruct S as (_ & _ & _ & S4 & _ & _ & _ & _ & S9).
  cbn [fst snd Ui.nodes Ui.wrapper dom with_dom with_funs] in S4, S9.
  rewrite length_app in S9. cbn [length] in S9.
  assert (P : is_Some (dom (snd (ImageTool.constructor data cfg a ro w0))
                         !! Ui.wrapper (Ui.nodes (ImageTool.ui
                              (fst (ImageTool.constructor data cfg a ro w0)))))).
  { apply lookup_lt_is_Some. rewrite S4. lia. }
  unfold ImageTool.render, Ui.render. rewrite constructor_data. cbn [fst snd].
  split; [exact S4|]. split; [reflexivity|].
  assert (G : Ui.shown (ImageTool.ui (fst (ImageTool.constructor data cfg a ro w0)))
      (if match ImageToolData.file (stored_data data) with
          | Some f => Nat.eqb (FileData.keys_length f) 0
          | None => true
          end
       then Ui.toggleStatus Ui.Empty
              (ImageTool.ui (fst (ImageTool.constructor data cfg a ro w0)))
              (snd (ImageTool.constructor data cfg a ro w0))
       else Ui.toggleStatus Ui.Uploading
              (ImageTool.ui (fst (ImageTool.constructor data cfg a ro w0)))
              (snd (ImageTool.constructor data cfg a ro w0)))
     = [match ImageToolData.file data with
        | Some f => if Nat.eqb (FileData.keys_length f) 0 then Ui.Empty else Ui.Uploading
        | None => Ui.Uploading
        end]).
  { unfold stored_data. cbn [ImageToolData.file].
    destruct (ImageToolData.file data) as [f|]; cbn [from_option id].
    - destruct (Nat.eqb (FileData.keys_length f) 0); now apply toggleStatus_shown.
    - cbn [FileData.keys_length FileData.url FileData.extra length Nat.add Nat.eqb].
      now apply toggleStatus_shown. }
  split; [exact G|]. intros N. rewrite G, N. reflexivity.
Qed.

End ConstructorSpec.

(* ===================================================================== *)
(** ** The preloader and the file button *)
(* ===================================================================== *)

Section Preloader.

Lemma toggle_same_display c b : same_on display (Dom.classList_toggle c b).
Proof. intros e. unfold display. f_equal. apply toggle_same_style. Qed.

Lemma toggle_same_background c b : same_on backgroundImage (Dom.classList_toggle c b).
Proof. intros e. unfold backgroundImage. f_equal. apply toggle_same_style. Qed.

Lemma showPreloader_shown src u w :
  is_Some (dom w !! Ui.wrapper (Ui.nodes u)) ->
  Ui.shown u (Ui.showPreloader src u w) = [Ui.Uploading].
Proof.
  intros H. unfold Ui.showPreloader. apply toggleStatus_shown.
  apply lookup_lt_is_Some. rewrite on_el_length. now apply lookup_lt_is_Some.
Qed.

Lemma showPreloader_preview src u w :
  Dom.plain_url src = true ->
  is_Some (dom w !! Ui.imagePreloader (Ui.nodes u)) ->
  backgroundImage <$> dom (Ui.showPreloader src u w) !! Ui.imagePreloader (Ui.nodes u)
  = Some ("url(" ++ src ++ ")")%string.
Proof.
  intros Hs [e He]. unfold Ui.showPreloader.
  rewrite (toggleStatus_view backgroundImage) by apply toggle_same_background.
  rewrite on_el_lookup_eq, He. cbn. unfold backgroundImage, Dom.set_backgroundImage_url.
  cbn [Dom.style Dom.with_style]. now rewrite Hs.
Qed.

(** A source that is not plain leaves the style of every element as it
    was. *)
Lemma showPreloader_dropped src u w j :
  Dom.plain_url src = false ->
  Dom.style <$> dom (Ui.showPreloader src u w) !! j = Dom.style <$> dom w !! j.
Proof.
  intros Hs. unfold Ui.showPreloader.
  rewrite (toggleStatus_view Dom.style) by apply toggle_same_style.
  apply on_el_view. intros e. unfold Dom.set_backgroundImage_url. rewrite Hs.
  reflexivity.
Qed.

Lemma showPreloader_view {A : Type} (g : Dom.Element -> A) src u w j :
  (forall c b, same_on g (Dom.classList_toggle c b)) ->
  (forall v, same_on g (Dom.with_style v)) ->
  g <$> dom (Ui.showPreloader src u w) !! j = g <$> dom w !! j.
Proof.
  intros Hc Hs. unfold Ui.showPreloader.
  rewrite (toggleStatus_view g) by apply Hc.
  apply on_el_view. intros e. apply Hs.
Qed.

Lemma showPreloader_display src u w j :
  display <$> dom (Ui.showPreloader src u w) !! j = display <$> dom w !! j.
Proof.
  unfold Ui.showPreloader.
  rewrite (toggleStatus_view display) by apply toggle_same_display.
  apply on_el_view. intros e. unfold display, Dom.set_backgroundImage_url.
  destruct (Dom.plain_url src); reflexivity.
Qed.

Lemma hidePreloader_display u w j :
  display <$> dom (Ui.hidePreloader u w) !! j = display <$> dom w !! j.
Proof.
  unfold Ui.hidePreloader.
  rewrite (toggleStatus_view display) by apply toggle_same_display.
  apply on_el_view. intros e. reflexivity.
Qed.

Lemma preview_of_style (a b : option Dom.Element) :
  Dom.style <$> a = Dom.style <$> b -> backgroundImage <$> a = backgroundImage <$> b.
Proof.
  destruct a as [e1|], b as [e0|]; cbn; try discriminate; [|reflexivity].
  intros [= E]. unfold backgroundImage. now rewrite E.
Qed.

(** X8.  [showPreloader(src)] puts the wrapper in the uploading state and,
    for a source of plain characters (no white space, quote, parenthesis,
    backslash or control character), the preview [url(src)] on the
    preloader.  For a source with an opening parenthesis after plain
    characters, such as [https://x/y(1).png], the style drops the
    assignment and the preview stays what it was.  [hidePreloader()] after
    it clears the preview and puts the wrapper in the empty state.  Neither
    touches [style.display] of any element, the parent of any element, or
    any listener: in particular a preloader that the ready handler has
    hidden is not shown again by [showPreloader]. *)
Theorem preloader_show_hide (src : string) u w :
  is_Some (dom w !! Ui.imagePreloader (Ui.nodes u)) ->
  is_Some (dom w !! Ui.wrapper (Ui.nodes u)) ->
  let w1 := Ui.showPreloader src u w in
  let w2 := Ui.hidePreloader u w1 in
  (Dom.plain_url src = true ->
   backgroundImage <$> dom w1 !! Ui.imagePreloader (Ui.nodes u)
   = Some ("url(" ++ src ++ ")")%string)
  /\ (forall p r, Dom.plain_url p = true -> src = (p ++ "(" ++ r)%string ->
        backgroundImage <$> dom w1 !! Ui.imagePreloader (Ui.nodes u)
        = backgroundImage <$> dom w !! Ui.imagePreloader (Ui.nodes u))
  /\ Ui.shown u w1 = [Ui.Uploading]
  /\ backgroundImage <$> dom w2 !! Ui.imagePreloader (Ui.nodes u) = Some ""
  /\ Ui.shown u w2 = [Ui.Empty]
  /\ (forall j, display <$> dom w1 !! j = display <$> dom w !! j
                /\ display <$> dom w2 !! j = display <$> dom w !! j)
  /\ (forall j, Dom.parentNode <$> dom w1 !! j = Dom.parentNode <$> dom w !! j
                /\ Dom.parentNode <$> dom w2 !! j = Dom.parentNode <$> dom w !! j)
  /\ (forall j, Dom.listeners <$> dom w1 !! j = Dom.listeners <$> dom w !! j
                /\ Dom.listeners <$> dom w2 !! j = Dom.listeners <$> dom w !! j).
Proof.
  intros Hp Hw. cbn zeta.
  assert (Hp1 : is_Some (dom (Ui.showPreloader src u w) !! Ui.imagePreloader (Ui.nodes u))).
  { apply lookup_lt_is_Some. rewrite showPreloader_length. now apply lookup_lt_is_Some. }
  assert (Hw1 : is_Some (dom (Ui.showPreloader src u w) !! Ui.wrapper (Ui.nodes u))).
  { apply lookup_lt_is_Some. rewrite showPreloader_length. now apply lookup_lt_is_Some. }
  assert (T : forall c b, same_on Dom.listeners (Dom.classList_toggle c b)).
  { intros c b e. unfold Dom.classList_toggle, Dom.classList_add, Dom.classList_remove.
    destruct b; [destruct (existsb _ _)|]; reflexivity. }
  split; [intros Hs; now apply showPreloader_preview|].
  split.
  { intros p r _ ->. apply preview_of_style, showPreloader_dropped, plain_url_paren. }
  split; [now apply showPreloader_shown|].
  split; [now apply hidePreloader_preview|].
  split; [now apply hidePreloader_shown|].
  split; [intros j; now rewrite hidePreloader_display, showPreloader_display|].
  split.
  - intros j.
    rewrite (hidePreloader_view Dom.parentNode), (showPreloader_view Dom.parentNode);
      try (intros ? ?; reflexivity); try apply toggle_same_parent.
    split; reflexivity.
  - intros j.
    rewrite (hidePreloader_view Dom.listeners), (showPreloader_view Dom.listeners);
      try (intros ? ?; reflexivity); try apply T.
    split; reflexivity.
Qed.

(** On the block whose picture has loaded: the preview of a local blob is
    set, the preview of a source with parentheses is not, and the hidden
    preloader stays hidden. *)
Lemma preloader_show_hide_witness :
  let u := ImageTool.ui (fst Scenario.loaded) in
  let w := snd Scenario.loaded in
  backgroundImage <$> dom (Ui.showPreloader "blob:1" u w) !! 3%nat = Some "url(blob:1)"
  /\ backgroundImage <$> dom w !! 3%nat = Some ""
  /\ backgroundImage <$> dom (Ui.showPreloader "https://x/y(1).png" u w) !! 3%nat = Some ""
  /\ display <$> dom (Ui.showPreloader "blob:1" u w) !! 3%nat = Some "none".
Proof.
  cbn zeta.
  destruct (preloader_show_hide "blob:1" (ImageTool.ui (fst Scenario.loaded))
              (snd Scenario.loaded)) as (P & _ & _ & _ & _ & D & _).
  { vm_compute. eexists. reflexivity. }
  { vm_compute. eexists. reflexivity. }
  destruct (preloader_show_hide "https://x/y(1).png" (ImageTool.ui (fst Scenario.loaded))
              (snd Scenario.loaded)) as (_ & Q & _).
  { vm_compute. eexists. reflexivity. }
  { vm_compute. eexists. reflexivity. }
  split; [exact (P eq_refl)|].
  split; [vm_compute; reflexivity|].
  split.
  - transitivity (backgroundImage <$> dom (snd Scenario.loaded) !! 3%nat);
      [exact (Q "https://x/y" "1).png" eq_refl eq_refl)|vm_compute; reflexivity].
  - transitivity (display <$> dom (snd Scenario.loaded) !! 3%nat);
      [exact (proj1 (D 3%nat))|vm_compute; reflexivity].
Defined.

End Preloader.

Section FileButton.

Lemma alter_set_parent v i (d : Dom.Document) :
  Dom.parentNode <$> alter (Dom.with_parentNode v) i d !! i = (fun _ => v) <$> d !! i.
Proof. rewrite list_lookup_alter_eq. now destruct (d !! i). Qed.

Lemma remove_id_not_In c l : ~ In c (Dom.remove_id c l).
Proof.
  unfold Dom.remove_id. intros H. apply filter_In in H as [_ H].
  now rewrite Nat.eqb_refl in H.
Qed.

(** A detached child: no parent, and absent from the children of its
    former parent. *)
Lemma detach_result c p (d : Dom.Document) e :
  d !! c = Some e -> Dom.parentNode e = Some p ->
  Dom.parentNode <$> Dom.detach c d !! c = Some None
  /\ (forall pe, Dom.detach c d !! p = Some pe -> ~ In c (Dom.children pe))
  /\ (forall j, j <> c -> j <> p -> Dom.detach c d !! j = d !! j).
Proof.
  intros H P. unfold Dom.detach. rewrite H, P. split; [|split].
  - rewrite alter_set_parent.
    destruct (decide (p = c)) as [->|N].
    + now rewrite list_lookup_alter_eq, H.
    + now rewrite list_lookup_alter_ne, H by exact N.
  - intros pe Hpe.
    assert (C : Dom.children
                  <$> alter (Dom.with_parentNode None) c
                        (alter (fun pe => Dom.with_children
                                            (Dom.remove_id c (Dom.children pe)) pe) p d) !! p
                = (fun pe => Dom.remove_id c (Dom.children pe)) <$> d !! p).
    { rewrite (alter_view Dom.children) by (intros ?; reflexivity).
      rewrite list_lookup_alter_eq. now destruct (d !! p). }
    rewrite Hpe in C. destruct (d !! p) as [pe0|]; [|discriminate].
    cbn in C. injection C as ->. apply remove_id_not_In.
  - intros j Nc Np. now rewrite !list_lookup_alter_ne by congruence.
Qed.

(** X9.  The file button of an editable block, while it hangs below the
    wrapper: [removeFileButton()] detaches it without raising anything, a
    second [removeFileButton()] does nothing, and [addFileButton()] hangs
    it below the wrapper again. *)
Theorem fileButton_round_trip u w b :
  Ui.readOnly u = false ->
  dom w !! Ui.fileButton (Ui.nodes u) = Some b ->
  Dom.parentNode b = Some (Ui.wrapper (Ui.nodes u)) ->
  is_Some (dom w !! Ui.wrapper (Ui.nodes u)) ->
  let w1 := Ui.removeFileButton u w in
  button_detached u w1
  /\ uncaught w1 = uncaught w
  /\ (forall j, j <> Ui.fileButton (Ui.nodes u) -> j <> Ui.wrapper (Ui.nodes u) ->
        dom w1 !! j = dom w !! j)
  /\ Ui.removeFileButton u w1 = w1
  /\ button_appended u (Ui.addFileButton u w1)
  /\ uncaught (Ui.addFileButton u w1) = uncaught w.
Proof.
  intros Hro Hb Hp Hw. cbn zeta.
  destruct (detach_result _ _ _ _ Hb Hp) as (D1 & D2 & D3).
  assert (E : Ui.removeFileButton u w
              = with_dom (Dom.detach (Ui.fileButton (Ui.nodes u)) (dom w)) w).
  { unfold Ui.removeFileButton, Dom.removeChild. rewrite Hb, Hro, Hp.
    rewrite bool_decide_true by discriminate. cbn [negb andb].
    now rewrite Nat.eqb_refl. }
  rewrite E. cbn [dom with_dom uncaught].
  assert (L : length (Dom.detach (Ui.fileButton (Ui.nodes u)) (dom w)) = length (dom w))
    by apply detach_length.
  split; [split; [exact D1|exact D2]|].
  split; [reflexivity|]. split; [exact D3|]. split.
  - unfold Ui.removeFileButton. cbn [dom with_dom].
    destruct (Dom.detach (Ui.fileButton (Ui.nodes u)) (dom w) !! Ui.fileButton (Ui.nodes u))
      as [b'|]; [|reflexivity].
    cbn in D1. injection D1 as D1. rewrite D1, Hro.
    rewrite bool_decide_false by (intros N; now apply N). reflexivity.
  - unfold Ui.addFileButton. rewrite Hro. cbn [negb]. split; [|reflexivity].
    split.
    + apply appendChild_parent. apply lookup_lt_is_Some. cbn [dom with_dom].
      rewrite L. now apply lookup_lt_Some in Hb.
    + apply appendChild_children. apply lookup_lt_is_Some. cbn [dom with_dom].
      rewrite L. destruct Hw as [pe Hw]. now apply lookup_lt_Some in Hw.
Qed.

Lemma fileButton_round_trip_witness :
  button_detached (ImageTool.ui (fst Scenario.fresh))
    (Ui.removeFileButton (ImageTool.ui (fst Scenario.fresh)) (snd Scenario.fresh)).
Proof.
  destruct (fileButton_round_trip (ImageTool.ui (fst Scenario.fresh)) (snd Scenario.fresh)
              (default (Dom.blank "") (dom (snd Scenario.fresh) !! 2%nat)))
    as (D & _).
  - vm_compute. reflexivity.
  - vm_compute. reflexivity.
  - vm_compute. reflexivity.
  - vm_compute. eexists. reflexivity.
  - exact D.
Defined.

End FileButton.

(* ===================================================================== *)
(** ** The handlers of the image element *)
(* ===================================================================== *)

Section Handlers.

Lemma toggle_same_listeners c b : same_on Dom.listeners (Dom.classList_toggle c b).
Proof.
  intros e. unfold Dom.classList_toggle, Dom.classList_add, Dom.classList_remove.
  destruct b; [destruct (existsb _ _)|]; reflexivity.
Qed.

Lemma same_flags_parent v : same_on statusFlags (Dom.with_parentNode v).
Proof. intros e. reflexivity. Qed.

Lemma same_flags_children v : same_on statusFlags (Dom.with_children v).
Proof. intros e. reflexivity. Qed.

(** X10.  The error handler, run while the block holds an image element
    that hangs below some parent: the element is detached from that parent
    and forgotten ([nodes.imageEl] becomes undefined), the wrapper shows
    the empty state, one line goes to the console and nothing is raised.
    The listeners of the discarded element are left on it.  A save that
    follows keeps the stored [width] and [height].  When the element has no
    parent, the handler keeps the reference to it. *)
Theorem error_handler_discards (url : string) u w el e :
  Ui.imageEl (Ui.nodes u) = Some el ->
  dom w !! el = Some e ->
  is_Some (dom w !! Ui.wrapper (Ui.nodes u)) ->
  let u' := fst (Ui.run_imageErrorHandler url u w) in
  let w' := snd (Ui.run_imageErrorHandler url u w) in
  Ui.shown u' w' = [Ui.Empty]
  /\ console w' = console w ++ [("Image failed to load: " ++ url)%string]
  /\ uncaught w' = uncaught w
  /\ Dom.listeners <$> dom w' !! el = Some (Dom.listeners e)
  /\ (forall p, Dom.parentNode e = Some p ->
        Ui.imageEl (Ui.nodes u') = None
        /\ Dom.parentNode <$> dom w' !! el = Some None
        /\ (forall pe, dom w' !! p = Some pe -> ~ In el (Dom.children pe))
        /\ forall this : ImageTool.t,
             ImageToolData.width (fst (ImageTool.save (ImageTool.with_ui u' this) w'))
             = ImageToolData.width (ImageTool._data this)
             /\ ImageToolData.height (fst (ImageTool.save (ImageTool.with_ui u' this) w'))
                = ImageToolData.height (ImageTool._data this))
  /\ (Dom.parentNode e = None -> u' = u).
Proof.
  intros Hel He Hw. cbn zeta. unfold Ui.run_imageErrorHandler. rewrite Hel.
  set (w0 := with_console (console w ++ [("Image failed to load: " ++ url)%string]) w).
  set (w1 := Ui.toggleStatus Ui.Empty u w0).
  assert (Hw0 : is_Some (dom w0 !! Ui.wrapper (Ui.nodes u))) by exact Hw.
  assert (S1 : Ui.shown u w1 = [Ui.Empty]) by now apply toggleStatus_shown.
  assert (P1 : Dom.parentNode <$> dom w1 !! el = Some (Dom.parentNode e)).
  { unfold w1. rewrite (toggleStatus_view Dom.parentNode) by apply toggle_same_parent.
    unfold w0. cbn [dom with_console]. now rewrite He. }
  assert (L1 : Dom.listeners <$> dom w1 !! el = Some (Dom.listeners e)).
  { unfold w1. rewrite (toggleStatus_view Dom.listeners) by apply toggle_same_listeners.
    unfold w0. cbn [dom with_console]. now rewrite He. }
  assert (C1 : console w1 = console w ++ [("Image failed to load: " ++ url)%string]).
  { unfold w1, Ui.toggleStatus. reflexivity. }
  assert (U1 : uncaught w1 = uncaught w) by reflexivity.
  clearbody w1. clear w0 Hw0.
  destruct (dom w1 !! el) as [e1|] eqn:E1; [|discriminate].
  cbn in P1, L1. injection P1 as P1. injection L1 as L1.
  cbn [mbind option_bind]. rewrite P1.
  destruct (Dom.parentNode e) as [p|] eqn:Pe.
  - unfold Dom.removeChild. rewrite E1, P1, Nat.eqb_refl. cbn [fst snd].
    destruct (detach_result el p (dom w1) e1 E1 P1) as (D1 & D2 & _).
    split.
    { change (Ui.shown u (with_dom (Dom.detach el (dom w1)) w1) = [Ui.Empty]).
      rewrite <- S1. apply shown_flags. cbn [dom with_dom].
      apply detach_view; [apply same_flags_parent|apply same_flags_children]. }
    split; [exact C1|]. split; [exact U1|].
    split.
    { cbn [dom with_dom]. rewrite (detach_view Dom.listeners) by (intros ? ?; reflexivity).
      rewrite E1. cbn. now rewrite L1. }
    split; [|discriminate].
    intros p' Hp'. injection Hp' as <-.
    split; [reflexivity|]. split; [exact D1|]. split; [exact D2|].
    intros this.
    apply (save_unsized (ImageTool.with_ui (Ui.with_imageEl None u) this)). left.
    rewrite (proj1 (currentWidth_no_element
                      (ImageTool.with_ui (Ui.with_imageEl None u) this) _ eq_refl)).
    lia.
  - cbn [fst snd]. split; [exact S1|]. split; [exact C1|]. split; [exact U1|].
    split; [rewrite E1; cbn; now rewrite L1|]. split; [discriminate|reflexivity].
Qed.

Lemma error_handler_discards_witness :
  Ui.shown (fst (Ui.run_imageErrorHandler "https://x/y.png"
                   (ImageTool.ui (fst Scenario.uploaded)) (snd Scenario.uploaded)))
    (snd (Ui.run_imageErrorHandler "https://x/y.png"
            (ImageTool.ui (fst Scenario.uploaded)) (snd Scenario.uploaded)))
  = [Ui.Empty].
Proof.
  destruct (error_handler_discards "https://x/y.png"
              (ImageTool.ui (fst Scenario.uploaded)) (snd Scenario.uploaded) 5%nat
              (default (Dom.blank "") (dom (snd Scenario.uploaded) !! 5%nat)))
    as (D & _).
  - vm_compute. reflexivity.
  - vm_compute. reflexivity.
  - vm_compute. eexists. reflexivity.
  - exact D.
Defined.

(** X11.  The ready handler, called while the block holds no image
    element (the error handler has discarded it, say): the wrapper is put
    in the filled state all the same, then the read of the intrinsic size
    raises a TypeError; the aspect ratio and every other field of the
    object stay as they were, no style is written and the preloader is not
    hidden. *)
Theorem load_handler_without_element f tag (width : option string) (clientX : Q) u w :
  funs w !! f = Some (LoadHandler tag width) ->
  Ui.imageEl (Ui.nodes u) = None ->
  is_Some (dom w !! Ui.wrapper (Ui.nodes u)) ->
  let r := Ui.call f clientX u w in
  fst r = u
  /\ Ui.shown u (snd r) = [Ui.Filled]
  /\ (exists msg, uncaught (snd r) = uncaught w ++ [Js.TypeError msg])
  /\ (forall j, Dom.style <$> dom (snd r) !! j = Dom.style <$> dom w !! j).
Proof.
  intros Hf Hel Hw. cbn zeta. unfold Ui.call. rewrite Hf.
  unfold Ui.run_imageLoadHandler. rewrite Hel. cbn [fst snd].
  split; [reflexivity|]. split.
  - rewrite <- (toggleStatus_shown Ui.Filled u w Hw). apply shown_flags. reflexivity.
  - split; [eexists; reflexivity|].
    intros j. cbn [dom with_uncaught].
    apply toggleStatus_view. apply toggle_same_style.
Qed.

Lemma load_handler_without_element_witness :
  Ui.imageEl (Ui.nodes (ImageTool.ui (fst Episode.failed))) = None
  /\ Ui.shown (ImageTool.ui (fst Episode.failed))
       (snd (Ui.call 1 0 (ImageTool.ui (fst Episode.failed)) (snd Episode.failed)))
     = [Ui.Filled]
  /\ Dom.listeners_for "load"
       (default (Dom.blank "") (dom (snd Episode.failed) !! 5%nat)) = [1%nat].
Proof.
  destruct (load_handler_without_element 1 "IMG" None 0
              (ImageTool.ui (fst Episode.failed)) (snd Episode.failed))
    as (_ & D & _).
  - vm_compute. reflexivity.
  - vm_compute. reflexivity.
  - vm_compute. eexists. reflexivity.
  - split; [vm_compute; reflexivity|]. split; [exact D|]. vm_compute. reflexivity.
Defined.

End Handlers.

(* ===================================================================== *)
(** ** Dragging a resize handle *)
(* ===================================================================== *)

Section Drag.

Lemma lookup_snoc2_0 {A} (l : list A) a b : (l ++ [a; b]) !! length l = Some a.
Proof. rewrite lookup_app_r, Nat.sub_diag by lia. reflexivity. Qed.

Lemma lookup_snoc2_1 {A} (l : list A) a b : (l ++ [a; b]) !! S (length l) = Some b.
Proof.
  rewrite lookup_app_r by lia. replace (S (length l) - length l)%nat with 1%nat by lia.
  reflexivity.
Qed.

(** The handler of [mousedown] when no drag is under way. *)
Lemma run_mouseDownHandler_eq align u w :
  documentListeners w = [] ->
  Ui.run_mouseDownHandler align u w
  = (Ui.with_isResizing true u,
     with_documentListeners
       [("mousemove", length (funs w)); ("mouseup", S (length (funs w)))]
       (with_funs (funs w ++ [OnMouseMove align; OnMouseUp (length (funs w))]) w)).
Proof.
  intros H. unfold Ui.run_mouseDownHandler, new_fun, Ui.document_addEventListener.
  unfold Dom.same_listener.
  cbn [funs with_funs documentListeners with_documentListeners].
  rewrite H.
  cbn [funs with_funs documentListeners with_documentListeners existsb app fst snd].
  change (String.eqb "mouseup" "mousemove") with false. cbn [andb orb].
  rewrite length_app, <- app_assoc. cbn [length app].
  replace (length (funs w) + 1)%nat with (S (length (funs w))) by lia.
  destruct w; reflexivity.
Qed.

(** X12.  One drag of a resize handle, started when no drag is under
    way.  The [mousedown] handler marks the object as resizing and
    registers one [mousemove] and one [mouseup] listener on the document
    without touching any element.  A [mousemove] on the document then
    resizes the image element: its width becomes the larger of 30 and the
    width measured from the pointer.  The [mouseup] clears the mark and
    removes both listeners, so the document has no listener of the tool
    left, and a [mousemove] that comes after it changes nothing. *)
Theorem drag_protocol f (align : Align) (x0 x x1 x2 : Q) u w el e :
  funs w !! f = Some (MouseDownHandler align) ->
  documentListeners w = [] ->
  Ui.imageEl (Ui.nodes u) = Some el ->
  dom w !! el = Some e ->
  let s1 := Ui.call f x0 u w in
  let s2 := Ui.document_dispatchEvent "mousemove" x (fst s1) (snd s1) in
  let s3 := Ui.document_dispatchEvent "mouseup" x1 (fst s2) (snd s2) in
  let s4 := Ui.document_dispatchEvent "mousemove" x2 (fst s3) (snd s3) in
  let rect := Dom.boundingClientRect (Dom.layout e) in
  let offset :=
    match align with
    | ALeft => (Dom.r_left rect - x)%Q
    | ARight => (x - Dom.r_right rect)%Q
    end in
  Ui.isResizing (fst s1) = true
  /\ dom (snd s1) = dom w
  /\ documentListeners (snd s1)
     = [("mousemove", length (funs w)); ("mouseup", S (length (funs w)))]
  /\ (exists e',
        dom (snd s2) !! el = Some e'
        /\ Dom.s_width (Dom.style e')
           = Some (Dom.Px (Js.max (Dom.r_width rect + offset)%Q 30%Q))
        /\ Dom.s_height (Dom.style e') = Some Dom.Auto)
  /\ documentListeners (snd s2) = documentListeners (snd s1)
  /\ Ui.isResizing (fst s3) = false
  /\ documentListeners (snd s3) = []
  /\ dom (snd s3) = dom (snd s2)
  /\ s4 = s3.
Proof.
  intros Hf Hd Hel He. cbn zeta.
  assert (E1 : Ui.call f x0 u w = Ui.run_mouseDownHandler align u w).
  { unfold Ui.call. now rewrite Hf. }
  rewrite E1, (run_mouseDownHandler_eq align u w Hd). cbn [fst snd].
  set (u1 := Ui.with_isResizing true u).
  set (w1 := with_documentListeners _ _).
  assert (F1 : funs w1 = funs w ++ [OnMouseMove align; OnMouseUp (length (funs w))])
    by reflexivity.
  assert (D1 : dom w1 = dom w) by reflexivity.
  assert (E2 : Ui.document_dispatchEvent "mousemove" x u1 w1
               = (u1, Ui.resizeImage x align u1 w1)).
  { unfold Ui.document_dispatchEvent, Ui.call_all. cbn [documentListeners w1
      with_documentListeners List.filter List.map fst snd fold_left].
    change (String.eqb "mousemove" "mousemove") with true.
    change (String.eqb "mousemove" "mouseup") with false.
    cbn [List.map fold_left fst snd]. unfold Ui.call.
    fold w1. rewrite F1, lookup_snoc2_0. reflexivity. }
  rewrite E2. cbn [fst snd].
  assert (R : exists w2 e',
             Ui.resizeImage x align u1 w1 = with_dom (alter (fun _ => e') el (dom w)) w1
             /\ w2 = Ui.resizeImage x align u1 w1
             /\ dom w2 !! el = Some e'
             /\ Dom.s_width (Dom.style e')
                = Some (Dom.Px
                     (Js.max
                        (Dom.r_width (Dom.boundingClientRect (Dom.layout e))
                         + match align with
                           | ALeft => Dom.r_left (Dom.boundingClientRect (Dom.layout e)) - x
                           | ARight => x - Dom.r_right (Dom.boundingClientRect (Dom.layout e))
                           end) 30)%Q)
             /\ Dom.s_height (Dom.style e') = Some Dom.Auto).
  { unfold Ui.resizeImage. cbn [Ui.isResizing u1 Ui.with_isResizing Ui.nodes].
    rewrite Hel, D1, He. eexists _, _. split; [|split; [reflexivity|]].
    - unfold on_el. rewrite D1. f_equal. apply list_eq. intros j.
      destruct (decide (el = j)) as [<-|N].
      + rewrite !list_lookup_alter_eq, He. reflexivity.
      + now rewrite !list_lookup_alter_ne.
    - unfold on_el. cbn [dom with_dom]. rewrite D1, list_lookup_alter_eq, He.
      split; [reflexivity|]. split; reflexivity. }
  destruct R as (w2 & e' & Rw & -> & Re & Rwd & Rh).
  rewrite Rw in *. set (w2 := with_dom _ w1) in *.
  assert (F2 : funs w2 = funs w ++ [OnMouseMove align; OnMouseUp (length (funs w))])
    by reflexivity.
  assert (E3 : Ui.document_dispatchEvent "mouseup" x1 u1 w2
               = (Ui.with_isResizing false u1, with_documentListeners [] w2)).
  { unfold Ui.document_dispatchEvent, Ui.call_all. cbn [documentListeners w2 w1
      with_dom with_documentListeners List.filter List.map fst snd fold_left].
    change (String.eqb "mouseup" "mousemove") with false.
    change (String.eqb "mouseup" "mouseup") with true.
    cbn [List.map fold_left fst snd]. unfold Ui.call.
    fold w1. fold w2. rewrite F2, lookup_snoc2_1.
    unfold Ui.run_onMouseUp, Ui.document_removeEventListener, Dom.same_listener.
    cbn [documentListeners w2 w1 with_dom with_documentListeners List.filter fst snd].
    change (String.eqb "mousemove" "mousemove") with true.
    change (String.eqb "mousemove" "mouseup") with false.
    change (String.eqb "mouseup" "mouseup") with true.
    cbn [andb negb]. rewrite !Nat.eqb_refl. cbn [andb negb List.filter fst snd].
    change (String.eqb "mouseup" "mouseup") with true.
    cbn [andb negb]. rewrite !Nat.eqb_refl. reflexivity. }
  rewrite E3. cbn [fst snd].
  split; [reflexivity|]. split; [reflexivity|]. split; [reflexivity|].
  split; [exists e'; split; [exact Re|split; [exact Rwd|exact Rh]]|].
  split; [reflexivity|]. split; [reflexivity|]. split; [reflexivity|].
  split; [reflexivity|].
  unfold Ui.document_dispatchEvent. reflexivity.
Qed.

Lemma drag_protocol_witness :
  documentListeners
    (snd (Ui.document_dispatchEvent "mouseup" 0
            (fst (Ui.document_dispatchEvent "mousemove" 490
                    (fst (Ui.call 4 450 (ImageTool.ui (fst Scenario.loaded))
                            (snd Scenario.loaded)))
                    (snd (Ui.call 4 450 (ImageTool.ui (fst Scenario.loaded))
                            (snd Scenario.loaded)))))
            (snd (Ui.document_dispatchEvent "mousemove" 490
                    (fst (Ui.call 4 450 (ImageTool.ui (fst Scenario.loaded))
                            (snd Scenario.loaded)))
                    (snd (Ui.call 4 450 (ImageTool.ui (fst Scenario.loaded))
                            (snd Scenario.loaded)))))))
  = [].
Proof.
  destruct (drag_protocol 4 ARight 450 490 0 0 (ImageTool.ui (fst Scenario.loaded))
              (snd Scenario.loaded) 5%nat
              (default (Dom.blank "") (dom (snd Scenario.loaded) !! 5%nat)))
    as (_ & _ & _ & _ & _ & _ & D & _).
  - vm_compute. reflexivity.
  - vm_compute. reflexivity.
  - vm_compute. reflexivity.
  - vm_compute. reflexivity.
  - exact D.
Defined.

End Drag.

Section FillNormal.

Lemma with_funs_with_funs F F' w : with_funs F (with_funs F' w) = with_funs F w.
Proof. reflexivity. Qed.

Lemma funs_with_funs F w : funs (with_funs F w) = F.
Proof. reflexivity. Qed.

Lemma on_el_app_n (d l : Dom.Document) n k f w :
  length d = n ->
  on_el (n + k) f (with_dom (d ++ l) w) = with_dom (d ++ alter f k l) w.
Proof. intros <-. apply on_el_app. Qed.

Lemma on_el_old (d l : Dom.Document) i f w :
  (i < length d)%nat ->
  on_el i f (with_dom (d ++ l) w) = with_dom (alter f i d ++ l) w.
Proof.
  intros H. unfold on_el. cbn [dom with_dom].
  now rewrite alter_app_l, with_dom_with_dom.
Qed.

Lemma appendChild_app_n (d l : Dom.Document) n p c e w :
  length d = n ->
  l !! c = Some e -> Dom.parentNode e = None ->
  appendChild (n + p) (n + c) (with_dom (d ++ l) w)
  = with_dom
      (d ++ alter (Dom.with_parentNode (Some (n + p)%nat)) c
              (alter (fun pe => Dom.with_children
                                  (Dom.children pe ++ [(n + c)%nat]) pe) p l)) w.
Proof. intros <-. apply appendChild_app. Qed.

Lemma on_el_app_n0 (d l : Dom.Document) n x f w :
  length d = n ->
  on_el n f (with_dom (d ++ x :: l) w) = with_dom (d ++ f x :: l) w.
Proof.
  intros H. rewrite <- (Nat.add_0_r n). now rewrite (on_el_app_n d (x :: l) n 0).
Qed.

Lemma appendChild_app_n0 (d l : Dom.Document) n c e w :
  length d = n ->
  l !! c = Some e -> Dom.parentNode e = None ->
  appendChild n (n + c) (with_dom (d ++ l) w)
  = with_dom
      (d ++ alter (Dom.with_parentNode (Some n)) c
              (alter (fun pe => Dom.with_children
                                  (Dom.children pe ++ [(n + c)%nat]) pe) 0%nat l)) w.
Proof.
  intros H L P. pose proof (appendChild_app_n d l n 0 c e w H L P) as A.
  now rewrite Nat.add_0_r in A.
Qed.

Lemma alter_app_r_n {A} (f : A -> A) (i : nat) (d l : list A) (n : nat) :
  length d = n -> alter f (n + i)%nat (d ++ l) = d ++ alter f i l.
Proof. intros <-. apply alter_app_r. Qed.

(** Appending a detached element of the tail to an element of the head. *)
Lemma appendChild_new_to_old (d l : Dom.Document) n p c e w :
  length d = n -> (p < n)%nat ->
  l !! c = Some e -> Dom.parentNode e = None ->
  appendChild p (n + c) (with_dom (d ++ l) w)
  = with_dom
      (alter (fun pe => Dom.with_children (Dom.children pe ++ [(n + c)%nat]) pe) p d
       ++ alter (Dom.with_parentNode (Some p)) c l) w.
Proof.
  intros <- Hp H P. unfold appendChild, Dom.appendChild, Dom.detach.
  cbn [dom with_dom]. rewrite lookup_plus, H, P.
  rewrite alter_app_l by exact Hp.
  rewrite (alter_app_r_n _ _ _ _ (length d)) by apply length_alter.
  now rewrite with_dom_with_dom.
Qed.

Lemma createResizer_nf align u (d l : Dom.Document) F w n :
  length d = n ->
  Ui.createResizer align u (with_funs F (with_dom (d ++ l) w))
  = ((n + length l)%nat,
     Ui.with_resizeHandlers
       (List.filter (fun p => negb (Nat.eqb (n + length l) (fst p))) (Ui.resizeHandlers u)
          ++ [((n + length l)%nat, length F)]) u,
     with_funs (F ++ [MouseDownHandler align])
       (with_dom
          (d ++ (l ++
             [Dom.with_listeners [("mousedown", length F)]
                (Dom.with_children [(n + length l + 1)%nat]
                   (built "div" [("resize-container-" ++ align_name align)%string] []));
              Dom.with_parentNode (Some (n + length l)%nat)
                (built "div" ["resize-handle"] [])])) w)).
Proof.
  intros Hn. unfold Ui.createResizer.
  rewrite make_eq. cbv beta iota zeta. cbn [dom with_funs with_dom].
  rewrite !with_dom_with_funs, !with_dom_with_dom.
  rewrite make_eq. cbv beta iota zeta. cbn [dom with_funs with_dom].
  rewrite !with_dom_with_funs, !with_dom_with_dom.
  rewrite <- !app_assoc. cbn [app].
  rewrite !length_app, Hn. cbn [length].
  rewrite appendChild_with_funs.
  replace (n + (length l + 1))%nat with (n + length l + 1)%nat by lia.
  rewrite (app_assoc d l).
  assert (Hl : length (d ++ l) = (n + length l)%nat) by (rewrite length_app; lia).
  erewrite (appendChild_app_n0 (d ++ l) _ (n + length l) 1);
    [|exact Hl|reflexivity|apply (built_view Dom.parentNode); intros ? ?; reflexivity].
  cbn [alter list_alter].
  rewrite new_fun_eq. cbv beta iota zeta. cbn [funs with_funs].
  rewrite with_funs_with_funs, on_el_with_funs.
  rewrite (on_el_app_n0 (d ++ l) _ (n + length l)) by exact Hl.
  rewrite (addEventListener_first "mousedown")
    by (cbn [Dom.listeners Dom.with_children];
        apply (built_view Dom.listeners); intros ? ?; reflexivity).
  rewrite (built_view Dom.children) by (intros ? ?; reflexivity).
  cbn [Dom.blank Dom.children app].
  rewrite <- !app_assoc. reflexivity.
Qed.





Lemma with_listeners_same (e : Dom.Element) l :
  Dom.listeners e = l -> Dom.with_listeners l e = e.
Proof. intros <-. destruct e; reflexivity. Qed.

Lemma removeEventListener_none ev f (e : Dom.Element) :
  Dom.listeners e = [] -> Dom.removeEventListener ev f e = e.
Proof.
  intros H. unfold Dom.removeEventListener. rewrite H. cbn [List.filter].
  now apply with_listeners_same.
Qed.

Lemma add_two_listeners_eq ev f f0 (e : Dom.Element) :
  Dom.listeners e = [] -> f <> f0 ->
  Dom.addEventListener "error" f0 (Dom.addEventListener ev f e)
  = Dom.with_listeners [(ev, f); ("error", f0)] e.
Proof.
  intros H N. rewrite (addEventListener_first ev f e H).
  unfold Dom.addEventListener. cbn [Dom.listeners Dom.with_listeners existsb].
  unfold Dom.same_listener. cbn [fst snd].
  replace (Nat.eqb f0 f) with false by (symmetry; apply Nat.eqb_neq; congruence).
  rewrite andb_false_r. reflexivity.
Qed.

(** Appending an element of the head to an element of the tail; the
    parent the element has, if any, is in the head. *)
Lemma appendChild_old_to_new (d l : Dom.Document) n p c w :
  length d = n -> (c < n)%nat ->
  (forall e pc, d !! c = Some e -> Dom.parentNode e = Some pc -> (pc < n)%nat) ->
  appendChild (n + p) c (with_dom (d ++ l) w)
  = with_dom
      (alter (Dom.with_parentNode (Some (n + p)%nat)) c (Dom.detach c d)
       ++ alter (fun pe => Dom.with_children (Dom.children pe ++ [c]) pe) p l) w.
Proof.
  intros Hn Hc Hwf. unfold appendChild, Dom.appendChild. cbn [dom with_dom].
  assert (D : Dom.detach c (d ++ l) = Dom.detach c d ++ l).
  { unfold Dom.detach. rewrite lookup_app_l by lia.
    destruct (d !! c) as [e|] eqn:E; [|reflexivity].
    destruct (Dom.parentNode e) as [pc|] eqn:P; [|reflexivity].
    specialize (Hwf e pc eq_refl P).
    rewrite (alter_app_l _ d l pc) by lia.
    rewrite alter_app_l by (rewrite length_alter; lia). reflexivity. }
  rewrite D.
  rewrite (alter_app_r_n _ _ _ _ n) by (rewrite detach_length; exact Hn).
  rewrite alter_app_l by (rewrite detach_length; lia).
  now rewrite with_dom_with_dom.
Qed.

Lemma appendChild_app_c0 (d l : Dom.Document) n p e w :
  length d = n ->
  l !! 0%nat = Some e -> Dom.parentNode e = None ->
  appendChild (n + p) n (with_dom (d ++ l) w)
  = with_dom
      (d ++ alter (Dom.with_parentNode (Some (n + p)%nat)) 0%nat
              (alter (fun pe => Dom.with_children (Dom.children pe ++ [n]) pe) p l)) w.
Proof.
  intros H L P. pose proof (appendChild_app_n d l n p 0 e w H L P) as A.
  now rewrite Nat.add_0_r in A.
Qed.

Lemma parent_wf_alter (d : Dom.Document) f i c (n : nat) :
  same_on Dom.parentNode f ->
  (forall e pc, d !! c = Some e -> Dom.parentNode e = Some pc -> (pc < n)%nat) ->
  forall e pc, alter f i d !! c = Some e -> Dom.parentNode e = Some pc -> (pc < n)%nat.
Proof.
  intros Hf H e pc He Hp.
  pose proof (alter_view Dom.parentNode f i d c Hf) as V. rewrite He in V.
  destruct (d !! c) as [e0|] eqn:E0; [|discriminate].
  cbn in V. injection V as V. apply (H e0 pc eq_refl). congruence.
Qed.

(** The world [fillImage] leaves, written out.  The image container and
    the caption are older nodes, and the parent of the caption, if it has
    one, is an older node too. *)
Lemma fillImage_nf url h wd u w :
  let n := length (dom w) in
  let f0 := length (funs w) in
  let IC := Ui.imageContainer (Ui.nodes u) in
  let cap := Ui.caption (Ui.nodes u) in
  let ro := Ui.readOnly u in
  let sc := default true (ImageConfig.showCaption (Ui.config u)) in
  let base :=
    Ui.with_imageErrorHandler (Some (f0 + 1)%nat)
      (Ui.with_imageLoadHandler (Some f0) (Ui.with_imageEl (Some n) u)) in
  let d1 :=
    alter (fun pe => Dom.with_children (Dom.children pe ++ [(n + 1)%nat]) pe) IC (dom w) in
  let d2 := if ro then d1 else alter (Dom.classList_add "resizable-container") IC d1 in
  (IC < n)%nat ->
  (cap < n)%nat ->
  (forall e pc, dom w !! cap = Some e -> Dom.parentNode e = Some pc -> (pc < n)%nat) ->
  Ui.fillImage url h wd u w
  = ((if ro then base
      else Ui.with_resizeHandlers
             (List.filter (fun p => negb (Nat.eqb (n + 5) (fst p)))
                (List.filter (fun p => negb (Nat.eqb (n + 3) (fst p)))
                   (Ui.resizeHandlers u) ++ [((n + 3)%nat, (f0 + 2)%nat)])
              ++ [((n + 5)%nat, (f0 + 3)%nat)]) base),
     with_funs
       (funs w ++ [LoadHandler (Ui.tag_of url) wd; ErrorHandler url]
          ++ (if ro then [] else [MouseDownHandler ALeft; MouseDownHandler ARight]))
       (with_dom
          ((if sc then alter (Dom.with_parentNode (Some (n + 1)%nat)) cap (Dom.detach cap d2)
            else d2)
           ++ [Dom.with_parentNode (Some (n + 2)%nat)
                 (Dom.with_listeners
                    [(Ui.eventName_of url, f0); ("error", (f0 + 1)%nat)]
                    (built (Ui.tag_of url) [Ui.CSS.imageEl; "resizable-image"]
                       (Ui.attributes_of url)));
               Dom.with_parentNode (Some IC)
                 (Dom.with_children ([(n + 2)%nat] ++ if sc then [cap] else [])
                    (built "div" ["content-wrapper"] []));
               Dom.with_parentNode (Some (n + 1)%nat)
                 (Dom.with_children
                    ([n] ++ if ro then [] else [(n + 3)%nat; (n + 5)%nat])
                    (built "div" ["image-container"] []))]
           ++ (if ro then []
               else [Dom.with_parentNode (Some (n + 2)%nat)
                       (Dom.with_listeners [("mousedown", (f0 + 2)%nat)]
                          (Dom.with_children [(n + 4)%nat]
                             (built "div" ["resize-container-left"] [])));
                     Dom.with_parentNode (Some (n + 3)%nat)
                       (built "div" ["resize-handle"] []);
                     Dom.with_parentNode (Some (n + 2)%nat)
                       (Dom.with_listeners [("mousedown", (f0 + 3)%nat)]
                          (Dom.with_children [(n + 6)%nat]
                             (built "div" ["resize-container-right"] [])));
                     Dom.with_parentNode (Some (n + 5)%nat)
                       (built "div" ["resize-handle"] [])])) w)).
Proof.
  cbn zeta.
  intros HIC Hcap Hwf.
  unfold Ui.fillImage.
  rewrite make_eq. cbv beta iota zeta.
  cbn [Ui.imageLoadHandler Ui.imageErrorHandler Ui.with_imageEl Ui.with_imageLoadHandler
         Ui.with_imageErrorHandler Ui.nodes Ui.readOnly Ui.config Ui.imageContainer
         Ui.caption].
  assert (B0 : forall t c a, Dom.listeners (built t c a) = [])
    by (intros; apply (built_view Dom.listeners); intros ? ?; reflexivity).
  assert (B1 : forall t c a, Dom.parentNode (built t c a) = None)
    by (intros; apply (built_view Dom.parentNode); intros ? ?; reflexivity).
  assert (B2 : forall t c a, Dom.children (built t c a) = [])
    by (intros; apply (built_view Dom.children); intros ? ?; reflexivity).
  assert (R : forall ev o,
             match o with
             | Some h0 =>
                 on_el (length (dom w)) (Dom.removeEventListener ev h0)
                   (with_dom (dom w ++ [built (Ui.tag_of url)
                                          [Ui.CSS.imageEl; "resizable-image"]
                                          (Ui.attributes_of url)]) w)
             | None =>
                 with_dom (dom w ++ [built (Ui.tag_of url)
                                       [Ui.CSS.imageEl; "resizable-image"]
                                       (Ui.attributes_of url)]) w
             end
             = with_dom (dom w ++ [built (Ui.tag_of url)
                                     [Ui.CSS.imageEl; "resizable-image"]
                                     (Ui.attributes_of url)]) w).
  { intros ev [h0|]; [|reflexivity].
    rewrite (on_el_app_n0 (dom w) [] _ _ _ _ eq_refl).
    now rewrite removeEventListener_none by apply B0. }
  rewrite R, R. clear R.
  rewrite new_fun_eq. cbv beta iota zeta. cbn [funs with_dom].
  rewrite new_fun_eq. cbv beta iota zeta. cbn [funs with_funs].
  rewrite with_funs_with_funs, !on_el_with_funs.
  rewrite (on_el_app_n0 (dom w) [] _ _ _ _ eq_refl).
  rewrite (on_el_app_n0 (dom w) [] _ _ _ _ eq_refl).
  rewrite add_two_listeners_eq by (try apply B0; rewrite length_app; cbn; lia).
  rewrite make_eq. cbv beta iota zeta. cbn [dom with_funs with_dom].
  rewrite !with_dom_with_funs, !with_dom_with_dom.
  rewrite make_eq. cbv beta iota zeta. cbn [dom with_funs with_dom].
  rewrite !with_dom_with_funs, !with_dom_with_dom.
  rewrite <- !app_assoc. cbn [app].
  rewrite !length_app. cbn [length].
  rewrite !appendChild_with_funs.
  erewrite (appendChild_app_c0 (dom w) _ _ 2); [|reflexivity|reflexivity|apply B1].
  cbn [alter list_alter].
  erewrite (appendChild_app_n (dom w) _ _ 1 2);
    [|reflexivity|reflexivity|cbn [Dom.parentNode Dom.with_children]; apply B1].
  cbn [alter list_alter].
  erewrite (appendChild_new_to_old (dom w) _ _ _ 1);
    [|reflexivity|exact HIC|reflexivity|cbn [Dom.parentNode Dom.with_children]; apply B1].
  cbn [alter list_alter].
  rewrite !B2. cbn [app Dom.children Dom.with_children Dom.with_parentNode].
  destruct (Ui.readOnly u) eqn:Hro; cbn [negb].
  - cbn [Ui.config Ui.with_imageErrorHandler Ui.with_imageLoadHandler Ui.with_imageEl
           Ui.nodes Ui.caption].
    destruct (default true (ImageConfig.showCaption (Ui.config u))).
    + rewrite appendChild_with_funs.
      rewrite (appendChild_old_to_new _ _ (length (dom w)));
        [|rewrite !length_alter; reflexivity|exact Hcap
         |apply parent_wf_alter; [intros ?; reflexivity|exact Hwf]].
      cbn [alter list_alter]. reflexivity.
    + reflexivity.
  - rewrite on_el_with_funs.
    rewrite on_el_old by (rewrite length_alter; exact HIC).
    rewrite (createResizer_nf _ _ _ _ _ _ (length (dom w)))
      by (rewrite !length_alter; reflexivity).
    rewrite appendChild_with_funs. cbn [length app].
    erewrite (appendChild_app_n _ _ (length (dom w)) 2 3);
      [|rewrite !length_alter; reflexivity|reflexivity
       |cbn [Dom.parentNode Dom.with_children Dom.with_listeners]; apply B1].
    cbn [alter list_alter].
    rewrite (createResizer_nf _ _ _ _ _ _ (length (dom w)))
      by (rewrite !length_alter; reflexivity).
    rewrite appendChild_with_funs. cbn [length app].
    erewrite (appendChild_app_n _ _ (length (dom w)) 2 5);
      [|rewrite !length_alter; reflexivity|reflexivity
       |cbn [Dom.parentNode Dom.with_children Dom.with_listeners]; apply B1].
    cbn [alter list_alter].
    cbn [Ui.config Ui.with_resizeHandlers Ui.with_imageErrorHandler
           Ui.with_imageLoadHandler Ui.with_imageEl Ui.nodes Ui.caption Ui.resizeHandlers].
    rewrite !length_app. cbn [length]. rewrite <- !app_assoc. cbn [app].
    replace (length (dom w) + 3 + 1)%nat with (length (dom w) + 4)%nat by lia.
    replace (length (dom w) + 5 + 1)%nat with (length (dom w) + 6)%nat by lia.
    replace (length (funs w) + 2 + 1)%nat with (length (funs w) + 3)%nat by lia.
    destruct (default true (ImageConfig.showCaption (Ui.config u))).
    + rewrite appendChild_with_funs.
      rewrite (appendChild_old_to_new _ _ (length (dom w)));
        [|rewrite !length_alter; reflexivity|exact Hcap
         |apply parent_wf_alter; [apply parent_classList_add|];
          apply parent_wf_alter; [intros ?; reflexivity|exact Hwf]].
      cbn [alter list_alter]. reflexivity.
    + reflexivity.
Qed.
End FillNormal.

Section FillTree.

Lemma lookup_plus_n {A} (d l : list A) (n k : nat) :
  length d = n -> (d ++ l) !! (n + k)%nat = l !! k.
Proof. intros <-. apply lookup_plus. Qed.

Lemma lookup_plus_n0 {A} (d l : list A) (n : nat) :
  length d = n -> (d ++ l) !! n = l !! 0%nat.
Proof. intros H. rewrite <- (lookup_plus_n d l n 0 H). now rewrite Nat.add_0_r. Qed.

(** X13.  The tree [fillImage] builds.  It creates three nodes in a
    read-only block and seven in an editable one: the media element, a
    content wrapper, an inner image container and, when editable, a left
    and a right resize container with one handle each.  The media element
    and the resize containers hang below the inner container, the inner
    container below the content wrapper, and the content wrapper below the
    image container of the block; the caption becomes the last child of
    the content wrapper when captions are shown.  Each resize container
    carries one [mousedown] listener, recorded in [resizeHandlers]; a
    read-only block gets neither resize nodes nor handlers. *)
Theorem fillImage_tree (url : string) (h wd : option string) u w :
  let n := length (dom w) in
  let f0 := length (funs w) in
  let ro := Ui.readOnly u in
  let sc := default true (ImageConfig.showCaption (Ui.config u)) in
  let u' := fst (Ui.fillImage url h wd u w) in
  let w' := snd (Ui.fillImage url h wd u w) in
  (Ui.imageContainer (Ui.nodes u) < n)%nat ->
  (Ui.caption (Ui.nodes u) < n)%nat ->
  (forall e pc, dom w !! Ui.caption (Ui.nodes u) = Some e ->
                Dom.parentNode e = Some pc -> (pc < n)%nat) ->
  length (dom w') = (n + if ro then 3 else 7)%nat
  /\ Ui.imageEl (Ui.nodes u') = Some n
  /\ Dom.parentNode <$> dom w' !! n = Some (Some (n + 2)%nat)
  /\ Dom.parentNode <$> dom w' !! (n + 2)%nat = Some (Some (n + 1)%nat)
  /\ Dom.parentNode <$> dom w' !! (n + 1)%nat
     = Some (Some (Ui.imageContainer (Ui.nodes u)))
  /\ Dom.children <$> dom w' !! (n + 2)%nat
     = Some ([n] ++ if ro then [] else [(n + 3)%nat; (n + 5)%nat])
  /\ Dom.children <$> dom w' !! (n + 1)%nat
     = Some ([(n + 2)%nat] ++ if sc then [Ui.caption (Ui.nodes u)] else [])
  /\ (sc = true ->
      Dom.parentNode <$> dom w' !! Ui.caption (Ui.nodes u) = Some (Some (n + 1)%nat))
  /\ (ro = true ->
      Ui.resizeHandlers u' = Ui.resizeHandlers u
      /\ funs w' = funs w ++ [LoadHandler (Ui.tag_of url) wd; ErrorHandler url])
  /\ (ro = false ->
      Dom.parentNode <$> dom w' !! (n + 3)%nat = Some (Some (n + 2)%nat)
      /\ Dom.parentNode <$> dom w' !! (n + 5)%nat = Some (Some (n + 2)%nat)
      /\ Dom.children <$> dom w' !! (n + 3)%nat = Some [(n + 4)%nat]
      /\ Dom.children <$> dom w' !! (n + 5)%nat = Some [(n + 6)%nat]
      /\ Dom.parentNode <$> dom w' !! (n + 4)%nat = Some (Some (n + 3)%nat)
      /\ Dom.parentNode <$> dom w' !! (n + 6)%nat = Some (Some (n + 5)%nat)
      /\ Dom.listeners <$> dom w' !! (n + 3)%nat = Some [("mousedown", (f0 + 2)%nat)]
      /\ Dom.listeners <$> dom w' !! (n + 5)%nat = Some [("mousedown", (f0 + 3)%nat)]
      /\ funs w' !! (f0 + 2)%nat = Some (MouseDownHandler ALeft)
      /\ funs w' !! (f0 + 3)%nat = Some (MouseDownHandler ARight)
      /\ In ((n + 3)%nat, (f0 + 2)%nat) (Ui.resizeHandlers u')
      /\ In ((n + 5)%nat, (f0 + 3)%nat) (Ui.resizeHandlers u')).
Proof.
  cbn zeta. intros HIC Hcap Hwf.
  pose proof (fillImage_nf url h wd u w) as E. cbn zeta in E.
  rewrite (E HIC Hcap Hwf). clear E. cbn [fst snd dom with_dom with_funs funs].
  set (n := length (dom w)) in *.
  set (d1 := alter _ (Ui.imageContainer (Ui.nodes u)) (dom w)).
  set (d2 := if Ui.readOnly u then d1 else alter _ _ d1).
  set (D' := if default true _ then alter _ _ (Dom.detach _ d2) else d2).
  assert (L1 : length d1 = n) by (unfold d1; now rewrite length_alter).
  assert (L2 : length d2 = n)
    by (unfold d2; destruct (Ui.readOnly u); now rewrite ?length_alter).
  assert (L' : length D' = n).
  { unfold D'. destruct (default true _); [|exact L2].
    now rewrite length_alter, detach_length. }
  rewrite !(lookup_plus_n D' _ n _ L'), (lookup_plus_n0 D' _ n L').
  split; [rewrite length_app, L'; destruct (Ui.readOnly u); reflexivity|].
  split; [destruct (Ui.readOnly u); reflexivity|].
  split; [reflexivity|]. split; [reflexivity|]. split; [reflexivity|].
  split; [reflexivity|]. split; [reflexivity|].
  split.
  { intros Hsc. unfold D'. rewrite Hsc.
    rewrite lookup_app_l by (rewrite length_alter, detach_length, L2; exact Hcap).
    rewrite alter_set_parent.
    destruct (lookup_lt_is_Some_2 (Dom.detach (Ui.caption (Ui.nodes u)) d2)
                (Ui.caption (Ui.nodes u))) as [x ->]; [|reflexivity].
    rewrite detach_length, L2. exact Hcap. }
  split.
  { intros Hro. rewrite Hro. split; [reflexivity|]. now rewrite app_nil_r. }
  intros Hro. rewrite Hro. cbn [app lookup list_lookup fmap option_fmap option_map].
  repeat (split; [reflexivity|]).
  split; [now rewrite (lookup_plus_n (funs w) _ (length (funs w)) 2 eq_refl)|].
  split; [now rewrite (lookup_plus_n (funs w) _ (length (funs w)) 3 eq_refl)|].
  cbn [Ui.resizeHandlers Ui.with_resizeHandlers]. split.
  - apply in_or_app. left. apply filter_In. split.
    + apply in_or_app. right. now left.
    + cbn [fst]. apply negb_true_iff, Nat.eqb_neq. lia.
  - apply in_or_app. right. now left.
Qed.

End FillTree.

Section FillKeeps.

Lemma fillImage_tree_witness :
  Ui.imageEl (Ui.nodes (fst (Ui.fillImage "https://x/y.png" None None
                               (ImageTool.ui (fst Scenario.fresh)) (snd Scenario.fresh))))
  = Some (length (dom (snd Scenario.fresh))).
Proof.
  destruct (fillImage_tree "https://x/y.png" None None
              (ImageTool.ui (fst Scenario.fresh)) (snd Scenario.fresh))
    as (_ & D & _).
  - vm_compute. lia.
  - vm_compute. lia.
  - intros e pc H1 H2. vm_compute in H1. injection H1 as <-. discriminate H2.
  - exact D.
Defined.

(** A child that an update of single elements does not drop. *)
Lemma alter_child_In (f : Dom.Element -> Dom.Element) i (d : Dom.Document) x p pe :
  (forall e, In x (Dom.children e) -> In x (Dom.children (f e))) ->
  d !! p = Some pe -> In x (Dom.children pe) ->
  exists pe', alter f i d !! p = Some pe' /\ In x (Dom.children pe').
Proof.
  intros Hf Hp Hx. destruct (decide (i = p)) as [->|N].
  - rewrite list_lookup_alter_eq, Hp. eexists. split; [reflexivity|]. now apply Hf.
  - rewrite list_lookup_alter_ne by exact N. eauto.
Qed.

Lemma detach_child_In c (d : Dom.Document) x p pe :
  x <> c -> d !! p = Some pe -> In x (Dom.children pe) ->
  exists pe', Dom.detach c d !! p = Some pe' /\ In x (Dom.children pe').
Proof.
  intros N Hp Hx. unfold Dom.detach.
  destruct (d !! c) as [e|]; [|eauto].
  destruct (Dom.parentNode e) as [pc|]; [|eauto].
  destruct (alter_child_In
              (fun pe => Dom.with_children (Dom.remove_id c (Dom.children pe)) pe)
              pc d x p pe) as (pe1 & H1 & X1); [|exact Hp|exact Hx|].
  { intros e0 H0. cbn. unfold Dom.remove_id. apply filter_In. split; [exact H0|].
    apply negb_true_iff, Nat.eqb_neq. congruence. }
  apply (alter_child_In _ c _ x p pe1); [intros e0 H0; exact H0|exact H1|exact X1].
Qed.

Lemma detach_parent_ne c (d : Dom.Document) j :
  j <> c -> Dom.parentNode <$> Dom.detach c d !! j = Dom.parentNode <$> d !! j.
Proof.
  intros N. unfold Dom.detach.
  destruct (d !! c) as [e|]; [|reflexivity].
  destruct (Dom.parentNode e) as [pc|]; [|reflexivity].
  rewrite list_lookup_alter_ne by congruence.
  apply alter_view. intros ?. reflexivity.
Qed.

(** X14.  [fillImage] takes no earlier node out of its place, the caption
    apart: every older node other than the caption keeps its parent, and
    every older parent keeps each child it had other than the caption.  The
    image container of the block gains the new content wrapper as a child
    and loses none, so the content wrapper of an earlier picture stays
    below it, and in an editable block it is marked resizable. *)
Theorem fillImage_keeps_old_content (url : string) (h wd : option string) u w ic :
  let n := length (dom w) in
  let w' := snd (Ui.fillImage url h wd u w) in
  dom w !! Ui.imageContainer (Ui.nodes u) = Some ic ->
  (Ui.caption (Ui.nodes u) < n)%nat ->
  (forall e pc, dom w !! Ui.caption (Ui.nodes u) = Some e ->
                Dom.parentNode e = Some pc -> (pc < n)%nat) ->
  (forall j, (j < n)%nat -> j <> Ui.caption (Ui.nodes u) ->
     Dom.parentNode <$> dom w' !! j = Dom.parentNode <$> dom w !! j)
  /\ (forall p pe x,
        dom w !! p = Some pe -> In x (Dom.children pe) ->
        x <> Ui.caption (Ui.nodes u) ->
        exists pe', dom w' !! p = Some pe' /\ In x (Dom.children pe'))
  /\ exists ic',
       dom w' !! Ui.imageContainer (Ui.nodes u) = Some ic'
       /\ In (n + 1)%nat (Dom.children ic')
       /\ (forall x, In x (Dom.children ic) -> x <> Ui.caption (Ui.nodes u) ->
             In x (Dom.children ic'))
       /\ Dom.classList_contains "resizable-container" ic'
          = negb (Ui.readOnly u) || Dom.classList_contains "resizable-container" ic.
Proof.
  cbn zeta. intros Hic Hcap Hwf.
  assert (HIC : (Ui.imageContainer (Ui.nodes u) < length (dom w))%nat)
    by now apply lookup_lt_Some in Hic.
  pose proof (fillImage_nf url h wd u w) as E. cbn zeta in E.
  rewrite (E HIC Hcap Hwf). clear E. cbn [fst snd dom with_dom with_funs funs].
  set (n := length (dom w)) in *.
  set (cap := Ui.caption (Ui.nodes u)) in *.
  set (IC := Ui.imageContainer (Ui.nodes u)) in *.
  set (d1 := alter _ IC (dom w)).
  set (d2 := if Ui.readOnly u then d1 else alter _ _ d1).
  set (D' := if default true _ then alter _ _ (Dom.detach _ d2) else d2).
  assert (L1 : length d1 = n) by (unfold d1; now rewrite length_alter).
  assert (L2 : length d2 = n)
    by (unfold d2; destruct (Ui.readOnly u); now rewrite ?length_alter).
  assert (L' : length D' = n).
  { unfold D'. destruct (default true _); [|exact L2].
    now rewrite length_alter, detach_length. }
  assert (P : forall j, j <> cap ->
                Dom.parentNode <$> D' !! j = Dom.parentNode <$> dom w !! j).
  { intros j N.
    assert (P2 : Dom.parentNode <$> d2 !! j = Dom.parentNode <$> dom w !! j).
    { unfold d2, d1. destruct (Ui.readOnly u).
      - apply alter_view. intros ?. reflexivity.
      - rewrite (alter_view Dom.parentNode) by apply parent_classList_add.
        apply alter_view. intros ?. reflexivity. }
    unfold D'. destruct (default true _); [|exact P2].
    rewrite list_lookup_alter_ne by congruence.
    now rewrite detach_parent_ne. }
  assert (C : forall p pe x,
                d1 !! p = Some pe -> In x (Dom.children pe) -> x <> cap ->
                exists pe', D' !! p = Some pe' /\ In x (Dom.children pe')).
  { intros p pe x Hp Hx N.
    assert (C2 : exists pe2, d2 !! p = Some pe2 /\ In x (Dom.children pe2)).
    { unfold d2. destruct (Ui.readOnly u); [eauto|].
      apply (alter_child_In _ _ _ x p pe); [|exact Hp|exact Hx].
      intros e0 H0. unfold Dom.classList_add. now destruct (existsb _ _). }
    destruct C2 as (pe2 & Hp2 & Hx2).
    unfold D'. destruct (default true _); [|eauto].
    destruct (detach_child_In cap d2 x p pe2 N Hp2 Hx2) as (pe3 & Hp3 & Hx3).
    apply (alter_child_In _ _ _ x p pe3); [intros e0 H0; exact H0|exact Hp3|exact Hx3]. }
  assert (C1 : forall p pe x,
                 dom w !! p = Some pe -> In x (Dom.children pe) ->
                 exists pe1, d1 !! p = Some pe1 /\ In x (Dom.children pe1)).
  { intros p pe x Hp Hx. apply (alter_child_In _ _ _ x p pe); [|exact Hp|exact Hx].
    intros e0 H0. cbn. apply in_or_app. now left. }
  split.
  { intros j Hj N. rewrite lookup_app_l by (rewrite L'; exact Hj). now apply P. }
  split.
  { intros p pe x Hp Hx N.
    destruct (C1 p pe x Hp Hx) as (pe1 & Hp1 & Hx1).
    destruct (C p pe1 x Hp1 Hx1 N) as (pe' & Hp' & Hx').
    exists pe'. split; [|exact Hx'].
    rewrite lookup_app_l; [exact Hp'|]. now apply lookup_lt_Some in Hp'. }
  assert (I1 : d1 !! IC
               = Some (Dom.with_children (Dom.children ic ++ [(n + 1)%nat]) ic)).
  { unfold d1. now rewrite list_lookup_alter_eq, Hic. }
  destruct (C IC _ (n + 1)%nat I1) as (ic' & Hic' & Hn1).
  { cbn. apply in_or_app. right. now left. }
  { lia. }
  exists ic'. split; [rewrite lookup_app_l; [exact Hic'|]; now apply lookup_lt_Some in Hic'|].
  split; [exact Hn1|]. split.
  { intros x Hx N.
    destruct (C IC _ x I1) as (ic'' & Hic'' & Hx''); [|exact N|].
    - cbn. apply in_or_app. now left.
    - rewrite Hic' in Hic''. injection Hic'' as <-. exact Hx''. }
  assert (K : Dom.classList <$> D' !! IC
              = Some (Dom.classList (if Ui.readOnly u then ic
                                     else Dom.classList_add "resizable-container" ic))).
  { assert (K2 : Dom.classList <$> d2 !! IC
                 = Some (Dom.classList (if Ui.readOnly u then ic
                                        else Dom.classList_add "resizable-container" ic))).
    { unfold d2. destruct (Ui.readOnly u).
      - now rewrite I1.
      - rewrite list_lookup_alter_eq, I1. cbn.
        unfold Dom.classList_add. cbn. now destruct (existsb _ _). }
    unfold D'. destruct (default true _); [|exact K2].
    rewrite (alter_view Dom.classList) by (intros ?; reflexivity).
    rewrite (detach_view Dom.classList) by (intros ? ?; reflexivity). exact K2. }
  rewrite Hic' in K. cbn in K. injection K as K.
  unfold Dom.classList_contains at 1. rewrite K.
  destruct (Ui.readOnly u); [reflexivity|].
  change (existsb (String.eqb "resizable-container")
            (Dom.classList (Dom.classList_add "resizable-container" ic)))
    with (Dom.classList_contains "resizable-container"
            (Dom.classList_add "resizable-container" ic)).
  now rewrite contains_add, String.eqb_refl.
Qed.

Lemma fillImage_keeps_old_content_witness :
  exists ic',
    dom (snd (Ui.fillImage "https://x/clip.mp4"
                (ImageToolData.height (ImageTool._data (fst Scenario.uploaded)))
                (ImageToolData.width (ImageTool._data (fst Scenario.uploaded)))
                (ImageTool.ui (fst Scenario.uploaded)) (snd Scenario.uploaded)))
      !! Ui.imageContainer (Ui.nodes (ImageTool.ui (fst Scenario.uploaded)))
    = Some ic'
    /\ In (length (dom (snd Scenario.uploaded)) + 1)%nat (Dom.children ic')
    /\ In 6%nat (Dom.children ic').
Proof.
  destruct (fillImage_keeps_old_content "https://x/clip.mp4"
              (ImageToolData.height (ImageTool._data (fst Scenario.uploaded)))
              (ImageToolData.width (ImageTool._data (fst Scenario.uploaded)))
              (ImageTool.ui (fst Scenario.uploaded)) (snd Scenario.uploaded)
              (default (Dom.blank "") (dom (snd Scenario.uploaded) !! 1%nat)))
    as (_ & _ & ic' & D1 & D2 & D3 & _).
  - vm_compute. reflexivity.
  - vm_compute. lia.
  - intros e pc H1 H2. vm_compute in H1. injection H1 as <-.
    vm_compute in H2. injection H2 as <-. vm_compute. lia.
  - exists ic'. split; [exact D1|]. split; [exact D2|].
    apply D3; [vm_compute; tauto|vm_compute; lia].
Defined.

End FillKeeps.

(* ===================================================================== *)
(** ** [destroy] *)
(* ===================================================================== *)

Section Destroy.

Lemma fold_left_map_on {A B C} (f : C -> B -> C) (g : A -> B) (l : list A) (c : C) :
  fold_left f (List.map g l) c = fold_left (fun c a => f c (g a)) l c.
Proof. revert c. induction l as [|a l IH]; intros c; [reflexivity|]. cbn. apply IH. Qed.

Lemma destroy_eq u w : Ui.destroy u w = (cleared u, remove_all (removals u) w).
Proof.
  unfold Ui.destroy, cleared, removals, remove_all. f_equal.
  rewrite !fold_left_app, fold_left_map_on. cbn [fst snd].
  f_equal.
  destruct (Ui.imageEl (Ui.nodes u)) as [el|],
           (Ui.imageLoadHandler u) as [lh|],
           (Ui.imageErrorHandler u) as [eh|],
           (Ui.fileButtonHandler u) as [fh|]; reflexivity.
Qed.

Lemma filter_removed r rs j (L : list (string * Dom.FunId)) :
  fst r = j ->
  List.filter (fun l => negb (removed_by rs j l))
    (List.filter (fun l => negb (Dom.same_listener (fst (snd r)) (snd (snd r)) l)) L)
  = List.filter (fun l => negb (removed_by (r :: rs) j l)) L.
Proof.
  intros <-.
  assert (E : forall l,
             removed_by (r :: rs) (fst r) l
             = Dom.same_listener (fst (snd r)) (snd (snd r)) l || removed_by rs (fst r) l).
  { intros l. unfold removed_by. cbn [existsb]. now rewrite Nat.eqb_refl. }
  induction L as [|l L IH]; [reflexivity|].
  cbn [List.filter]. rewrite E.
  destruct (Dom.same_listener (fst (snd r)) (snd (snd r)) l); cbn [negb orb List.filter].
  - exact IH.
  - now rewrite IH.
Qed.

Lemma filter_not_removed r rs j (L : list (string * Dom.FunId)) :
  fst r <> j ->
  List.filter (fun l => negb (removed_by rs j l)) L
  = List.filter (fun l => negb (removed_by (r :: rs) j l)) L.
Proof.
  intros N. apply filter_ext. intros l. unfold removed_by. cbn [existsb].
  replace (Nat.eqb (fst r) j) with false by (symmetry; now apply Nat.eqb_neq).
  reflexivity.
Qed.

Lemma remove_all_cons r rs w :
  remove_all (r :: rs) w
  = remove_all rs (on_el (fst r) (Dom.removeEventListener (fst (snd r)) (snd (snd r))) w).
Proof. reflexivity. Qed.

Lemma remove_all_lookup rs w j e :
  dom w !! j = Some e ->
  dom (remove_all rs w) !! j
  = Some (Dom.with_listeners
            (List.filter (fun l => negb (removed_by rs j l)) (Dom.listeners e)) e).
Proof.
  revert w e. induction rs as [|r rs IH]; intros w e H.
  - cbn. rewrite H. f_equal. symmetry. apply with_listeners_same.
    induction (Dom.listeners e) as [|l L IHL]; [reflexivity|].
    cbn [List.filter removed_by existsb negb]. f_equal. exact IHL.
  - rewrite remove_all_cons.
    destruct (decide (fst r = j)) as [E|N].
    + rewrite (IH _ (Dom.removeEventListener (fst (snd r)) (snd (snd r)) e)).
      * unfold Dom.removeEventListener. cbn [Dom.listeners Dom.with_listeners].
        rewrite (filter_removed r rs j _ E). destruct e; reflexivity.
      * rewrite E, on_el_lookup_eq, H. reflexivity.
    + rewrite (IH _ e) by (rewrite on_el_lookup_ne by exact N; exact H).
      now rewrite (filter_not_removed r rs j _ N).
Qed.

Lemma remove_all_fields rs w :
  funs (remove_all rs w) = funs w
  /\ documentListeners (remove_all rs w) = documentListeners w
  /\ uncaught (remove_all rs w) = uncaught w
  /\ uploaderCalls (remove_all rs w) = uploaderCalls w
  /\ length (dom (remove_all rs w)) = length (dom w).
Proof.
  revert w. induction rs as [|r rs IH]; intros w; [now repeat split|].
  rewrite !remove_all_cons.
  destruct (IH (on_el (fst r) (Dom.removeEventListener (fst (snd r)) (snd (snd r))) w))
    as (-> & -> & -> & -> & ->).
  now rewrite on_el_length.
Qed.

(** X15.  [destroy()] forgets the three handlers and empties the map of
    resize handlers, and keeps the nodes, the image element included.  In
    the document it only takes listeners off: every element keeps all its
    fields but the listeners, and loses exactly the listeners that the
    object had recorded -- the ready and error handlers on the current
    image element, the click handler on the file button and each recorded
    [mousedown] handler on its resize container.  Listeners on the
    document, which a drag under way has registered, are left in place.  A
    second [destroy()] changes nothing. *)
Theorem destroy_spec u w :
  let u' := fst (Ui.destroy u w) in
  let w' := snd (Ui.destroy u w) in
  Ui.imageLoadHandler u' = None
  /\ Ui.imageErrorHandler u' = None
  /\ Ui.fileButtonHandler u' = None
  /\ Ui.resizeHandlers u' = []
  /\ Ui.nodes u' = Ui.nodes u
  /\ funs w' = funs w
  /\ documentListeners w' = documentListeners w
  /\ length (dom w') = length (dom w)
  /\ (forall j e,
        dom w !! j = Some e ->
        dom w' !! j
        = Some (Dom.with_listeners
                  (List.filter (fun l => negb (removed_by (removals u) j l))
                     (Dom.listeners e)) e))
  /\ (forall j ev f e',
        In (j, (ev, f)) (removals u) -> dom w' !! j = Some e' ->
        ~ In (ev, f) (Dom.listeners e'))
  /\ Ui.destroy u' w' = (u', w').
Proof.
  cbn zeta. rewrite destroy_eq. cbn [fst snd].
  destruct (remove_all_fields (removals u) w) as (F1 & F2 & _ & _ & F5).
  split; [reflexivity|]. split; [reflexivity|]. split; [reflexivity|].
  split; [reflexivity|]. split; [reflexivity|].
  split; [exact F1|]. split; [exact F2|]. split; [exact F5|].
  split; [intros j e H; now apply remove_all_lookup|].
  split.
  - intros j ev f e' Hin He'.
    destruct (lookup_lt_is_Some_2 (dom w) j) as [e He].
    { rewrite <- F5. now apply lookup_lt_Some in He'. }
    rewrite (remove_all_lookup _ _ _ _ He) in He'. injection He' as <-.
    cbn [Dom.listeners Dom.with_listeners]. intros Hl.
    apply filter_In in Hl as [_ Hl]. apply negb_true_iff in Hl.
    assert (T : removed_by (removals u) j (ev, f) = true); [|congruence].
    unfold removed_by. apply existsb_exists. exists (j, (ev, f)).
    split; [exact Hin|]. cbn [fst snd]. unfold Dom.same_listener. cbn [fst snd].
    now rewrite !Nat.eqb_refl, String.eqb_refl.
  - rewrite destroy_eq. f_equal.
    unfold removals, cleared.
    cbn [Ui.imageLoadHandler Ui.imageErrorHandler Ui.fileButtonHandler Ui.resizeHandlers
           Ui.with_fileButtonHandler Ui.with_imageErrorHandler Ui.with_imageLoadHandler
           Ui.with_resizeHandlers Ui.nodes].
    destruct (Ui.imageEl (Ui.nodes u)); reflexivity.
Qed.

End Destroy.

(* ===================================================================== *)
(** ** The answers of the uploader and pasted content *)
(* ===================================================================== *)

Section Upload.

Implicit Types (this : ImageTool.t).

Lemma same_log_refl w : same_log w w.
Proof. now repeat split. Qed.

Lemma same_log_on_el w0 w i f : same_log w0 w -> same_log w0 (on_el i f w).
Proof. intros H. exact H. Qed.

Lemma same_log_appendChild w0 w p c : same_log w0 w -> same_log w0 (appendChild p c w).
Proof. intros H. exact H. Qed.

Lemma same_log_make w0 w t c a el w' :
  make t c a w = (el, w') -> same_log w0 w -> same_log w0 w'.
Proof. rewrite make_eq. intros [= <- <-] H. exact H. Qed.

Lemma same_log_new_fun w0 w c f w' :
  new_fun c w = (f, w') -> same_log w0 w -> same_log w0 w'.
Proof. rewrite new_fun_eq. intros [= <- <-] H. exact H. Qed.

Lemma same_log_createResizer w0 w align u c u' w' :
  Ui.createResizer align u w = (c, u', w') -> same_log w0 w -> same_log w0 w'.
Proof.
  unfold Ui.createResizer.
  rewrite make_eq. cbv beta iota zeta.
  rewrite make_eq. cbv beta iota zeta.
  rewrite new_fun_eq. cbv beta iota zeta.
  intros [= <- <- <-] H. exact H.
Qed.

Ltac log_chain :=
  lazymatch goal with
  | |- same_log ?w ?w => apply same_log_refl
  | |- same_log _ (on_el _ _ _) => apply same_log_on_el; log_chain
  | |- same_log _ (appendChild _ _ _) => apply same_log_appendChild; log_chain
  | |- same_log _ (match ?o with Some _ => _ | None => _ end) => destruct o; log_chain
  | |- same_log _ ?v =>
      match goal with
      | M : make _ _ _ _ = (_, v) |- _ => apply (same_log_make _ _ _ _ _ _ _ M); log_chain
      | M : new_fun _ _ = (_, v) |- _ => apply (same_log_new_fun _ _ _ _ _ M); log_chain
      | M : Ui.createResizer _ _ _ = (_, _, v) |- _ =>
          apply (same_log_createResizer _ _ _ _ _ _ _ M); log_chain
      end
  end.

(** [fillImage] says nothing to the host, the console or the uploader. *)
Lemma fillImage_log url h wd u w : same_log w (snd (Ui.fillImage url h wd u w)).
Proof.
  fill_steps u;
    destruct (default true (ImageConfig.showCaption (Ui.config _)));
    cbn [snd]; log_chain.
Qed.

(** The views of older elements that [fillImage] leaves alone: those that
    do not depend on listeners, on the place in the tree or on the class
    [resizable-container]. *)
Lemma fillImage_keeps_view {A : Type} (g : Dom.Element -> A) url h wd u w :
  (forall v, same_on g (Dom.with_listeners v)) ->
  (forall v, same_on g (Dom.with_parentNode v)) ->
  (forall v, same_on g (Dom.with_children v)) ->
  same_on g (Dom.classList_add "resizable-container") ->
  keeps (length (dom w)) g w (snd (Ui.fillImage url h wd u w)).
Proof.
  intros Hl Hp Hc Ha.
  assert (Hr : forall ev f, same_on g (Dom.removeEventListener ev f))
    by (intros ev f e; apply Hl).
  assert (Hd : forall ev f, same_on g (Dom.addEventListener ev f)).
  { intros ev f e. unfold Dom.addEventListener. destruct (existsb _ _); [reflexivity|apply Hl]. }
  fill_steps u;
    destruct (default true (ImageConfig.showCaption (Ui.config _)));
    cbn [snd];
    chain ltac:(first [ exact Hp | exact Hc | left; exact Ha | left; apply Hr
                      | left; apply Hd | len ]).
Qed.

Lemma flags_add_resizable : same_on statusFlags (Dom.classList_add "resizable-container").
Proof. intros e. unfold statusFlags. cbn [List.map]. now rewrite !contains_add. Qed.

Lemma fillImage_shown url h wd u w :
  is_Some (dom w !! Ui.wrapper (Ui.nodes u)) ->
  Ui.shown (fst (Ui.fillImage url h wd u w)) (snd (Ui.fillImage url h wd u w))
  = Ui.shown u w.
Proof.
  intros H. apply lookup_lt_is_Some in H.
  destruct (fillImage_ui url h wd u w) as (N & _).
  destruct (fillImage_keeps_view statusFlags url h wd u w) as [_ K];
    try (intros ? ?; reflexivity); [apply flags_add_resizable|].
  transitivity (Ui.shown u (snd (Ui.fillImage url h wd u w))).
  - unfold Ui.shown. now rewrite N.
  - apply shown_flags. now apply K.
Qed.

Lemma style_add_resizable : same_on Dom.style (Dom.classList_add "resizable-container").
Proof. apply add_same_style. Qed.

(** X16.  An answer of the uploader that reports success and carries a
    file.  The file descriptor is stored as it is, and nothing is said to
    the user, the console or the uploader.  When the file has a non-empty
    [url], [fillImage] runs with the stored width and height: a new image
    element is created, while the state shown by the wrapper and the style
    of every older element (the preview on the preloader included) stay as
    they are until the element reports that it is ready.  When the [url]
    is absent or empty nothing else happens: the world and the [Ui] object
    are untouched, and no failure is reported. *)
Theorem onUpload_success (r : UploadResponseFormat.t) (f : FileData.t) this w :
  UploadResponseFormat.success r <> 0 ->
  UploadResponseFormat.file r = Some f ->
  let s' := ImageTool.onUpload r this w in
  ImageTool._data (fst s') = ImageToolData.with_file (Some f) (ImageTool._data this)
  /\ same_log w (snd s')
  /\ (Js.truthy_string (FileData.url f) = false ->
      snd s' = w /\ ImageTool.ui (fst s') = ImageTool.ui this)
  /\ (forall url,
        FileData.url f = Some url -> url <> "" ->
        ImageTool.ui (fst s')
        = fst (Ui.fillImage url (ImageToolData.height (ImageTool._data this))
                 (ImageToolData.width (ImageTool._data this)) (ImageTool.ui this) w)
        /\ snd s'
           = snd (Ui.fillImage url (ImageToolData.height (ImageTool._data this))
                    (ImageToolData.width (ImageTool._data this)) (ImageTool.ui this) w)
        /\ Ui.imageEl (Ui.nodes (ImageTool.ui (fst s'))) = Some (length (dom w))
        /\ (is_Some (dom w !! Ui.wrapper (Ui.nodes (ImageTool.ui this))) ->
            Ui.shown (ImageTool.ui (fst s')) (snd s') = Ui.shown (ImageTool.ui this) w)
        /\ (forall j e, dom w !! j = Some e ->
              Dom.style <$> dom (snd s') !! j = Some (Dom.style e))).
Proof.
  intros Hs Hf. cbn zeta. unfold ImageTool.onUpload.
  assert (T : Js.truthy_int (UploadResponseFormat.success r) = true).
  { unfold Js.truthy_int. apply negb_true_iff, Z.eqb_neq. exact Hs. }
  rewrite T, Hf, bool_decide_true by discriminate. cbn [andb].
  unfold ImageTool.set_image.
  destruct (FileData.url f) as [url|] eqn:U.
  - destruct url as [|c url'].
    + cbn [Js.truthy_string fst snd ImageTool._data ImageTool.with_data ImageTool.ui].
      split; [reflexivity|]. split; [apply same_log_refl|].
      split; [now split|]. intros ? [= <-] N. now contradiction N.
    + cbn [Js.truthy_string ImageTool._data ImageTool.with_data ImageTool.ui
             ImageToolData.height ImageToolData.width ImageToolData.with_file].
      pose proof (fillImage_log (String c url') (ImageToolData.height (ImageTool._data this))
                    (ImageToolData.width (ImageTool._data this)) (ImageTool.ui this) w) as L.
      pose proof (fillImage_ui (String c url') (ImageToolData.height (ImageTool._data this))
                    (ImageToolData.width (ImageTool._data this)) (ImageTool.ui this) w) as N.
      pose proof (fillImage_shown (String c url') (ImageToolData.height (ImageTool._data this))
                    (ImageToolData.width (ImageTool._data this)) (ImageTool.ui this) w) as S.
      pose proof (fillImage_keeps_view Dom.style (String c url')
                    (ImageToolData.height (ImageTool._data this))
                    (ImageToolData.width (ImageTool._data this)) (ImageTool.ui this) w) as K.
      destruct (Ui.fillImage _ _ _ _ _) as [u1 w1] eqn:F. cbn [fst snd] in *.
      cbn [ImageTool._data ImageTool.with_ui ImageTool.with_data ImageTool.ui].
      split; [reflexivity|]. split; [exact L|]. split; [discriminate|].
      intros url0 [= <-] _. rewrite F. cbn [fst snd].
      split; [reflexivity|]. split; [reflexivity|].
      split; [now rewrite (proj1 N)|]. split; [exact S|].
      intros j e He.
      destruct K as [_ K]; try (intros ? ?; reflexivity); [apply style_add_resizable|].
      rewrite K by now apply lookup_lt_Some in He. now rewrite He.
  - cbn [fst snd ImageTool._data ImageTool.with_data ImageTool.ui].
    split; [reflexivity|]. split; [apply same_log_refl|].
    split; [now split|]. intros ? [=].
Qed.

Lemma onUpload_success_witness :
  Ui.imageEl (Ui.nodes (ImageTool.ui
     (fst (ImageTool.onUpload (UploadResponseFormat.mk 1 (Some Scenario.picture))
             (fst Scenario.fresh) (snd Scenario.fresh)))))
  = Some (length (dom (snd Scenario.fresh))).
Proof.
  destruct (onUpload_success (UploadResponseFormat.mk 1 (Some Scenario.picture))
              Scenario.picture (fst Scenario.fresh) (snd Scenario.fresh))
    as (_ & _ & _ & D).
  - discriminate.
  - reflexivity.
  - destruct (D "https://x/y.png") as (_ & _ & D3 & _);
      [reflexivity|discriminate|exact D3].
Defined.

(** X17.  Pasted content.  A pasted URL, and a pasted [img] tag whose
    source is not an in-memory blob, put the wrapper in the uploading state
    and hand the address to the uploader; the file button is left where it
    is.  The preview on the preloader becomes [url(address)] when the
    address is made of plain characters (no white space, quote,
    parenthesis, backslash or control character); an address with an
    opening parenthesis after plain characters, such as
    [https://x/y(1).png], leaves the preview as it was while the upload
    starts all the same.  A pasted tag with a [blob:] source changes
    nothing by itself: the upload starts when the fetch has resolved. *)
Theorem onPaste_url (url : string) this w :
  is_Some (dom w !! Ui.wrapper (Ui.nodes (ImageTool.ui this))) ->
  is_Some (dom w !! Ui.imagePreloader (Ui.nodes (ImageTool.ui this))) ->
  let s' := ImageTool.onPaste (ImageTool.PastePattern url) this w in
  fst s' = this
  /\ Ui.shown (ImageTool.ui this) (snd s') = [Ui.Uploading]
  /\ (Dom.plain_url url = true ->
      backgroundImage <$> dom (snd s') !! Ui.imagePreloader (Ui.nodes (ImageTool.ui this))
      = Some ("url(" ++ url ++ ")")%string)
  /\ (forall p r, Dom.plain_url p = true -> url = (p ++ "(" ++ r)%string ->
        backgroundImage <$> dom (snd s') !! Ui.imagePreloader (Ui.nodes (ImageTool.ui this))
        = backgroundImage <$> dom w !! Ui.imagePreloader (Ui.nodes (ImageTool.ui this)))
  /\ uploaderCalls (snd s') = uploaderCalls w ++ [UploadByUrl url]
  /\ (forall j, Dom.parentNode <$> dom (snd s') !! j = Dom.parentNode <$> dom w !! j)
  /\ (ImageTool.is_blob url = false ->
      ImageTool.onPaste (ImageTool.PasteTag url) this w = s')
  /\ (forall src, ImageTool.is_blob src = true ->
        ImageTool.onPaste (ImageTool.PasteTag src) this w = (this, w)).
Proof.
  intros Hw Hp. cbn zeta. cbn [ImageTool.onPaste]. unfold ImageTool.uploadUrl.
  cbn [fst snd dom with_uploaderCalls].
  split; [reflexivity|].
  split.
  { rewrite <- (showPreloader_shown url (ImageTool.ui this) w Hw).
    apply shown_flags. reflexivity. }
  split; [intros Hs; now apply showPreloader_preview|].
  split.
  { intros p r _ ->. apply preview_of_style, showPreloader_dropped, plain_url_paren. }
  split; [reflexivity|].
  split.
  { intros j. apply showPreloader_view; [apply toggle_same_parent|intros ? ?; reflexivity]. }
  split; [intros ->; reflexivity|intros src ->; reflexivity].
Qed.

(** On a new block: the pasted address of a picture becomes the preview and
    goes to the uploader; an address with parentheses goes to the uploader
    too, but the preview stays empty. *)
Lemma onPaste_url_witness :
  let paste url :=
    snd (ImageTool.onPaste (ImageTool.PastePattern url)
           (fst Scenario.fresh) (snd Scenario.fresh)) in
  backgroundImage <$> dom (paste "https://x/y.png") !! 3%nat = Some "url(https://x/y.png)"
  /\ uploaderCalls (paste "https://x/y.png")
     = uploaderCalls (snd Scenario.fresh) ++ [UploadByUrl "https://x/y.png"]
  /\ backgroundImage <$> dom (paste "https://x/y(1).png") !! 3%nat = Some ""
  /\ uploaderCalls (paste "https://x/y(1).png")
     = uploaderCalls (snd Scenario.fresh) ++ [UploadByUrl "https://x/y(1).png"].
Proof.
  cbn zeta.
  destruct (onPaste_url "https://x/y.png" (fst Scenario.fresh) (snd Scenario.fresh))
    as (_ & _ & P & _ & D & _).
  { vm_compute. eexists. reflexivity. }
  { vm_compute. eexists. reflexivity. }
  destruct (onPaste_url "https://x/y(1).png" (fst Scenario.fresh) (snd Scenario.fresh))
    as (_ & _ & _ & Q & D' & _).
  { vm_compute. eexists. reflexivity. }
  { vm_compute. eexists. reflexivity. }
  split; [exact (P eq_refl)|]. split; [exact D|]. split; [|exact D'].
  transitivity (backgroundImage <$> dom (snd Scenario.fresh) !! 3%nat);
    [exact (Q "https://x/y" "1).png" eq_refl eq_refl)|vm_compute; reflexivity].
Defined.

End Upload.

(* ===================================================================== *)
(** ** Properties kept for the whole life of a block *)
(* ===================================================================== *)

(** A property of the [Ui] object and the world that every elementary
    action of the tool keeps is kept by every operation on the block, and
    so by every sequence of operations. *)
Section Lifetime.

Variable Inv : Ui.t -> World -> Prop.

Hypothesis Inv_uploaderCalls : forall v u w, Inv u w -> Inv u (with_uploaderCalls v w).
Hypothesis Inv_console : forall v u w, Inv u w -> Inv u (with_console v w).
Hypothesis Inv_notifications : forall v u w, Inv u w -> Inv u (with_notifications v w).
Hypothesis Inv_toggleStatus : forall st u w, Inv u w -> Inv u (Ui.toggleStatus st u w).
Hypothesis Inv_showPreloader : forall src u w, Inv u w -> Inv u (Ui.showPreloader src u w).
Hypothesis Inv_hidePreloader : forall u w, Inv u w -> Inv u (Ui.hidePreloader u w).
Hypothesis Inv_fillImage :
  forall url h wd u w,
    Inv u w -> Inv (fst (Ui.fillImage url h wd u w)) (snd (Ui.fillImage url h wd u w)).
Hypothesis Inv_removeFileButton : forall u w, Inv u w -> Inv u (Ui.removeFileButton u w).
Hypothesis Inv_addFileButton : forall u w, Inv u w -> Inv u (Ui.addFileButton u w).
Hypothesis Inv_destroy :
  forall u w, Inv u w -> Inv (fst (Ui.destroy u w)) (snd (Ui.destroy u w)).
Hypothesis Inv_load :
  forall tag wd u w,
    Inv u w ->
    Inv (fst (Ui.run_imageLoadHandler tag wd u w)) (snd (Ui.run_imageLoadHandler tag wd u w)).
Hypothesis Inv_error :
  forall url u w,
    Inv u w ->
    Inv (fst (Ui.run_imageErrorHandler url u w)) (snd (Ui.run_imageErrorHandler url u w)).
Hypothesis Inv_mouseDown :
  forall a u w,
    Inv u w ->
    Inv (fst (Ui.run_mouseDownHandler a u w)) (snd (Ui.run_mouseDownHandler a u w)).
Hypothesis Inv_mouseUp :
  forall self mv u w,
    Inv u w ->
    Inv (fst (Ui.run_onMouseUp self mv u w)) (snd (Ui.run_onMouseUp self mv u w)).
Hypothesis Inv_resizeImage : forall x a u w, Inv u w -> Inv u (Ui.resizeImage x a u w).
Hypothesis Inv_relayout :
  forall t l u w, Inv u w -> Inv u (on_el t (Dom.with_layout l) w).
Hypothesis Inv_typed :
  forall text u w,
    Inv u w -> Inv u (on_el (Ui.caption (Ui.nodes u)) (Dom.with_textContent text) w).

Lemma call_inv f x u w :
  Inv u w -> Inv (fst (Ui.call f x u w)) (snd (Ui.call f x u w)).
Proof.
  intros H. unfold Ui.call.
  destruct (funs w !! f) as [[tag width|url| |align|align|mv]|]; cbn [fst snd]; auto.
Qed.

Lemma call_all_inv fs x u w :
  Inv u w -> Inv (fst (Ui.call_all fs x u w)) (snd (Ui.call_all fs x u w)).
Proof.
  unfold Ui.call_all. revert u w. induction fs as [|f fs IH]; intros u w H; [exact H|].
  cbn [fold_left fst snd]. pose proof (call_inv f x u w H) as C.
  destruct (Ui.call f x u w) as [u1 w1]. now apply IH.
Qed.

Lemma dispatchEvent_inv target ev x u w :
  Inv u w ->
  Inv (fst (Ui.dispatchEvent target ev x u w)) (snd (Ui.dispatchEvent target ev x u w)).
Proof.
  intros H. unfold Ui.dispatchEvent. destruct (dom w !! target); [|exact H].
  now apply call_all_inv.
Qed.

Lemma uploadingFailed_inv e (this : ImageTool.t) w :
  Inv (ImageTool.ui this) w ->
  Inv (ImageTool.ui (fst (ImageTool.uploadingFailed e this w)))
    (snd (ImageTool.uploadingFailed e this w)).
Proof.
  intros H. unfold ImageTool.uploadingFailed. cbn [fst snd].
  apply Inv_addFileButton, Inv_hidePreloader, Inv_notifications, Inv_console, H.
Qed.

Lemma set_image_inv file (this : ImageTool.t) w :
  Inv (ImageTool.ui this) w ->
  Inv (ImageTool.ui (fst (ImageTool.set_image file this w)))
    (snd (ImageTool.set_image file this w)).
Proof.
  intros H. unfold ImageTool.set_image.
  destruct file as [f|]; [|exact H].
  destruct (FileData.url f) as [url|]; [|exact H].
  destruct (Js.truthy_string (Some url)); [|exact H].
  cbn [ImageTool.ui ImageTool.with_data ImageTool._data].
  pose proof (Inv_fillImage url
                (ImageToolData.height (ImageToolData.with_file
                   (Some f) (ImageTool._data this)))
                (ImageToolData.width (ImageToolData.with_file
                   (Some f) (ImageTool._data this)))
                (ImageTool.ui this) w H) as S.
  destruct (Ui.fillImage _ _ _ _ _) as [u1 w1]. exact S.
Qed.

Lemma step_inv op (s : ImageTool.t * World) :
  Inv (ImageTool.ui (fst s)) (snd s) ->
  Inv (ImageTool.ui (fst (ImageTool.step op s))) (snd (ImageTool.step op s)).
Proof.
  destruct s as [this w]. cbn [fst snd]. intros H.
  destruct op; cbn [ImageTool.step fst snd].
  - unfold ImageTool.render, Ui.render.
    destruct (match ImageToolData.file _ with Some _ => _ | None => _ end);
      cbn [snd]; now apply Inv_toggleStatus.
  - exact H.
  - unfold ImageTool.appendCallback.
    pose proof (dispatchEvent_inv (Ui.fileButton (Ui.nodes (ImageTool.ui this)))
                  "click" 0%Q (ImageTool.ui this) w H) as S.
    destruct (Ui.dispatchEvent _ _ _ _ _) as [u1 w1]. exact S.
  - unfold ImageTool.destroy.
    pose proof (Inv_destroy (ImageTool.ui this) w H) as S.
    destruct (Ui.destroy _ _) as [u1 w1]. exact S.
  - unfold ImageTool.onPaste, ImageTool.uploadUrl, ImageTool.uploadFile.
    destruct event as [src|url|]; [destruct (ImageTool.is_blob src)| |];
      cbn [fst snd ImageTool.ui]; auto.
  - cbn [ImageTool.uploadFile fst snd]. auto.
  - auto.
  - auto.
  - unfold ImageTool.onUpload. destruct (_ && _).
    + now apply set_image_inv.
    + now apply uploadingFailed_inv.
  - now apply uploadingFailed_inv.
  - pose proof (dispatchEvent_inv target ev clientX (ImageTool.ui this) w H) as S.
    destruct (Ui.dispatchEvent _ _ _ _ _) as [u1 w1]. exact S.
  - unfold Ui.document_dispatchEvent.
    pose proof (call_all_inv
                  (List.map snd (List.filter (fun l => String.eqb ev (fst l))
                                   (documentListeners w)))
                  clientX (ImageTool.ui this) w H) as S.
    destruct (Ui.call_all _ _ _ _) as [u1 w1]. exact S.
  - auto.
  - auto.
Qed.

Lemma run_inv ops (s : ImageTool.t * World) :
  Inv (ImageTool.ui (fst s)) (snd s) ->
  Inv (ImageTool.ui (fst (ImageTool.run ops s))) (snd (ImageTool.run ops s)).
Proof.
  unfold ImageTool.run. revert s. induction ops as [|op ops IH]; intros s H; [exact H|].
  cbn [fold_left]. apply IH. now apply step_inv.
Qed.

End Lifetime.

Section Views.

Context {A : Type} (g : Dom.Element -> A).

Lemma removeFileButton_view u w j :
  (forall v, same_on g (Dom.with_parentNode v)) ->
  (forall v, same_on g (Dom.with_children v)) ->
  g <$> dom (Ui.removeFileButton u w) !! j = g <$> dom w !! j.
Proof.
  intros Hp Hc. unfold Ui.removeFileButton.
  destruct (dom w !! Ui.fileButton (Ui.nodes u)) as [b|] eqn:B; [|reflexivity].
  destruct (_ && _); [|reflexivity].
  unfold Dom.removeChild. rewrite B.
  destruct (Dom.parentNode b) as [p|]; [|reflexivity].
  destruct (Nat.eqb _ p); [|reflexivity].
  cbn [dom with_dom]. now apply detach_view.
Qed.

Lemma addFileButton_view u w j :
  (forall v, same_on g (Dom.with_parentNode v)) ->
  (forall v, same_on g (Dom.with_children v)) ->
  g <$> dom (Ui.addFileButton u w) !! j = g <$> dom w !! j.
Proof.
  intros Hp Hc. unfold Ui.addFileButton.
  destruct (negb _); [|reflexivity]. now apply appendChild_view.
Qed.

Lemma remove_all_view rs w j :
  (forall v, same_on g (Dom.with_listeners v)) ->
  g <$> dom (remove_all rs w) !! j = g <$> dom w !! j.
Proof.
  intros Hl. revert w. induction rs as [|r rs IH]; intros w; [reflexivity|].
  rewrite remove_all_cons, IH. apply on_el_view. intros e. apply Hl.
Qed.

Lemma destroy_view u w j :
  (forall v, same_on g (Dom.with_listeners v)) ->
  g <$> dom (snd (Ui.destroy u w)) !! j = g <$> dom w !! j.
Proof. intros Hl. rewrite destroy_eq. cbn [snd]. now apply remove_all_view. Qed.

Lemma run_imageErrorHandler_view url u w j :
  (forall c b, same_on g (Dom.classList_toggle c b)) ->
  (forall v, same_on g (Dom.with_parentNode v)) ->
  (forall v, same_on g (Dom.with_children v)) ->
  g <$> dom (snd (Ui.run_imageErrorHandler url u w)) !! j = g <$> dom w !! j.
Proof.
  intros Ht Hp Hc. unfold Ui.run_imageErrorHandler.
  set (w1 := Ui.toggleStatus Ui.Empty u _).
  assert (V : g <$> dom w1 !! j = g <$> dom w !! j).
  { unfold w1. now rewrite toggleStatus_view. }
  destruct (Ui.imageEl (Ui.nodes u)) as [el|]; [|exact V].
  destruct (dom w1 !! el ≫= Dom.parentNode) as [p|]; [|exact V].
  unfold Dom.removeChild.
  destruct (dom w1 !! el) as [e|]; [|exact V].
  destruct (Dom.parentNode e) as [p'|]; [|exact V].
  destruct (Nat.eqb p p'); [|exact V].
  cbn [snd dom with_dom]. now rewrite detach_view.
Qed.

Lemma run_imageLoadHandler_view tag wd u w j :
  (forall c b, same_on g (Dom.classList_toggle c b)) ->
  (forall v, same_on g (Dom.with_style v)) ->
  g <$> dom (snd (Ui.run_imageLoadHandler tag wd u w)) !! j = g <$> dom w !! j.
Proof.
  intros Ht Hs. unfold Ui.run_imageLoadHandler.
  destruct (Ui.imageEl (Ui.nodes u)) as [el|]; cbn [snd].
  - cbn [Ui.nodes Ui.imagePreloader Ui.with_contentRatio].
    assert (N : forall r, Ui.imagePreloader (Ui.nodes (Ui.with_contentRatio r u))
                          = Ui.imagePreloader (Ui.nodes u)) by reflexivity.
    destruct (String.eqb tag "VIDEO"); rewrite N;
      rewrite on_el_view by (intros ?; apply Hs);
      (destruct wd as [s|]; [destruct (Js.gt0 _)|]);
      rewrite ?on_el_view by (intros ?; apply Hs);
      rewrite on_el_view by (intros ?; apply (Ht _ true));
      now apply toggleStatus_view.
  - cbn [dom with_uncaught]. now apply toggleStatus_view.
Qed.

Lemma resizeImage_view x a u w j :
  (forall v, same_on g (Dom.with_style v)) ->
  g <$> dom (Ui.resizeImage x a u w) !! j = g <$> dom w !! j.
Proof.
  intros Hs. unfold Ui.resizeImage.
  destruct (Ui.isResizing u), (Ui.imageEl (Ui.nodes u)) as [el|]; try reflexivity.
  destruct (dom w !! el); [|reflexivity].
  apply on_el_view. intros ?. apply Hs.
Qed.

End Views.

Section OneState.

Lemma shown_present u w st : Ui.shown u w = [st] -> is_Some (dom w !! Ui.wrapper (Ui.nodes u)).
Proof. unfold Ui.shown. destruct (dom w !! _); [eauto|discriminate]. Qed.

Lemma shown_view u w u' w' :
  Ui.wrapper (Ui.nodes u') = Ui.wrapper (Ui.nodes u) ->
  (forall j, statusFlags <$> dom w' !! j = statusFlags <$> dom w !! j) ->
  Ui.shown u' w' = Ui.shown u w.
Proof.
  intros N V. transitivity (Ui.shown u w').
  - unfold Ui.shown. now rewrite N.
  - apply shown_flags, V.
Qed.

Lemma run_imageErrorHandler_shown url u w :
  is_Some (dom w !! Ui.wrapper (Ui.nodes u)) ->
  Ui.shown (fst (Ui.run_imageErrorHandler url u w)) (snd (Ui.run_imageErrorHandler url u w))
  = [Ui.Empty].
Proof.
  intros H. unfold Ui.run_imageErrorHandler.
  set (w1 := Ui.toggleStatus Ui.Empty u _).
  assert (S1 : Ui.shown u w1 = [Ui.Empty]) by now apply toggleStatus_shown.
  destruct (Ui.imageEl (Ui.nodes u)) as [el|]; [|exact S1].
  destruct (dom w1 !! el ≫= Dom.parentNode) as [p|]; [|exact S1].
  unfold Dom.removeChild.
  destruct (dom w1 !! el) as [e|]; [|exact S1].
  destruct (Dom.parentNode e) as [p'|]; [|exact S1].
  destruct (Nat.eqb p p'); [|exact S1].
  cbn [fst snd]. rewrite <- S1. apply shown_view; [reflexivity|].
  intros j. cbn [dom with_dom]. apply detach_view; intros ? ?; reflexivity.
Qed.

(** X18.  Once the wrapper shows one state it shows one state for ever:
    no operation on the block -- a call of the host, a callback of the
    uploader, an event or a new layout -- leaves it with two state classes
    or with none.  This holds in particular from the first [render()] of a
    block on. *)
Theorem one_state_always (ops : list ImageTool.Op) (s : ImageTool.t * World) :
  one_state (ImageTool.ui (fst s)) (snd s) ->
  one_state (ImageTool.ui (fst (ImageTool.run ops s))) (snd (ImageTool.run ops s)).
Proof.
  apply run_inv; unfold one_state; clear ops s.
  - intros v u w H. exact H.
  - intros v u w H. exact H.
  - intros v u w H. exact H.
  - intros st u w [st0 H]. exists st. apply toggleStatus_shown. eapply shown_present, H.
  - intros src u w [st0 H]. exists Ui.Uploading. apply showPreloader_shown.
    eapply shown_present, H.
  - intros u w [st0 H]. exists Ui.Empty. apply hidePreloader_shown.
    eapply shown_present, H.
  - intros url h wd u w [st0 H]. exists st0. rewrite <- H.
    apply fillImage_shown. eapply shown_present, H.
  - intros u w [st0 H]. exists st0. rewrite <- H. apply shown_flags.
    apply removeFileButton_view; intros ? ?; reflexivity.
  - intros u w [st0 H]. exists st0. rewrite <- H. apply shown_flags.
    apply addFileButton_view; intros ? ?; reflexivity.
  - intros u w [st0 H]. exists st0. rewrite <- H.
    apply shown_view; [now rewrite destroy_eq|].
    intros j. apply destroy_view. intros ? ?; reflexivity.
  - intros tag wd u w [st0 H]. exists Ui.Filled. apply run_imageLoadHandler_shown.
    eapply shown_present, H.
  - intros url u w [st0 H]. exists Ui.Empty. apply run_imageErrorHandler_shown.
    eapply shown_present, H.
  - intros a u w [st0 H]. exists st0. rewrite <- H.
    unfold Ui.run_mouseDownHandler, new_fun, Ui.document_addEventListener.
    cbn [fst snd]. repeat (destruct (existsb _ _)); reflexivity.
  - intros self mv u w [st0 H]. exists st0. rewrite <- H. reflexivity.
  - intros x a u w [st0 H]. exists st0. rewrite <- H. apply shown_flags.
    apply resizeImage_view. intros ? ?; reflexivity.
  - intros t l u w [st0 H]. exists st0. rewrite <- H. apply shown_flags.
    apply on_el_view. intros ?; reflexivity.
  - intros text u w [st0 H]. exists st0. rewrite <- H. apply shown_flags.
    apply on_el_view. intros ?; reflexivity.
Qed.

Lemma one_state_always_witness :
  one_state
    (ImageTool.ui (fst (ImageTool.run
       [ImageTool.OnPreview "blob:1"; ImageTool.OnError "x"] Scenario.loaded)))
    (snd (ImageTool.run
       [ImageTool.OnPreview "blob:1"; ImageTool.OnError "x"] Scenario.loaded)).
Proof.
  apply (one_state_always [ImageTool.OnPreview "blob:1"; ImageTool.OnError "x"]
           Scenario.loaded).
  exists Ui.Filled. vm_compute. reflexivity.
Defined.

End OneState.

Section Hidden.

Lemma hidden_view j w w' :
  display <$> dom w' !! j = display <$> dom w !! j -> hidden j w -> hidden j w'.
Proof. unfold hidden. now intros ->. Qed.

Lemma hidden_present j w : hidden j w -> (j < length (dom w))%nat.
Proof.
  unfold hidden. intros H. apply lookup_lt_is_Some.
  destruct (dom w !! j); [eauto|discriminate].
Qed.

Lemma display_add c : same_on display (Dom.classList_add c).
Proof. exact (toggle_same_display c true). Qed.

Lemma run_imageLoadHandler_hidden tag wd u w j :
  hidden j w -> hidden j (snd (Ui.run_imageLoadHandler tag wd u w)).
Proof.
  intros H. unfold Ui.run_imageLoadHandler.
  assert (H1 : hidden j (Ui.toggleStatus Ui.Filled u w)).
  { revert H. apply hidden_view, toggleStatus_view, toggle_same_display. }
  destruct (Ui.imageEl (Ui.nodes u)) as [el|]; cbn [snd]; [|exact H1].
  set (w1 := on_el el (Dom.classList_add "loaded") _).
  assert (H2 : hidden j w1).
  { revert H1. apply hidden_view, on_el_view, display_add. }
  set (w2 := match wd with Some _ => _ | None => _ end).
  assert (H3 : hidden j w2).
  { unfold w2. destruct wd as [s|]; [|exact H2]. destruct (Js.gt0 _); [|exact H2].
    revert H2. apply hidden_view, on_el_view. intros ?. reflexivity. }
  clearbody w2. clear H H1 H2. unfold hidden in *.
  match goal with |- context [on_el ?p _ w2] => destruct (decide (p = j)) as [->|N] end.
  - rewrite on_el_lookup_eq. destruct (dom w2 !! j); [reflexivity|discriminate].
  - now rewrite on_el_lookup_ne.
Qed.

(** X19.  The tool never makes a hidden element visible again: an element
    whose inline style says [display: none] keeps that style through every
    operation on the block.  The only element the tool hides is the
    preloader, in the ready handler, so from the first picture that has
    loaded on, no later upload shows the preloader again, although
    [showPreloader] sets its preview. *)
Theorem hidden_for_ever (j : Dom.NodeId) (ops : list ImageTool.Op)
    (s : ImageTool.t * World) :
  hidden j (snd s) -> hidden j (snd (ImageTool.run ops s)).
Proof.
  apply (run_inv (fun _ w => hidden j w)); clear ops s.
  - intros v u w H. exact H.
  - intros v u w H. exact H.
  - intros v u w H. exact H.
  - intros st u w. apply hidden_view, toggleStatus_view, toggle_same_display.
  - intros src u w. apply hidden_view, showPreloader_display.
  - intros u w. apply hidden_view, hidePreloader_display.
  - intros url h wd u w H. apply (hidden_view j w); [|exact H]. cbn [snd].
    apply (fillImage_keeps_view display url h wd u w);
      try (intros ? ?; reflexivity); [apply display_add|].
    now apply hidden_present.
  - intros u w. apply hidden_view, removeFileButton_view; intros ? ?; reflexivity.
  - intros u w. apply hidden_view, addFileButton_view; intros ? ?; reflexivity.
  - intros u w. apply hidden_view, destroy_view. intros ? ?; reflexivity.
  - intros tag wd u w. apply run_imageLoadHandler_hidden.
  - intros url u w. apply hidden_view, run_imageErrorHandler_view;
      try (intros ? ?; reflexivity). apply toggle_same_display.
  - intros a u w H. unfold Ui.run_mouseDownHandler, new_fun, Ui.document_addEventListener.
    cbn [fst snd]. repeat (destruct (existsb _ _)); exact H.
  - intros self mv u w H. exact H.
  - intros x a u w. apply hidden_view. unfold Ui.resizeImage.
    destruct (Ui.isResizing u), (Ui.imageEl (Ui.nodes u)) as [el|]; try reflexivity.
    destruct (dom w !! el); [|reflexivity].
    apply on_el_view. intros ?. reflexivity.
  - intros t l u w. apply hidden_view, on_el_view. intros ?. reflexivity.
  - intros text u w. apply hidden_view, on_el_view. intros ?. reflexivity.
Qed.

Lemma hidden_for_ever_witness :
  hidden 3 (snd (ImageTool.run
                   [ImageTool.OnPaste (ImageTool.PastePattern "https://x/z.png")]
                   Scenario.loaded))
  /\ backgroundImage
       <$> dom (snd (ImageTool.run
                       [ImageTool.OnPaste (ImageTool.PastePattern "https://x/z.png")]
                       Scenario.loaded)) !! 3%nat
     = Some "url(https://x/z.png)".
Proof.
  split.
  - apply (hidden_for_ever 3
             [ImageTool.OnPaste (ImageTool.PastePattern "https://x/z.png")]
             Scenario.loaded).
    vm_compute. reflexivity.
  - vm_compute. reflexivity.
Defined.

End Hidden.

Section Identity.

Lemma same_element_view j e0 w w' :
  (fun e => (identity e, Dom.listeners e)) <$> dom w' !! j
  = (fun e => (identity e, Dom.listeners e)) <$> dom w !! j ->
  same_element j e0 w -> same_element j e0 w'.
Proof.
  intros V (e & He & I & L). unfold same_element. rewrite He in V.
  destruct (dom w' !! j) as [e'|]; [|discriminate].
  cbn in V. exists e'. split; [reflexivity|].
  unfold identity in *. injection V as V1 V2 V3 V4 V5.
  split; [congruence|now rewrite V5].
Qed.

Lemma same_element_present j e0 w : same_element j e0 w -> (j < length (dom w))%nat.
Proof. intros (e & He & _). now apply lookup_lt_Some in He. Qed.

Lemma identity_toggle c b :
  same_on (fun e => (identity e, Dom.listeners e)) (Dom.classList_toggle c b).
Proof.
  intros e. unfold Dom.classList_toggle, Dom.classList_add, Dom.classList_remove.
  destruct b; [destruct (existsb _ _)|]; reflexivity.
Qed.

Lemma identity_add c : same_on identity (Dom.classList_add c).
Proof. intros e. unfold Dom.classList_add. destruct (existsb _ _); reflexivity. Qed.

(** Every operation keeps an element what it is, with no listener more. *)
Lemma same_element_run j e0 ops (s : ImageTool.t * World) :
  same_element j e0 (snd s) -> same_element j e0 (snd (ImageTool.run ops s)).
Proof.
  apply (run_inv (fun _ w => same_element j e0 w)); clear ops s.
  - intros v u w H. exact H.
  - intros v u w H. exact H.
  - intros v u w H. exact H.
  - intros st u w. apply same_element_view, toggleStatus_view, identity_toggle.
  - intros src u w. apply same_element_view, showPreloader_view;
      [apply identity_toggle|intros ? ?; reflexivity].
  - intros u w. apply same_element_view, hidePreloader_view;
      [apply identity_toggle|intros ? ?; reflexivity].
  - intros url h wd u w H. pose proof (same_element_present _ _ _ H) as Hj.
    destruct H as (e & He & I & L).
    destruct (fillImage_keeps_view identity url h wd u w) as [_ K];
      try (intros ? ?; reflexivity); [apply identity_add|].
    destruct (fillImage_old_listeners url h wd u w) as [_ K'].
    specialize (K j Hj). specialize (K' j Hj). rewrite He in K, K'.
    unfold same_element.
    destruct (dom (snd (Ui.fillImage url h wd u w)) !! j) as [e'|]; [|discriminate].
    cbn in K, K'. injection K' as K'. exists e'. split; [reflexivity|].
    split; [congruence|now rewrite K'].
  - intros u w. apply same_element_view, removeFileButton_view; intros ? ?; reflexivity.
  - intros u w. apply same_element_view, addFileButton_view; intros ? ?; reflexivity.
  - intros u w (e & He & I & L). rewrite destroy_eq. cbn [snd].
    unfold same_element.
    rewrite (remove_all_lookup _ _ _ _ He). eexists. split; [reflexivity|].
    split; [exact I|]. cbn [Dom.listeners Dom.with_listeners].
    intros l Hl. apply filter_In in Hl as [Hl _]. now apply L.
  - intros tag wd u w. apply same_element_view, run_imageLoadHandler_view;
      [apply identity_toggle|intros ? ?; reflexivity].
  - intros url u w. apply same_element_view, run_imageErrorHandler_view;
      [apply identity_toggle|intros ? ?; reflexivity|intros ? ?; reflexivity].
  - intros a u w H. unfold Ui.run_mouseDownHandler, new_fun, Ui.document_addEventListener.
    cbn [fst snd]. repeat (destruct (existsb _ _)); exact H.
  - intros self mv u w H. exact H.
  - intros x a u w. apply same_element_view, resizeImage_view. intros ? ?; reflexivity.
  - intros t l u w. apply same_element_view, on_el_view. intros ?. reflexivity.
  - intros text u w. apply same_element_view, on_el_view. intros ?. reflexivity.
Qed.



End Identity.

Section DeadButton.

Lemma createResizer_fileButton align u w c u' w' :
  Ui.createResizer align u w = (c, u', w') ->
  Ui.fileButtonHandler u' = Ui.fileButtonHandler u.
Proof.
  destruct (createResizer_eq align u w) as (w'' & E & _).
  rewrite E. now intros [= <- <- <-].
Qed.

Lemma fillImage_fileButton url h wd u w :
  Ui.fileButtonHandler (fst (Ui.fillImage url h wd u w)) = Ui.fileButtonHandler u
  /\ Ui.fileButton (Ui.nodes (fst (Ui.fillImage url h wd u w))) = Ui.fileButton (Ui.nodes u).
Proof.
  split; [|now rewrite (proj1 (fillImage_ui url h wd u w))].
  fill_steps u; cbn [fst];
    repeat match goal with
           | M : Ui.createResizer _ _ _ = _ |- _ => apply createResizer_fileButton in M
           end;
    cbn [Ui.fileButtonHandler Ui.with_imageErrorHandler Ui.with_imageLoadHandler
           Ui.with_imageEl] in *;
    congruence.
Qed.

Lemma tracked_view u w u' w' :
  Ui.fileButton (Ui.nodes u') = Ui.fileButton (Ui.nodes u) ->
  Ui.fileButtonHandler u' = Ui.fileButtonHandler u ->
  Dom.listeners <$> dom w' !! Ui.fileButton (Ui.nodes u)
  = Dom.listeners <$> dom w !! Ui.fileButton (Ui.nodes u) ->
  button_tracked u w -> button_tracked u' w'.
Proof.
  unfold button_tracked, button_dead. intros N F V [D|(h & e & Hh & He & L)].
  - left. now rewrite N, V.
  - right. rewrite N, F. rewrite He in V.
    destruct (dom w' !! Ui.fileButton (Ui.nodes u)) as [e'|]; [|discriminate].
    cbn in V. injection V as V. exists h, e'. now rewrite V.
Qed.

Lemma dead_view u w u' w' :
  Ui.fileButton (Ui.nodes u') = Ui.fileButton (Ui.nodes u) ->
  Dom.listeners <$> dom w' !! Ui.fileButton (Ui.nodes u)
  = Dom.listeners <$> dom w !! Ui.fileButton (Ui.nodes u) ->
  button_dead u w -> button_dead u' w'.
Proof. unfold button_dead. intros N V D. now rewrite N, V. Qed.

Lemma tracked_present u w :
  button_tracked u w -> (Ui.fileButton (Ui.nodes u) < length (dom w))%nat.
Proof.
  unfold button_tracked, button_dead. intros [D|(h & e & _ & He & _)].
  - apply lookup_lt_is_Some. destruct (dom w !! _); [eauto|discriminate].
  - now apply lookup_lt_Some in He.
Qed.

Lemma listeners_toggle c b : same_on Dom.listeners (Dom.classList_toggle c b).
Proof. apply toggle_same_listeners. Qed.

(** Every operation keeps the file button tracked. *)
Lemma tracked_run ops (s : ImageTool.t * World) :
  button_tracked (ImageTool.ui (fst s)) (snd s) ->
  button_tracked (ImageTool.ui (fst (ImageTool.run ops s))) (snd (ImageTool.run ops s)).
Proof.
  apply run_inv; clear ops s.
  - intros v u w H. exact H.
  - intros v u w H. exact H.
  - intros v u w H. exact H.
  - intros st u w. apply tracked_view; try reflexivity.
    apply toggleStatus_view, listeners_toggle.
  - intros src u w. apply tracked_view; try reflexivity.
    apply showPreloader_view; [apply listeners_toggle|intros ? ?; reflexivity].
  - intros u w. apply tracked_view; try reflexivity.
    apply hidePreloader_view; [apply listeners_toggle|intros ? ?; reflexivity].
  - intros url h wd u w H.
    destruct (fillImage_fileButton url h wd u w) as [F N].
    apply (tracked_view u w); [exact N|exact F| |exact H].
    apply (fillImage_old_listeners url h wd u w). now apply tracked_present.
  - intros u w. apply tracked_view; try reflexivity.
    apply removeFileButton_view; intros ? ?; reflexivity.
  - intros u w. apply tracked_view; try reflexivity.
    apply addFileButton_view; intros ? ?; reflexivity.
  - intros u w H. left. unfold button_dead. rewrite destroy_eq. cbn [fst snd].
    change (Ui.fileButton (Ui.nodes (cleared u))) with (Ui.fileButton (Ui.nodes u)).
    destruct H as [D|(h & e & Hh & He & L)].
    + unfold button_dead in D.
      destruct (dom w !! Ui.fileButton (Ui.nodes u)) as [e|] eqn:He; [|discriminate].
      cbn in D. injection D as D.
      rewrite (remove_all_lookup _ _ _ _ He), D. reflexivity.
    + rewrite (remove_all_lookup _ _ _ _ He). cbn. f_equal.
      assert (R : forall l, In l (Dom.listeners e) ->
                    removed_by (removals u) (Ui.fileButton (Ui.nodes u)) l = true).
      { intros l Hl. apply L in Hl. destruct Hl as [<-|[]].
        unfold removed_by. apply existsb_exists.
        exists (Ui.fileButton (Ui.nodes u), ("click", h)). split.
        - unfold removals. rewrite Hh. apply in_or_app. right.
          apply in_or_app. left. now left.
        - cbn [fst snd]. unfold Dom.same_listener. cbn [fst snd].
          now rewrite !Nat.eqb_refl, String.eqb_refl. }
      induction (Dom.listeners e) as [|l ls IH]; [reflexivity|].
      cbn [List.filter]. rewrite R by now left. cbn [negb].
      apply IH. intros l' Hl'. apply L. now right.
      intros l' Hl'. apply R. now right.
  - intros tag wd u w. apply tracked_view.
    + now rewrite run_imageLoadHandler_nodes.
    + unfold Ui.run_imageLoadHandler.
      destruct (Ui.imageEl (Ui.nodes u)); [destruct (String.eqb tag "VIDEO")|]; reflexivity.
    + apply run_imageLoadHandler_view; [apply listeners_toggle|intros ? ?; reflexivity].
  - intros url u w.
    assert (E : Ui.fileButton (Ui.nodes (fst (Ui.run_imageErrorHandler url u w)))
                = Ui.fileButton (Ui.nodes u)
                /\ Ui.fileButtonHandler (fst (Ui.run_imageErrorHandler url u w))
                   = Ui.fileButtonHandler u).
    { unfold Ui.run_imageErrorHandler.
      destruct (Ui.imageEl (Ui.nodes u)); [|now split].
      destruct (_ ≫= _); [|now split].
      destruct (Dom.removeChild _ _ _); now split. }
    apply tracked_view; [apply E|apply E|].
    apply run_imageErrorHandler_view;
      [apply listeners_toggle|intros ? ?; reflexivity|intros ? ?; reflexivity].
  - intros a u w. unfold Ui.run_mouseDownHandler, new_fun, Ui.document_addEventListener.
    cbn [fst snd]. apply tracked_view; try reflexivity.
    repeat (destruct (existsb _ _)); reflexivity.
  - intros self mv u w. apply tracked_view; reflexivity.
  - intros x a u w. apply tracked_view; try reflexivity.
    apply resizeImage_view. intros ? ?; reflexivity.
  - intros t l u w. apply tracked_view; try reflexivity.
    apply on_el_view. intros ?. reflexivity.
  - intros text u w. apply tracked_view; try reflexivity.
    apply on_el_view. intros ?. reflexivity.
Qed.

End DeadButton.

Section AfterDestroy.

Implicit Types (this : ImageTool.t).

Lemma with_ui_same this : ImageTool.with_ui (ImageTool.ui this) this = this.
Proof. destruct this; reflexivity. Qed.

(** A click on a file button without listeners does nothing. *)
Lemma appendCallback_dead (s : ImageTool.t * World) :
  button_dead (ImageTool.ui (fst s)) (snd s) ->
  ImageTool.step ImageTool.AppendCallback s = s.
Proof.
  destruct s as [this w]. unfold button_dead. cbn [fst snd ImageTool.step]. intros D.
  unfold ImageTool.appendCallback, Ui.dispatchEvent.
  destruct (dom w !! Ui.fileButton (Ui.nodes (ImageTool.ui this))) as [e|]; [|discriminate].
  cbn in D. injection D as D. unfold Dom.listeners_for. rewrite D.
  cbn. now rewrite with_ui_same.
Qed.

(** The file button right after the constructor of the tool: its click
    listener and nothing else. *)
Lemma constructor_button data cfg a ro w0 :
  let s0 := ImageTool.constructor data cfg a ro w0 in
  Ui.fileButtonHandler (ImageTool.ui (fst s0)) = Some (length (funs w0))
  /\ Dom.listeners <$> dom (snd s0) !! Ui.fileButton (Ui.nodes (ImageTool.ui (fst s0)))
     = Some [("click", length (funs w0))]
  /\ funs (snd s0) !! length (funs w0) = Some FileButtonHandler.
Proof.
  cbn zeta. unfold ImageTool.constructor, ImageTool.set_data, ImageTool.set_image.
  match goal with
  | |- context [Ui.constructor ?a ?c ?r ?w] =>
      pose proof (Ui_constructor_views a c r w) as T; cbn zeta in T;
      destruct (Ui.constructor a c r w) as [u w1]
  end.
  cbn [fst snd] in T.
  destruct T as (N & Ln & _ & _ & Ls & F & Hh).
  assert (Nb : Ui.fileButton (Ui.nodes u) = (length (dom w0) + 2)%nat) by now rewrite N.
  assert (F0 : funs w1 !! length (funs w0) = Some FileButtonHandler).
  { rewrite F, lookup_app_r, Nat.sub_diag by lia. reflexivity. }
  rewrite truthy_caption.
  assert (Base : Ui.fileButtonHandler u = Some (length (funs w0))
                 /\ Dom.listeners <$> dom w1 !! Ui.fileButton (Ui.nodes u)
                    = Some [("click", length (funs w0))]
                 /\ funs w1 !! length (funs w0) = Some FileButtonHandler).
  { rewrite Nb. now repeat split. }
  assert (Cap : forall this w c,
            Ui.fileButtonHandler (ImageTool.ui this) = Some (length (funs w0))
            /\ Dom.listeners <$> dom w !! Ui.fileButton (Ui.nodes (ImageTool.ui this))
               = Some [("click", length (funs w0))]
            /\ funs w !! length (funs w0) = Some FileButtonHandler ->
            Ui.fileButtonHandler (ImageTool.ui this) = Some (length (funs w0))
            /\ Dom.listeners
                 <$> dom (Ui.fillCaption c (ImageTool.ui this) w)
                       !! Ui.fileButton (Ui.nodes (ImageTool.ui this))
               = Some [("click", length (funs w0))]
            /\ funs (Ui.fillCaption c (ImageTool.ui this) w) !! length (funs w0)
               = Some FileButtonHandler).
  { intros this w c (H1 & H2 & H3). split; [exact H1|]. split; [|exact H3].
    unfold Ui.fillCaption. now rewrite on_el_view by (intros ?; reflexivity). }
  destruct (ImageToolData.file data) as [f|]; [|now apply Cap].
  destruct (FileData.url f) as [url|]; [|now apply Cap].
  destruct (Js.truthy_string (Some url)); [|now apply Cap].
  cbn [ImageTool._data ImageTool.with_data ImageTool.ui ImageToolData.height
         ImageToolData.width ImageToolData.with_file ImageToolData.with_width
         ImageToolData.with_height ImageToolData.with_caption].
  match goal with
  | |- context [Ui.fillImage ?url ?h ?wd u w1] =>
      pose proof (fillImage_fileButton url h wd u w1) as [Fh Fn];
      pose proof (fillImage_old_listeners url h wd u w1) as [_ K];
      pose proof (fillImage_funs url h wd u w1) as [rest Fr];
      destruct (Ui.fillImage url h wd u w1) as [u2 w2]
  end.
  cbn [fst snd] in *. apply Cap. cbn [ImageTool.ui ImageTool.with_ui].
  destruct Base as (B1 & B2 & B3).
  split; [congruence|]. split.
  - rewrite Fn, K; [exact B2|]. rewrite Nb, Ln. lia.
  - rewrite Fr, lookup_app_l; [exact B3|]. now apply lookup_lt_Some in B3.
Qed.

(** X21.  A destroyed block no longer answers the click of the toolbox.
    On a block fresh from the constructor [appendCallback()] reaches the
    click handler of the file button, which asks the uploader for a file,
    once.  After [destroy()], whatever happened to the block before and
    whatever happens after, the file button has no listener and
    [appendCallback()] changes nothing at all. *)
Theorem destroyed_block_ignores_click (data : ImageToolData.t) (cfg : ImageConfig.t)
    (a : API.t) (ro : bool) (w0 : World) (ops1 ops2 : list ImageTool.Op) :
  let s0 := ImageTool.constructor data cfg a ro w0 in
  let s :=
    ImageTool.run ops2 (ImageTool.step ImageTool.Destroy (ImageTool.run ops1 s0)) in
  uploaderCalls (snd (ImageTool.step ImageTool.AppendCallback s0))
  = uploaderCalls (snd s0) ++ [UploadSelectedFile]
  /\ button_dead (ImageTool.ui (fst s)) (snd s)
  /\ ImageTool.step ImageTool.AppendCallback s = s.
Proof.
  cbn zeta. destruct (constructor_button data cfg a ro w0) as (C1 & C2 & C3).
  cbn zeta in C1, C2, C3. split.
  - destruct (ImageTool.constructor data cfg a ro w0) as [this w] eqn:E.
    cbn [fst snd ImageTool.step] in *.
    unfold ImageTool.appendCallback, Ui.dispatchEvent.
    destruct (dom w !! Ui.fileButton (Ui.nodes (ImageTool.ui this))) as [e|];
      [|discriminate].
    cbn in C2. injection C2 as C2. unfold Dom.listeners_for. rewrite C2.
    cbn [List.filter fst snd List.map]. change (String.eqb "click" "click") with true.
    cbn [List.map snd Ui.call_all fold_left fst]. unfold Ui.call. rewrite C3. reflexivity.
  - assert (T0 : button_tracked
                   (ImageTool.ui (fst (ImageTool.constructor data cfg a ro w0)))
                   (snd (ImageTool.constructor data cfg a ro w0))).
    { right.
      destruct (dom (snd (ImageTool.constructor data cfg a ro w0))
                  !! Ui.fileButton (Ui.nodes (ImageTool.ui
                       (fst (ImageTool.constructor data cfg a ro w0))))) as [e|] eqn:E;
        [|discriminate].
      cbn in C2. injection C2 as C2. exists (length (funs w0)), e.
      split; [exact C1|]. split; [reflexivity|]. rewrite C2. apply incl_refl. }
    pose proof (tracked_run ops1 _ T0) as T1.
    set (s1 := ImageTool.run ops1 _) in *.
    assert (D2 : button_dead (ImageTool.ui (fst (ImageTool.step ImageTool.Destroy s1)))
                   (snd (ImageTool.step ImageTool.Destroy s1))).
    { pose proof (tracked_run [ImageTool.Destroy] s1 T1) as T2.
      clearbody s1. destruct s1 as [this1 w1].
      cbn [ImageTool.run fold_left ImageTool.step] in *.
      unfold ImageTool.destroy in *. rewrite destroy_eq in *.
      cbn [fst snd ImageTool.ui ImageTool.with_ui] in *.
      destruct T2 as [D|(h & e & Hh & _)]; [exact D|discriminate Hh]. }
    set (s2 := ImageTool.step ImageTool.Destroy s1) in *.
    assert (D3 : button_dead (ImageTool.ui (fst (ImageTool.run ops2 s2)))
                   (snd (ImageTool.run ops2 s2))).
    { unfold button_dead in *.
      destruct (run_stable ops2 s2) as (_ & _ & _ & _ & _ & Nb & _). rewrite Nb.
      destruct (dom (snd s2) !! Ui.fileButton (Ui.nodes (ImageTool.ui (fst s2))))
        as [e0|] eqn:E0; [|discriminate].
      cbn in D2. injection D2 as D2.
      destruct (same_element_run (Ui.fileButton (Ui.nodes (ImageTool.ui (fst s2))))
                  e0 ops2 s2) as (e & He & _ & L).
      { exists e0. split; [exact E0|]. split; [reflexivity|apply incl_refl]. }
      rewrite He. cbn. f_equal. rewrite D2 in L.
      destruct (Dom.listeners e) as [|l ls]; [reflexivity|].
      destruct (L l); now left. }
    split; [exact D3|]. now apply appendCallback_dead.
Qed.

End AfterDestroy.

Section Placement.

Variables (n : nat) (U0 : list Js.Error).

Lemma well_placed_view u w u' w' :
  Ui.nodes u' = Ui.nodes u ->
  Ui.readOnly u' = Ui.readOnly u ->
  (length (dom w) <= length (dom w'))%nat ->
  (forall j, Dom.parentNode <$> dom w' !! j = Dom.parentNode <$> dom w !! j) ->
  uncaught w' = uncaught w ->
  well_placed n U0 u w -> well_placed n U0 u' w'.
Proof.
  intros N R L V U (W1 & W2 & W3 & W4 & W5 & W6). unfold well_placed.
  rewrite N, R, !V, U. split; [exact W1|]. split; [lia|]. split; [exact W3|].
  split; [|split; [exact W5|exact W6]].
  intros e pc He Hp. specialize (V (n + 4)%nat). rewrite He in V.
  destruct (dom w !! (n + 4)%nat) as [e0|] eqn:E0; [|discriminate].
  cbn in V. injection V as V. specialize (W4 e0 pc eq_refl ltac:(congruence)). lia.
Qed.

Lemma well_placed_nodes u w :
  well_placed n U0 u w ->
  Ui.wrapper (Ui.nodes u) = n
  /\ Ui.imageContainer (Ui.nodes u) = (n + 1)%nat
  /\ Ui.fileButton (Ui.nodes u) = (n + 2)%nat
  /\ Ui.imagePreloader (Ui.nodes u) = (n + 3)%nat
  /\ Ui.caption (Ui.nodes u) = (n + 4)%nat.
Proof. intros (W1 & _). rewrite W1. now repeat split. Qed.

(** The parents of the older nodes after [fillImage]: the caption apart,
    they are the same. *)
Lemma fillImage_old_parent url h wd u w j :
  (Ui.imageContainer (Ui.nodes u) < length (dom w))%nat ->
  (Ui.caption (Ui.nodes u) < length (dom w))%nat ->
  (forall e pc, dom w !! Ui.caption (Ui.nodes u) = Some e ->
                Dom.parentNode e = Some pc -> (pc < length (dom w))%nat) ->
  (j < length (dom w))%nat -> j <> Ui.caption (Ui.nodes u) ->
  Dom.parentNode <$> dom (snd (Ui.fillImage url h wd u w)) !! j
  = Dom.parentNode <$> dom w !! j.
Proof.
  intros HIC Hcap Hwf Hj N.
  pose proof (fillImage_nf url h wd u w) as E. cbn zeta in E.
  rewrite (E HIC Hcap Hwf). clear E. cbn [fst snd dom with_dom with_funs funs].
  set (d1 := alter _ (Ui.imageContainer (Ui.nodes u)) (dom w)).
  set (d2 := if Ui.readOnly u then d1 else alter _ _ d1).
  set (D' := if default true _ then alter _ _ (Dom.detach _ d2) else d2).
  assert (L2 : length d2 = length (dom w))
    by (unfold d2, d1; destruct (Ui.readOnly u); now rewrite !length_alter).
  assert (L' : length D' = length (dom w)).
  { unfold D'. destruct (default true _); [|exact L2].
    now rewrite length_alter, detach_length. }
  rewrite lookup_app_l by (rewrite L'; exact Hj).
  assert (P2 : Dom.parentNode <$> d2 !! j = Dom.parentNode <$> dom w !! j).
  { unfold d2, d1. destruct (Ui.readOnly u).
    - apply alter_view. intros ?. reflexivity.
    - rewrite (alter_view Dom.parentNode) by apply parent_classList_add.
      apply alter_view. intros ?. reflexivity. }
  unfold D'. destruct (default true _); [|exact P2].
  rewrite list_lookup_alter_ne by congruence.
  now rewrite detach_parent_ne.
Qed.

Lemma fillImage_new_length url h wd u w :
  (Ui.imageContainer (Ui.nodes u) < length (dom w))%nat ->
  (Ui.caption (Ui.nodes u) < length (dom w))%nat ->
  (forall e pc, dom w !! Ui.caption (Ui.nodes u) = Some e ->
                Dom.parentNode e = Some pc -> (pc < length (dom w))%nat) ->
  length (dom (snd (Ui.fillImage url h wd u w)))
  = (length (dom w) + if Ui.readOnly u then 3 else 7)%nat.
Proof.
  intros HIC Hcap Hwf.
  pose proof (fillImage_nf url h wd u w) as E. cbn zeta in E.
  rewrite (E HIC Hcap Hwf). clear E. cbn [fst snd dom with_dom with_funs funs].
  rewrite length_app.
  destruct (default true _), (Ui.readOnly u);
    rewrite ?length_alter, ?detach_length, ?length_alter; reflexivity.
Qed.

Lemma well_placed_fillImage url h wd u w :
  well_placed n U0 u w ->
  well_placed n U0 (fst (Ui.fillImage url h wd u w)) (snd (Ui.fillImage url h wd u w)).
Proof.
  intros W. destruct (well_placed_nodes u w W) as (N1 & N2 & N3 & N4 & N5).
  destruct W as (W1 & W2 & W3 & W4 & W5 & W6).
  destruct (fillImage_ui url h wd u w) as (Nu & _ & Ru & _).
  pose proof (fillImage_length url h wd u w) as Ln.
  destruct (fillImage_log url h wd u w) as (_ & _ & Un & _).
  assert (HIC : (Ui.imageContainer (Ui.nodes u) < length (dom w))%nat) by lia.
  assert (Hcap : (Ui.caption (Ui.nodes u) < length (dom w))%nat) by lia.
  assert (Hwf : forall e pc, dom w !! Ui.caption (Ui.nodes u) = Some e ->
                             Dom.parentNode e = Some pc -> (pc < length (dom w))%nat)
    by (rewrite N5; exact W4).
  assert (Pb : Dom.parentNode <$> dom (snd (Ui.fillImage url h wd u w)) !! (n + 2)%nat
               = Dom.parentNode <$> dom w !! (n + 2)%nat).
  { apply fillImage_old_parent; try assumption; rewrite ?N5; lia. }
  unfold well_placed. rewrite Nu, Ru, Pb, Un.
  cbn [Ui.nodes Ui.with_imageEl Ui.imageEl Ui.wrapper Ui.imageContainer Ui.fileButton
         Ui.imagePreloader Ui.caption].
  rewrite N1, N2, N3, N4, N5.
  split; [reflexivity|]. split; [lia|].
  split; [intros el [= <-]; lia|]. split; [|split; [exact W5|exact W6]].
  intros e pc He Hp.
  destruct (default true (ImageConfig.showCaption (Ui.config u))) eqn:Sc.
  - assert (C : is_Some (dom w !! Ui.caption (Ui.nodes u)))
      by (apply lookup_lt_is_Some; lia).
    pose proof (fillImage_caption_appended url h wd u w Sc C) as Cp.
    unfold caption_parent in Cp. rewrite Nu in Cp.
    cbn [Ui.nodes Ui.with_imageEl Ui.caption] in Cp. rewrite N5, He in Cp.
    cbn in Cp. injection Cp as Cp. rewrite Hp in Cp. injection Cp as ->.
    pose proof (fillImage_new_length url h wd u w HIC Hcap Hwf) as Le.
    destruct (Ui.readOnly u); lia.
  - destruct (fillImage_parents_kept url h wd u w Sc) as [_ K].
    specialize (K (n + 4)%nat ltac:(lia)). rewrite He in K.
    destruct (dom w !! (n + 4)%nat) as [e0|] eqn:E0; [|discriminate].
    cbn in K. injection K as K. specialize (W4 e0 pc eq_refl ltac:(congruence)). lia.
Qed.


Lemma well_placed_raise u w msg :
  well_placed n U0 u w ->
  well_placed n U0 u (with_uncaught (uncaught w ++ [Js.TypeError msg]) w).
Proof.
  intros (W1 & W2 & W3 & W4 & W5 & errs & E & F). unfold well_placed.
  cbn [dom with_uncaught uncaught].
  split; [exact W1|]. split; [exact W2|]. split; [exact W3|]. split; [exact W4|].
  split; [exact W5|].
  exists (errs ++ [Js.TypeError msg]). split; [now rewrite E, app_assoc|].
  apply Forall_app. split; [exact F|]. constructor; [now exists msg|constructor].
Qed.

Lemma well_placed_removeFileButton u w :
  well_placed n U0 u w -> well_placed n U0 u (Ui.removeFileButton u w).
Proof.
  intros W. destruct (well_placed_nodes u w W) as (N1 & _ & N3 & _ & _).
  pose proof W as (W1 & W2 & W3 & W4 & W5 & W6).
  unfold Ui.removeFileButton. rewrite N3, N1.
  destruct (dom w !! (n + 2)%nat) as [b|] eqn:B; [|exact W].
  destruct W5 as [P|[R P]]; cbn in P; injection P as P.
  - rewrite P, bool_decide_false by (intros N; now apply N).
    rewrite andb_false_r. exact W.
  - rewrite P, R, bool_decide_true by discriminate. cbn [negb andb].
    unfold Dom.removeChild. rewrite B, P, Nat.eqb_refl.
    destruct (detach_result _ _ _ _ B P) as (D1 & _ & _).
    unfold well_placed. cbn [dom with_dom uncaught]. rewrite detach_length.
    split; [exact W1|]. split; [exact W2|]. split; [exact W3|].
    split; [|split; [left; exact D1|exact W6]].
    intros e pc He Hp.
    pose proof (detach_parent_ne (n + 2)%nat (dom w) (n + 4)%nat ltac:(lia)) as V.
    rewrite He in V. destruct (dom w !! (n + 4)%nat) as [e0|] eqn:E0; [|discriminate].
    cbn in V. injection V as V. apply (W4 e0 pc eq_refl). congruence.
Qed.

Lemma well_placed_addFileButton u w :
  well_placed n U0 u w -> well_placed n U0 u (Ui.addFileButton u w).
Proof.
  intros W. destruct (well_placed_nodes u w W) as (N1 & _ & N3 & _ & _).
  pose proof W as (W1 & W2 & W3 & W4 & W5 & W6).
  unfold Ui.addFileButton. rewrite N3, N1.
  destruct (Ui.readOnly u) eqn:R; cbn [negb]; [exact W|].
  unfold well_placed. rewrite appendChild_length, R.
  split; [exact W1|]. split; [exact W2|]. split; [exact W3|].
  split; [|split; [right; split; [reflexivity|]|exact W6]].
  - intros e pc He Hp.
    pose proof (appendChild_parent_ne n (n + 2)%nat w (n + 4)%nat ltac:(lia)) as V.
    rewrite He in V. destruct (dom w !! (n + 4)%nat) as [e0|] eqn:E0; [|discriminate].
    cbn in V. injection V as V. apply (W4 e0 pc eq_refl). congruence.
  - apply appendChild_parent, lookup_lt_is_Some. lia.
Qed.

Lemma well_placed_error url u w :
  well_placed n U0 u w ->
  well_placed n U0 (fst (Ui.run_imageErrorHandler url u w))
    (snd (Ui.run_imageErrorHandler url u w)).
Proof.
  intros W. unfold Ui.run_imageErrorHandler.
  set (w1 := Ui.toggleStatus Ui.Empty u _).
  assert (W' : well_placed n U0 u w1).
  { revert W. apply well_placed_view; try reflexivity.
    - unfold w1. rewrite toggleStatus_length. cbn. lia.
    - intros j. unfold w1.
      now rewrite (toggleStatus_view Dom.parentNode) by apply toggle_same_parent. }
  clearbody w1. clear W.
  destruct (Ui.imageEl (Ui.nodes u)) as [el|] eqn:El; [|exact W'].
  destruct (dom w1 !! el) as [e|] eqn:E; cbn [mbind option_bind]; [|exact W'].
  destruct (Dom.parentNode e) as [p|] eqn:P; [|exact W'].
  unfold Dom.removeChild. rewrite E, P, Nat.eqb_refl. cbn [fst snd].
  destruct W' as (W1 & W2 & W3 & W4 & W5 & W6).
  specialize (W3 el El).
  unfold well_placed. cbn [dom with_dom uncaught Ui.nodes Ui.with_imageEl Ui.imageEl
                             Ui.readOnly].
  rewrite detach_length, !detach_parent_ne by lia.
  rewrite W1. cbn [Ui.wrapper Ui.imageContainer Ui.fileButton Ui.imagePreloader Ui.caption].
  split; [reflexivity|]. split; [exact W2|]. split; [discriminate|].
  split; [|split; [exact W5|exact W6]].
  intros e1 pc He Hp.
  pose proof (detach_parent_ne el (dom w1) (n + 4)%nat ltac:(lia)) as V.
  rewrite He in V. destruct (dom w1 !! (n + 4)%nat) as [e0|] eqn:E0; [|discriminate].
  cbn in V. injection V as V. apply (W4 e0 pc eq_refl). congruence.
Qed.

Lemma well_placed_load tag wd u w :
  well_placed n U0 u w ->
  well_placed n U0 (fst (Ui.run_imageLoadHandler tag wd u w))
    (snd (Ui.run_imageLoadHandler tag wd u w)).
Proof.
  intros W.
  pose proof (run_imageLoadHandler_nodes tag wd u w) as N.
  pose proof (run_imageLoadHandler_stable tag wd u w) as (_ & R & _ & _ & _ & _ & _ & _ & L).
  pose proof (fun j => run_imageLoadHandler_view Dom.parentNode tag wd u w j
                         toggle_same_parent ltac:(intros ? ?; reflexivity)) as V.
  revert N R L V. unfold Ui.run_imageLoadHandler.
  destruct (Ui.imageEl (Ui.nodes u)) as [el|]; cbn [fst snd]; intros N R L V.
  - revert W. apply well_placed_view; try assumption.
    destruct wd as [s|]; [destruct (Js.gt0 _)|]; reflexivity.
  - apply well_placed_raise. revert W. apply well_placed_view; try reflexivity.
    + rewrite toggleStatus_length. lia.
    + intros j. now rewrite (toggleStatus_view Dom.parentNode) by apply toggle_same_parent.
Qed.

(** Every operation keeps the block well placed. *)
Lemma well_placed_run ops (s : ImageTool.t * World) :
  well_placed n U0 (ImageTool.ui (fst s)) (snd s) ->
  well_placed n U0 (ImageTool.ui (fst (ImageTool.run ops s))) (snd (ImageTool.run ops s)).
Proof.
  apply run_inv; clear ops s.
  - intros v u w H. exact H.
  - intros v u w H. exact H.
  - intros v u w H. exact H.
  - intros st u w. apply well_placed_view; try reflexivity.
    + rewrite toggleStatus_length. lia.
    + intros j. now rewrite (toggleStatus_view Dom.parentNode) by apply toggle_same_parent.
  - intros src u w. apply well_placed_view; try reflexivity.
    + rewrite showPreloader_length. lia.
    + intros j. apply showPreloader_view; [apply toggle_same_parent|intros ? ?; reflexivity].
  - intros u w. apply well_placed_view; try reflexivity.
    + rewrite hidePreloader_length. lia.
    + intros j. apply hidePreloader_view; [apply toggle_same_parent|intros ? ?; reflexivity].
  - intros url h wd u w. apply well_placed_fillImage.
  - intros u w. apply well_placed_removeFileButton.
  - intros u w. apply well_placed_addFileButton.
  - intros u w. rewrite destroy_eq. cbn [fst snd].
    destruct (remove_all_fields (removals u) w) as (_ & _ & U & _ & L).
    apply well_placed_view; try reflexivity; [lia| |exact U].
    intros j. apply remove_all_view. intros ? ?; reflexivity.
  - intros tag wd u w. apply well_placed_load.
  - intros url u w. apply well_placed_error.
  - intros a u w. unfold Ui.run_mouseDownHandler, new_fun, Ui.document_addEventListener.
    cbn [fst snd]. repeat (destruct (existsb _ _)); apply well_placed_view; reflexivity.
  - intros self mv u w. apply well_placed_view; reflexivity.
  - intros x a u w. apply well_placed_view; try reflexivity.
    + rewrite resizeImage_length. lia.
    + intros j. apply resizeImage_view. intros ? ?; reflexivity.
    + unfold Ui.resizeImage.
      destruct (Ui.isResizing u), (Ui.imageEl (Ui.nodes u)) as [el|]; try reflexivity.
      destruct (dom w !! el); reflexivity.
  - intros t l u w. apply well_placed_view; try reflexivity.
    + rewrite on_el_length. lia.
    + intros j. apply on_el_view. intros ?. reflexivity.
  - intros text u w. apply well_placed_view; try reflexivity.
    + rewrite on_el_length. lia.
    + intros j. apply on_el_view. intros ?. reflexivity.
Qed.

End Placement.

Section PlacementTheorem.

Lemma well_placed_constructor data cfg a ro w0 :
  let s0 := ImageTool.constructor data cfg a ro w0 in
  well_placed (length (dom w0)) (uncaught w0) (ImageTool.ui (fst s0)) (snd s0)
  /\ Ui.readOnly (ImageTool.ui (fst s0)) = ro.
Proof.
  cbn zeta. unfold ImageTool.constructor, ImageTool.set_data.
  match goal with
  | |- context [Ui.constructor ?a ?c ?r ?w] =>
      pose proof (Ui_constructor_eq a c r w) as E; cbn zeta in E;
      pose proof (Ui_constructor_views a c r w) as T; cbn zeta in T;
      destruct (Ui.constructor a c r w) as [u w1]
  end.
  cbn [fst snd] in T.
  destruct T as (N & Ln & Pb & Pc & _).
  injection E as Eu Ew.
  assert (R : Ui.readOnly u = ro) by now rewrite Eu.
  assert (U : uncaught w1 = uncaught w0) by now rewrite Ew.
  assert (W0 : well_placed (length (dom w0)) (uncaught w0) u w1).
  { unfold well_placed. rewrite N, Ln, Pb, U, R.
    cbn [Ui.imageEl]. split; [reflexivity|]. split; [lia|]. split; [discriminate|].
    split.
    - intros e pc He Hp. rewrite He in Pc. cbn in Pc. congruence.
    - split; [destruct ro; [now left|right; now split]|].
      exists []. split; [now rewrite app_nil_r|constructor]. }
  clear Eu Ew. rewrite truthy_caption.
  match goal with
  | |- context [ImageTool.set_image ?f ?t ?w] =>
      pose proof (set_image_inv (well_placed (length (dom w0)) (uncaught w0))
                    (well_placed_fillImage _ _) f t w W0) as S;
      pose proof (set_image_stable f t w) as (_ & R' & _);
      destruct (ImageTool.set_image f t w) as [t1 w2]
  end.
  cbn [fst snd ImageTool.ui] in *.
  change (Ui.readOnly (ImageTool.ui t1) = Ui.readOnly u) in R'.
  split; [|congruence].
  revert S. unfold Ui.fillCaption. apply well_placed_view; try reflexivity.
  - rewrite on_el_length. lia.
  - intros j. apply on_el_view. intros ?. reflexivity.
Qed.

(** X22.  Where the file button is, for the whole life of a block.  After
    any sequence of operations on a block built by the constructor the
    file button hangs below the wrapper or is detached, and in a read-only
    block it is detached: nothing ever attaches it there.  Hence
    [removeFileButton] never fails, and neither does the removal of the
    image element by the error handler: everything raised during the life
    of the block is a TypeError (of the ready handler called without an
    element), never a failed [removeChild].  The image element, when there
    is one, is a node created after the five nodes of the constructor. *)
Theorem file_button_placement (data : ImageToolData.t) (cfg : ImageConfig.t)
    (a : API.t) (ro : bool) (w0 : World) (ops : list ImageTool.Op) :
  let s := ImageTool.run ops (ImageTool.constructor data cfg a ro w0) in
  let u := ImageTool.ui (fst s) in
  let parent := Dom.parentNode <$> dom (snd s) !! Ui.fileButton (Ui.nodes u) in
  (parent = Some None \/ parent = Some (Some (Ui.wrapper (Ui.nodes u))))
  /\ (ro = true -> parent = Some None)
  /\ (exists errs, uncaught (snd s) = uncaught w0 ++ errs /\ Forall is_TypeError errs)
  /\ (forall el, Ui.imageEl (Ui.nodes u) = Some el -> (length (dom w0) + 5 <= el)%nat).
Proof.
  cbn zeta.
  destruct (well_placed_constructor data cfg a ro w0) as [W0 R0]. cbn zeta in W0, R0.
  pose proof (well_placed_run _ _ ops _ W0) as W.
  destruct (run_stable ops (ImageTool.constructor data cfg a ro w0))
    as (_ & R & _).
  destruct (well_placed_nodes _ _ _ _ W) as (N1 & _ & N3 & _ & _).
  destruct W as (_ & _ & W3 & _ & W5 & W6).
  rewrite N1, N3.
  split; [destruct W5 as [P|[_ P]]; [now left|now right]|].
  split; [|split; [exact W6|exact W3]].
  intros ->. destruct W5 as [P|[F _]]; [exact P|]. congruence.
Qed.

End PlacementTheorem.

(* ===================================================================== *)
(** ** Saved data and [validate] *)
(* ===================================================================== *)

Section SavedData.

Implicit Types (this : ImageTool.t).

Lemma set_image_file file this w :
  ImageToolData.file (ImageTool._data (fst (ImageTool.set_image file this w)))
  = Some (default (FileData.mk (Some "") []) file).
Proof.
  unfold ImageTool.set_image.
  destruct file as [f|]; [|reflexivity].
  destruct (FileData.url f) as [url|]; [|reflexivity].
  destruct (Js.truthy_string (Some url)); [|reflexivity].
  destruct (Ui.fillImage _ _ _ _ _). reflexivity.
Qed.

Lemma step_file op (s : ImageTool.t * World) :
  is_Some (ImageToolData.file (ImageTool._data (fst s))) ->
  is_Some (ImageToolData.file (ImageTool._data (fst (ImageTool.step op s)))).
Proof.
  destruct s as [this w]. cbn [fst snd]. intros H.
  destruct op; cbn [ImageTool.step fst snd].
  - exact H.
  - unfold ImageTool.save. cbn [snd ImageTool._data ImageTool.with_data].
    destruct (_ && _); exact H.
  - unfold ImageTool.appendCallback. destruct (Ui.dispatchEvent _ _ _ _ _). exact H.
  - unfold ImageTool.destroy. destruct (Ui.destroy _ _). exact H.
  - unfold ImageTool.onPaste, ImageTool.uploadUrl, ImageTool.uploadFile.
    destruct event as [src|url|]; [destruct (ImageTool.is_blob src)| |]; exact H.
  - exact H.
  - exact H.
  - exact H.
  - unfold ImageTool.onUpload. destruct (_ && _); [|exact H].
    rewrite set_image_file. eauto.
  - exact H.
  - destruct (Ui.dispatchEvent _ _ _ _ _). exact H.
  - destruct (Ui.document_dispatchEvent _ _ _ _). exact H.
  - exact H.
  - exact H.
Qed.

Lemma run_file ops (s : ImageTool.t * World) :
  is_Some (ImageToolData.file (ImageTool._data (fst s))) ->
  is_Some (ImageToolData.file (ImageTool._data (fst (ImageTool.run ops s)))).
Proof.
  unfold ImageTool.run. revert s. induction ops as [|op ops IH]; intros s H; [exact H|].
  cbn [fold_left]. apply IH. now apply step_file.
Qed.

(** X23.  What [save()] returns always passes through [validate] without
    a fault.  A block built by the constructor holds a file descriptor for
    its whole life (an absent one is replaced by a file with an empty
    [url]), [save()] returns that descriptor, and so [validate] of the
    saved data answers, true exactly when the stored [url] is a non-empty
    string.  For a block built from data without a file and not touched
    since, the answer is false. *)
Theorem saved_data_validates (data : ImageToolData.t) (cfg : ImageConfig.t)
    (a : API.t) (ro : bool) (w0 : World) (ops : list ImageTool.Op) :
  let s := ImageTool.run ops (ImageTool.constructor data cfg a ro w0) in
  let d := fst (ImageTool.save (fst s) (snd s)) in
  (exists f,
      ImageToolData.file (ImageTool._data (fst s)) = Some f
      /\ ImageToolData.file d = Some f
      /\ ImageTool.validate d = Js.Ok (Js.truthy_string (FileData.url f)))
  /\ (ImageToolData.file data = None ->
      ImageTool.validate
        (fst (ImageTool.save (fst (ImageTool.constructor data cfg a ro w0))
                (snd (ImageTool.constructor data cfg a ro w0))))
      = Js.Ok false).
Proof.
  cbn zeta.
  assert (S : forall this w,
             ImageToolData.file (fst (ImageTool.save this w))
             = ImageToolData.file (ImageTool._data this)).
  { intros this w. unfold ImageTool.save. cbn [fst]. destruct (_ && _); reflexivity. }
  split.
  - destruct (run_file ops (ImageTool.constructor data cfg a ro w0)) as [f Hf].
    { rewrite constructor_data. unfold stored_data. cbn. eauto. }
    exists f. split; [exact Hf|]. split; [now rewrite S|].
    unfold ImageTool.validate. now rewrite S, Hf.
  - intros Hn. unfold ImageTool.validate. rewrite S, constructor_data.
    unfold stored_data. rewrite Hn. reflexivity.
Qed.

End SavedData.

(* ===================================================================== *)
(** ** What [destroy] leaves behind after a replacement *)
(* ===================================================================== *)

Section Leftover.

Lemma eventName_cases url :
  Ui.eventName_of url = "load" \/ Ui.eventName_of url = "loadeddata".
Proof. unfold Ui.eventName_of. destruct (String.eqb _ _); auto. Qed.

(** A listener that [destroy] does not take off a node: the node is not
    the current image element, and the event is neither [click] nor
    [mousedown]. *)
Lemma not_removed u j ev f :
  Ui.imageEl (Ui.nodes u) <> Some j ->
  ev <> "click" -> ev <> "mousedown" ->
  removed_by (removals u) j (ev, f) = false.
Proof.
  intros Nel Nc Nm. unfold removed_by.
  apply not_true_is_false. intros H. apply existsb_exists in H as ([i [ev' f']] & Hin & Hh).
  cbn [fst snd] in Hh. apply andb_true_iff in Hh as [Hi Hs].
  apply Nat.eqb_eq in Hi. subst i.
  unfold Dom.same_listener in Hs. cbn [fst snd] in Hs.
  apply andb_true_iff in Hs as [He _]. apply String.eqb_eq in He. subst ev'.
  unfold removals in Hin.
  apply in_app_or in Hin as [Hin|Hin]; [|apply in_app_or in Hin as [Hin|Hin]].
  - destruct (Ui.imageEl (Ui.nodes u)) as [el|]; [|destruct Hin].
    apply in_app_or in Hin as [Hin|Hin].
    + destruct (Ui.imageLoadHandler u); [|destruct Hin].
      destruct Hin as [[= -> _ _]|[[= -> _ _]|[]]]; now apply Nel.
    + destruct (Ui.imageErrorHandler u); [|destruct Hin].
      destruct Hin as [[= -> _ _]|[]]. now apply Nel.
  - destruct (Ui.fileButtonHandler u); [|destruct Hin].
    destruct Hin as [[= _ <- _]|[]]. now apply Nc.
  - apply in_map_iff in Hin as ([c h0] & [= _ <- _] & _). now apply Nm.
Qed.

(** X24.  [destroy] does not clean up after a replaced picture.  When
    [fillImage] has run twice and [destroy] follows, the first image
    element still carries both listeners it was given, the ready handler
    and the error handler: [destroy] takes the handlers of the current
    element off the current element only, and by then the object has
    forgotten the handlers of the first. *)
Theorem destroy_leaves_replaced_listeners
    (url1 url2 : string) (h1 wd1 h2 wd2 : option string) u w :
  let s1 := Ui.fillImage url1 h1 wd1 u w in
  let s2 := Ui.fillImage url2 h2 wd2 (fst s1) (snd s1) in
  let s3 := Ui.destroy (fst s2) (snd s2) in
  Ui.imageEl (Ui.nodes (fst s1)) = Some (length (dom w))
  /\ Ui.imageEl (Ui.nodes (fst s3)) = Some (length (dom (snd s1)))
  /\ (length (dom w) < length (dom (snd s1)))%nat
  /\ Dom.listeners <$> dom (snd s3) !! length (dom w)
     = Some [(Ui.eventName_of url1, length (funs w)); ("error", S (length (funs w)))]
  /\ Dom.listeners <$> dom (snd s3) !! length (dom (snd s1)) = Some [].
Proof.
  cbn zeta.
  pose proof (fillImage_ui url1 h1 wd1 u w) as U1. cbn zeta in U1.
  pose proof (fillImage_new_listeners url1 h1 wd1 u w) as L1.
  destruct (Ui.fillImage url1 h1 wd1 u w) as [u1 w1]. cbn [fst snd] in *.
  assert (Lt : (length (dom w) < length (dom w1))%nat).
  { apply lookup_lt_is_Some. destruct (dom w1 !! length (dom w)); [eauto|discriminate]. }
  pose proof (fillImage_ui url2 h2 wd2 u1 w1) as U2. cbn zeta in U2.
  pose proof (fillImage_new_listeners url2 h2 wd2 u1 w1) as L2.
  destruct (fillImage_old_listeners url2 h2 wd2 u1 w1) as [_ K2].
  specialize (K2 _ Lt).
  destruct (Ui.fillImage url2 h2 wd2 u1 w1) as [u2 w2]. cbn [fst snd] in *.
  destruct U1 as (N1 & _). destruct U2 as (N2 & _ & _ & _ & H2l & H2e).
  rewrite destroy_eq. cbn [fst snd].
  change (Ui.nodes (cleared u2)) with (Ui.nodes u2). rewrite N1, N2.
  split; [reflexivity|]. split; [reflexivity|]. split; [exact Lt|].
  assert (El2 : Ui.imageEl (Ui.nodes u2) = Some (length (dom w1))) by now rewrite N2.
  split.
  - rewrite <- K2 in L1.
    destruct (dom w2 !! length (dom w)) as [e|] eqn:E; [|discriminate].
    cbn in L1. injection L1 as L1.
    rewrite (remove_all_lookup _ _ _ _ E). cbn. f_equal. rewrite L1.
    cbn [List.filter].
    rewrite !not_removed;
      try (rewrite El2; intros [= Q]; lia); try discriminate; [reflexivity|..];
      destruct (eventName_cases url1) as [-> | ->]; discriminate.
  - destruct (dom w2 !! length (dom w1)) as [e|] eqn:E; [|discriminate].
    cbn in L2. injection L2 as L2.
    rewrite (remove_all_lookup _ _ _ _ E). cbn. f_equal. rewrite L2.
    assert (R : forall ev f,
               In (length (dom w1), (ev, f)) (removals u2) ->
               removed_by (removals u2) (length (dom w1)) (ev, f) = true).
    { intros ev f Hin. unfold removed_by. apply existsb_exists.
      exists (length (dom w1), (ev, f)). split; [exact Hin|].
      cbn [fst snd]. unfold Dom.same_listener. cbn [fst snd].
      now rewrite !Nat.eqb_refl, String.eqb_refl. }
    cbn [List.filter]. rewrite !R; [reflexivity|..].
    + unfold removals. rewrite El2, H2l, H2e. cbn. auto.
    + unfold removals. rewrite El2, H2l, H2e. cbn.
      destruct (eventName_cases url2) as [-> | ->]; auto.
Qed.

End Leftover.

(* ===================================================================== *)
(** ** An upload from the file button, from the click to the picture *)
(* ===================================================================== *)

Section EndToEnd.

Implicit Types (this : ImageTool.t).

(** A new editable block built from data without a file. *)
Lemma constructor_fresh data cfg a w0 :
  ImageToolData.file data = None ->
  let s0 := ImageTool.constructor data cfg a false w0 in
  let n := length (dom w0) in
  Ui.nodes (ImageTool.ui (fst s0)) = Ui.mkNodes n (n + 1) (n + 2) None (n + 3) (n + 4)
  /\ Ui.readOnly (ImageTool.ui (fst s0)) = false
  /\ length (dom (snd s0)) = (n + 5)%nat
  /\ Dom.parentNode <$> dom (snd s0) !! (n + 2)%nat = Some (Some n)
  /\ Dom.parentNode <$> dom (snd s0) !! (n + 4)%nat = Some None
  /\ uncaught (snd s0) = uncaught w0
  /\ ImageTool._data (fst s0) = stored_data data.
Proof.
  intros Hd. cbn zeta.
  pose proof (constructor_data data cfg a false w0) as D. revert D.
  unfold ImageTool.constructor, ImageTool.set_data, ImageTool.set_image. rewrite Hd.
  match goal with
  | |- context [Ui.constructor ?a ?c ?r ?w] =>
      pose proof (Ui_constructor_eq a c r w) as E; cbn zeta in E;
      pose proof (Ui_constructor_views a c r w) as T; cbn zeta in T;
      destruct (Ui.constructor a c r w) as [u w1]
  end.
  cbn [fst snd] in *. destruct T as (N & Ln & Pb & Pc & _).
  injection E as Eu Ew. intros D.
  unfold Ui.fillCaption. rewrite on_el_length.
  rewrite !(on_el_view Dom.parentNode) by (intros ?; reflexivity).
  split; [exact N|]. split; [now rewrite Eu|]. split; [exact Ln|].
  split; [exact Pb|]. split; [exact Pc|]. split; [now rewrite Ew|exact D].
Qed.

Lemma run_imageLoadHandler_hides tag wd u w el :
  Ui.imageEl (Ui.nodes u) = Some el ->
  is_Some (dom w !! Ui.imagePreloader (Ui.nodes u)) ->
  hidden (Ui.imagePreloader (Ui.nodes u)) (snd (Ui.run_imageLoadHandler tag wd u w)).
Proof.
  intros Hel [e He]. unfold Ui.run_imageLoadHandler. rewrite Hel.
  assert (P : Ui.imagePreloader
                (Ui.nodes
                   (if String.eqb tag "VIDEO"
                    then Ui.with_contentRatio
                           (Js.div
                              ((Dom.layout <$> dom (on_el el (Dom.classList_add "loaded")
                                                      (Ui.toggleStatus Ui.Filled u w)) !! el)
                                 ≫= Dom.videoHeight)
                              ((Dom.layout <$> dom (on_el el (Dom.classList_add "loaded")
                                                      (Ui.toggleStatus Ui.Filled u w)) !! el)
                                 ≫= Dom.videoWidth)) u
                    else Ui.with_contentRatio
                           (Js.div
                              ((Dom.layout <$> dom (on_el el (Dom.classList_add "loaded")
                                                      (Ui.toggleStatus Ui.Filled u w)) !! el)
                                 ≫= Dom.naturalHeight)
                              ((Dom.layout <$> dom (on_el el (Dom.classList_add "loaded")
                                                      (Ui.toggleStatus Ui.Filled u w)) !! el)
                                 ≫= Dom.naturalWidth)) u))
              = Ui.imagePreloader (Ui.nodes u))
    by (destruct (String.eqb tag "VIDEO"); reflexivity).
  cbn [snd]. cbv zeta. rewrite P. clear P.
  set (w1 := on_el el (Dom.classList_add "loaded") _).
  set (w2 := match wd with Some _ => _ | None => _ end).
  assert (L : length (dom w2) = length (dom w)).
  { unfold w2. destruct wd as [s|]; [destruct (Js.gt0 _)|];
      unfold w1; now rewrite ?on_el_length, toggleStatus_length. }
  unfold hidden. rewrite on_el_lookup_eq.
  destruct (lookup_lt_is_Some_2 (dom w2) (Ui.imagePreloader (Ui.nodes u))) as [e2 ->].
  { apply lookup_lt_Some in He. lia. }
  reflexivity.
Qed.

(** The two callbacks of an upload from the file button, in either order. *)
Lemma before_answer (pre : list ImageTool.Op) (src : string) this w (n : nat) :
  pre = [ImageTool.OnPreview src; ImageTool.OnPreUpload]
  \/ pre = [ImageTool.OnPreUpload; ImageTool.OnPreview src] ->
  Ui.nodes (ImageTool.ui this) = Ui.mkNodes n (n + 1) (n + 2) None (n + 3) (n + 4) ->
  Ui.readOnly (ImageTool.ui this) = false ->
  length (dom w) = (n + 5)%nat ->
  Dom.parentNode <$> dom w !! (n + 2)%nat = Some (Some n) ->
  Dom.parentNode <$> dom w !! (n + 4)%nat = Some None ->
  let s := ImageTool.run pre (this, w) in
  fst s = this
  /\ length (dom (snd s)) = (n + 5)%nat
  /\ Ui.shown (ImageTool.ui this) (snd s) = [Ui.Uploading]
  /\ (Dom.plain_url src = true ->
      backgroundImage <$> dom (snd s) !! (n + 3)%nat = Some ("url(" ++ src ++ ")")%string)
  /\ Dom.parentNode <$> dom (snd s) !! (n + 2)%nat = Some None
  /\ Dom.parentNode <$> dom (snd s) !! (n + 4)%nat = Some None
  /\ uncaught (snd s) = uncaught w.
Proof.
  intros Hpre N0 R0 L0 Pb0 Pc0. cbn zeta.
  set (u0 := ImageTool.ui this) in *.
  assert (Nw : Ui.wrapper (Ui.nodes u0) = n) by now rewrite N0.
  assert (Nb : Ui.fileButton (Ui.nodes u0) = (n + 2)%nat) by now rewrite N0.
  assert (Np : Ui.imagePreloader (Ui.nodes u0) = (n + 3)%nat) by now rewrite N0.
  assert (R : forall w1, length (dom w1) = (n + 5)%nat ->
                Dom.parentNode <$> dom w1 !! (n + 2)%nat = Some (Some n) ->
                Ui.removeFileButton u0 w1 = with_dom (Dom.detach (n + 2) (dom w1)) w1).
  { intros w1 L1 P1. unfold Ui.removeFileButton, Dom.removeChild. rewrite Nb, Nw, R0.
    destruct (dom w1 !! (n + 2)%nat) as [b|]; [|discriminate].
    cbn in P1. injection P1 as P1. rewrite P1, bool_decide_true by discriminate.
    cbn [negb andb]. now rewrite Nat.eqb_refl. }
  assert (D : forall w1, Dom.parentNode <$> dom w1 !! (n + 2)%nat = Some (Some n) ->
                Dom.parentNode <$> Dom.detach (n + 2) (dom w1) !! (n + 2)%nat = Some None).
  { intros w1 P1. destruct (dom w1 !! (n + 2)%nat) as [b|] eqn:Eb; [|discriminate].
    cbn in P1. injection P1 as P1. apply (detach_result _ _ _ _ Eb P1). }
  assert (PV : forall w1 j, Dom.parentNode <$> dom (Ui.showPreloader src u0 w1) !! j
                            = Dom.parentNode <$> dom w1 !! j).
  { intros w1 j. apply showPreloader_view; [apply toggle_same_parent|intros ? ?; reflexivity]. }
  destruct Hpre as [-> | ->];
    cbn [ImageTool.run fold_left ImageTool.step fst snd]; fold u0.
  - set (w1 := Ui.showPreloader src u0 w).
    assert (L1 : length (dom w1) = (n + 5)%nat)
      by (unfold w1; now rewrite showPreloader_length).
    assert (S1 : Ui.shown u0 w1 = [Ui.Uploading])
      by (apply showPreloader_shown, lookup_lt_is_Some; lia).
    assert (B1 : Dom.plain_url src = true ->
                 backgroundImage <$> dom w1 !! (n + 3)%nat
                 = Some ("url(" ++ src ++ ")")%string)
      by (intros Hs; rewrite <- Np;
          apply (showPreloader_preview _ _ _ Hs), lookup_lt_is_Some; lia).
    assert (Pb1 : Dom.parentNode <$> dom w1 !! (n + 2)%nat = Some (Some n))
      by (unfold w1; now rewrite PV).
    rewrite (R w1 L1 Pb1). cbn [dom with_dom uncaught].
    split; [reflexivity|]. split; [now rewrite detach_length|].
    split.
    { rewrite <- S1. apply shown_flags. cbn [dom with_dom].
      apply detach_view; intros ? ?; reflexivity. }
    split; [intros Hs; rewrite <- (B1 Hs); apply detach_view; intros ? ?; reflexivity|].
    split; [exact (D w1 Pb1)|].
    split; [rewrite detach_parent_ne by lia; unfold w1; now rewrite PV|reflexivity].
  - rewrite (R w L0 Pb0). set (w1 := with_dom _ w).
    assert (L1 : length (dom w1) = (n + 5)%nat)
      by (unfold w1; cbn [dom with_dom]; now rewrite detach_length).
    split; [reflexivity|]. split; [now rewrite showPreloader_length|].
    split; [apply showPreloader_shown, lookup_lt_is_Some; lia|].
    split; [intros Hs; rewrite <- Np;
            apply (showPreloader_preview _ _ _ Hs), lookup_lt_is_Some; lia|].
    rewrite !PV. unfold w1. cbn [dom with_dom].
    split; [exact (D w Pb0)|].
    split; [rewrite detach_parent_ne by lia; exact Pc0|reflexivity].
Qed.

(** X25.  An upload started from the file button of a new editable block
    that had no file, from the callbacks of the uploader to the loaded
    picture.  The uploader shows its preview and announces the upload, in
    either order, and then answers with a file that has a non-empty [url].
    After the answer the wrapper shows the uploading state, the preloader
    carries the preview (for a preview source of plain characters, as the
    addresses of local blobs and data are), the file button is detached,
    the file is stored,
    nothing was raised, and the image element is the first node after
    those of the constructor.  When that element then reports that it is
    ready, the wrapper shows the filled state, the preloader is hidden and
    again nothing was raised. *)
Theorem upload_from_button (data : ImageToolData.t) (cfg : ImageConfig.t) (a : API.t)
    (w0 : World) (pre : list ImageTool.Op) (src : string) (f : FileData.t)
    (url : string) (x : Q) :
  ImageToolData.file data = None ->
  pre = [ImageTool.OnPreview src; ImageTool.OnPreUpload]
  \/ pre = [ImageTool.OnPreUpload; ImageTool.OnPreview src] ->
  FileData.url f = Some url ->
  url <> "" ->
  let n := length (dom w0) in
  let s :=
    ImageTool.run (pre ++ [ImageTool.OnUpload (UploadResponseFormat.mk 1 (Some f))])
      (ImageTool.constructor data cfg a false w0) in
  let u := ImageTool.ui (fst s) in
  let s' := ImageTool.step (ImageTool.ElementEvent (n + 5) (Ui.eventName_of url) x) s in
  Ui.shown u (snd s) = [Ui.Uploading]
  /\ (Dom.plain_url src = true ->
      backgroundImage <$> dom (snd s) !! Ui.imagePreloader (Ui.nodes u)
      = Some ("url(" ++ src ++ ")")%string)
  /\ Dom.parentNode <$> dom (snd s) !! Ui.fileButton (Ui.nodes u) = Some None
  /\ Ui.imageEl (Ui.nodes u) = Some (n + 5)%nat
  /\ ImageToolData.file (ImageTool._data (fst s)) = Some f
  /\ uncaught (snd s) = uncaught w0
  /\ Ui.shown (ImageTool.ui (fst s')) (snd s') = [Ui.Filled]
  /\ hidden (Ui.imagePreloader (Ui.nodes u)) (snd s')
  /\ uncaught (snd s') = uncaught w0.
Proof.
  intros Hd Hpre Hu Hn. cbn zeta.
  destruct (constructor_fresh data cfg a w0 Hd) as (N0 & R0 & L0 & Pb0 & Pc0 & U0 & D0).
  cbn zeta in *.
  destruct (ImageTool.constructor data cfg a false w0) as [this0 w00].
  cbn [fst snd] in *.
  set (n := length (dom w0)) in *.
  unfold ImageTool.run. rewrite fold_left_app. fold (ImageTool.run pre (this0, w00)).
  destruct (before_answer pre src this0 w00 n Hpre N0 R0 L0 Pb0 Pc0)
    as (T2 & L2 & S2 & B2 & Pb2 & Pc2 & U2).
  cbn zeta in *.
  destruct (ImageTool.run pre (this0, w00)) as [this2 w2].
  cbn [fst snd] in *. subst this2. rewrite U0 in U2.
  set (u0 := ImageTool.ui this0) in *.
  assert (Nw : Ui.wrapper (Ui.nodes u0) = n) by now rewrite N0.
  assert (Nc : Ui.imageContainer (Ui.nodes u0) = (n + 1)%nat) by now rewrite N0.
  assert (Nb : Ui.fileButton (Ui.nodes u0) = (n + 2)%nat) by now rewrite N0.
  assert (Np : Ui.imagePreloader (Ui.nodes u0) = (n + 3)%nat) by now rewrite N0.
  assert (Nk : Ui.caption (Ui.nodes u0) = (n + 4)%nat) by now rewrite N0.
  cbn [fold_left ImageTool.step fst snd].
  (* the answer *)
  unfold ImageTool.onUpload.
  cbn [UploadResponseFormat.success UploadResponseFormat.file Js.truthy_int Z.eqb negb].
  rewrite bool_decide_true by discriminate. cbn [andb].
  unfold ImageTool.set_image. rewrite Hu.
  assert (T : Js.truthy_string (Some url) = true) by (destruct url; [congruence|reflexivity]).
  rewrite T.
  cbn [ImageTool._data ImageTool.with_data ImageTool.ui ImageToolData.height
         ImageToolData.width ImageToolData.with_file].
  fold u0.
  set (hh := ImageToolData.height (ImageTool._data this0)).
  set (ww := ImageToolData.width (ImageTool._data this0)).
  assert (HIC : (Ui.imageContainer (Ui.nodes u0) < length (dom w2))%nat) by lia.
  assert (Hcap : (Ui.caption (Ui.nodes u0) < length (dom w2))%nat) by lia.
  assert (Hwf : forall e pc, dom w2 !! Ui.caption (Ui.nodes u0) = Some e ->
                             Dom.parentNode e = Some pc -> (pc < length (dom w2))%nat).
  { rewrite Nk. intros e pc He Hp. rewrite He in Pc2. cbn in Pc2. congruence. }
  pose proof (fillImage_ui url hh ww u0 w2) as (N3 & _ & _ & _ & _).
  pose proof (fillImage_shown url hh ww u0 w2) as S3.
  pose proof (fillImage_keeps_view backgroundImage url hh ww u0 w2) as [_ K3];
    try (intros ? ?; reflexivity).
  { intros e. unfold backgroundImage. f_equal. apply add_same_style. }
  pose proof (fillImage_old_parent url hh ww u0 w2 (n + 2)%nat HIC Hcap Hwf) as Pb3.
  pose proof (fillImage_log url hh ww u0 w2) as (_ & _ & U3 & _).
  pose proof (fillImage_length url hh ww u0 w2) as L3.
  pose proof (ready_event_after_fillImage url hh ww u0 w2 x) as [_ Ev].
  destruct (Ui.fillImage url hh ww u0 w2) as [u3 w3].
  cbn [fst snd ImageTool.ui ImageTool.with_ui ImageTool._data ImageTool.with_data
         ImageToolData.file] in *.
  assert (Nw3 : Ui.wrapper (Ui.nodes u3) = n) by (rewrite N3; exact Nw).
  assert (Nb3 : Ui.fileButton (Ui.nodes u3) = (n + 2)%nat) by (rewrite N3; exact Nb).
  assert (Np3 : Ui.imagePreloader (Ui.nodes u3) = (n + 3)%nat) by (rewrite N3; exact Np).
  assert (El3 : Ui.imageEl (Ui.nodes u3) = Some (n + 5)%nat) by (rewrite N3, L2; reflexivity).
  rewrite Nb3, Np3.
  split.
  { rewrite S3; [exact S2|]. apply lookup_lt_is_Some. lia. }
  split; [intros Hs; rewrite K3 by lia; exact (B2 Hs)|].
  split; [rewrite Pb3 by (rewrite ?Nk; lia); exact Pb2|].
  split; [exact El3|]. split; [reflexivity|].
  split; [rewrite U3; exact U2|].
  rewrite L2 in Ev.
  unfold ImageTool.step. cbn [ImageTool.ui ImageTool.with_ui]. rewrite Ev.
  pose proof (run_imageLoadHandler_shown (Ui.tag_of url) ww u3 w3) as S4.
  pose proof (run_imageLoadHandler_hides (Ui.tag_of url) ww u3 w3 _ El3) as H4.
  assert (U4 : uncaught (snd (Ui.run_imageLoadHandler (Ui.tag_of url) ww u3 w3))
               = uncaught w3).
  { unfold Ui.run_imageLoadHandler. rewrite El3. cbn [snd].
    destruct ww as [s|]; [destruct (Js.gt0 _)|]; reflexivity. }
  destruct (Ui.run_imageLoadHandler (Ui.tag_of url) ww u3 w3) as [u4 w4].
  cbn [fst snd ImageTool.ui ImageTool.with_ui] in *.
  split; [apply S4, lookup_lt_is_Some; lia|].
  split; [rewrite <- Np3; apply H4, lookup_lt_is_Some; lia|].
  now rewrite U4, U3.
Qed.

Lemma upload_from_button_witness :
  let s :=
    ImageTool.run
      [ImageTool.OnPreview "blob:1"; ImageTool.OnPreUpload;
       ImageTool.OnUpload (UploadResponseFormat.mk 1 (Some Scenario.picture))]
      (ImageTool.constructor Scenario.noData Scenario.cfg Scenario.api false
         emptyWorld) in
  Ui.imageEl (Ui.nodes (ImageTool.ui (fst s))) = Some (length (dom emptyWorld) + 5)%nat
  /\ backgroundImage <$> dom (snd s) !! 3%nat = Some "url(blob:1)".
Proof.
  cbn zeta.
  destruct (upload_from_button Scenario.noData Scenario.cfg Scenario.api emptyWorld
              [ImageTool.OnPreview "blob:1"; ImageTool.OnPreUpload]
              "blob:1" Scenario.picture "https://x/y.png" 0)
    as (_ & P & _ & D & _).
  - reflexivity.
  - left. reflexivity.
  - reflexivity.
  - discriminate.
  - split; [exact D|exact (P eq_refl)].
Defined.

End EndToEnd.
